(* ===== verification/_CoqProject ===== *)
-Q . S2P
Prelude.v
PyStr.v
PyDateTime.v
PyVal.v
Json.v
Regex.v
Counter.v
Severity.v
IRTriage.v
EdrTriage.v
TriageV2.v
DirBuster.v
Nmap.v
LogGenerator.v
MersenneTwister.v
