(* ===== verification/Prelude.v ===== *)
(** * A verification library for the SOC triage tools of artem-soc-labs

    ** The program

    The repository holds small Python tools that triage security logs.
    They share one pipeline: parse records, run detectors on each record,
    count per key for threshold detections, classify by severity, and
    emit a report with recommendations.

    - [src/incident-response/triage_script.py], class [IRTriageAnalyzer]:
      the most complete instance.  [analyze_auth_log] scans auth.log lines
      with three regular expressions and counts failed logins per
      ["user@ip"] in a [defaultdict(int)]; more than 5 failures for a key
      adds a CRITICAL brute-force finding, any failure a WARNING finding.
      [analyze_syslog] counts error, warning, kernel and network lines and
      adds HIGH / MEDIUM findings past the thresholds 10 and 20.
      [check_indicators_of_compromise] scans the [str()] of every finding
      that has ["details"] for known-bad IP literals, reading
      [finding['type']] (a [KeyError] if absent) for each hit.
      [_calculate_severity], [_generate_recommendations] and
      [generate_triage_report] build the report.  The analyzer's only
      state is [self.findings], a [defaultdict(list)] keyed by level.
    - [src/cases_soc-operations/case002_triage_basics/triage_parser_v2.py]
      (the same code as the [src/soc-operations/] copy, with English
      messages): four per-event detectors on JSON events, a loop
      collecting findings, grouping by severity and printed
      recommendations.  [src/triage_parser.py] is the first version.
    - [src/cases_soc-operations/edr_triage.py] (and its Russian copy):
      keyword triage of EDR events on [json.dumps(event).lower()], and a
      risk banding by the number of suspicious events.
    - [src/redteam-operations/recon_tools/dirbuster_sim.py]: a threaded
      scanner that requests [urljoin(target, path)] for each word of a
      wordlist, keeps the "found" status codes and classifies the found
      paths into four buckets.
    - [src/redteam-operations/recon_tools/nmap_recon.py], class
      [NmapRecon]: five scans that run the nmap binary through
      [subprocess.run], parse its text output ([_parse_nmap_output],
      [_parse_service_info], [_parse_os_info], [_parse_vuln_output]) and
      store one dict per scan in [self.results]; when nmap cannot be run
      they return canned demo data; [save_results] writes the results.
    - [src/cases_soc-operations/case003_splunk_threat_case_creator/
      log_generator.py]: a random test-data generator.  From one
      [random.Random] it draws Windows logon events (a password spray, a
      brute force, a success, a group change, benign noise) and WAF
      events (a login attack, a scan, benign traffic); [main] rewrites
      the public-looking Windows addresses to two attacker addresses it
      reuses for the WAF events, shuffles the stream, writes it as JSON
      lines, reads the file back and prints a summary with [Counter]s.

    ** Files of the development, in dependency order

    - [Prelude.v] (this file): Python [str] operations over code points
      U+0000..U+00FF ([in] as [contains], [startswith], [lower], [strip],
      slicing), the exception monad [pyres] with its bind lemmas and the
      tactic [ok_inv] ([Unmodelled] marks an input whose Python result
      the model does not represent, see [Json.v]), generic list and string lemmas, the hint databases
      [triage] and [triage_simpl].
    - [PyStr.v]: the [str] methods that take text apart: [split(sep)]
      (pieces between the occurrences found from the left), [split()],
      [isdigit()] (with the superscript digits), [int(s)] and [str(n)]
      through the Standard Library's decimal [uint], with the round
      trips [split(join(xs)) = xs], [" ".join(ws).split() = ws] and
      [int(str(n)) = n], and the [ValueError] of [int] on a string with
      a character other than an ASCII digit.
    - [PyDateTime.v], Module [PyDateTime]: CPython's [datetime] on UTC
      values without microseconds, as seconds since 0001-01-01: the
      calendar ([_ymd2ord], [_ord2ymd]), [strftime] and [strptime] with
      the format ["%Y-%m-%dT%H:%M:%SZ"] (strptime as [_strptime]'s
      regular expression, a backtracking matcher over groups of
      alternatives, then its range checks), and the range that makes
      [dt + timedelta] raise [OverflowError].
    - [PyVal.v]: JSON-loaded values [pyval], their decidable equality,
      [dict.get], [d[k] = v] ([dict_set]), [in], iteration,
      truthiness, Python's [str]/[repr] and [json.dumps] byte for byte
      (ensure_ascii escapes), with the lemma that a substring of a key or
      string value survives [json.dumps(...).lower()].
    - [Json.v], Module [Json]: [json.dumps(v, ensure_ascii=False)]
      ([dumps_na]) and CPython's JSON scanner ([parse_value],
      [parse_elements], [parse_members], [parse_string], [parse_number],
      [loads]); [write_jsonl] as the text of the file and [load_jsonl] on
      that text (universal newlines, [strip], blank lines skipped).  A
      float, [NaN], [Infinity] or a [\u] escape above U+00FF stops the
      reader with [Unmodelled], so that its [ValueError] is exactly
      Python's [JSONDecodeError].
    - [Regex.v]: the fragment of [re] the auth.log patterns use, as a
      backtracking matcher ([match_here], [re_search]), with what
      [for (\w+) from ([\d\.]+)] captures on an OpenSSH line
      ([match_login]) and that it captures nothing on the rest of an
      "invalid user" line ([re_search_login_tail]).
    - [Counter.v]: [defaultdict(int)] as an insertion-ordered association
      list ([incr], [count_all], [over]); the interface [Counting] with
      its laws, implemented by the list and by stdpp's [gmap], and the
      refinement between them.
    - [Severity.v]: the severity scale and its maximum.
    - [IRTriage.v], Module [IRTriage]: [IRTriageAnalyzer]; each method is
      a function returning its result and the new state, [step] and
      [reachable] are the analyzer's method calls as a transition system;
      [print_report] as the values it prints.
    - [EdrTriage.v], Module [Edr]: [edr_triage.py] on the parsed document
      ([run_edr]: the summary printed, then the events printed, which
      may raise, and the events saved).
    - [TriageV2.v], Module [V2]: the v2 detectors with their exceptions,
      [main] on the parsed document ([run_v2]) and on the file's text
      ([main_file], through [Json.loads] with the two caught
      exceptions), and the v1 script ([v1_alerts], [run_v1]).
    - [DirBuster.v], Module [DirBuster]: the scanner state, [check_path]
      with the HTTP answers as an input function, the threaded [scan] as
      the interleaving relation [scan_step], [generate_report],
      [print_report], [save_report] and [main] ([main_run]), and
      [urljoin] on the references the scanner makes.
    - [Nmap.v], Module [Nmap]: [NmapRecon] with the process as an input
      [nmap_env] from the argv to its outcome ([Completed] stdout,
      [NotInstalled] for [FileNotFoundError], [RunFailed] for any other
      exception); the four parsers; each scan method as a function of
      the state; [save_results] and [main] after argparse ([run_main]).
    - [LogGenerator.v], Module [LogGen]: the random source as an interface
      ([Class PyRandom]: [_randbelow] and [random()]) and its law
      ([Class PyRandomOk]: [_randbelow(n) < n]), with CPython's
      [choice], [randint], [choices] (float cumulative weights and
      bisection) and [shuffle] on top; the generator code in the state
      monad [rnd G]; [main] up to the written stream ([main_events]) and
      to the end ([main]: [write_jsonl], [load_jsonl], the [ev.get] calls
      on the loaded values ([dicts_of]) and [print_summary]);
      [print_summary] as the values it prints, counted with [Counter.v];
      the command line ([parse_args_cli]: argparse's defaults and
      [strptime] of [--start]), the datetimes the generators compute
      ([windows_times], [waf_times]) and [main] from the command line
      ([main_cli]) with [_iso] the real [strftime]; [print_summary] with
      the [TypeError]s of its [Counter]s, sets and [sorted].
    - [MersenneTwister.v], Module [MT]: CPython's [random.Random] as
      [_randommodule.c] implements it (MT19937 with [init_by_array]
      seeding, [getrandbits], [random()]) and [random.py]'s
      [_randbelow]; an instance of [LogGen.PyRandom] satisfying
      [LogGen.PyRandomOk].

    ** What the theorems show

    - Triage analyzer: [main] returns a report whose severity is the
      maximum over all findings; an invariant of every reachable state
      (distinct level keys, non-empty typed groups, brute-force entries
      and IOC entries under CRITICAL and under no other level); the
      exact detection conditions of each method (brute force iff more
      than 5 failures of a key, the syslog thresholds, one IOC entry per
      finding and listed IP found, appended to CRITICAL, without
      [KeyError]); and, for every user name, address and count, the
      behaviours that differ from the spec: an address that merely
      contains a listed IP is reported as that IP, and "invalid user"
      failures are never counted; [print_report] shows every finding of
      a reachable state once, without raising.
    - Counting: refinement of the ordered counter by the [gmap]
      specification, merging of partial counts and the threshold
      comprehension.
    - EDR triage: a keyword in any key or value is detected; every
      string holding a control character whose JSON escape spells the
      start of a keyword ([escape_spoofs]) makes a match; the partition
      of the events; the risk bands; and, for every document, the
      exceptions on a non-object document, a non-iterable ["events"] and
      a non-object suspicious event (after the summary is printed).
    - v2/v1 parsers: v2 refines v1 (its findings include every v1 alert,
      in order), no exception on events with string fields, the
      exceptions on other types, the 172.16-only private range, the
      grouping of the report as a permutation of the findings, and the
      early return on a missing or invalid log file.
    - DirBuster: every interleaving of the workers finds what the
      sequential loop finds up to order (in order with one thread), the
      scan terminates with at least one thread and hangs with none, the
      report partitions the found paths and does not depend on the
      interleaving, the classification table and its gaps, the target
      directory that [urljoin] drops (for every host, directory and
      entry), and [main] always saving a report
      (under a timestamped name without [--output]).
    - Nmap: the port and host parsers invert nmap's output format (round
      trips on rendered reports), the vulnerability parser returns one
      entry per "VULNERABLE:" line, and the defects: every port whose
      service name contains "open" counted as open whatever its state,
      every port column with a non-ASCII [isdigit] character turned into
      demo ports, an OS match list that is never filled, demo results
      that are never saved.
    - JSON lines: [load_jsonl] of the text [write_jsonl] writes gives
      back the events in order (through [json.loads(json.dumps(v)) = v]
      for every value whose dicts have distinct keys).
    - Log generator, for every random source: [main] does not raise,
      reads back exactly [max(n, ...) + max(m, ...)] events from the file
      it wrote, which the summary counts per index, every public Windows
      address becomes an attacker address, the Windows and WAF addresses
      always overlap, and the 4728 event the docstring calls optional is
      always there, once; and, for a source satisfying [PyRandomOk],
      every address written is a dotted quad of octets in [0, 255].
      From the command line: a [--start] within 30 minutes of the end
      of year 9999 raises [OverflowError]; when no datetime overflows
      (and the start is from year 1000 on) every event written carries
      [_iso(t)] for a datetime [t] from the start on, which [strptime]
      reads back as [t].
    - Random source: the Mersenne Twister satisfies the law
      [PyRandomOk], so the generator's theorems hold of CPython's
      generator.
    - Datetimes: [strptime] inverts [_iso] on every datetime from year
      1000 to 9999 (through the lemma [strptime_fmt]: on strings of the
      printed shape it raises [ValueError] exactly for trailing data,
      year 0, a day past its month's end or a leap second).

    ** Bounds, fuel and what is left out

    Every loop of the sources runs over a finite list and is a structural
    [Fixpoint], [fold_left] or [rmapM].  The calendar theorems rest on
    the 400-year period of the Gregorian calendar ([ord2ymd_period],
    [ymd2ord_period]: 146097 days): one cycle is checked day by day by
    [vm_compute] ([first_cycle_ok]), which covers the 3652059 ordinals
    of [date.min .. date.max]; the checks on the fields (each two-digit
    value, each four-digit year) are finite too.  The one definition with fuel is
    the JSON reader of [Json.v]: [loads s] gives it [1 + len(s)] units,
    one per call of the scanner, and [jsize_le_length] shows that a value
    never needs more calls than its text has characters, so the fuel is
    never what stops the reader on the files [write_jsonl] writes.  The
    scan's termination is proved with the measure [2 * |queue| + |in
    flight|].  Python integers are unbounded and are [Z]; counts are
    [nat].  Strings are Rocq strings whose characters stand for
    U+0000..U+00FF.  The weights of [random.choices] and [random()] are
    the Standard Library's primitive binary64 floats, as in Python; no
    other float is modelled.  The generator's theorems hold for every
    [PyRandom] instance, the address bounds for every instance with
    [_randbelow(n) < n]; the Mersenne Twister is one (a linear
    congruential instance witnesses the bounds).  [_randbelow]'s
    rejection loop, unbounded in CPython, gets [MT.randbelow_fuel] = 64
    draws per call (a draw is rejected with probability below 1/2); the
    state records a call that would need more (then the model returns 0
    where CPython keeps drawing).  [choice] indexes with [nth] on the
    first element, which a real [_randbelow(n) < n] never reaches.  Counter
    and set keys are compared structurally, so Python's [True == 1]
    (one key for both) is not modelled; no generated value is a
    [bool].  [%Y] is printed with four digits; C libraries differ on
    the zero padding of years before 1000, so the round trip is stated
    from year 1000 on.  argparse is modelled by its defaults and
    [strptime] for the log generator, with [type=int] already applied;
    the seeding of [random.Random(seed)] is the initial state of the
    source.  Left out: [datetime.now()] (DirBuster's and nmap's
    timestamps are inputs), file and network I/O, the nmap process (an
    input function), printing, the other tools' argparse front ends,
    and the JSON text the triage tools write (the log
    generator's file is modelled as its text, DirBuster's and nmap's by
    their name and the value written).  The models take the parsed input
    and return what the tools compute or print, as values rather than
    console text.  The Russian copies under [src/soc-operations/]
    ([edr_triage.py], [case002_triage_basics/triage_parser_v2.py])
    differ from the modelled English files only in the messages they
    print, which the models do not carry: the same definitions model
    them, and they have no map entries of their own.
*)

From stdpp Require Export base list strings gmap pretty.
From Stdlib Require Export String Ascii ZArith Lia.

(** [length] is the length of a list; the length of a string is
    written [String.length]. *)
Abbreviation length := List.length.

Declare Scope triage_scope.
Delimit Scope triage_scope with triage.
Local Open Scope string_scope.

Create HintDb triage discriminated.
Create Rewrite HintDb triage_simpl.

(** ** Python exceptions

    A Python function of the sources that may raise returns a [pyres]:
    [Ok v] when it returns [v], [Raise e] when it raises [e].  Only the
    exceptions the modelled code can raise are listed.  [Unmodelled] is
    not a Python exception: it ends a computation on an input whose
    Python result is no value of the model (a JSON float, [NaN],
    [Infinity] or a character above U+00FF, see [Json]); no modelled
    [except] catches it, and no theorem about such inputs is claimed. *)

Inductive py_exc := TypeError | AttributeError | KeyError | ValueError | OverflowError | Unmodelled.

Inductive pyres (A : Type) : Type :=
| Ok (a : A)
| Raise (e : py_exc).
Arguments Ok {A} a.
Arguments Raise {A} e.

#[export] Instance pyres_ret : MRet pyres := λ A a, Ok a.
#[export] Instance pyres_bind : MBind pyres :=
  λ A B f m, match m with Ok a => f a | Raise e => Raise e end.

Definition is_ok {A} (r : pyres A) : bool :=
  match r with Ok _ => true | Raise _ => false end.

(** ** Characters and strings, as Python 3 [str] on ASCII text *)

Definition char_code (c : ascii) : nat := nat_of_ascii c.

(** A Rocq [ascii] stands for the Unicode code point of the same number,
    so strings are Python [str] values over U+0000..U+00FF (ASCII and
    Latin-1).  The character classes below are Python's on that range. *)

(** [str.lower] on U+0000..U+00FF: A-Z and the Latin-1 capitals
    U+00C0..U+00DE except U+00D7 move up by 32. *)
Definition lower_char (c : ascii) : ascii :=
  let n := char_code c in
  if ((65 <=? n) && (n <=? 90)
      || (192 <=? n) && (n <=? 222) && negb (n =? 215))%nat
  then ascii_of_nat (n + 32)%nat else c.

Fixpoint lower (s : string) : string :=
  match s with
  | EmptyString => EmptyString
  | String c t => String (lower_char c) (lower t)
  end.

(** [needle in hay] for two [str]: substring test ("" is in every string). *)
Fixpoint contains (needle hay : string) : bool :=
  String.prefix needle hay ||
  match hay with
  | EmptyString => false
  | String _ t => contains needle t
  end.

Notation "n ∈ₛ h" := (contains n h = true) (at level 70) : triage_scope.
Open Scope triage_scope.

(** [s.startswith((p1, ..., pn))]. *)
Definition startswith_any (s : string) (ps : list string) : bool :=
  existsb (λ p, String.prefix p s) ps.

(** [any(w in s for w in ws)]. *)
Definition contains_any (s : string) (ws : list string) : bool :=
  existsb (λ w, contains w s) ws.

(** [str.isspace] on one character: the characters that [str.strip()]
    removes (tab, newline, vertical tab, form feed, carriage return, the
    separators U+001C..U+001F, space, U+0085 and U+00A0). *)
Definition py_isspace (c : ascii) : bool :=
  let n := char_code c in
  (((9 <=? n) && (n <=? 13)) || ((28 <=? n) && (n <=? 32))
   || (n =? 133) || (n =? 160))%nat.

Fixpoint lstrip (s : string) : string :=
  match s with
  | EmptyString => EmptyString
  | String c t => if py_isspace c then lstrip t else s
  end.

Fixpoint rstrip (s : string) : string :=
  match s with
  | EmptyString => EmptyString
  | String c t =>
      let t' := rstrip t in
      if String.eqb t' "" && py_isspace c then EmptyString else String c t'
  end.

(** [s.strip()]. *)
Definition strip (s : string) : string := rstrip (lstrip s).

(** [s[:n]]. *)
Definition str_take (n : nat) (s : string) : string := substring 0 n s.

(** [s[n:]]. *)
Definition str_drop (n : nat) (s : string) : string := substring n (String.length s - n) s.

(** Every character of [s] is in the class [p]. *)
Fixpoint all_chars (p : ascii -> bool) (s : string) : bool :=
  match s with
  | EmptyString => true
  | String c t => p c && all_chars p t
  end.

(** [sep.join(xs)]. *)
Fixpoint join (sep : string) (xs : list string) : string :=
  match xs with
  | [] => ""
  | [x] => x
  | x :: ys => x ++ sep ++ join sep ys
  end.

(** [xs[-n:]] and [xs[:n]] on Python lists. *)
Definition last_n {A} (n : nat) (xs : list A) : list A := drop (length xs - n) xs.
Definition first_n {A} (n : nat) (xs : list A) : list A := take n xs.

(** ** Lemmas on the string operations *)

(** stdpp makes [String.append] opaque to [simpl]; these two equations
    are its computation rules. *)
Lemma str_app_nil_l (t : string) : ("" ++ t)%string = t.
Proof. reflexivity. Qed.

Lemma str_app_cons (a : ascii) (s t : string) :
  (String a s ++ t)%string = String a (s ++ t)%string.
Proof. reflexivity. Qed.

#[export] Hint Rewrite str_app_nil_l str_app_cons : triage_simpl.

(** [str_simpl] computes string operations in the goal and the context:
    [simpl] with the computation rules of [String.append]. *)
Ltac str_simpl := repeat progress (simpl in *; autorewrite with triage_simpl in *).

Lemma str_app_assoc (a b c : string) : (a ++ (b ++ c))%string = ((a ++ b) ++ c)%string.
Proof. induction a; autorewrite with triage_simpl; congruence. Qed.

Lemma str_app_nil_r (a : string) : (a ++ "")%string = a.
Proof. induction a; autorewrite with triage_simpl; congruence. Qed.

Lemma prefix_spec (p s : string) :
  String.prefix p s = true <-> exists t, s = (p ++ t)%string.
Proof.
  revert s; induction p as [|a p IH]; intros s; simpl.
  - split; intros; [by exists s | destruct s; reflexivity].
  - destruct s as [|b s].
    + split; [intros H; discriminate H | intros [t Ht]; discriminate Ht].
    + simpl. destruct (ascii_dec a b) as [->|Hne]; rewrite ?IH.
      * split; intros [t Ht]; exists t; [by rewrite Ht | by injection Ht].
      * split; [intros H; discriminate H | intros [t Ht]; by injection Ht].
Qed.

Lemma prefix_app (p s : string) : String.prefix p (p ++ s) = true.
Proof. apply prefix_spec. by exists s. Qed.

Lemma contains_spec (n h : string) :
  n ∈ₛ h <-> exists a b, h = (a ++ n ++ b)%string.
Proof.
  induction h as [|c h IH]; cbn [contains]; rewrite orb_true_iff, prefix_spec.
  - split.
    + intros [[t Ht]|H]; [by exists "", t | discriminate H].
    + intros [a [b Hab]]. left. destruct a; [by exists b | discriminate Hab].
  - rewrite IH. split.
    + intros [[t Ht]|[a [b Hab]]]; [by exists "", t|].
      exists (String c a), b. by rewrite Hab.
    + intros [a [b Hab]]. destruct a as [|c' a]; [left; by exists b|].
      right. exists a, b. by injection Hab.
Qed.

Lemma contains_middle (a n b : string) : n ∈ₛ (a ++ n ++ b).
Proof. apply contains_spec. eauto. Qed.

Lemma contains_app_l (n a b : string) : n ∈ₛ a -> n ∈ₛ (a ++ b).
Proof.
  rewrite !contains_spec. intros [x [y ->]]. exists x, (y ++ b)%string.
  by rewrite <- !str_app_assoc.
Qed.

Lemma contains_app_r (n a b : string) : n ∈ₛ b -> n ∈ₛ (a ++ b).
Proof.
  rewrite !contains_spec. intros [x [y ->]]. exists (a ++ x)%string, y.
  by rewrite <- !str_app_assoc.
Qed.

Lemma contains_trans (n m h : string) : n ∈ₛ m -> m ∈ₛ h -> n ∈ₛ h.
Proof.
  rewrite !contains_spec. intros [x [y ->]] [a [b ->]].
  exists (a ++ x)%string, (y ++ b)%string. by rewrite <- !str_app_assoc.
Qed.

Lemma contains_refl (s : string) : s ∈ₛ s.
Proof. apply contains_spec. exists "", "". by rewrite str_app_nil_r. Qed.

Lemma lower_app (a b : string) : lower (a ++ b) = (lower a ++ lower b)%string.
Proof. induction a; str_simpl; congruence. Qed.

Lemma contains_lower (n h : string) : n ∈ₛ h -> lower n ∈ₛ lower h.
Proof.
  rewrite !contains_spec. intros [a [b ->]]. exists (lower a), (lower b).
  by rewrite !lower_app.
Qed.

Lemma contains_any_spec (s : string) (ws : list string) :
  contains_any s ws = true <-> exists w, In w ws /\ w ∈ₛ s.
Proof. unfold contains_any. by rewrite existsb_exists. Qed.

Lemma startswith_any_spec (s : string) (ps : list string) :
  startswith_any s ps = true <-> exists p, In p ps /\ String.prefix p s = true.
Proof. unfold startswith_any. by rewrite existsb_exists. Qed.

#[export] Hint Resolve contains_middle contains_refl contains_app_l contains_app_r
  prefix_app : triage.
#[export] Hint Rewrite lower_app : triage_simpl.

(** ** The exception monad *)

Lemma bind_ok {A B} (a : A) (f : A -> pyres B) : (Ok a ≫= f) = f a.
Proof. done. Qed.

Lemma bind_raise {A B} (e : py_exc) (f : A -> pyres B) : (Raise e ≫= f) = Raise e.
Proof. done. Qed.

Lemma bind_Ok_inv {A B} (m : pyres A) (f : A -> pyres B) (b : B) :
  (m ≫= f) = Ok b -> exists a, m = Ok a /\ f a = Ok b.
Proof. destruct m; simpl; [eauto|done]. Qed.

#[export] Hint Rewrite @bind_ok @bind_raise : triage_simpl.

(** Split every [Ok]-result bind in the hypotheses. *)
Ltac ok_inv :=
  repeat match goal with
  | H : (_ ≫= _) = Ok _ |- _ => apply bind_Ok_inv in H as (? & ? & H)
  end.

(** ** Lists *)

(** Three filters that pick out disjoint classes covering a list split it
    up to order. *)
Lemma filter3_perm {A} (p1 p2 p3 : A -> bool) (xs : list A) :
  Forall (fun x => (p1 x, p2 x, p3 x) = (true, false, false) \/ (p1 x, p2 x, p3 x) = (false, true, false)
                   \/ (p1 x, p2 x, p3 x) = (false, false, true)) xs ->
  (List.filter p1 xs ++ List.filter p2 xs ++ List.filter p3 xs)%list ≡ₚ xs.
Proof.
  induction 1 as [|x xs Hx _ IH]; [done|]. cbn [List.filter].
  destruct Hx as [Hx|[Hx|Hx]]; simplify_eq; rewrite H, H0, H1; simpl.
  - by constructor.
  - rewrite <-Permutation_middle. by constructor.
  - rewrite app_assoc, <-Permutation_middle, <-app_assoc. by constructor.
Qed.

Lemma substring_all (s : string) : substring 0 (String.length s) s = s.
Proof. induction s as [|c s IH]; simpl; [done|]. by rewrite IH. Qed.

Lemma str_drop_app (p s : string) : str_drop (String.length p) (p ++ s) = s.
Proof.
  unfold str_drop. induction p as [|c p IH]; simpl; [by rewrite Nat.sub_0_r, substring_all|].
  exact IH.
Qed.

Lemma all_chars_app (p : ascii -> bool) (a b : string) :
  all_chars p (a ++ b) = all_chars p a && all_chars p b.
Proof. induction a as [|c a IH]; simpl; [done|]. by rewrite IH, andb_assoc. Qed.

Lemma all_chars_impl (p q : ascii -> bool) (s : string) :
  (forall c, p c = true -> q c = true) -> all_chars p s = true -> all_chars q s = true.
Proof.
  intros Hpq. induction s as [|c s IH]; simpl; [done|].
  rewrite !andb_true_iff. intros [Hc Hs]. split; [by apply Hpq|by apply IH].
Qed.

(** ** Related lists *)

Lemma Forall2_elem_l {A B} (R : A -> B -> Prop) (l : list A) (k : list B) (x : A) :
  Forall2 R l k -> x ∈ l -> exists y, y ∈ k /\ R x y.
Proof.
  induction 1 as [|x' y' l k Hxy _ IH]; [by rewrite elem_of_nil|].
  rewrite elem_of_cons. intros [->|Hx]; [exists y'; split; [left|done]|].
  destruct (IH Hx) as (y & Hy & Hr). exists y. split; [by right|done].
Qed.

Lemma Forall2_elem_r {A B} (R : A -> B -> Prop) (l : list A) (k : list B) (y : B) :
  Forall2 R l k -> y ∈ k -> exists x, x ∈ l /\ R x y.
Proof.
  induction 1 as [|x' y' l k Hxy _ IH]; [by rewrite elem_of_nil|].
  rewrite elem_of_cons. intros [->|Hy]; [exists x'; split; [left|done]|].
  destruct (IH Hy) as (x & Hx & Hr). exists x. split; [by right|done].
Qed.

(** ** Boolean filters *)

Lemma Permutation_filterb {A} (p : A -> bool) (l k : list A) : l ≡ₚ k -> List.filter p l ≡ₚ List.filter p k.
Proof.
  induction 1 as [|x l k _ IH|x y l|l m k _ IH1 _ IH2]; simpl; [done| |by repeat case_match; try constructor|by etrans].
  by destruct (p x); [constructor|].
Qed.

Lemma filterb_all {A} (p : A -> bool) (l : list A) : Forall (fun x => p x = true) l -> List.filter p l = l.
Proof. induction 1 as [|x l Hx _ IH]; simpl; [done|]. by rewrite Hx, IH. Qed.

Lemma filterb_none {A} (p : A -> bool) (l : list A) : Forall (fun x => p x = false) l -> List.filter p l = [].
Proof. induction 1 as [|x l Hx _ IH]; simpl; [done|]. by rewrite Hx, IH. Qed.


Lemma str_length_app (s t : string) : String.length (s ++ t) = String.length s + String.length t.
Proof. induction s as [|c s IH]; [done|]. rewrite str_app_cons. cbn. by rewrite IH. Qed.

Lemma join_length (sep x : string) (xs : list string) :
  String.length (join sep (x :: xs)) + String.length sep =
    sum_list_with (fun y => String.length y + String.length sep) (x :: xs).
Proof.
  revert x; induction xs as [|y ys IH]; intros x; [cbn; lia|].
  change (join sep (x :: y :: ys)) with (x ++ sep ++ join sep (y :: ys)).
  rewrite !str_length_app. cbn [sum_list_with] in *. rewrite <-IH. lia.
Qed.

Lemma sum_list_with_lt {A} (f g : A -> nat) (x : A) (xs : list A) :
  Forall (fun y => f y < g y) (x :: xs) -> sum_list_with f (x :: xs) < sum_list_with g (x :: xs).
Proof.
  revert x; induction xs as [|y ys IH]; intros x Hall; apply Forall_cons in Hall as [Hx Hys]; cbn in *; [lia|].
  specialize (IH y Hys). cbn in IH. lia.
Qed.

Lemma sum_list_with_map {A B} (f : B -> nat) (h : A -> B) (xs : list A) :
  sum_list_with f (map h xs) = sum_list_with (fun x => f (h x)) xs.
Proof. induction xs; cbn; auto. Qed.

Lemma all_chars_join (p : ascii -> bool) (sep : string) (xs : list string) :
  all_chars p sep = true -> Forall (fun x => all_chars p x = true) xs -> all_chars p (join sep xs) = true.
Proof.
  intros Hs Hxs. induction Hxs as [|x xs Hx Hxs IH]; [done|].
  destruct xs as [|y ys]; [done|]. change (join sep (x :: y :: ys)) with (x ++ sep ++ join sep (y :: ys)).
  by rewrite !all_chars_app, Hx, Hs, IH.
Qed.

Lemma rstrip_last (s : string) (c : ascii) : py_isspace c = false -> rstrip (s ++ String c "") = s ++ String c "".
Proof.
  intros Hc. induction s as [|x s IH]; [by rewrite str_app_nil_l; cbn; rewrite Hc|]. rewrite str_app_cons. cbn [rstrip]. rewrite IH.
  destruct s; reflexivity.
Qed.

(** [for x in xs: ys.append(f(x))] where [f] may raise: the first
    exception stops the loop. *)
Fixpoint res_map {A B} (f : A -> pyres B) (xs : list A) : pyres (list B) :=
  match xs with
  | [] => Ok []
  | x :: xs' => y ← f x; ys ← res_map f xs'; Ok (y :: ys)
  end.

Lemma res_map_ok {A B} (f : A -> pyres B) (g : A -> B) (xs : list A) :
  Forall (fun x => f x = Ok (g x)) xs -> res_map f xs = Ok (map g xs).
Proof. induction 1 as [|x xs Hx _ IH]; [done|]. cbn [res_map map]. by rewrite Hx, bind_ok, IH, bind_ok. Qed.
