(* ===== verification/PyStr.v ===== *)
(** * Python [str] methods that take a string apart

    [str.split(sep)], [str.split()], [str.isdigit()], [int(s)] and
    [str(n)] for ints, as the parsers of [nmap_recon.py] and the JSON
    encoder use them.  Numbers are printed and read through the Standard
    Library's [Decimal.uint] ([DecimalString.NilEmpty]), whose round trip
    lemmas give the round trip of [int(str(n))]. *)

From S2P Require Import Prelude.
From Stdlib Require Import Decimal DecimalString DecimalN.
Local Open Scope string_scope.

(** ** Numbers *)

(** [str(n)] for [n >= 0]. *)
Definition str_of_N (n : N) : string := NilEmpty.string_of_uint (N.to_uint n).

(** [str(z)] for a Python [int]. *)
Definition py_str_int (z : Z) : string :=
  if (z <? 0)%Z then "-" ++ str_of_N (Z.abs_N z) else str_of_N (Z.to_N z).

(** [c.isdigit()] on U+0000..U+00FF: the ASCII digits and the
    superscripts U+00B2, U+00B3 and U+00B9. *)
Definition py_isdigit_char (c : ascii) : bool :=
  let n := char_code c in ((48 <=? n) && (n <=? 57) || (n =? 178) || (n =? 179) || (n =? 185))%nat.

(** [s.isdigit()]: non-empty and every character a digit. *)
Definition py_isdigit (s : string) : bool := negb (String.eqb s "") && all_chars py_isdigit_char s.

(** [int(s)] on a string without sign, blank or underscore: ASCII digits
    only (the superscripts are digits for [isdigit] but not decimal
    digits for [int], which raises [ValueError] on them). *)
Definition py_int (s : string) : pyres Z :=
  if String.eqb s "" then Raise ValueError
  else match NilEmpty.uint_of_string s with
       | Some d => Ok (Z.of_N (N.of_uint d))
       | None => Raise ValueError
       end.

(** ** Splitting *)

(** [s.split(sep)] for a non-empty [sep]: the pieces between the
    occurrences of [sep] found from the left; [skip] counts the
    characters of an occurrence still to pass, [cur] is the piece being
    read. *)
Fixpoint split_go (sep s : string) (skip : nat) (cur : string) : list string :=
  match s with
  | EmptyString => [cur]
  | String c t =>
      match skip with
      | S k => split_go sep t k cur
      | O => if String.prefix sep s then cur :: split_go sep t (String.length sep - 1) ""
             else split_go sep t 0 (cur ++ String c "")
      end
  end.

Definition str_split (sep s : string) : list string := split_go sep s 0 "".

(** [xs[-1]] on a list that Python never has empty here. *)
Definition py_last (xs : list string) : string := default "" (last xs).

(** [s.split()]: the maximal runs of non-whitespace characters. *)
Fixpoint split_ws_go (s cur : string) : list string :=
  match s with
  | EmptyString => if String.eqb cur "" then [] else [cur]
  | String c t =>
      if py_isspace c then (if String.eqb cur "" then split_ws_go t "" else cur :: split_ws_go t "")
      else split_ws_go t (cur ++ String c "")
  end.

Definition split_ws (s : string) : list string := split_ws_go s "".

(** ** Lemmas *)

Lemma str_of_N_nonempty (n : N) : str_of_N n <> "".
Proof.
  unfold str_of_N. destruct n as [|p]; [discriminate|].
  pose proof (DecimalPos.Unsigned.to_uint_nonnil p) as Hnn. simpl.
  destruct (Pos.to_uint p); simpl; congruence.
Qed.

Lemma py_int_str_of_N (n : N) : py_int (str_of_N n) = Ok (Z.of_N n).
Proof.
  unfold py_int. pose proof (str_of_N_nonempty n) as Hne.
  destruct (String.eqb_spec (str_of_N n) "") as [|_]; [done|].
  unfold str_of_N. by rewrite NilEmpty.usu, DecimalN.Unsigned.of_to.
Qed.

Lemma all_chars_string_of_uint (d : uint) :
  all_chars (fun c => ((48 <=? char_code c) && (char_code c <=? 57))%nat) (NilEmpty.string_of_uint d) = true.
Proof. induction d; simpl; rewrite ?IHd; done. Qed.

Lemma str_of_N_isdigit (n : N) : py_isdigit (str_of_N n) = true.
Proof.
  unfold py_isdigit. pose proof (str_of_N_nonempty n) as Hne.
  destruct (String.eqb_spec (str_of_N n) "") as [|_]; [done|]. simpl.
  eapply all_chars_impl; [|apply all_chars_string_of_uint].
  intros c Hc. unfold py_isdigit_char. by rewrite Hc.
Qed.

(** The decimal digits of a number contain no character outside
    [0-9]. *)
Lemma str_of_N_digits (n : N) :
  all_chars (fun c => ((48 <=? char_code c) && (char_code c <=? 57))%nat) (str_of_N n) = true.
Proof. apply all_chars_string_of_uint. Qed.

(** A character other than [c]. *)
Definition not_char (c x : ascii) : bool := negb (Ascii.eqb x c).

Lemma prefix_char (c x : ascii) (t : string) :
  String.prefix (String c "") (String x t) = Ascii.eqb x c.
Proof.
  simpl. destruct (ascii_dec c x) as [->|Hne].
  - rewrite Ascii.eqb_refl. by destruct t.
  - symmetry. apply Ascii.eqb_neq. congruence.
Qed.

Lemma split_go_plain (c : ascii) (a rest cur : string) :
  all_chars (not_char c) a = true ->
  split_go (String c "") (a ++ rest) 0 cur = split_go (String c "") rest 0 (cur ++ a).
Proof.
  revert cur; induction a as [|x a IH]; intros cur; [by rewrite str_app_nil_l, str_app_nil_r|].
  cbn [all_chars]. unfold not_char at 1. rewrite andb_true_iff, negb_true_iff. intros [Hx Ha].
  rewrite str_app_cons. cbn [split_go]. rewrite prefix_char, Hx, IH by done.
  by rewrite <-str_app_assoc.
Qed.

Lemma split_go_sep (c : ascii) (rest cur : string) :
  split_go (String c "") (String c rest) 0 cur = cur :: split_go (String c "") rest 0 "".
Proof. cbn [split_go]. by rewrite prefix_char, Ascii.eqb_refl. Qed.

Lemma split_go_join (c : ascii) (l : string) (ls : list string) (cur : string) :
  Forall (fun l => all_chars (not_char c) l = true) (l :: ls) ->
  split_go (String c "") (join (String c "") (l :: ls)) 0 cur = (cur ++ l) :: ls.
Proof.
  revert l cur; induction ls as [|l' ls IH]; intros l cur Hall; inversion Hall as [|? ? Hl Hls]; subst.
  - simpl. rewrite <-(str_app_nil_r l) at 1. by rewrite split_go_plain.
  - change (join (String c "") (l :: l' :: ls)) with (l ++ String c (join (String c "") (l' :: ls))).
    rewrite split_go_plain, split_go_sep, IH by done. done.
Qed.

(** Splitting at a character the joined pieces do not contain gives the
    pieces back. *)
Lemma split_join (c : ascii) (l : string) (ls : list string) :
  Forall (fun l => all_chars (not_char c) l = true) (l :: ls) ->
  str_split (String c "") (join (String c "") (l :: ls)) = l :: ls.
Proof. intros H. unfold str_split. by rewrite split_go_join. Qed.

Lemma lstrip_id (s : string) : all_chars (fun c => negb (py_isspace c)) s = true -> lstrip s = s.
Proof. destruct s as [|c t]; simpl; [done|]. rewrite andb_true_iff, negb_true_iff. by intros [-> _]. Qed.

Lemma rstrip_id (s : string) : all_chars (fun c => negb (py_isspace c)) s = true -> rstrip s = s.
Proof.
  induction s as [|c t IH]; simpl; [done|]. rewrite andb_true_iff, negb_true_iff. intros [Hc Ht].
  rewrite IH, Hc by done. by rewrite andb_false_r.
Qed.

(** [strip] leaves a string without whitespace alone. *)
Lemma strip_id (s : string) : all_chars (fun c => negb (py_isspace c)) s = true -> strip s = s.
Proof. intros H. unfold strip. by rewrite lstrip_id, rstrip_id. Qed.

(** A string that does not contain [sep] is one piece. *)
Lemma split_go_nocontain (sep s cur : string) :
  contains sep s = false -> split_go sep s 0 cur = [(cur ++ s)%string].
Proof.
  revert cur; induction s as [|c t IH]; intros cur Hc; simpl; [by rewrite str_app_nil_r|].
  simpl in Hc. apply orb_false_iff in Hc as [Hp Ht]. rewrite Hp, IH by done.
  by rewrite <-str_app_assoc.
Qed.

(** ** [str.split()] on words separated by single spaces *)

(** A character [str.split()] keeps in a word. *)
Definition non_space (c : ascii) : bool := negb (py_isspace c).

Lemma split_ws_go_word (w t cur : string) :
  all_chars non_space w = true -> split_ws_go (w ++ t) cur = split_ws_go t (cur ++ w).
Proof.
  revert cur; induction w as [|c w IH]; intros cur Hw; [by rewrite str_app_nil_l, str_app_nil_r|].
  cbn [all_chars] in Hw. apply andb_true_iff in Hw as [Hc Hw]. unfold non_space in Hc.
  apply negb_true_iff in Hc. rewrite str_app_cons. cbn [split_ws_go]. rewrite Hc, IH by done.
  by rewrite <- str_app_assoc.
Qed.

(** [" ".join(ws).split() == ws] for non-empty words without blanks. *)
Lemma split_ws_join (w : string) (ws : list string) :
  Forall (fun w => w <> "" /\ all_chars non_space w = true) (w :: ws) ->
  split_ws (join " " (w :: ws)) = w :: ws.
Proof.
  unfold split_ws. revert w; induction ws as [|w' ws IH]; intros w Hall;
    inversion Hall as [|? ? [Hne Hw] Hrest]; subst.
  - cbn [join]. rewrite <- (str_app_nil_r w) at 1. rewrite split_ws_go_word, str_app_nil_l by done.
    cbn [split_ws_go]. by rewrite (proj2 (String.eqb_neq _ _) Hne).
  - change (join " " (w :: w' :: ws)) with (w ++ String " " (join " " (w' :: ws))).
    rewrite split_ws_go_word, str_app_nil_l by done. cbn [split_ws_go].
    rewrite (proj2 (String.eqb_neq _ _) Hne). by rewrite IH.
Qed.

(** ** What [int] rejects *)

(** The characters [int] reads: the ASCII digits. *)
Definition is_ascii_digit (c : ascii) : bool := ((48 <=? char_code c) && (char_code c <=? 57))%nat.

Lemma uint_of_string_digits (s : string) (d : uint) :
  NilEmpty.uint_of_string s = Some d -> all_chars is_ascii_digit s = true.
Proof.
  revert d. induction s as [|c s IH]; intros d; [done|]. cbn [NilEmpty.uint_of_string all_chars].
  destruct (NilEmpty.uint_of_string s) as [d0|] eqn:E; [|done]. intros Hc.
  apply uint_of_char_spec in Hc. rewrite (IH d0 eq_refl), andb_true_r.
  repeat (destruct Hc as [[-> _]|Hc]; [reflexivity|]). destruct Hc as [-> _]. reflexivity.
Qed.

(** [int(s)] raises [ValueError] on a string with a character other than
    an ASCII digit, a superscript digit among them. *)
Lemma py_int_non_decimal (s : string) : all_chars is_ascii_digit s = false -> py_int s = Raise ValueError.
Proof.
  intros H. unfold py_int. destruct (String.eqb s "") ; [done|].
  destruct (NilEmpty.uint_of_string s) as [d|] eqn:E; [|done].
  apply uint_of_string_digits in E. congruence.
Qed.

(** The characters [str.isdigit()] accepts are neither blanks nor a slash. *)
Lemma isdigit_char_plain (c : ascii) :
  py_isdigit_char c = true -> non_space c = true /\ not_char "/" c = true.
Proof. destruct c as [[] [] [] [] [] [] [] []]; vm_compute; intros H; solve [done | discriminate H]. Qed.

(** Characters of [0-9] are neither blanks nor the separators the
    parsers split at. *)
Lemma digit_char_not (c : ascii) :
  ((48 <=? char_code c) && (char_code c <=? 57))%nat = true ->
  negb (py_isspace c) = true /\ forall d, (char_code d < 48 \/ 57 < char_code d)%nat -> not_char d c = true.
Proof.
  unfold py_isspace, not_char. rewrite andb_true_iff, !Nat.leb_le. intros Hc. split.
  - apply negb_true_iff. repeat rewrite ?orb_false_iff, ?andb_false_iff, ?Nat.leb_gt, ?Nat.eqb_neq.
    unfold char_code in *. lia.
  - intros d Hd. apply negb_true_iff, Ascii.eqb_neq. intros ->. lia.
Qed.
