(* ===== verification/PyDateTime.v ===== *)
(** * CPython's [datetime] on the values [log_generator.py] uses

    A naive or UTC [datetime] with no microseconds is the number of
    seconds since 0001-01-01T00:00:00, [(toordinal() - 1) * 86400 +
    3600 * hour + 60 * minute + second]; the valid values are those
    below [MAXORDINAL * 86400] (9999-12-31T23:59:59 is the last).  The
    calendar is CPython's [_ymd2ord] and [_ord2ymd]; [_iso] (line 35)
    is [strftime("%Y-%m-%dT%H:%M:%SZ")]; [parse_args] (line 326) calls
    [datetime.strptime] with the same format, which [_strptime] turns
    into a regular expression matched from the start of the string with
    [re.IGNORECASE]; [t + timedelta(seconds=k)] raises [OverflowError]
    past the last value. *)

From S2P Require Import Prelude PyStr.
Local Open Scope Z_scope.

Module PyDateTime.

(** ** The proleptic Gregorian calendar ([datetime.py]) *)

Definition MAXORDINAL : Z := 3652059.

(** Seconds of a day and the first value past the range. *)
Definition day_secs : Z := 86400.
Definition max_secs : Z := MAXORDINAL * day_secs.

Definition is_leap (year : Z) : bool :=
  (year mod 4 =? 0) && (negb (year mod 100 =? 0) || (year mod 400 =? 0)).

Definition days_in_month_tbl : list Z := [31; 28; 31; 30; 31; 30; 31; 31; 30; 31; 30; 31].
Definition days_before_month_tbl : list Z := [0; 31; 59; 90; 120; 151; 181; 212; 243; 273; 304; 334].

(** [_days_before_year(year)]. *)
Definition days_before_year (year : Z) : Z :=
  let y := year - 1 in y * 365 + y / 4 - y / 100 + y / 400.

(** [_days_in_month(year, month)]. *)
Definition days_in_month (year month : Z) : Z :=
  if (month =? 2) && is_leap year then 29 else nth (Z.to_nat (month - 1)) days_in_month_tbl 0.

(** [_days_before_month(year, month)]. *)
Definition days_before_month (year month : Z) : Z :=
  nth (Z.to_nat (month - 1)) days_before_month_tbl 0 + (if (month >? 2) && is_leap year then 1 else 0).

(** [_ymd2ord(year, month, day)], day 1 being 0001-01-01. *)
Definition ymd2ord (year month day : Z) : Z :=
  days_before_year year + days_before_month year month + day.

(** [_ord2ymd(n)]: the 400-, 100-, 4- and 1-year cycles, then the month
    estimate [(n + 50) >> 5] corrected down by one when it overshoots. *)
Definition ord2ymd (n0 : Z) : Z * Z * Z :=
  let n := n0 - 1 in
  let n400 := n / 146097 in let n := n mod 146097 in
  let year := n400 * 400 + 1 in
  let n100 := n / 36524 in let n := n mod 36524 in
  let n4 := n / 1461 in let n := n mod 1461 in
  let n1 := n / 365 in let n := n mod 365 in
  let year := year + n100 * 100 + n4 * 4 + n1 in
  if (n1 =? 4) || (n100 =? 4) then (year - 1, 12, 31) else
  let leapyear := (n1 =? 3) && (negb (n4 =? 24) || (n100 =? 3)) in
  let month := Z.shiftr (n + 50) 5 in
  let preceding := nth (Z.to_nat (month - 1)) days_before_month_tbl 0 +
                   (if (month >? 2) && leapyear then 1 else 0) in
  if preceding >? n then
    let month := month - 1 in
    let preceding := preceding - (nth (Z.to_nat (month - 1)) days_in_month_tbl 0 +
                                  (if (month =? 2) && leapyear then 1 else 0)) in
    (year, month, n - preceding + 1)
  else (year, month, n - preceding + 1).

(** The constructor's range check of a datetime. *)
Definition in_range (t : Z) : bool := (0 <=? t) && (t <? max_secs).

(** [dt + timedelta(seconds=k)] ([datetime.__add__]): [OverflowError]
    ("date value out of range") when the sum leaves the range. *)
Definition add_seconds (t k : Z) : pyres Z :=
  if in_range (t + k) then Ok (t + k) else Raise OverflowError.

(** ** [strftime("%Y-%m-%dT%H:%M:%SZ")] *)

Definition dchar (k : Z) : ascii := ascii_of_nat (48 + Z.to_nat k).

(** [%m], [%d], [%H], [%M], [%S]: two digits, zero-padded. *)
Definition pad2 (v : Z) : string :=
  String (dchar (v / 10 mod 10)) (String (dchar (v mod 10)) EmptyString).

(** [%Y]: four digits, zero-padded. *)
Definition pad4 (v : Z) : string :=
  String (dchar (v / 1000 mod 10)) (String (dchar (v / 100 mod 10))
    (String (dchar (v / 10 mod 10)) (String (dchar (v mod 10)) EmptyString))).

(** The format ["%Y-%m-%dT%H:%M:%SZ"] on the fields. *)
Definition fmt_iso (y m d h mi sec : Z) : string :=
  (pad4 y ++ "-" ++ pad2 m ++ "-" ++ pad2 d ++ "T" ++ pad2 h ++ ":" ++ pad2 mi ++ ":" ++ pad2 sec ++ "Z")%string.

(** [_iso(ts)] (lines 34-35): [astimezone(timezone.utc)] returns a UTC
    datetime unchanged, then its fields are printed. *)
Definition strftime_iso (t : Z) : string :=
  let secs := t mod day_secs in
  let rem := secs mod 3600 in
  let '(y, m, d) := ord2ymd (t / day_secs + 1) in
  fmt_iso y m d (secs / 3600) (rem / 60) (rem mod 60).

(** ** [strptime(s, "%Y-%m-%dT%H:%M:%SZ")] ([_strptime.py]) *)

(** A character class of the generated pattern. *)
Inductive cclass := CDigit | CRange (lo hi : ascii) | CChar (c : ascii).

Definition cc_match (k : cclass) (c : ascii) : bool :=
  match k with
  | CDigit => (48 <=? char_code c)%nat && (char_code c <=? 57)%nat
  | CRange lo hi => (char_code lo <=? char_code c)%nat && (char_code c <=? char_code hi)%nat
  | CChar x => Ascii.eqb x c
  end.

(** One alternative of a directive's group: a fixed sequence of classes. *)
Abbreviation alt := (list cclass).

(** The pattern: a literal character (compared case-insensitively, as
    [re.IGNORECASE] does) or a named group of alternatives tried in
    order. *)
Inductive fmt_item := ILit (c : ascii) | IField (alts : list alt).

Fixpoint match_alt (a : alt) (s : string) : option (string * string) :=
  match a with
  | [] => Some (EmptyString, s)
  | k :: a' =>
      match s with
      | EmptyString => None
      | String c s' =>
          if cc_match k c then
            match match_alt a' s' with Some (cap, r) => Some (String c cap, r) | None => None end
          else None
      end
  end.

(** The alternatives of a group, each followed by the rest of the
    pattern [k]; a failure of the rest backtracks to the next one. *)
Fixpoint try_alts (k : string -> option (list string * string)) (alts : list alt) (s : string)
    : option (list string * string) :=
  match alts with
  | [] => None
  | a :: alts' =>
      match match_alt a s with
      | Some (cap, r) =>
          match k r with Some (caps, r') => Some (cap :: caps, r') | None => try_alts k alts' s end
      | None => try_alts k alts' s
      end
  end.

(** [re.match]: the groups' captures and the unmatched rest of the input. *)
Fixpoint match_fmt (items : list fmt_item) (s : string) : option (list string * string) :=
  match items with
  | [] => Some ([], s)
  | ILit c :: its =>
      match s with
      | String x s' => if Ascii.eqb (lower_char c) (lower_char x) then match_fmt its s' else None
      | EmptyString => None
      end
  | IField alts :: its => try_alts (match_fmt its) alts s
  end.

Definition d09 : cclass := CDigit.
Definition r19 : cclass := CRange "1" "9".

(** The groups of [_strptime]'s [TimeRE] for the six directives. *)
Definition alts_Y : list alt := [[d09; d09; d09; d09]].
Definition alts_m : list alt := [[CChar "1"; CRange "0" "2"]; [CChar "0"; r19]; [r19]].
Definition alts_d : list alt :=
  [[CChar "3"; CRange "0" "1"]; [CRange "1" "2"; d09]; [CChar "0"; r19]; [r19]; [CChar " "; r19]].
Definition alts_H : list alt := [[CChar "2"; CRange "0" "3"]; [CRange "0" "1"; d09]; [d09]].
Definition alts_M : list alt := [[CRange "0" "5"; d09]; [d09]].
Definition alts_S : list alt := [[CChar "6"; CRange "0" "1"]; [CRange "0" "5"; d09]; [d09]].

Definition iso_fmt : list fmt_item :=
  [IField alts_Y; ILit "-"; IField alts_m; ILit "-"; IField alts_d; ILit "T";
   IField alts_H; ILit ":"; IField alts_M; ILit ":"; IField alts_S; ILit "Z"].

(** [_strptime_datetime]: "unconverted data remains" when the match
    stops short; [int] of each group ([int(" 5")] strips the blank);
    [datetime_date(year, month, day)] rejects year 0 and a day past the
    month's end, the [datetime] constructor a leap second 60 or 61.
    Every failure is a [ValueError]. *)
Definition strptime_iso (s : string) : pyres Z :=
  match match_fmt iso_fmt s with
  | None => Raise ValueError
  | Some (caps, rest) =>
      if negb (String.eqb rest "") then Raise ValueError else
      match caps with
      | [cy; cm; cd; ch; cmi; cs] =>
          y ← py_int cy; m ← py_int cm; d ← py_int (lstrip cd);
          h ← py_int ch; mi ← py_int cmi; sec ← py_int cs;
          if (y <? 1) || (days_in_month y m <? d) then Raise ValueError
          else if 59 <? sec then Raise ValueError
          else Ok ((ymd2ord y m d - 1) * day_secs + h * 3600 + mi * 60 + sec)
      | _ => Raise ValueError
      end
  end.

(** ** The calendar: 400-year period and one cycle checked *)

Lemma is_leap_period (y q : Z) : is_leap (y + 400 * q) = is_leap y.
Proof.
  unfold is_leap.
  replace (y + 400 * q) with (y + (100 * q) * 4) by lia. rewrite Z.mod_add by lia.
  replace (y + (100 * q) * 4) with (y + (4 * q) * 100) by lia. rewrite Z.mod_add by lia.
  replace (y + (4 * q) * 100) with (y + q * 400) by lia. by rewrite Z.mod_add by lia.
Qed.

Lemma days_in_month_period (y q m : Z) : days_in_month (y + 400 * q) m = days_in_month y m.
Proof. unfold days_in_month. by rewrite is_leap_period. Qed.

Lemma ymd2ord_period (y q m d : Z) : ymd2ord (y + 400 * q) m d = ymd2ord y m d + 146097 * q.
Proof.
  unfold ymd2ord, days_before_year, days_before_month. rewrite is_leap_period.
  replace (y + 400 * q - 1) with ((y - 1) + (100 * q) * 4) by lia. rewrite Z.div_add by lia.
  replace ((y - 1) + (100 * q) * 4) with ((y - 1) + (4 * q) * 100) by lia. rewrite Z.div_add by lia.
  replace ((y - 1) + (4 * q) * 100) with ((y - 1) + q * 400) by lia. rewrite Z.div_add by lia. lia.
Qed.

Lemma ord2ymd_period (n q : Z) :
  ord2ymd (n + 146097 * q) = let '(y, m, d) := ord2ymd n in (y + 400 * q, m, d).
Proof.
  unfold ord2ymd. replace (n + 146097 * q - 1) with ((n - 1) + q * 146097) by lia.
  rewrite Z.div_add, Z.mod_add by lia. cbv zeta.
  repeat case_match; simplify_eq; f_equal; try f_equal; lia.
Qed.

(** [f] holds at [n], [n + 1], ..., [n + k - 1]. *)
Fixpoint forall_from (f : Z -> bool) (k : nat) (n : Z) : bool :=
  match k with O => true | S k' => f n && forall_from f k' (n + 1) end.

Lemma forall_from_spec (f : Z -> bool) (k : nat) (n j : Z) :
  forall_from f k n = true -> n <= j < n + Z.of_nat k -> f j = true.
Proof.
  revert n. induction k as [|k IH]; intros n Hf Hj; [lia|].
  cbn in Hf. apply andb_prop in Hf as [Hn Hk].
  destruct (Z.eq_dec j n) as [->|]; [done|]. apply (IH (n + 1)); [done | lia].
Qed.

(** What one day of the first cycle must satisfy: a valid date that maps
    back to the day, with the bounds on the year the range needs. *)
Definition ok_ord (n : Z) : bool :=
  let '(y, m, d) := ord2ymd n in
  (1 <=? m) && (m <=? 12) && (1 <=? d) && (d <=? days_in_month y m) && (1 <=? y) && (y <=? 400) &&
  (ymd2ord y m d =? n) && (negb (n <=? 145731) || (y <=? 399)) && (negb (72684 <=? n) || (200 <=? y)).

Lemma first_cycle_ok : forall_from ok_ord (Z.to_nat 146097) 1 = true.
Proof. vm_compute. reflexivity. Qed.

(** [_ord2ymd] inverts [_ymd2ord] on the whole range: every ordinal is a
    valid date of years 1..9999 (from 1000 after 1000-01-01, ordinal
    364878). *)
Lemma ord2ymd_spec (n : Z) :
  1 <= n <= MAXORDINAL ->
  let '(y, m, d) := ord2ymd n in
  1 <= m <= 12 /\ 1 <= d <= days_in_month y m /\ 1 <= y <= 9999 /\ ymd2ord y m d = n /\
  (364878 <= n -> 1000 <= y).
Proof.
  unfold MAXORDINAL. intros Hn.
  set (q := (n - 1) / 146097). set (r := (n - 1) mod 146097).
  assert (Hr : 0 <= r < 146097) by (apply Z.mod_pos_bound; lia).
  assert (Hq : n = (r + 1) + 146097 * q) by (pose proof (Z.div_mod (n - 1) 146097); lia).
  assert (Hq' : 0 <= q < 25) by (split; [apply Z.div_pos | apply Z.div_lt_upper_bound]; lia).
  pose proof (forall_from_spec _ _ _ (r + 1) first_cycle_ok ltac:(rewrite Z2Nat.id; lia)) as Hok.
  unfold ok_ord in Hok. rewrite Hq, ord2ymd_period.
  destruct (ord2ymd (r + 1)) as [[y m] d].
  rewrite days_in_month_period, ymd2ord_period.
  repeat rewrite ?andb_true_iff, ?orb_true_iff, ?negb_true_iff, ?Z.leb_le, ?Z.leb_gt, ?Z.eqb_eq in Hok.
  lia.
Qed.

(** ** The matcher *)

Lemma match_alt_split (a : alt) (p cap rest : string) :
  match_alt a p = Some (cap, rest) -> p = (cap ++ rest)%string.
Proof.
  revert p cap. induction a as [|k a IH]; intros [|c p] cap Hm; cbn in Hm; simplify_eq; try done.
  case_match; [|done]. destruct (match_alt a p) as [[c' r']|] eqn:E; simplify_eq.
  rewrite str_app_cons. f_equal. by apply IH.
Qed.

Lemma match_alt_app (a : alt) (p cap rest r : string) :
  match_alt a p = Some (cap, rest) -> match_alt a (p ++ r) = Some (cap, (rest ++ r)%string).
Proof.
  revert p cap. induction a as [|k a IH]; intros [|c p] cap Hm; cbn in Hm; simplify_eq; try done.
  case_match; [|done]. destruct (match_alt a p) as [[c' r']|] eqn:E; simplify_eq.
  rewrite str_app_cons. cbn. rewrite H. by rewrite (IH _ _ E).
Qed.

Lemma match_alt_none_app (a : alt) (p r : string) :
  (length a <= String.length p)%nat -> match_alt a p = None -> match_alt a (p ++ r) = None.
Proof.
  revert p. induction a as [|k a IH]; intros [|c p] Hl Hm; cbn in *; try done; try lia.
  rewrite str_app_cons. cbn. case_match; [|done].
  destruct (match_alt a p) as [[c' r']|] eqn:E; [done|]. rewrite (IH p); [done | lia | done].
Qed.

(** The first alternative that fits the start of [p] is no longer than
    [p] and takes all of it. *)
Fixpoint first_full (alts : list alt) (p : string) : bool :=
  match alts with
  | [] => false
  | a :: alts' =>
      (length a <=? String.length p)%nat &&
      match match_alt a p with Some (_, rest) => String.eqb rest "" | None => first_full alts' p end
  end.

Lemma try_alts_full (k : string -> option (list string * string)) (alts : list alt) (p r : string)
    (caps : list string) (r' : string) :
  first_full alts p = true -> k r = Some (caps, r') -> try_alts k alts (p ++ r) = Some (p :: caps, r').
Proof.
  intros Hf Hk. induction alts as [|a alts IH]; [done|]. cbn in Hf.
  apply andb_prop in Hf as [Hl Hf]. apply Nat.leb_le in Hl. cbn.
  destruct (match_alt a p) as [[cap rest]|] eqn:E.
  - apply String.eqb_eq in Hf as ->. rewrite (match_alt_app _ _ _ _ _ E), str_app_nil_l, Hk.
    apply match_alt_split in E. by rewrite E, str_app_nil_r.
  - by rewrite (match_alt_none_app _ _ _ Hl E), IH.
Qed.

Lemma match_fmt_field (alts : list alt) (its : list fmt_item) (p r : string) (caps : list string) (r' : string) :
  first_full alts p = true -> match_fmt its r = Some (caps, r') ->
  match_fmt (IField alts :: its) (p ++ r) = Some (p :: caps, r').
Proof. apply try_alts_full. Qed.

Lemma match_fmt_lit (c : ascii) (its : list fmt_item) (r : string) (caps : list string) (r' : string) :
  match_fmt its r = Some (caps, r') -> match_fmt (ILit c :: its) (String c EmptyString ++ r) = Some (caps, r').
Proof. intros H. rewrite str_app_cons, str_app_nil_l. cbn. by rewrite Ascii.eqb_refl. Qed.

(** ** The printed fields *)

(** What a printed field must satisfy for [strptime] to read it back:
    its group takes exactly it, and [int] gives the value. *)
Definition field_ok (alts : list alt) (p : string) (v : Z) : bool :=
  first_full alts p && match py_int p with Ok w => w =? v | Raise _ => false end.

Lemma field_ok_Y (v : Z) : 0 <= v <= 9999 -> field_ok alts_Y (pad4 v) v = true.
Proof. intros Hv. apply (forall_from_spec (fun v => field_ok alts_Y (pad4 v) v) (Z.to_nat 10000) 0); [vm_compute; reflexivity | lia]. Qed.

Ltac field_range lo k := intros Hv; match goal with
  | |- field_ok ?alts _ _ = true =>
      apply (forall_from_spec (fun v => field_ok alts (pad2 v) v) (Z.to_nat k) lo); [vm_compute; reflexivity | lia]
  end.

Lemma field_ok_m (v : Z) : 1 <= v <= 12 -> field_ok alts_m (pad2 v) v = true.
Proof. field_range 1 12. Qed.
Lemma field_ok_d (v : Z) : 1 <= v <= 31 -> field_ok alts_d (pad2 v) v = true.
Proof. field_range 1 31. Qed.
Lemma field_ok_H (v : Z) : 0 <= v <= 23 -> field_ok alts_H (pad2 v) v = true.
Proof. field_range 0 24. Qed.
Lemma field_ok_M (v : Z) : 0 <= v <= 59 -> field_ok alts_M (pad2 v) v = true.
Proof. field_range 0 60. Qed.
Lemma field_ok_S (v : Z) : 0 <= v <= 61 -> field_ok alts_S (pad2 v) v = true.
Proof. field_range 0 62. Qed.

Lemma field_first (alts : list alt) (p : string) (v : Z) : field_ok alts p v = true -> first_full alts p = true.
Proof. unfold field_ok. by intros [-> _]%andb_prop. Qed.

Lemma field_int (alts : list alt) (p : string) (v : Z) : field_ok alts p v = true -> py_int p = Ok v.
Proof. unfold field_ok. intros [_ H]%andb_prop. destruct (py_int p) as [w|]; [|done]. by apply Z.eqb_eq in H as ->. Qed.

Lemma dchar_not_space (k : Z) : 0 <= k < 10 -> py_isspace (dchar k) = false.
Proof.
  intros Hk. apply negb_true_iff.
  apply (forall_from_spec (fun k => negb (py_isspace (dchar k))) (Z.to_nat 10) 0); [vm_compute; reflexivity | lia].
Qed.

Lemma lstrip_pad2 (v : Z) : lstrip (pad2 v) = pad2 v.
Proof. unfold pad2. cbn. rewrite dchar_not_space; [done|]. apply Z.mod_pos_bound. lia. Qed.

Lemma days_in_month_le (y m : Z) : days_in_month y m <= 31.
Proof.
  unfold days_in_month. case_match; [lia|].
  pose proof (nth_in_or_default (Z.to_nat (m - 1)) days_in_month_tbl 0) as Hin.
  set (x := nth _ _ _) in *. clearbody x. destruct Hin as [Hin|Hd]; [|lia].
  cbn in Hin. intuition lia.
Qed.

(** [re.match] on a printed datetime followed by [r]: the six groups are
    the six printed fields and [r] is left. *)
Lemma match_iso (y m d h mi sec : Z) (r : string) :
  0 <= y <= 9999 -> 1 <= m <= 12 -> 1 <= d <= 31 -> 0 <= h <= 23 -> 0 <= mi <= 59 -> 0 <= sec <= 61 ->
  match_fmt iso_fmt (fmt_iso y m d h mi sec ++ r) = Some ([pad4 y; pad2 m; pad2 d; pad2 h; pad2 mi; pad2 sec], r).
Proof.
  intros Hy Hm Hd Hh Hmi Hs. unfold fmt_iso, iso_fmt. rewrite <- !str_app_assoc.
  apply match_fmt_field; [eapply field_first, field_ok_Y; lia|]. apply match_fmt_lit.
  apply match_fmt_field; [eapply field_first, field_ok_m; lia|]. apply match_fmt_lit.
  apply match_fmt_field; [eapply field_first, field_ok_d; lia|]. apply match_fmt_lit.
  apply match_fmt_field; [eapply field_first, field_ok_H; lia|]. apply match_fmt_lit.
  apply match_fmt_field; [eapply field_first, field_ok_M; lia|]. apply match_fmt_lit.
  apply match_fmt_field; [eapply field_first, field_ok_S; lia|]. apply match_fmt_lit.
  done.
Qed.

(** [datetime.strptime] on a string in the format [_iso] prints
    (four-digit year, two-digit month, day, hour, minute and second up
    to 61) followed by any rest [r]: it raises [ValueError] when [r] is
    not empty ("unconverted data remains"), for year 0, for a day past
    the end of its month (February 29 of a common year) and for a leap
    second 60 or 61, and otherwise returns the datetime of the fields. *)
Lemma strptime_fmt (y m d h mi sec : Z) (r : string) :
  0 <= y <= 9999 -> 1 <= m <= 12 -> 1 <= d <= 31 -> 0 <= h <= 23 -> 0 <= mi <= 59 -> 0 <= sec <= 61 ->
  strptime_iso (fmt_iso y m d h mi sec ++ r) =
  if negb (String.eqb r "") || (y <? 1) || (days_in_month y m <? d) || (59 <? sec) then Raise ValueError
  else Ok ((ymd2ord y m d - 1) * day_secs + h * 3600 + mi * 60 + sec).
Proof.
  intros Hy Hm Hd Hh Hmi Hs. unfold strptime_iso. rewrite match_iso by lia.
  destruct (String.eqb r "") eqn:Er; [|done]. cbn [negb orb].
  rewrite lstrip_pad2, (field_int _ _ _ (field_ok_Y y Hy)), (field_int _ _ _ (field_ok_m m Hm)),
    (field_int _ _ _ (field_ok_d d Hd)), (field_int _ _ _ (field_ok_H h Hh)),
    (field_int _ _ _ (field_ok_M mi Hmi)), (field_int _ _ _ (field_ok_S sec Hs)).
  cbn. by destruct ((y <? 1) || (days_in_month y m <? d)).
Qed.

(** Splitting a datetime into its ordinal and time of day. *)
Lemma strftime_iso_fields (t : Z) :
  0 <= t < max_secs ->
  let n := t / day_secs + 1 in let secs := t mod day_secs in
  1 <= n <= MAXORDINAL /\ 0 <= secs / 3600 <= 23 /\ 0 <= secs mod 3600 / 60 <= 59 /\
  0 <= secs mod 3600 mod 60 <= 59 /\
  t = (n - 1) * day_secs + secs / 3600 * 3600 + secs mod 3600 / 60 * 60 + secs mod 3600 mod 60.
Proof.
  unfold max_secs, MAXORDINAL, day_secs. intros Ht. cbv zeta. set (secs := t mod 86400).
  pose proof (Z.div_mod t 86400 ltac:(lia)). pose proof (Z.mod_pos_bound t 86400 ltac:(lia)).
  pose proof (Z.div_mod secs 3600 ltac:(lia)). pose proof (Z.mod_pos_bound secs 3600 ltac:(lia)).
  pose proof (Z.div_mod (secs mod 3600) 60 ltac:(lia)). pose proof (Z.mod_pos_bound (secs mod 3600) 60 ltac:(lia)).
  assert (0 <= t / 86400 < 3652059) by (split; [apply Z.div_pos | apply Z.div_lt_upper_bound]; lia).
  assert (0 <= secs / 3600 <= 23) by (split; [apply Z.div_pos | apply Z.lt_succ_r, Z.div_lt_upper_bound]; lia).
  assert (0 <= secs mod 3600 / 60 <= 59) by (split; [apply Z.div_pos | apply Z.lt_succ_r, Z.div_lt_upper_bound]; lia).
  lia.
Qed.

(** [strptime] of [_iso(t)] from year 1000 on. *)
Lemma strftime_parses (t : Z) :
  (ymd2ord 1000 1 1 - 1) * day_secs <= t < max_secs -> strptime_iso (strftime_iso t) = Ok t.
Proof.
  intros Ht. change (ymd2ord 1000 1 1) with 364878 in Ht.
  destruct (strftime_iso_fields t ltac:(unfold day_secs in *; lia)) as (Hn & Hh & Hmi & Hs & Et).
  pose proof (ord2ymd_spec (t / day_secs + 1) Hn) as Hspec. unfold strftime_iso.
  destruct (ord2ymd (t / day_secs + 1)) as [[y m] d]. destruct Hspec as (Hm & Hd & Hy & Ho & H1000).
  pose proof (days_in_month_le y m).
  rewrite <- (str_app_nil_r (fmt_iso _ _ _ _ _ _)), strptime_fmt by lia.
  replace (y <? 1) with false by lia. replace (days_in_month y m <? d) with false by lia.
  replace (59 <? _) with false by lia. cbn. f_equal. rewrite Ho. lia.
Qed.

(** C16: [strptime] inverts [_iso]: for every datetime [t] from
    1000-01-01T00:00:00 to 9999-12-31T23:59:59, parsing the string
    [_iso(t)] with the same format gives [t] back. *)
Theorem strptime_strftime (t : Z) :
  (ymd2ord 1000 1 1 - 1) * day_secs <= t < max_secs -> strptime_iso (strftime_iso t) = Ok t.
Proof. apply strftime_parses. Qed.

(** ** Witnesses *)

Lemma strptime_strftime_witness : strptime_iso (strftime_iso 63901299600) = Ok 63901299600.
Proof. apply strptime_strftime. split; [apply Z.leb_le | apply Z.ltb_lt]; vm_compute; reflexivity. Defined.

End PyDateTime.
