(* ===== verification/PyVal.v ===== *)
(** * Python values: what [json.load] produces and the code builds

    The tools read JSON with [json.load] and build their findings and
    reports as Python dicts and lists.  [pyval] is that universe (floats
    are not modelled: every number of the inputs and outputs is an [int]).
    Each operation the sources apply to such values is a definition here,
    with its Python failure modes: [d.get(k, default)] on a non-dict raises
    [AttributeError], [x.lower()] on a non-str raises [AttributeError],
    [s in x] on an int, bool or None raises [TypeError].
    [py_repr] is [repr()] (and [str()] of containers), [json_dumps] is
    [json.dumps] with its default arguments ([ensure_ascii=True],
    separators [", "] and [": "]). *)

From S2P Require Import Prelude PyStr.
Local Open Scope string_scope.

#[local] Set Warnings "-register-all".
Inductive pyval : Type :=
| PNone
| PBool (b : bool)
| PInt (z : Z)
| PStr (s : string)
| PList (xs : list pyval)
| PDict (kvs : list (string * pyval)).

(** Induction principle with hypotheses for the elements of lists and
    the values of dicts. *)
Section pyval_ind_strong.
Variable P : pyval -> Prop.
Hypothesis HNone : P PNone.
Hypothesis HBool : forall b, P (PBool b).
Hypothesis HInt : forall z, P (PInt z).
Hypothesis HStr : forall s, P (PStr s).
Hypothesis HList : forall xs, Forall P xs -> P (PList xs).
Hypothesis HDict : forall kvs, Forall (fun kv => P kv.2) kvs -> P (PDict kvs).

Fixpoint pyval_ind' (v : pyval) : P v :=
  match v with
  | PNone => HNone
  | PBool b => HBool b
  | PInt z => HInt z
  | PStr s => HStr s
  | PList xs =>
      HList xs ((fix go (l : list pyval) : Forall P l :=
                   match l with
                   | [] => List.Forall_nil _
                   | x :: l' => @List.Forall_cons _ P x l' (pyval_ind' x) (go l')
                   end) xs)
  | PDict kvs =>
      HDict kvs ((fix go (l : list (string * pyval)) : Forall (fun kv => P kv.2) l :=
                    match l with
                    | [] => List.Forall_nil _
                    | kv :: l' => @List.Forall_cons _ (fun kv => P kv.2) kv l' (pyval_ind' kv.2) (go l')
                    end) kvs)
  end.
End pyval_ind_strong.

(** ** Equality *)

(** Structural equality of values.  It is Python's [==] on the values
    the tools compare (strings, ints, None); Python also identifies
    [True] with [1] and dicts up to key order, which no theorem here
    relies on. *)
Fixpoint pyval_eqb (a b : pyval) : bool :=
  match a, b with
  | PNone, PNone => true
  | PBool x, PBool y => Bool.eqb x y
  | PInt x, PInt y => Z.eqb x y
  | PStr x, PStr y => String.eqb x y
  | PList xs, PList ys =>
      (fix go (xs ys : list pyval) : bool :=
         match xs, ys with
         | [], [] => true
         | x :: xs', y :: ys' => pyval_eqb x y && go xs' ys'
         | _, _ => false
         end) xs ys
  | PDict xs, PDict ys =>
      (fix go (xs ys : list (string * pyval)) : bool :=
         match xs, ys with
         | [], [] => true
         | (k, x) :: xs', (k', y) :: ys' => String.eqb k k' && pyval_eqb x y && go xs' ys'
         | _, _ => false
         end) xs ys
  | _, _ => false
  end.

Lemma pyval_eqb_eq (a b : pyval) : pyval_eqb a b = true <-> a = b.
Proof.
  revert b. induction a as [| | | |xs IH|kvs IH] using pyval_ind'; intros [| | | |ys|kvs']; simpl;
    rewrite ?Bool.eqb_true_iff, ?Z.eqb_eq, ?String.eqb_eq; try (split; congruence).
  - revert ys; induction IH as [|x xs Hx _ IHxs]; intros [|y ys]; try (split; congruence).
    rewrite andb_true_iff, Hx, IHxs. split; [intros [-> [=->]]|intros [=-> ->]]; done.
  - revert kvs'; induction IH as [|[k x] kvs Hx _ IHkvs]; intros [|[k' y] kvs']; try (split; congruence).
    simpl in Hx. rewrite !andb_true_iff, String.eqb_eq, Hx, IHkvs.
    split; [intros [[-> ->] [=->]]|intros [=-> -> ->]]; done.
Qed.

#[export] Instance pyval_eq_dec : EqDecision pyval.
Proof. intros a b. destruct (pyval_eqb a b) eqn:E; [left|right]; rewrite <-pyval_eqb_eq; congruence. Defined.

(** ** Dict access *)

(** [d[k]] on the key list of a dict (keys of a Python dict are unique, so
    the first binding is the binding). *)
Fixpoint dict_lookup (kvs : list (string * pyval)) (k : string) : option pyval :=
  match kvs with
  | [] => None
  | (k', v) :: rest => if String.eqb k k' then Some v else dict_lookup rest k
  end.

(** [d[k] = v]: replaces the value in place when [k] is a key, appends
    the pair otherwise (a dict keeps insertion order). *)
Fixpoint dict_set (kvs : list (string * pyval)) (k : string) (v : pyval) : list (string * pyval) :=
  match kvs with
  | [] => [(k, v)]
  | (k', v') :: rest => if String.eqb k k' then (k', v) :: rest else (k', v') :: dict_set rest k v
  end.

(** [k in d] for a dict [d]. *)
Definition dict_has (kvs : list (string * pyval)) (k : string) : bool :=
  match dict_lookup kvs k with Some _ => true | None => false end.

(** [v.get(k, default)]: raises [AttributeError] when [v] is not a dict. *)
Definition py_get (v : pyval) (k : string) (default : pyval) : pyres pyval :=
  match v with
  | PDict kvs => Ok (match dict_lookup kvs k with Some x => x | None => default end)
  | _ => Raise AttributeError
  end.

(** Truth value of [v] in an [if]. *)
Definition truthy (v : pyval) : bool :=
  match v with
  | PNone => false
  | PBool b => b
  | PInt z => negb (Z.eqb z 0)
  | PStr s => negb (String.eqb s "")
  | PList xs => negb (Nat.eqb (length xs) 0)
  | PDict kvs => negb (Nat.eqb (length kvs) 0)
  end.

(** [v == "s"]: only a [str] equal to [s] compares equal to a [str]. *)
Definition py_eq_str (v : pyval) (s : string) : bool :=
  match v with PStr t => String.eqb t s | _ => false end.

(** [v == n] for an [int] [n]: [True] and [False] compare as 1 and 0. *)
Definition py_eq_int (v : pyval) (n : Z) : bool :=
  match v with
  | PInt z => Z.eqb z n
  | PBool b => Z.eqb (if b then 1 else 0)%Z n
  | _ => false
  end.

(** [s in v] for a [str] [s]: substring in a [str], element equality in a
    [list], key membership in a [dict], [TypeError] otherwise. *)
Definition py_in (s : string) (v : pyval) : pyres bool :=
  match v with
  | PStr t => Ok (contains s t)
  | PList xs => Ok (existsb (fun x => py_eq_str x s) xs)
  | PDict kvs => Ok (dict_has kvs s)
  | _ => Raise TypeError
  end.

(** [v.lower()]. *)
Definition py_lower (v : pyval) : pyres string :=
  match v with
  | PStr s => Ok (lower s)
  | _ => Raise AttributeError
  end.

(** [v.startswith((p1, ..., pn))]. *)
Definition py_startswith_any (v : pyval) (ps : list string) : pyres bool :=
  match v with
  | PStr s => Ok (startswith_any s ps)
  | _ => Raise AttributeError
  end.

(** [for x in v]: a list yields its elements, a dict its keys, a str its
    characters; other values raise [TypeError]. *)
Fixpoint str_chars (s : string) : list pyval :=
  match s with
  | EmptyString => []
  | String c t => PStr (String c "") :: str_chars t
  end.

Definition py_iter (v : pyval) : pyres (list pyval) :=
  match v with
  | PList xs => Ok xs
  | PDict kvs => Ok (map (fun kv => PStr kv.1) kvs)
  | PStr s => Ok (str_chars s)
  | _ => Raise TypeError
  end.

(** ** [repr] and [str] *)

Definition ch (n : nat) : string := String (ascii_of_nat n) EmptyString.
Definition dq : string := ch 34.
Definition sq : string := ch 39.
Definition bs : string := ch 92.

Definition hex_digit (n : nat) : string :=
  if (n <? 10)%nat then ch (48 + n) else ch (87 + n).

(** Two lowercase hex digits of a code below 256. *)
Definition hex2 (n : nat) : string := hex_digit (n / 16) ++ hex_digit (n mod 16).

(** [str.isprintable] on one character of U+0000..U+00FF. *)
Definition py_isprintable (c : ascii) : bool :=
  let n := char_code c in
  ((32 <=? n) && (n <=? 126) || (161 <=? n) && negb (n =? 173))%nat.

(** One character inside [repr(s)] with quote [q]. *)
Definition repr_char (q : string) (c : ascii) : string :=
  let n := char_code c in
  if String.eqb (String c "") q || (n =? 92)%nat then bs ++ String c ""
  else if (n =? 9)%nat then bs ++ "t"
  else if (n =? 10)%nat then bs ++ "n"
  else if (n =? 13)%nat then bs ++ "r"
  else if py_isprintable c then String c ""
  else bs ++ "x" ++ hex2 n.

Fixpoint repr_body (q : string) (s : string) : string :=
  match s with
  | EmptyString => ""
  | String c t => repr_char q c ++ repr_body q t
  end.

(** [repr(s)] for a [str]: single quotes unless [s] holds a single quote
    and no double quote. *)
Definition py_repr_str (s : string) : string :=
  let q := if contains sq s && negb (contains dq s) then dq else sq in
  q ++ repr_body q s ++ q.

(** [repr(v)], which is also [str(v)] for every value but a [str]. *)
Fixpoint py_repr (v : pyval) : string :=
  match v with
  | PNone => "None"
  | PBool true => "True"
  | PBool false => "False"
  | PInt z => py_str_int z
  | PStr s => py_repr_str s
  | PList xs => "[" ++ join ", " (map py_repr xs) ++ "]"
  | PDict kvs =>
      "{" ++ join ", " (map (fun kv => py_repr_str kv.1 ++ ": " ++ py_repr kv.2) kvs) ++ "}"
  end.

(** [str(v)], also what an f-string shows for [{v}]. *)
Definition py_str (v : pyval) : string :=
  match v with PStr s => s | _ => py_repr v end.

(** ** [json.dumps] *)

(** One character of a JSON string with [ensure_ascii=True]: quote and
    backslash are escaped, the short escapes are used for backspace, tab,
    newline, form feed and carriage return, every other character outside
    U+0020..U+007E becomes [\u00hh]. *)
Definition json_escape_char (c : ascii) : string :=
  let n := char_code c in
  if (n =? 34)%nat then bs ++ dq
  else if (n =? 92)%nat then bs ++ bs
  else if (n =? 8)%nat then bs ++ "b"
  else if (n =? 9)%nat then bs ++ "t"
  else if (n =? 10)%nat then bs ++ "n"
  else if (n =? 12)%nat then bs ++ "f"
  else if (n =? 13)%nat then bs ++ "r"
  else if ((32 <=? n) && (n <=? 126))%nat then String c ""
  else bs ++ "u00" ++ hex2 n.

Fixpoint json_escape (s : string) : string :=
  match s with
  | EmptyString => ""
  | String c t => json_escape_char c ++ json_escape t
  end.

Definition json_str (s : string) : string := dq ++ json_escape s ++ dq.

Fixpoint json_dumps (v : pyval) : string :=
  match v with
  | PNone => "null"
  | PBool true => "true"
  | PBool false => "false"
  | PInt z => py_str_int z
  | PStr s => json_str s
  | PList xs => "[" ++ join ", " (map json_dumps xs) ++ "]"
  | PDict kvs =>
      "{" ++ join ", " (map (fun kv => json_str kv.1 ++ ": " ++ json_dumps kv.2) kvs) ++ "}"
  end.

(** ** What [json.dumps] keeps of the strings of a value *)

(** Every key and every [str] of a value, nested ones included. *)
Fixpoint strings_of (v : pyval) : list string :=
  match v with
  | PStr s => [s]
  | PList xs => List.concat (map strings_of xs)
  | PDict kvs => List.concat (map (fun kv => kv.1 :: strings_of kv.2) kvs)
  | _ => []
  end.

(** Characters that [json.dumps] writes as themselves. *)
Definition json_plain (c : ascii) : bool :=
  let n := char_code c in
  ((32 <=? n) && (n <=? 126) && negb (n =? 34) && negb (n =? 92))%nat.

Lemma json_escape_app (a b : string) :
  json_escape (a ++ b) = (json_escape a ++ json_escape b)%string.
Proof. induction a; str_simpl; [done|]. rewrite IHa. apply str_app_assoc. Qed.

Lemma join_contains (sep x : string) (xs : list string) :
  In x xs -> x ∈ₛ join sep xs.
Proof.
  induction xs as [|y [|z zs] IH]; simpl; [done| |].
  - intros [->|[]]. apply contains_refl.
  - intros [->|Hin]; [apply contains_app_l, contains_refl|].
    apply contains_app_r, contains_app_r. by apply IH.
Qed.

Lemma json_str_in_dumps (v : pyval) (s : string) :
  In s (strings_of v) -> json_escape s ∈ₛ json_dumps v.
Proof.
  induction v as [| | |t|xs IH|kvs IH] using pyval_ind'; cbn [strings_of json_dumps];
    try (intros []; fail).
  - intros [<-|[]]. unfold json_str. apply contains_middle.
  - rewrite in_concat. intros [l [Hl Hs]]. apply in_map_iff in Hl as [x [<- Hx]].
    rewrite List.Forall_forall in IH.
    apply contains_app_r, contains_app_l. eapply contains_trans; [by apply IH|].
    apply join_contains, in_map, Hx.
  - rewrite in_concat. intros [l [Hl Hs]]. apply in_map_iff in Hl as [[k x] [<- Hx]].
    rewrite List.Forall_forall in IH.
    apply contains_app_r, contains_app_l. eapply contains_trans; [|apply join_contains, in_map, Hx].
    destruct Hs as [<-|Hs]; cbn [fst snd].
    + unfold json_str. apply contains_app_l, contains_middle.
    + apply contains_app_r, contains_app_r. apply (IH (k, x) Hx Hs).
Qed.

Lemma lower_split (s x y : string) :
  lower s = (x ++ y)%string -> exists a b, s = (a ++ b)%string /\ lower a = x /\ lower b = y.
Proof.
  revert s. induction x as [|c x IH]; intros s Hs.
  - exists "", s. by rewrite str_app_nil_l in *.
  - destruct s as [|c' s]; [discriminate|]. rewrite str_app_cons in Hs. simpl in Hs.
    injection Hs as Hc Hs. destruct (IH s Hs) as (a & b & -> & Ha & Hb).
    exists (String c' a), b. rewrite str_app_cons. simpl. split_and!; congruence.
Qed.

(** Checked on all 256 characters. *)
Lemma lower_json_escape_char (c : ascii) :
  json_plain (lower_char c) = true -> lower (json_escape_char c) = String (lower_char c) "".
Proof.
  destruct c as [[] [] [] [] [] [] [] []]; vm_compute; intros H; first [reflexivity | discriminate H].
Qed.

Lemma lower_json_escape_plain (m : string) :
  all_chars json_plain (lower m) = true -> lower (json_escape m) = lower m.
Proof.
  induction m as [|c m IH]; [done|]. simpl. intros [Hc Hm]%andb_prop.
  rewrite lower_app, lower_json_escape_char by done. rewrite str_app_cons, str_app_nil_l. by rewrite IH.
Qed.

(** A keyword of plain characters in the lowercased text of a string is
    in the lowercased JSON encoding of that string. *)
Lemma keyword_in_escape (k s : string) :
  all_chars json_plain k = true -> k ∈ₛ lower s -> k ∈ₛ lower (json_escape s).
Proof.
  intros Hk. rewrite contains_spec. intros (x & y & Hs).
  apply lower_split in Hs as (a & r & -> & <- & Hr).
  apply lower_split in Hr as (m & b & -> & Hm & <-).
  rewrite !json_escape_app, !lower_app, (lower_json_escape_plain m) by (by rewrite Hm).
  rewrite Hm. apply contains_middle.
Qed.

Lemma keyword_in_dumps (k : string) (v : pyval) (s : string) :
  all_chars json_plain k = true -> In s (strings_of v) -> k ∈ₛ lower s -> k ∈ₛ lower (json_dumps v).
Proof.
  intros Hk Hs Hks. eapply contains_trans; [by apply keyword_in_escape|].
  by apply contains_lower, json_str_in_dumps.
Qed.

(** ** Dict update *)

Lemma dict_lookup_set_eq (kvs : list (string * pyval)) (k : string) (v : pyval) :
  dict_lookup (dict_set kvs k v) k = Some v.
Proof.
  induction kvs as [|[k' v'] kvs IH]; simpl; [by rewrite String.eqb_refl|].
  destruct (String.eqb_spec k k') as [->|Hne]; simpl; [by rewrite String.eqb_refl|].
  destruct (String.eqb_spec k k'); [done|]. exact IH.
Qed.

Lemma dict_lookup_set_ne (kvs : list (string * pyval)) (k k' : string) (v : pyval) :
  k <> k' -> dict_lookup (dict_set kvs k' v) k = dict_lookup kvs k.
Proof.
  intros Hne. induction kvs as [|[k'' v'] kvs IH]; simpl.
  - destruct (String.eqb_spec k k'); congruence.
  - destruct (String.eqb_spec k' k'') as [->|Hne']; simpl.
    + destruct (String.eqb_spec k k''); congruence.
    + destruct (String.eqb_spec k k''); [done|]. exact IH.
Qed.
