(* ===== verification/Json.v ===== *)
(** * JSON lines: [json.dumps(..., ensure_ascii=False)] and [json.loads]

    [log_generator.py] writes its events with [write_jsonl] (one
    [json.dumps(ev, ensure_ascii=False)] per line) and reads them back
    with [load_jsonl] ([json.loads] of every non-blank stripped line)
    before printing its summary.  This file models the two functions and
    the parts of Python's [json] they call:

    - [dumps_na] is [json.dumps] with [ensure_ascii=False] and the default
      separators: only the quote, the backslash and the characters below
      U+0020 are escaped ([py_encode_basestring]);
    - [parse_value], [parse_elements] and [parse_members] are CPython's
      scanner ([scan_once], [JSONArray], [JSONObject]) over a string, with
      fuel; [parse_string] is [scanstring] in strict mode, [parse_number]
      the number pattern [NUMBER_RE]: an optional minus, [0] or a digit
      [1-9] followed by digits, an optional fraction and exponent;
    - an object is built by [dict(pairs)] ([dict_of_pairs]), so a repeated
      key keeps its first place and its last value.

    Floats and code points above U+00FF are not values of [pyval]: a
    number with a fraction or an exponent, [NaN], [Infinity],
    [-Infinity] and a [\uXXXX] escape above U+00FF stop the reader with
    [Unmodelled] (not an exception of Python: Python returns a float or a
    wider character there).  Every [ValueError] of the reader is a
    [json.JSONDecodeError] of Python at the same place of the text, since
    the text before it holds none of these.  The
    theorems of the file are the round trips [loads (dumps_na v) = Ok v]
    and [load_jsonl (write_jsonl evs) = Ok (map PDict evs)] for values
    whose dicts have no repeated key. *)

From S2P Require Import Prelude PyStr PyVal.
From Stdlib Require Import Decimal DecimalString DecimalN DecimalPos.
Local Open Scope string_scope.

Module Json.

(** ** [json.dumps(v, ensure_ascii=False)] *)

(** One character of [py_encode_basestring]: quote and backslash, the
    short escapes, [\u00XX] for the other characters below U+0020, every
    other character as itself. *)
Definition escape_char_na (c : ascii) : string :=
  let n := char_code c in
  if (n =? 34)%nat then bs ++ dq
  else if (n =? 92)%nat then bs ++ bs
  else if (n =? 8)%nat then bs ++ "b"
  else if (n =? 9)%nat then bs ++ "t"
  else if (n =? 10)%nat then bs ++ "n"
  else if (n =? 12)%nat then bs ++ "f"
  else if (n =? 13)%nat then bs ++ "r"
  else if (n <? 32)%nat then bs ++ "u00" ++ hex2 n
  else String c "".

Fixpoint escape_na (s : string) : string :=
  match s with
  | EmptyString => ""
  | String c t => escape_char_na c ++ escape_na t
  end.

Definition str_na (s : string) : string := dq ++ escape_na s ++ dq.

Fixpoint dumps_na (v : pyval) : string :=
  match v with
  | PNone => "null"
  | PBool true => "true"
  | PBool false => "false"
  | PInt z => py_str_int z
  | PStr s => str_na s
  | PList xs => "[" ++ join ", " (map dumps_na xs) ++ "]"
  | PDict kvs => "{" ++ join ", " (map (fun kv => str_na kv.1 ++ ": " ++ dumps_na kv.2) kvs) ++ "}"
  end.

(** ** The reader *)

(** The whitespace the scanner skips between tokens: [[ \t\n\r]*]. *)
Definition is_ws (c : ascii) : bool :=
  let n := char_code c in ((n =? 32) || (n =? 9) || (n =? 10) || (n =? 13))%nat.

Fixpoint skip_ws (s : string) : string :=
  match s with
  | String c t => if is_ws c then skip_ws t else s
  | EmptyString => EmptyString
  end.

Definition is_digit (c : ascii) : bool := ((48 <=? char_code c) && (char_code c <=? 57))%nat.

(** A hex digit of a [\uXXXX] escape, either case. *)
Definition hex_val (c : ascii) : option nat :=
  let n := char_code c in
  if ((48 <=? n) && (n <=? 57))%nat then Some (n - 48)%nat
  else if ((97 <=? n) && (n <=? 102))%nat then Some (n - 87)%nat
  else if ((65 <=? n) && (n <=? 70))%nat then Some (n - 55)%nat
  else None.

Definition hex4 (a b c d : ascii) : option nat :=
  match hex_val a, hex_val b, hex_val c, hex_val d with
  | Some a, Some b, Some c, Some d => Some (((a * 16 + b) * 16 + c) * 16 + d)%nat
  | _, _, _, _ => None
  end.

(** The one-character escapes of [BACKSLASH]. *)
Definition short_escape (e : ascii) : option ascii :=
  let n := char_code e in
  if (n =? 34)%nat then Some (ascii_of_nat 34)
  else if (n =? 92)%nat then Some (ascii_of_nat 92)
  else if (n =? 47)%nat then Some (ascii_of_nat 47)
  else if (n =? 98)%nat then Some (ascii_of_nat 8)
  else if (n =? 102)%nat then Some (ascii_of_nat 12)
  else if (n =? 110)%nat then Some (ascii_of_nat 10)
  else if (n =? 114)%nat then Some (ascii_of_nat 13)
  else if (n =? 116)%nat then Some (ascii_of_nat 9)
  else None.

(** [scanstring(s, end, strict=True)] after the opening quote: the
    characters up to the closing quote and the rest; a raw control
    character, an unknown escape or an unterminated string is an
    error. *)
Fixpoint parse_string (s : string) : pyres (string * string) :=
  match s with
  | EmptyString => Raise ValueError
  | String c t =>
      let n := char_code c in
      if (n =? 34)%nat then Ok ("", t)
      else if (n =? 92)%nat then
        match t with
        | EmptyString => Raise ValueError
        | String e t' =>
            if (char_code e =? 117)%nat then
              match t' with
              | String h1 (String h2 (String h3 (String h4 t''))) =>
                  match hex4 h1 h2 h3 h4 with
                  | Some k =>
                      if (k <? 256)%nat then '(x, r) ← parse_string t''; Ok (String (ascii_of_nat k) x, r)
                      else Raise Unmodelled
                  | None => Raise ValueError
                  end
              | _ => Raise ValueError
              end
            else match short_escape e with
                 | Some d => '(x, r) ← parse_string t'; Ok (String d x, r)
                 | None => Raise ValueError
                 end
        end
      else if (n <? 32)%nat then Raise ValueError
      else '(x, r) ← parse_string t; Ok (String c x, r)
  end.

Fixpoint read_digits (s : string) : string * string :=
  match s with
  | String c t => if is_digit c then let '(ds, r) := read_digits t in (String c ds, r) else ("", s)
  | EmptyString => ("", "")
  end.

(** The integer part: [0], or a digit [1-9] and the digits after it. *)
Definition int_part (s : string) : option (string * string) :=
  match s with
  | String c t =>
      if (char_code c =? 48)%nat then Some ("0", t)
      else if is_digit c then let '(ds, r) := read_digits t in Some (String c ds, r)
      else None
  | EmptyString => None
  end.

(** [(\.\d+)?([eE][-+]?\d+)?] matches something: the number is a float. *)
Definition float_tail (r : string) : bool :=
  match r with
  | String c t =>
      if (char_code c =? 46)%nat then match t with String d _ => is_digit d | _ => false end
      else if ((char_code c =? 101) || (char_code c =? 69))%nat then
        match t with
        | String d t' =>
            is_digit d || (((char_code d =? 43) || (char_code d =? 45))%nat
                           && match t' with String e _ => is_digit e | _ => false end)
        | _ => false
        end
      else false
  | EmptyString => false
  end.

(** [NUMBER_RE] at the start of [s], for an integer. *)
Definition parse_number (s : string) : pyres (Z * string) :=
  let '(neg, s1) := match s with
                    | String c t => if (char_code c =? 45)%nat then (true, t) else (false, s)
                    | EmptyString => (false, s)
                    end in
  match int_part s1 with
  | Some (ds, r) => if float_tail r then Raise Unmodelled else z ← py_int ds; Ok ((if neg then - z else z)%Z, r)
  | None => Raise ValueError
  end.

(** [dict(pairs)]. *)
Definition dict_of_pairs (kvs : list (string * pyval)) : list (string * pyval) :=
  fold_left (fun d kv => dict_set d kv.1 kv.2) kvs [].

Definition is_char (n : nat) (c : ascii) : bool := (char_code c =? n)%nat.

(** [scan_once], [JSONArray] after its first element's position and
    [JSONObject] after its first key's quote; every call spends one unit
    of fuel. *)
Fixpoint parse_value (n : nat) (s : string) {struct n} : pyres (pyval * string) :=
  match n with
  | O => Raise ValueError
  | S n' =>
      match s with
      | EmptyString => Raise ValueError
      | String c t =>
          if is_char 34 c then '(x, r) ← parse_string t; Ok (PStr x, r)
          else if is_char 123 c then
            match skip_ws t with
            | String d r => if is_char 125 d then Ok (PDict [], r) else parse_members n' [] (String d r)
            | EmptyString => Raise ValueError
            end
          else if is_char 91 c then
            match skip_ws t with
            | String d r => if is_char 93 d then Ok (PList [], r) else parse_elements n' [] (String d r)
            | EmptyString => Raise ValueError
            end
          else if String.prefix "null" s then Ok (PNone, substring 4 (String.length s - 4) s)
          else if String.prefix "true" s then Ok (PBool true, substring 4 (String.length s - 4) s)
          else if String.prefix "false" s then Ok (PBool false, substring 5 (String.length s - 5) s)
          else if String.prefix "NaN" s || String.prefix "Infinity" s || String.prefix "-Infinity" s
          then Raise Unmodelled
          else '(z, r) ← parse_number s; Ok (PInt z, r)
      end
  end
with parse_elements (n : nat) (acc : list pyval) (s : string) {struct n} : pyres (pyval * string) :=
  match n with
  | O => Raise ValueError
  | S n' =>
      '(v, r) ← parse_value n' s;
      match skip_ws r with
      | String d r' =>
          if is_char 44 d then parse_elements n' (acc ++ [v]) (skip_ws r')
          else if is_char 93 d then Ok (PList (acc ++ [v]), r')
          else Raise ValueError
      | EmptyString => Raise ValueError
      end
  end
with parse_members (n : nat) (acc : list (string * pyval)) (s : string) {struct n} : pyres (pyval * string) :=
  match n with
  | O => Raise ValueError
  | S n' =>
      match s with
      | String c t =>
          if is_char 34 c then
            '(k, r) ← parse_string t;
            match skip_ws r with
            | String d r1 =>
                if is_char 58 d then
                  '(v, r2) ← parse_value n' (skip_ws r1);
                  match skip_ws r2 with
                  | String e r3 =>
                      if is_char 44 e then parse_members n' (acc ++ [(k, v)]) (skip_ws r3)
                      else if is_char 125 e then Ok (PDict (dict_of_pairs (acc ++ [(k, v)])), r3)
                      else Raise ValueError
                  | EmptyString => Raise ValueError
                  end
                else Raise ValueError
            | EmptyString => Raise ValueError
            end
          else Raise ValueError
      | EmptyString => Raise ValueError
      end
  end.

(** [json.loads(s)]: one value between optional whitespace.  The fuel is
    one more than the length of the text, enough for every text since
    each call reads at least one character. *)
Definition loads (s : string) : pyres pyval :=
  '(v, r) ← parse_value (S (String.length s)) (skip_ws s);
  if String.eqb (skip_ws r) "" then Ok v else Raise ValueError.

(** ** JSON lines *)

(** [write_jsonl(path, events)] (lines 258-261): the text of the file. *)
Definition write_jsonl (evs : list (list (string * pyval))) : string :=
  List.fold_right (fun ev acc => dumps_na (PDict ev) ++ ch 10 ++ acc) "" evs.

(** Universal newlines of a text-mode read: ["\r\n"] and ["\r"] become
    ["\n"]. *)
Fixpoint translate_newlines (s : string) : string :=
  match s with
  | EmptyString => EmptyString
  | String c t =>
      if is_char 13 c then
        match t with
        | String d t' => if is_char 10 d then String (ascii_of_nat 10) (translate_newlines t')
                         else String (ascii_of_nat 10) (translate_newlines t)
        | EmptyString => String (ascii_of_nat 10) EmptyString
        end
      else String c (translate_newlines t)
  end.

(** [load_jsonl(path)] (lines 264-272) on the text of the file: every
    line, stripped, is skipped when empty and parsed otherwise; the first
    error stops the function. *)
Fixpoint load_lines (ls : list string) : pyres (list pyval) :=
  match ls with
  | [] => Ok []
  | l :: rest =>
      let line := strip l in
      if String.eqb line "" then load_lines rest
      else v ← loads line; vs ← load_lines rest; Ok (v :: vs)
  end.

Definition load_jsonl (text : string) : pyres (list pyval) :=
  load_lines (str_split (ch 10) (translate_newlines text)).


(** ** Well-formed values *)

(** A Python dict has each key once; [json_wf] asks it of every dict in
    a value. *)
Fixpoint json_wf (v : pyval) : bool :=
  match v with
  | PList xs => forallb json_wf xs
  | PDict kvs => bool_decide (NoDup kvs.*1) && forallb (fun kv => json_wf kv.2) kvs
  | _ => true
  end.

(** The fuel the reader spends on a value: one unit per call of the
    scanner. *)
Fixpoint jsize (v : pyval) : nat :=
  match v with
  | PList xs => S (sum_list_with (fun x => S (jsize x)) xs)
  | PDict kvs => S (sum_list_with (fun kv => S (jsize kv.2)) kvs)
  | _ => 1
  end.

(** ** Lemmas: strings and numbers *)

(** Reading one escaped character gives it back. *)
Lemma parse_escape_char (c : ascii) (r : string) :
  parse_string (escape_char_na c ++ r) = '(x, r') ← parse_string r; Ok (String c x, r').
Proof. destruct c as [[] [] [] [] [] [] [] []]; reflexivity. Qed.

Lemma parse_string_escape (s r : string) : parse_string (escape_na s ++ dq ++ r) = Ok (s, r).
Proof.
  induction s as [|c s IH]; [reflexivity|]. cbn [escape_na].
  by rewrite <-str_app_assoc, parse_escape_char, IH, bind_ok.
Qed.

Lemma read_digits_app (ds r : string) :
  all_chars is_digit ds = true -> match r with String c _ => is_digit c = false | EmptyString => True end ->
  read_digits (ds ++ r) = (ds, r).
Proof.
  intros Hds Hr. induction ds as [|c ds IH]; simpl in *.
  - destruct r as [|c r]; simpl; [done|]. by rewrite Hr.
  - apply andb_true_iff in Hds as [Hc Hds]. by rewrite Hc, IH.
Qed.

Lemma nzhead_not_D0 (d t : uint) : Decimal.nzhead d <> D0 t.
Proof. induction d; simpl; congruence. Qed.

(** [str(n)] has no leading zero. *)
Lemma pos_to_uint_head (p : positive) (t : uint) : Pos.to_uint p <> D0 t.
Proof.
  intros Hp. pose proof (DecimalN.Unsigned.to_of (Pos.to_uint p)) as Hn.
  change (N.of_uint (Pos.to_uint p)) with (N.of_uint (N.to_uint (Npos p))) in Hn.
  rewrite DecimalN.Unsigned.of_to in Hn. change (N.to_uint (Npos p)) with (Pos.to_uint p) in Hn.
  rewrite Hp in Hn. unfold Decimal.unorm in Hn. simpl in Hn.
  destruct (Decimal.nzhead t) eqn:Ht; try congruence.
  - injection Hn as ->. exact (DecimalPos.Unsigned.to_uint_nonzero p Hp).
  - injection Hn as ->. exact (nzhead_not_D0 _ _ Ht).
Qed.

Lemma int_part_str_of_N (n : N) (r : string) :
  match r with String c _ => is_digit c = false | EmptyString => True end ->
  int_part (str_of_N n ++ r) = Some (str_of_N n, r).
Proof.
  intros Hr. destruct n as [|p]; [reflexivity|].
  unfold str_of_N. cbn [N.to_uint]. pose proof (pos_to_uint_head p) as Hh.
  pose proof (all_chars_string_of_uint (Pos.to_uint p)) as Hd.
  pose proof (DecimalPos.Unsigned.to_uint_nonnil p) as Hn.
  destruct (Pos.to_uint p) as [|t|t|t|t|t|t|t|t|t|t]; try (by destruct (Hh t)); [done| | | | | | | | |];
    cbn [NilEmpty.string_of_uint] in *; rewrite str_app_cons; cbn [int_part];
    apply andb_true_iff in Hd as [_ Hd]; rewrite read_digits_app by (try done; exact Hd); reflexivity.
Qed.

(** The characters after a value in the output of [dumps_na]: a comma,
    a closing bracket or brace, or the end of the line. *)
Definition value_end (r : string) : bool :=
  match r with
  | EmptyString => true
  | String c _ => is_char 44 c || is_char 93 c || is_char 125 c
  end.

Lemma value_end_no_digit (r : string) :
  value_end r = true -> match r with String c _ => is_digit c = false | EmptyString => True end /\ float_tail r = false.
Proof.
  destruct r as [|c r]; [done|]. unfold value_end, is_char. rewrite !orb_true_iff, !Nat.eqb_eq. intros Hc.
  assert (c = ascii_of_nat 44 \/ c = ascii_of_nat 93 \/ c = ascii_of_nat 125) as Hc'.
  { unfold char_code in Hc. rewrite <-(ascii_nat_embedding c). destruct_or! Hc; rewrite Hc; auto. }
  by destruct Hc' as [->|[->| ->]].
Qed.

Lemma parse_number_int (z : Z) (r : string) : value_end r = true -> parse_number (py_str_int z ++ r) = Ok (z, r).
Proof.
  intros Hr. destruct (value_end_no_digit r Hr) as [Hd Hf]. unfold parse_number, py_str_int.
  destruct (Z.ltb_spec z 0) as [Hz|Hz].
  - rewrite <-str_app_assoc, str_app_cons, str_app_nil_l. cbn -[int_part]. change (char_code "-" =? 45)%nat with true. cbn -[int_part]. rewrite int_part_str_of_N, Hf, py_int_str_of_N by done.
    rewrite bind_ok. f_equal. f_equal. lia.
  - destruct (str_of_N (Z.to_N z)) as [|c t] eqn:Hs; [by destruct (str_of_N_nonempty (Z.to_N z))|].
    rewrite str_app_cons. cbn -[int_part].
    assert ((char_code c =? 45)%nat = false) as ->.
    { pose proof (str_of_N_digits (Z.to_N z)) as Hd'. rewrite Hs in Hd'. cbn [all_chars] in Hd'.
      apply andb_true_iff in Hd' as [Hc _]. apply andb_true_iff in Hc as [Hc _].
      apply Nat.eqb_neq. apply Nat.leb_le in Hc. lia. }
    rewrite <-str_app_cons, <-Hs, int_part_str_of_N, Hf, py_int_str_of_N by done. rewrite bind_ok.
    f_equal. f_equal. lia.
Qed.

(** ** Lemmas: values *)

Lemma skip_ws_cons (c : ascii) (t : string) : is_ws c = false -> skip_ws (String c t) = String c t.
Proof. simpl. by intros ->. Qed.

(** The output of [dumps_na] starts with a character that is neither
    whitespace nor a closing bracket or brace. *)
Lemma dumps_head (v : pyval) :
  exists c t, dumps_na v = String c t /\ is_ws c = false /\ is_char 93 c = false /\ is_char 125 c = false.
Proof.
  destruct v as [|[]|z|s|xs|kvs]; try (by do 2 eexists).
  cbn [dumps_na]. unfold py_str_int. destruct (z <? 0)%Z; [by do 2 eexists|].
  pose proof (str_of_N_digits (Z.to_N z)) as Hd. pose proof (str_of_N_nonempty (Z.to_N z)) as Hne.
  destruct (str_of_N (Z.to_N z)) as [|c t]; [done|]. cbn [all_chars] in Hd.
  apply andb_true_iff in Hd as [Hc _]. apply andb_true_iff in Hc as [Hc1 Hc2].
  apply Nat.leb_le in Hc1, Hc2. exists c, t. unfold is_ws, is_char.
  repeat split; repeat rewrite ?orb_false_iff, ?Nat.eqb_neq; lia.
Qed.

Lemma skip_ws_dumps (v : pyval) (r : string) : skip_ws (dumps_na v ++ r) = dumps_na v ++ r.
Proof. destruct (dumps_head v) as (c & t & -> & Hw & _). rewrite str_app_cons. by apply skip_ws_cons. Qed.

(** [dict(pairs)] of pairs with distinct keys is the list of pairs. *)
Lemma dict_set_fresh (kvs : list (string * pyval)) (k : string) (v : pyval) :
  k ∉ kvs.*1 -> dict_set kvs k v = (kvs ++ [(k, v)])%list.
Proof.
  induction kvs as [|[k' v'] kvs IH]; intros Hk; [done|]. cbn in Hk |- *.
  rewrite not_elem_of_cons in Hk. destruct Hk as [Hne Hk].
  destruct (String.eqb_spec k k'); [done|]. by rewrite IH.
Qed.

Lemma fold_dict_set_nodup (kvs acc : list (string * pyval)) :
  NoDup ((acc ++ kvs)%list).*1 -> fold_left (fun d kv => dict_set d kv.1 kv.2) kvs acc = (acc ++ kvs)%list.
Proof.
  revert acc; induction kvs as [|[k v] kvs IH]; intros acc Hnd; simpl; [by rewrite app_nil_r|].
  rewrite dict_set_fresh.
  - rewrite IH; [by rewrite <-app_assoc|]. by rewrite <-app_assoc.
  - rewrite fmap_app, NoDup_app in Hnd. destruct Hnd as (_ & Hd & _). intros Hin. by apply (Hd k); [|left].
Qed.

Lemma dict_of_pairs_nodup (kvs : list (string * pyval)) : NoDup kvs.*1 -> dict_of_pairs kvs = kvs.
Proof. intros Hnd. apply (fold_dict_set_nodup kvs []). done. Qed.

Lemma skip_ws_comma (t : string) : skip_ws (", " ++ t) = String "," (" " ++ t).
Proof. reflexivity. Qed.

Lemma skip_ws_space (t : string) : skip_ws (" " ++ t) = skip_ws t.
Proof. reflexivity. Qed.

Lemma join_cons_app (sep x : string) (xs : list string) : exists t, join sep (x :: xs) = x ++ t.
Proof. destruct xs; [exists ""; by rewrite str_app_nil_r|by eexists]. Qed.

Lemma skip_ws_join (y : pyval) (ys : list pyval) (t : string) :
  skip_ws (join ", " (map dumps_na (y :: ys)) ++ t) = join ", " (map dumps_na (y :: ys)) ++ t.
Proof.
  destruct (join_cons_app ", " (dumps_na y) (map dumps_na ys)) as [u Hu]. cbn [map]. rewrite Hu, <-str_app_assoc.
  apply skip_ws_dumps.
Qed.

(** [dumps_na] then the reader: the value and the rest. *)
Definition reads_back (v : pyval) : Prop :=
  forall n r, jsize v < n -> value_end r = true -> parse_value n (dumps_na v ++ r) = Ok (v, r).

(** The elements of a list after its opening bracket. *)
Lemma parse_elements_join (x : pyval) (xs acc : list pyval) (n : nat) (r : string) :
  Forall reads_back (x :: xs) -> sum_list_with (fun y => S (jsize y)) (x :: xs) < n ->
  parse_elements n acc (join ", " (map dumps_na (x :: xs)) ++ "]" ++ r) = Ok (PList (acc ++ x :: xs), r).
Proof.
  revert x acc n. induction xs as [|y ys IH]; intros x acc n Hall Hn;
    apply Forall_cons in Hall as [Hx Hxs]; destruct n as [|n']; try lia; cbn [sum_list_with] in Hn.
  - cbn [map join parse_elements]. rewrite Hx by (reflexivity || lia). rewrite bind_ok. reflexivity.
  - change (join ", " (map dumps_na (x :: y :: ys))) with (dumps_na x ++ ", " ++ join ", " (map dumps_na (y :: ys))).
    rewrite <-!str_app_assoc. cbn [parse_elements]. rewrite Hx by (reflexivity || lia).
    rewrite bind_ok, skip_ws_comma. change (is_char 44 ",") with true. cbv iota beta.
    rewrite skip_ws_space, skip_ws_join, (IH y (acc ++ [x])%list n'); [by rewrite <-app_assoc|done|].
    cbn [sum_list_with] in Hn |- *. lia.
Qed.

(** One member of a dict in [dumps_na]. *)
Definition member (kv : string * pyval) : string := str_na kv.1 ++ ": " ++ dumps_na kv.2.

Lemma dq_app (t : string) : dq ++ t = String (ascii_of_nat 34) t.
Proof. reflexivity. Qed.

Lemma skip_ws_colon (t : string) : skip_ws (": " ++ t) = String ":" (" " ++ t).
Proof. reflexivity. Qed.

Lemma skip_ws_member (kv : string * pyval) (t : string) : skip_ws (member kv ++ t) = member kv ++ t.
Proof. unfold member, str_na. by rewrite <-!str_app_assoc, dq_app. Qed.

Lemma skip_ws_join_members (kv : string * pyval) (kvs : list (string * pyval)) (t : string) :
  skip_ws (join ", " (map member (kv :: kvs)) ++ t) = join ", " (map member (kv :: kvs)) ++ t.
Proof.
  destruct (join_cons_app ", " (member kv) (map member kvs)) as [u Hu]. cbn [map]. rewrite Hu, <-str_app_assoc.
  apply skip_ws_member.
Qed.

(** The members of a dict after its opening brace. *)
Lemma parse_members_join (kv : string * pyval) (kvs acc : list (string * pyval)) (n : nat) (r : string) :
  Forall (fun kv => reads_back kv.2) (kv :: kvs) -> sum_list_with (fun kv => S (jsize kv.2)) (kv :: kvs) < n ->
  parse_members n acc (join ", " (map member (kv :: kvs)) ++ "}" ++ r) =
    Ok (PDict (dict_of_pairs (acc ++ kv :: kvs)), r).
Proof.
  revert kv acc n. induction kvs as [|kv' kvs IH]; intros [k v] acc n Hall Hn;
    apply Forall_cons in Hall as [Hx Hxs]; destruct n as [|n']; try lia; cbn [sum_list_with fst snd] in Hn; simpl in Hx.
  - cbn [map join]. unfold member, str_na. cbn [fst snd]. rewrite <-!str_app_assoc, dq_app. cbn [parse_members].
    change (is_char 34 (ascii_of_nat 34)) with true. cbv iota beta.
    rewrite parse_string_escape, bind_ok, skip_ws_colon. change (is_char 58 ":") with true. cbv iota beta.
    rewrite skip_ws_space, skip_ws_dumps, Hx by (reflexivity || lia). rewrite bind_ok. reflexivity.
  - change (join ", " (map member ((k, v) :: kv' :: kvs)))
      with (member (k, v) ++ ", " ++ join ", " (map member (kv' :: kvs))).
    unfold member at 1, str_na. cbn [fst snd]. rewrite <-!str_app_assoc, dq_app. cbn [parse_members].
    change (is_char 34 (ascii_of_nat 34)) with true. cbv iota beta.
    rewrite parse_string_escape, bind_ok, skip_ws_colon. change (is_char 58 ":") with true. cbv iota beta.
    rewrite skip_ws_space, skip_ws_dumps, Hx by (reflexivity || lia). rewrite bind_ok, skip_ws_comma.
    change (is_char 44 ",") with true. cbv iota beta.
    rewrite skip_ws_space, skip_ws_join_members, (IH kv' (acc ++ [(k, v)])%list n'); [by rewrite <-app_assoc|done|].
    cbn [sum_list_with] in Hn |- *. lia.
Qed.

(** ** The round trip *)

Lemma parse_value_num (n : nat) (c : ascii) (t : string) :
  is_digit c = true \/ (char_code c = 45%nat /\ String.prefix "Infinity" t = false) ->
  parse_value (S n) (String c t) = '(z, r) ← parse_number (String c t); Ok (PInt z, r).
Proof.
  intros [Hc|[Hc Hinf]].
  - unfold is_digit in Hc. rewrite andb_true_iff, !Nat.leb_le in Hc.
    assert (char_code c = 48 \/ char_code c = 49 \/ char_code c = 50 \/ char_code c = 51 \/
            char_code c = 52 \/ char_code c = 53 \/ char_code c = 54 \/ char_code c = 55 \/ char_code c = 56 \/
            char_code c = 57)%nat as Hk by lia.
    unfold char_code in Hk. rewrite <-(ascii_nat_embedding c). destruct_or! Hk; rewrite Hk; reflexivity.
  - unfold char_code in Hc. rewrite <-(ascii_nat_embedding c), Hc.
    cbn [parse_value].
    replace (String.prefix "-Infinity" (String (ascii_of_nat 45) t)) with (String.prefix "Infinity" t)
      by reflexivity.
    rewrite Hinf. reflexivity.
Qed.

Lemma digit_not_infinity (c : ascii) (t : string) : is_digit c = true -> String.prefix "Infinity" (String c t) = false.
Proof.
  intros Hc. destruct (String.prefix "Infinity" (String c t)) eqn:E; [|done].
  apply prefix_spec in E as [t0 E]. injection E as -> _. discriminate Hc.
Qed.

Lemma py_str_int_head (z : Z) :
  exists c t, py_str_int z = String c t /\
    (is_digit c = true \/ (char_code c = 45%nat /\ exists c' t', t = String c' t' /\ is_digit c' = true)).
Proof.
  pose proof (str_of_N_nonempty (Z.abs_N z)) as Hne. pose proof (str_of_N_digits (Z.abs_N z)) as Hd.
  unfold py_str_int. destruct (z <? 0)%Z.
  - do 2 eexists. split; [reflexivity|]. right. split; [reflexivity|].
    destruct (str_of_N (Z.abs_N z)) as [|c t]; [done|]. cbn [all_chars] in Hd.
    apply andb_true_iff in Hd as [Hc _]. by exists c, t.
  - pose proof (str_of_N_digits (Z.to_N z)) as Hd'. pose proof (str_of_N_nonempty (Z.to_N z)) as Hne'.
    destruct (str_of_N (Z.to_N z)) as [|c t]; [done|]. cbn [all_chars] in Hd'.
    apply andb_true_iff in Hd' as [Hc _]. by exists c, t; split; [|left].
Qed.

Lemma parse_value_lit (n : nat) (v : pyval) (r : string) :
  v = PNone \/ v = PBool true \/ v = PBool false -> parse_value (S n) (dumps_na v ++ r) = Ok (v, r).
Proof.
  intros Hv. destruct_or! Hv; subst v; cbn [dumps_na];
    [change ("null" ++ r) with (String "n" (String "u" (String "l" (String "l" r))))
    |change ("true" ++ r) with (String "t" (String "r" (String "u" (String "e" r))))
    |change ("false" ++ r) with (String "f" (String "a" (String "l" (String "s" (String "e" r)))))];
    simpl; destruct r; simpl; by rewrite ?Nat.sub_0_r, ?substring_all.
Qed.

(** The text after an opening bracket or brace starts with the first
    element or member. *)
Lemma join_dumps_head (x : pyval) (xs : list pyval) (t : string) :
  exists c u, join ", " (map dumps_na (x :: xs)) ++ t = String c u /\ is_ws c = false /\ is_char 93 c = false.
Proof.
  destruct (dumps_head x) as (c & u & Hx & Hw & H93 & _). destruct (join_cons_app ", " (dumps_na x) (map dumps_na xs)) as [u' Hu].
  cbn [map] in *. rewrite Hu, Hx, <-!str_app_assoc, str_app_cons. by do 2 eexists.
Qed.

Lemma join_member_head (kv : string * pyval) (kvs : list (string * pyval)) (t : string) :
  exists u, join ", " (map member (kv :: kvs)) ++ t = String (ascii_of_nat 34) u.
Proof.
  destruct (join_cons_app ", " (member kv) (map member kvs)) as [u' Hu].
  cbn [map] in *. rewrite Hu. unfold member, str_na. rewrite <-!str_app_assoc, dq_app. by eexists.
Qed.

Lemma parse_value_list (n : nat) (x : pyval) (xs : list pyval) (r : string) :
  parse_value (S n) (dumps_na (PList (x :: xs)) ++ r) = parse_elements n [] (join ", " (map dumps_na (x :: xs)) ++ "]" ++ r).
Proof.
  cbn [dumps_na]. rewrite <-!str_app_assoc. destruct (join_dumps_head x xs ("]" ++ r)) as (c & u & -> & Hw & H93).
  rewrite str_app_cons, str_app_nil_l. cbn [parse_value]. change (is_char 34 "[") with false.
  change (is_char 123 "[") with false. change (is_char 91 "[") with true. cbv iota beta.
  by rewrite skip_ws_cons, H93.
Qed.

Lemma parse_value_dict (n : nat) (kv : string * pyval) (kvs : list (string * pyval)) (r : string) :
  parse_value (S n) (dumps_na (PDict (kv :: kvs)) ++ r) = parse_members n [] (join ", " (map member (kv :: kvs)) ++ "}" ++ r).
Proof.
  cbn [dumps_na]. fold member. rewrite <-!str_app_assoc. destruct (join_member_head kv kvs ("}" ++ r)) as [u ->].
  rewrite str_app_cons, str_app_nil_l. reflexivity.
Qed.

Lemma parse_value_str (n : nat) (s r : string) : parse_value (S n) (dumps_na (PStr s) ++ r) = Ok (PStr s, r).
Proof.
  cbn [dumps_na]. unfold str_na. rewrite <-!str_app_assoc, dq_app. cbn [parse_value].
  change (is_char 34 (ascii_of_nat 34)) with true. cbv iota beta. by rewrite parse_string_escape, bind_ok.
Qed.

Lemma parse_value_int (n : nat) (z : Z) (r : string) : value_end r = true -> parse_value (S n) (dumps_na (PInt z) ++ r) = Ok (PInt z, r).
Proof.
  intros Hr. cbn [dumps_na]. pose proof (parse_number_int z r Hr) as Hp.
  destruct (py_str_int_head z) as (c & t & Hz & Hc). rewrite Hz, str_app_cons in Hp |- *.
  rewrite parse_value_num, Hp, bind_ok; [done|].
  destruct Hc as [Hc|[Hc (c' & t' & -> & Hc')]]; [by left|right]. split; [done|].
  rewrite str_app_cons. by apply digit_not_infinity.
Qed.

(** Every well-formed value reads back from its text. *)
Lemma dumps_reads_back (v : pyval) : json_wf v = true -> reads_back v.
Proof.
  induction v as [| | |s|xs IH|kvs IH] using pyval_ind'; intros Hwf n r Hn Hr; destruct n as [|n]; try lia.
  - by apply parse_value_lit; left.
  - destruct b; apply parse_value_lit; auto.
  - by apply parse_value_int.
  - apply parse_value_str.
  - destruct xs as [|x xs]; [destruct r; reflexivity|].
    rewrite parse_value_list, parse_elements_join; [done| |cbn [jsize] in Hn; lia].
    cbn [json_wf] in Hwf. rewrite forallb_forall in Hwf. rewrite Forall_forall in IH |- *.
    intros y Hy. apply IH; [done|]. apply Hwf. by apply list_elem_of_In.
  - destruct kvs as [|kv kvs]; [destruct r; reflexivity|].
    cbn [json_wf] in Hwf. apply andb_true_iff in Hwf as [Hnd Hwf]. apply bool_decide_eq_true in Hnd.
    rewrite parse_value_dict, parse_members_join, dict_of_pairs_nodup; [done|done| |cbn [jsize] in Hn; lia].
    rewrite forallb_forall in Hwf. rewrite Forall_forall in IH |- *.
    intros y Hy. apply IH; [done|]. apply Hwf. by apply list_elem_of_In.
Qed.

(** The reader spends at most one unit of fuel per character. *)
Lemma jsize_le_length (v : pyval) : jsize v <= String.length (dumps_na v).
Proof.
  induction v as [| | |s|xs IH|kvs IH] using pyval_ind'; cbn [jsize].
  - cbn; lia.
  - destruct b; cbn; lia.
  - destruct (py_str_int_head z) as (c & t & Hz & _). cbn [dumps_na]. rewrite Hz. cbn; lia.
  - cbn [dumps_na]. unfold str_na. rewrite !str_length_app. cbn; lia.
  - destruct xs as [|x xs]; [cbn [dumps_na map join]; rewrite !str_length_app; cbn; lia|]. cbn [dumps_na]. rewrite !str_length_app.
    pose proof (join_length ", " (dumps_na x) (map dumps_na xs)) as Hj. cbn [map] in Hj.
    change (dumps_na x :: map dumps_na xs) with (map dumps_na (x :: xs)) in Hj.
    rewrite sum_list_with_map in Hj.
    assert (sum_list_with (fun y => S (jsize y)) (x :: xs) <
            sum_list_with (fun y => String.length (dumps_na y) + String.length ", ") (x :: xs)).
    { apply sum_list_with_lt. eapply Forall_impl; [exact IH|]. cbn; lia. }
    cbn [String.length] in *. lia.
  - destruct kvs as [|kv kvs]; [cbn [dumps_na map join]; rewrite !str_length_app; cbn; lia|]. cbn [dumps_na]. fold member. rewrite !str_length_app.
    pose proof (join_length ", " (member kv) (map member kvs)) as Hj. cbn [map] in Hj.
    change (member kv :: map member kvs) with (map member (kv :: kvs)) in Hj.
    rewrite sum_list_with_map in Hj.
    assert (sum_list_with (fun kv => S (jsize kv.2)) (kv :: kvs) <
            sum_list_with (fun kv => String.length (member kv) + String.length ", ") (kv :: kvs)).
    { apply sum_list_with_lt. eapply Forall_impl; [exact IH|]. intros [k v] Hv. unfold member, str_na.
      rewrite !str_length_app. cbn in *; lia. }
    cbn [String.length] in *. lia.
Qed.

(** The reader on a whole line of [dumps_na]: the value and nothing
    after it, with the fuel [loads] gives. *)
Lemma loads_parse (v : pyval) :
  json_wf v = true -> parse_value (S (String.length (dumps_na v))) (skip_ws (dumps_na v)) = Ok (v, "").
Proof.
  intros Hwf. rewrite <-(str_app_nil_r (dumps_na v)), skip_ws_dumps.
  apply dumps_reads_back; [done| |done]. rewrite str_length_app. pose proof (jsize_le_length v). lia.
Qed.

(** [json.loads(json.dumps(v, ensure_ascii=False)) == v] for a value
    whose dicts have distinct keys. *)
Lemma loads_dumps (v : pyval) : json_wf v = true -> loads (dumps_na v) = Ok v.
Proof.
  intros Hwf. unfold loads. rewrite loads_parse by done. by rewrite bind_ok.
Qed.

(** A character at or above U+0020. *)
Definition printable (c : ascii) : bool := negb (char_code c <? 32)%nat.

Lemma escape_char_printable (c : ascii) : all_chars printable (escape_char_na c) = true.
Proof. destruct c as [[] [] [] [] [] [] [] []]; reflexivity. Qed.

Lemma escape_na_printable (s : string) : all_chars printable (escape_na s) = true.
Proof. induction s as [|c s IH]; [done|]. cbn [escape_na]. by rewrite all_chars_app, escape_char_printable, IH. Qed.

Lemma str_na_printable (s : string) : all_chars printable (str_na s) = true.
Proof. unfold str_na. by rewrite !all_chars_app, escape_na_printable. Qed.

(** [json.dumps] with [ensure_ascii=False] writes no control
    character: a line of JSON stays one line. *)
Lemma dumps_printable (v : pyval) : all_chars printable (dumps_na v) = true.
Proof.
  induction v as [| | |s|xs IH|kvs IH] using pyval_ind'; cbn [dumps_na].
  - done.
  - by destruct b.
  - unfold py_str_int. pose proof (str_of_N_digits (Z.abs_N z)). pose proof (str_of_N_digits (Z.to_N z)).
    destruct (z <? 0)%Z; [rewrite all_chars_app; apply andb_true_iff; split; [done|]|];
      (eapply all_chars_impl; [|eassumption]); intros c; unfold printable;
      rewrite andb_true_iff, negb_true_iff, !Nat.leb_le, Nat.ltb_ge; lia.
  - apply str_na_printable.
  - rewrite !all_chars_app, all_chars_join; [done|done|]. by apply Forall_map.
  - rewrite !all_chars_app, all_chars_join; [done|done|]. apply Forall_map.
    eapply Forall_impl; [exact IH|]. intros kv Hkv. by rewrite !all_chars_app, str_na_printable, Hkv.
Qed.

Lemma translate_newlines_id (s : string) : all_chars (fun c => negb (is_char 13 c)) s = true -> translate_newlines s = s.
Proof.
  induction s as [|c s IH]; [done|]. cbn [all_chars translate_newlines].
  rewrite andb_true_iff, negb_true_iff. intros [-> Hs]. by rewrite IH.
Qed.

(** The text of the file is the lines joined by newlines, with an empty
    piece after the last newline. *)
Lemma write_jsonl_join (evs : list (list (string * pyval))) :
  write_jsonl evs = join (ch 10) (map (fun ev => dumps_na (PDict ev)) evs ++ [""])%list.
Proof.
  induction evs as [|ev evs IH]; [done|]. unfold write_jsonl in *. cbn [fold_right map app].
  rewrite IH, <-app_comm_cons. destruct (map _ evs ++ [""])%list eqn:E; [by destruct evs|]. reflexivity.
Qed.

(** A line of [write_jsonl] is its own [strip()]: it starts with [{]
    and ends with [}]. *)
Lemma strip_dumps_dict (kvs : list (string * pyval)) : strip (dumps_na (PDict kvs)) = dumps_na (PDict kvs).
Proof.
  cbn [dumps_na]. unfold strip. change ("{" ++ ?x) with (String "{" x). cbn [lstrip].
  change (py_isspace "{") with false. cbv iota. change (String "{" (?j ++ "}")) with (String "{" j ++ String "}" "").
  rewrite rstrip_last by reflexivity. reflexivity.
Qed.

Lemma load_lines_dumps (evs : list (list (string * pyval))) :
  Forall (fun ev => json_wf (PDict ev) = true) evs ->
  load_lines (map (fun ev => dumps_na (PDict ev)) evs ++ [""])%list = Ok (map PDict evs).
Proof.
  induction 1 as [|ev evs Hev _ IH]; [done|]. cbn [map]. rewrite <-app_comm_cons. cbn [load_lines]. rewrite strip_dumps_dict.
  replace (String.eqb (dumps_na (PDict ev)) "") with false by (cbn [dumps_na]; by rewrite str_app_cons).
  unfold loads. rewrite loads_parse, bind_ok by done. change (String.eqb (skip_ws "") "") with true. cbv iota beta.
  by rewrite bind_ok, IH, bind_ok.
Qed.

(** The lines of the file: one [json.dumps] per event, and the empty
    piece after the last newline. *)
Lemma split_write_jsonl (evs : list (list (string * pyval))) :
  str_split (ch 10) (translate_newlines (write_jsonl evs)) = (map (fun ev => dumps_na (PDict ev)) evs ++ [""])%list.
Proof.
  rewrite write_jsonl_join.
  assert (Forall (fun l => all_chars printable l = true) (map (fun ev => dumps_na (PDict ev)) evs ++ [""])%list) as Hp.
  { apply Forall_app; split; [apply Forall_map, Forall_forall; intros; apply dumps_printable|by constructor]. }
  rewrite translate_newlines_id.
  - destruct (map _ evs ++ [""])%list as [|l ls] eqn:E; [by destruct evs|]. unfold ch. rewrite split_join; [done|].
    eapply Forall_impl; [exact Hp|]. intros l' Hl. eapply all_chars_impl; [|exact Hl].
    intros c. unfold printable, not_char. rewrite negb_true_iff, Nat.ltb_ge. intros Hc.
    apply negb_true_iff, Ascii.eqb_neq. intros ->. cbv in Hc. lia.
  - apply all_chars_join; [done|]. eapply Forall_impl; [exact Hp|]. intros l Hl. eapply all_chars_impl; [|exact Hl].
    intros c. unfold printable, is_char. rewrite !negb_true_iff, Nat.ltb_ge, Nat.eqb_neq. lia.
Qed.

(** C15: the file [write_jsonl] writes, read by [load_jsonl], gives
    back the events in order, when no event has a key twice. *)
Theorem load_write_jsonl (evs : list (list (string * pyval))) :
  Forall (fun ev => json_wf (PDict ev) = true) evs -> load_jsonl (write_jsonl evs) = Ok (map PDict evs).
Proof. intros Hwf. unfold load_jsonl. rewrite split_write_jsonl. by apply load_lines_dumps. Qed.


(** [d[k] = v] adds no key but [k]. *)
Lemma dict_set_keys (kvs : list (string * pyval)) (k x : string) (v : pyval) :
  x ∈ (dict_set kvs k v).*1 -> x ∈ kvs.*1 \/ x = k.
Proof.
  induction kvs as [|[k' v'] kvs IH]; cbn; [set_solver|].
  destruct (String.eqb_spec k k'); cbn; rewrite !elem_of_cons; [tauto|]. intros [->|Hx]; [tauto|]. destruct (IH Hx); tauto.
Qed.

(** [d[k] = v] keeps the keys of a dict distinct and its values
    well-formed. *)
Lemma json_wf_dict_set (kvs : list (string * pyval)) (k : string) (v : pyval) :
  json_wf (PDict kvs) = true -> json_wf v = true -> json_wf (PDict (dict_set kvs k v)) = true.
Proof.
  cbn [json_wf]. rewrite !andb_true_iff, !bool_decide_eq_true. intros [Hnd Hall] Hv. revert Hnd Hall.
  induction kvs as [|[k' v'] kvs IH]; cbn; intros Hnd Hall.
  - split; [repeat constructor; set_solver|by rewrite Hv].
  - apply andb_true_iff in Hall as [Hv' Hall]. apply NoDup_cons in Hnd as [Hk' Hnd].
    destruct (String.eqb_spec k k') as [->|Hne]; cbn.
    + by rewrite NoDup_cons, Hv, Hall.
    + destruct (IH Hnd Hall) as [Hnd' Hall']. rewrite NoDup_cons, Hv', Hall'. split; [|done]. split; [|done].
      intros Hin. by destruct (dict_set_keys kvs k k' v Hin).
Qed.
Lemma load_write_jsonl_witness :
  let evs := [[("index", PStr "win"); ("EventCode", PInt 4625); ("user", PStr ("j.doe" ++ ch 9))];
              [("status", PInt (-401)); ("tags", PList [PStr ("a" ++ dq ++ bs); PNone; PBool false; PDict []])]] in
  Forall (fun ev => json_wf (PDict ev) = true) evs /\ load_jsonl (write_jsonl evs) = Ok (map PDict evs).
Proof. intros evs. split; [repeat constructor|apply (load_write_jsonl evs); repeat constructor]. Defined.

End Json.
