(* ===== verification/Regex.v ===== *)
(** * [re.search] on the fixed-grammar patterns of the triage scripts

    [src/incident-response/triage_script.py] extracts fields of auth.log
    lines with three patterns: [r'for (\w+) from ([\d\.]+)'],
    [r'(\w+) : COMMAND=(.+)'] and [r'from ([\d\.]+)'].  They use one
    fragment of Python's [re]: literal text, a character class under a
    greedy [+], and capture groups around such a repetition.  [atom] is
    that fragment, [match_here] is the backtracking matcher of CPython's
    [sre] on it (a greedy [+] tries the longest run first and gives back
    one character at a time), and [re_search] tries every start position
    from the left, as [re.search] does.  The character classes are
    Python's on U+0000..U+00FF (see [Prelude]).
    The lemmas compute the matcher on the shapes the triage scripts meet:
    a literal and a maximal class run ([match_here_lit],
    [match_here_plus]), a search that skips a prefix where nothing
    matches ([re_search_skip]), and the login pattern on
    ["for " ++ user ++ " from " ++ ip ++ rest] ([match_login],
    [re_search_login_tail]). *)

From S2P Require Import Prelude.
Local Open Scope string_scope.

Inductive atom : Type :=
| ALit (s : string)
| APlus (cls : ascii -> bool) (capture : bool).

Definition pattern := list atom.

(** [\w]: [str.isalnum()] or underscore. *)
Definition is_word_char (c : ascii) : bool :=
  let n := char_code c in
  ((48 <=? n) && (n <=? 57) || (65 <=? n) && (n <=? 90) || (n =? 95)
   || (97 <=? n) && (n <=? 122)
   || (n =? 170) || (n =? 178) || (n =? 179) || (n =? 181) || (n =? 185)
   || (n =? 186) || (188 <=? n) && (n <=? 190)
   || (192 <=? n) && (n <=? 255) && negb (n =? 215) && negb (n =? 247))%nat.

(** [\d]: decimal digits (only 0-9 below U+0100). *)
Definition is_digit (c : ascii) : bool :=
  let n := char_code c in ((48 <=? n) && (n <=? 57))%nat.

(** [[\d\.]]. *)
Definition is_ip_char (c : ascii) : bool := is_digit c || (char_code c =? 46)%nat.

(** [.]: every character but a newline. *)
Definition is_not_newline (c : ascii) : bool := negb (char_code c =? 10)%nat.

(** Length of the longest prefix of [s] in the class. *)
Fixpoint run_length (cls : ascii -> bool) (s : string) : nat :=
  match s with
  | EmptyString => 0
  | String c t => if cls c then S (run_length cls t) else 0
  end.

(** The backtracking loop of a greedy [+]: try the run lengths [k],
    [k-1], ..., 1 in turn; [m j] matches the rest of the pattern after
    [j] characters.  The first length that succeeds wins, and the [j]
    characters are captured when the repetition is in a group. *)
Fixpoint try_lengths (cap : bool) (s : string) (m : nat -> option (list string)) (k : nat)
  : option (list string) :=
  match k with
  | 0 => None
  | S k' =>
      match m k with
      | Some caps => Some (if cap then str_take k s :: caps else caps)
      | None => try_lengths cap s m k'
      end
  end.

(** Match [p] at the start of [s]; the result is the list of captured
    groups. *)
Fixpoint match_here (p : pattern) (s : string) : option (list string) :=
  match p with
  | [] => Some []
  | ALit l :: p' => if String.prefix l s then match_here p' (str_drop (String.length l) s) else None
  | APlus cls cap :: p' =>
      try_lengths cap s (fun k => match_here p' (str_drop k s)) (run_length cls s)
  end.

(** [re.search(p, s)]: the groups of the leftmost match, or [None]. *)
Fixpoint re_search (p : pattern) (s : string) : option (list string) :=
  match match_here p s with
  | Some caps => Some caps
  | None =>
      match s with
      | EmptyString => None
      | String _ t => re_search p t
      end
  end.

(** The three patterns of [analyze_auth_log]. *)
Definition pat_login : pattern :=
  [ALit "for "; APlus is_word_char true; ALit " from "; APlus is_ip_char true].
Definition pat_sudo : pattern :=
  [APlus is_word_char true; ALit " : COMMAND="; APlus is_not_newline true].
Definition pat_from : pattern :=
  [ALit "from "; APlus is_ip_char true].

(** A captured group: a non-empty string of its class. *)
Definition cap_ok (cls : ascii -> bool) (c : string) : Prop := all_chars cls c = true /\ c <> "".

(** ** Matching the login pattern on a well-formed line *)

Lemma run_length_app (cls : ascii -> bool) (w r : string) :
  all_chars cls w = true -> run_length cls (w ++ r) = String.length w + run_length cls r.
Proof.
  induction w as [|c w IH]; [done|]. cbn. intros [Hc Hw]%andb_true_iff.
  change (String c w ++ r) with (String c (w ++ r)). cbn. by rewrite Hc, IH.
Qed.

Lemma str_take_app (w r : string) : str_take (String.length w) (w ++ r) = w.
Proof.
  unfold str_take. induction w as [|c w IH]; [by destruct r|].
  change (String c w ++ r) with (String c (w ++ r)). cbn [String.length substring]. by rewrite IH.
Qed.

Lemma match_here_lit (l : string) (p : pattern) (s : string) :
  match_here (ALit l :: p) (l ++ s) = match_here p s.
Proof. cbn [match_here]. by rewrite prefix_app, str_drop_app. Qed.

(** A greedy [+] over a maximal non-empty run [w] of its class takes all
    of [w] when the rest of the pattern matches after it. *)
Lemma match_here_plus (cls : ascii -> bool) (cap : bool) (p : pattern) (w r : string) (caps : list string) :
  all_chars cls w = true -> w <> "" -> run_length cls r = 0 -> match_here p r = Some caps ->
  match_here (APlus cls cap :: p) (w ++ r) = Some (if cap then w :: caps else caps).
Proof.
  intros Hw Hne Hr Hm. cbn [match_here]. rewrite run_length_app, Hr, Nat.add_0_r by done.
  destruct (String.length w) as [|k] eqn:Hl; [by destruct w|]. cbn [try_lengths].
  rewrite <- Hl, str_drop_app, Hm, str_take_app. done.
Qed.

Lemma re_search_here (p : pattern) (s : string) (caps : list string) :
  match_here p s = Some caps -> re_search p s = Some caps.
Proof. destruct s; cbn [re_search]; by intros ->. Qed.

(** [re.search] skips a prefix at no position of which the pattern matches. *)
Lemma re_search_skip (p : pattern) (a b : string) :
  (forall k, k < String.length a -> match_here p (str_drop k a ++ b) = None) ->
  re_search p (a ++ b) = re_search p b.
Proof.
  induction a as [|c a IH]; intros H; [done|].
  assert (match_here p (String c (a ++ b)) = None) as H0.
  { specialize (H 0 ltac:(cbn; lia)). unfold str_drop in H. by rewrite Nat.sub_0_r, substring_all in H. }
  change (String c a ++ b) with (String c (a ++ b)). cbn [re_search]. rewrite H0.
  apply IH. intros k Hk. exact (H (S k) ltac:(cbn; lia)).
Qed.

(** [r'for (\w+) from ([\d\.]+)'] at a ["for USER from IP"] whose IP is
    not followed by a digit or a dot captures [USER] and [IP]. *)
Lemma match_login (user ip r : string) :
  cap_ok is_word_char user -> cap_ok is_ip_char ip -> run_length is_ip_char r = 0 ->
  match_here pat_login ("for " ++ user ++ " from " ++ ip ++ r) = Some [user; ip].
Proof.
  intros [Hu Hu'] [Hi Hi'] Hr. unfold pat_login. rewrite match_here_lit.
  rewrite (match_here_plus _ _ _ _ _ [ip]); [done|done|done|reflexivity|].
  rewrite match_here_lit. by apply (match_here_plus _ true [] ip r []).
Qed.

(** [re.search] skips a prefix of one class when the pattern matches at
    no non-empty run of that class before the rest. *)
Lemma re_search_skip_class (p : pattern) (cls : ascii -> bool) (u b : string) :
  all_chars cls u = true ->
  (forall t, t <> "" -> all_chars cls t = true -> match_here p (t ++ b) = None) ->
  re_search p (u ++ b) = re_search p b.
Proof.
  induction u as [|c u IH]; intros Hu H; [done|]. apply andb_true_iff in Hu as [Hc Hu].
  change (String c u ++ b) with (String c (u ++ b)). cbn [re_search].
  assert (match_here p (String c (u ++ b)) = None) as H0
    by (apply (H (String c u)); [done | cbn [all_chars]; apply andb_true_iff; by split]).
  rewrite H0. by apply IH.
Qed.

(** "for " at the start of a word-character run followed by a space: the
    run is "for". *)
Lemma prefix_for_word (t y : string) :
  all_chars is_word_char t = true -> String.prefix "for " (t ++ " " ++ y) = true -> t = "for".
Proof.
  intros Hw. destruct t as [|c1 [|c2 [|c3 [|c4 t]]]]; cbv beta iota fix delta [prefix append]; try done;
    repeat (destruct ascii_dec; subst; try done).
Qed.

Lemma ip_char_cases (c : ascii) :
  is_ip_char c = true -> c ∈ ["0"; "1"; "2"; "3"; "4"; "5"; "6"; "7"; "8"; "9"; "."]%char.
Proof.
  destruct c as [[] [] [] [] [] [] [] []]; intros Hc; (discriminate Hc || set_solver).
Qed.

Local Ltac ip_char_cases Hc :=
  apply ip_char_cases in Hc; repeat (apply elem_of_cons in Hc as [->|Hc]); [..|set_solver].

(** No login match starts inside a non-empty run of word characters that
    is followed by " from " and an IP. *)
Lemma login_word_none (t ip r : string) :
  t <> "" -> all_chars is_word_char t = true -> cap_ok is_ip_char ip ->
  match_here pat_login (t ++ " from " ++ ip ++ r) = None.
Proof.
  intros Ht Hw [Hi Hi']. destruct (String.prefix "for " (t ++ " from " ++ ip ++ r)) eqn:Hp.
  - assert (t = "for") as -> by (apply (prefix_for_word t ("from " ++ ip ++ r)); [done|exact Hp]).
    destruct ip as [|c ip]; [done|]. apply andb_true_iff in Hi as [Hc _].
    ip_char_cases Hc; reflexivity.
  - unfold pat_login. cbn [match_here]. by rewrite Hp.
Qed.

(** No login match starts inside a non-empty run of IP characters. *)
Lemma login_ip_none (t r : string) :
  t <> "" -> all_chars is_ip_char t = true -> match_here pat_login (t ++ r) = None.
Proof.
  intros Ht Hi. destruct t as [|c t]; [done|]. apply andb_true_iff in Hi as [Hc _].
  ip_char_cases Hc; reflexivity.
Qed.

(** The tail ["USER from IP..."] of a line holds no login match when the
    text after the IP holds none. *)
Lemma re_search_login_tail (user ip r : string) :
  all_chars is_word_char user = true -> cap_ok is_ip_char ip -> re_search pat_login r = None ->
  re_search pat_login (user ++ " from " ++ ip ++ r) = None.
Proof.
  intros Hu Hi Hr. rewrite (re_search_skip_class _ is_word_char); [|done|].
  2: { intros t Ht Hw. by apply login_word_none. }
  rewrite (re_search_skip _ " from "). 2: { intros k Hk. cbn in Hk. do 6 (destruct k as [|k]; [reflexivity|]). lia. }
  rewrite (re_search_skip_class _ is_ip_char); [done|apply Hi|].
  intros t Ht Hip. by apply login_ip_none.
Qed.

