(* ===== verification/Counter.v ===== *)
(** * The per-key counter of the brute-force detection

    [analyze_auth_log] counts failed logins in a [defaultdict(int)] keyed
    by ["user@ip"] ([src/incident-response/triage_script.py], lines 28 and
    40) and then reads it three ways: the comprehension
    [{k: v for k, v in failed_logins.items() if v > 5}] (line 73), the
    first ten items [dict(list(failed_logins.items())[:10])] (line 86) and
    [dict(failed_logins)] (line 91).  A Python dict iterates in insertion
    order, so the model is an association list in that order: [incr] is
    [d[k] += 1] on a [defaultdict(int)], which updates a present key in
    place and appends a new key with count 1.

    The abstract specification is a finite map from keys to counts
    ([gmap]): [Counting] is the interface of a counting aggregator with
    its laws, the association list and the [gmap] both implement it, and
    [abs] relates them (refinement).  The spec's claims that counts only
    grow and that partial counts merge by summation are theorems here. *)

From S2P Require Import Prelude.
#[local] Set Warnings "-clear-no-such-hyp".

Section Counter.
Context {K : Type} `{EqDecision K}.

(** [defaultdict(int)] in insertion order. *)
Definition counter := list (K * Z).

(** [d[k] += 1]. *)
Fixpoint incr (k : K) (c : counter) : counter :=
  match c with
  | [] => [(k, 1%Z)]
  | (k', n) :: rest => if decide (k = k') then (k', (n + 1)%Z) :: rest else (k', n) :: incr k rest
  end.

(** [d[k]] on a [defaultdict(int)] (0 for a missing key, without
    inserting it: the code only reads through [.items()]). *)
Fixpoint get (c : counter) (k : K) : Z :=
  match c with
  | [] => 0%Z
  | (k', n) :: rest => if decide (k = k') then n else get rest k
  end.

(** The counter after [d[k] += 1] for each key of the sequence. *)
Definition count_all (ks : list K) : counter := foldl (fun c k => incr k c) [] ks.

(** [{k: v for k, v in d.items() if v > thr}]. *)
Definition over (thr : Z) (c : counter) : counter := filter (fun kv => (thr < kv.2)%Z) c.

(** The keys of a dict have no duplicates. *)
Definition counter_wf (c : counter) : Prop := NoDup c.*1.

(** Number of occurrences of [k] in a sequence of keys. *)
Definition occurrences (k : K) (ks : list K) : Z := Z.of_nat (length (filter (fun x => x = k) ks)).

Lemma occurrences_not_in (k : K) (ks : list K) : k ∉ ks -> occurrences k ks = 0%Z.
Proof.
  induction ks as [|x ks IH]; intros Hk; [done|]. unfold occurrences in *.
  rewrite filter_cons, decide_False by set_solver. apply IH. set_solver.
Qed.

Lemma get_incr (k k' : K) (c : counter) :
  get (incr k c) k' = if decide (k' = k) then (get c k + 1)%Z else get c k'.
Proof.
  induction c as [|[k1 n] c IH]; simpl; repeat case_decide; subst; simpl;
    rewrite ?decide_True, ?decide_False by done; try done; lia.
Qed.

Lemma incr_keys (k : K) (c : counter) :
  (incr k c).*1 = if decide (k ∈ c.*1) then c.*1 else c.*1 ++ [k].
Proof.
  induction c as [|[k1 n] c IH]; cbn [incr fmap list_fmap]; [done|].
  destruct (decide (k = k1)) as [->|Hk]; cbn [fmap list_fmap fst].
  - rewrite decide_True; [done|]. apply elem_of_cons. by left.
  - rewrite IH. destruct (decide (k ∈ c.*1)), (decide (k ∈ k1 :: c.*1)); set_solver.
Qed.

Lemma incr_wf (k : K) (c : counter) : counter_wf c -> counter_wf (incr k c).
Proof.
  unfold counter_wf. rewrite incr_keys. case_decide; [done|].
  intros Hnd. apply NoDup_app. split_and!; [done| |apply NoDup_singleton]. set_solver.
Qed.

Lemma count_all_app (ks1 ks2 : list K) :
  count_all (ks1 ++ ks2) = foldl (fun c k => incr k c) (count_all ks1) ks2.
Proof. unfold count_all. by rewrite foldl_app. Qed.

Lemma count_all_snoc (ks : list K) (k : K) : count_all (ks ++ [k]) = incr k (count_all ks).
Proof. by rewrite count_all_app. Qed.

(** [n] occurrences of one key give one entry of count [n]. *)
Lemma count_all_repeat (k : K) (n : nat) : count_all (repeat k (S n)) = [(k, Z.of_nat (S n))].
Proof.
  induction n as [|n IH]; [done|].
  replace (S (S n)) with (S n + 1) by lia. rewrite repeat_app. change (repeat k 1) with [k].
  rewrite count_all_snoc, IH.
  cbn. rewrite decide_True by done. f_equal. f_equal. lia.
Qed.

Lemma occurrences_snoc (k k' : K) (ks : list K) :
  occurrences k' (ks ++ [k]) = if decide (k' = k) then (occurrences k' ks + 1)%Z else occurrences k' ks.
Proof.
  unfold occurrences. rewrite filter_app, length_app, filter_cons, filter_nil.
  destruct (decide (k = k')), (decide (k' = k)); subst; simpl; try congruence; lia.
Qed.

Lemma count_all_wf (ks : list K) : counter_wf (count_all ks).
Proof.
  induction ks as [|k ks IH] using rev_ind; [constructor|].
  rewrite count_all_snoc. by apply incr_wf.
Qed.

Lemma get_count_all (ks : list K) (k : K) : get (count_all ks) k = occurrences k ks.
Proof.
  induction ks as [|k' ks IH] using rev_ind; [done|].
  rewrite count_all_snoc, get_incr, occurrences_snoc.
  case_decide; subst; congruence.
Qed.

Lemma count_all_keys (ks : list K) (k : K) : k ∈ (count_all ks).*1 <-> k ∈ ks.
Proof.
  induction ks as [|k' ks IH] using rev_ind; [set_solver|].
  rewrite count_all_snoc, incr_keys. case_decide; set_solver.
Qed.

Lemma over_spec (thr : Z) (c : counter) (k : K) (n : Z) :
  (k, n) ∈ over thr c <-> (k, n) ∈ c /\ (thr < n)%Z.
Proof. unfold over. rewrite list_elem_of_filter. simpl. tauto. Qed.

Lemma in_counter_get (c : counter) (k : K) (n : Z) :
  counter_wf c -> (k, n) ∈ c -> get c k = n.
Proof.
  unfold counter_wf. induction c as [|[k1 n1] c IH]; simpl; [set_solver|].
  rewrite NoDup_cons. intros [Hnin Hnd] Hin. apply elem_of_cons in Hin as [[= -> ->]|Hin].
  - by rewrite decide_True.
  - rewrite decide_False; [by apply IH|]. intros ->. apply Hnin.
    apply list_elem_of_fmap. by exists (k1, n).
Qed.

Lemma get_in_counter (c : counter) (k : K) :
  k ∈ c.*1 -> (k, get c k) ∈ c.
Proof.
  induction c as [|[k1 n1] c IH]; simpl; [set_solver|].
  rewrite elem_of_cons. case_decide as Hk; [subst; set_solver|].
  intros [->|Hin]; [done|]. apply elem_of_cons. right. by apply IH.
Qed.
End Counter.

Global Hint Resolve incr_wf count_all_wf : triage.

(** ** The counting aggregator: interface, laws and two implementations *)

(** What a counting aggregator promises its client: an empty state, an
    [observe] step per event key and the count of a key. *)
Class Counting (A K : Type) := {
  cnt_empty : A;
  cnt_observe : K -> A -> A;
  cnt_count : A -> K -> Z
}.

Class CountingLaws (A K : Type) `{EqDecision K} `{Counting A K} := {
  cnt_count_empty k : cnt_count cnt_empty k = 0%Z;
  cnt_count_observe k k' a :
    cnt_count (cnt_observe k a) k' = if decide (k' = k) then (cnt_count a k + 1)%Z else cnt_count a k'
}.

(** The state after observing a batch of keys in order. *)
Definition cnt_run {A K} `{Counting A K} (ks : list K) : A :=
  foldl (fun a k => cnt_observe k a) cnt_empty ks.

Lemma cnt_run_snoc {A K} `{Counting A K} (ks : list K) (k : K) :
  cnt_run (ks ++ [k]) = cnt_observe k (cnt_run ks).
Proof. unfold cnt_run. by rewrite foldl_app. Qed.

Section CountingClient.
Context {A K : Type} `{EqDecision K} `{Counting A K} `{!CountingLaws A K}.

(** Any lawful aggregator counts the occurrences of each key. *)
Lemma cnt_run_count (ks : list K) (k : K) : cnt_count (cnt_run ks) k = occurrences k ks.
Proof.
  induction ks as [|k' ks IH] using rev_ind; [apply cnt_count_empty|].
  rewrite cnt_run_snoc, cnt_count_observe, occurrences_snoc, IH. case_decide; subst; congruence.
Qed.
End CountingClient.

(** The source's [defaultdict(int)]. *)
#[export] Instance counter_counting {K} `{EqDecision K} : Counting (@counter K) K := {
  cnt_empty := [];
  cnt_observe := incr;
  cnt_count := get
}.

#[export] Instance counter_counting_laws {K} `{EqDecision K} : CountingLaws (@counter K) K.
Proof. split; [done|]. intros. apply get_incr. Qed.

(** The abstract specification: a finite map from keys to counts. *)
Definition gobserve {K} `{Countable K} (k : K) (m : gmap K Z) : gmap K Z :=
  <[k := (default 0 (m !! k) + 1)%Z]> m.

#[export] Instance gmap_counting {K} `{Countable K} : Counting (gmap K Z) K := {
  cnt_empty := ∅;
  cnt_observe := gobserve;
  cnt_count := fun m k => default 0%Z (m !! k)
}.

#[export] Instance gmap_counting_laws {K} `{Countable K} : CountingLaws (gmap K Z) K.
Proof.
  split; [intros; simpl; by rewrite lookup_empty|].
  intros k k' m. simpl. unfold gobserve. rewrite lookup_insert.
  by destruct (decide (k = k')), (decide (k' = k)); subst.
Qed.

Section Refinement.
Context {K : Type} `{Countable K}.

(** The map an association list stands for. *)
Definition abs (c : @counter K) : gmap K Z := list_to_map c.

Lemma abs_lookup (c : @counter K) (k : K) :
  abs c !! k = if decide (k ∈ c.*1) then Some (get c k) else None.
Proof.
  unfold abs. induction c as [|[k1 n] c IH]; simpl; [done|].
  rewrite lookup_insert, IH. destruct (decide (k1 = k)), (decide (k = k1)); subst; try congruence.
  - by rewrite decide_True by set_solver.
  - repeat case_decide; set_solver.
Qed.

Lemma gmap_run_lookup (ks : list K) (k : K) :
  (cnt_run ks : gmap K Z) !! k = if decide (k ∈ ks) then Some (occurrences k ks) else None.
Proof.
  induction ks as [|k' ks IH] using rev_ind.
  { destruct (decide (k ∈ [])); [set_solver|]. apply lookup_empty. }
  rewrite cnt_run_snoc. cbn [cnt_observe gmap_counting]. unfold gobserve.
  rewrite lookup_insert, occurrences_snoc, IH.
  destruct (decide (k' = k)), (decide (k = k')); subst; try congruence.
  - rewrite decide_True by set_solver. rewrite IH.
    case_decide; simpl; [done|]. by rewrite occurrences_not_in.
  - repeat case_decide; set_solver.
Qed.
End Refinement.

Section RefinementTheorems.
Context {K : Type} `{Countable K}.

Lemma count_all_cnt_run (ks : list K) : count_all ks = cnt_run ks.
Proof. reflexivity. Qed.

Lemma occurrences_app (k : K) (ks1 ks2 : list K) :
  occurrences k (ks1 ++ ks2) = (occurrences k ks1 + occurrences k ks2)%Z.
Proof. unfold occurrences. rewrite filter_app, length_app. lia. Qed.

(** The number of occurrences does not depend on the order of the batch. *)
#[export] Instance occurrences_proper (k : K) : Proper ((≡ₚ) ==> eq) (occurrences k).
Proof. intros ks1 ks2 Hp. unfold occurrences. by rewrite Hp. Qed.

Lemma abs_count_all (ks : list K) : abs (count_all ks) = cnt_run ks.
Proof.
  apply map_eq. intros k. rewrite abs_lookup, gmap_run_lookup, get_count_all.
  destruct (decide (k ∈ (count_all ks).*1)) as [Hin|Hin], (decide (k ∈ ks));
    rewrite count_all_keys in Hin; tauto.
Qed.
Lemma over_count_all_iff (thr : Z) (ks : list K) (k : K) (n : Z) :
  (k, n) ∈ over thr (count_all ks) <-> k ∈ ks /\ n = occurrences k ks /\ (thr < n)%Z.
Proof.
  rewrite over_spec. split.
  - intros [Hin Hlt]. pose proof (in_counter_get _ _ _ (count_all_wf ks) Hin) as Hget.
    rewrite get_count_all in Hget. split_and!; [|done|done].
    apply count_all_keys, list_elem_of_fmap. by exists (k, n).
  - intros (Hin & -> & Hlt). split; [|done]. rewrite <- get_count_all.
    apply get_in_counter, count_all_keys, Hin.
Qed.
End RefinementTheorems.

Section CounterTheorems.
Context {K : Type} `{Countable K}.

(** C7: the insertion-ordered [defaultdict(int)] of the source, after
    [d[k] += 1] for each key of a batch, stands for the abstract count
    map of the batch (refinement of the [gmap] specification). *)
Theorem counter_refines_gmap (ks : list K) : abs (count_all ks) = cnt_run ks.
Proof. apply abs_count_all. Qed.

(** Partial counts of two halves of a batch, merged by summation,
    are the counts of the whole batch. *)
Theorem merge_partial_counts (ks1 ks2 : list K) :
  (cnt_run (ks1 ++ ks2) : gmap K Z)
  = union_with (fun x y => Some (x + y)%Z) (cnt_run ks1) (cnt_run ks2).
Proof.
  apply map_eq. intros k. rewrite lookup_union_with, !gmap_run_lookup, occurrences_app.
  destruct (decide (k ∈ ks1)), (decide (k ∈ ks2)), (decide (k ∈ ks1 ++ ks2)); simpl;
    rewrite ?(occurrences_not_in k ks1), ?(occurrences_not_in k ks2) by done;
    try set_solver; f_equal; lia.
Qed.

(** The dict comprehension [{k: v for k, v in d.items() if v > thr}]
    over the counter of a batch keeps exactly the keys seen more than
    [thr] times, each with its number of occurrences. *)
Theorem over_count_all_spec (thr : Z) (ks : list K) (k : K) (n : Z) :
  (k, n) ∈ over thr (count_all ks) <-> k ∈ ks /\ n = occurrences k ks /\ (thr < n)%Z.
Proof. apply over_count_all_iff. Qed.
End CounterTheorems.

(** ** Counting the keys of mapped lists *)

Section MapCounts.
Context {K : Type} `{EqDecision K}.

(** A key that is the same on every event is counted once per event. *)
Lemma occurrences_map_const {A} (f : A -> K) (l : list A) (v k : K) :
  Forall (fun x => f x = v) l -> occurrences k (map f l) = if decide (v = k) then Z.of_nat (length l) else 0%Z.
Proof.
  unfold occurrences. induction 1 as [|x l Hx _ IH]; [by destruct (decide (v = k))|].
  simpl. rewrite filter_cons, Hx. destruct (decide (v = k)), (decide (f x = k)); simpl in *; subst; try done; lia.
Qed.

Lemma occurrences_map_none {A} (f : A -> K) (l : list A) (k : K) :
  Forall (fun x => f x <> k) l -> occurrences k (map f l) = 0%Z.
Proof.
  intros Hl. apply occurrences_not_in. rewrite list_elem_of_In, in_map_iff. intros (x & Hx & Hin).
  apply list_elem_of_In in Hin. by apply (Forall_forall _ l) with x in Hl.
Qed.

Lemma occurrences_perm_map {A} (f : A -> K) (l l' : list A) (k : K) :
  l ≡ₚ l' -> occurrences k (map f l) = occurrences k (map f l').
Proof. intros Hp. apply occurrences_proper. by apply Permutation_map. Qed.

End MapCounts.
