(* ===== verification/Severity.v ===== *)
(** * The severity scale

    The scripts name severities by strings: [triage_script.py] keys its
    findings by ["CRITICAL"], ["HIGH"], ["MEDIUM"], ["WARNING"] and reports
    ["CRITICAL"] ... ["LOW"], ["INFO"] ([_calculate_severity], lines
    199-210); [triage_parser_v2.py] tags findings ["CRITICAL"], ["HIGH"],
    ["MEDIUM"]; [dirbuster_sim.py] buckets paths into ["critical"],
    ["high"], ["medium"], ["info"].  [severity] is that scale with its
    total order (INFO < LOW < MEDIUM < HIGH < CRITICAL), the rank of the
    spec (0..4), and the names the sources print. *)

From S2P Require Import Prelude.
Local Open Scope string_scope.

Inductive severity := INFO | LOW | MEDIUM | HIGH | CRITICAL.

#[export] Instance severity_eq_dec : EqDecision severity.
Proof. solve_decision. Defined.

Definition sev_rank (s : severity) : nat :=
  match s with INFO => 0 | LOW => 1 | MEDIUM => 2 | HIGH => 3 | CRITICAL => 4 end.

Definition sev_le (a b : severity) : Prop := sev_rank a <= sev_rank b.

#[export] Instance sev_le_dec : RelDecision sev_le.
Proof. intros a b. unfold sev_le. apply _. Defined.

Definition sev_max (a b : severity) : severity := if decide (sev_le a b) then b else a.

(** The maximum of a list of severities, INFO for none. *)
Definition sev_max_list (ss : list severity) : severity := foldr sev_max INFO ss.

(** The name [_calculate_severity] returns. *)
Definition sev_name (s : severity) : string :=
  match s with
  | INFO => "INFO" | LOW => "LOW" | MEDIUM => "MEDIUM" | HIGH => "HIGH" | CRITICAL => "CRITICAL"
  end.

Lemma sev_rank_inj (a b : severity) : sev_rank a = sev_rank b -> a = b.
Proof. destruct a, b; simpl; congruence. Qed.

Lemma sev_max_rank (a b : severity) : sev_rank (sev_max a b) = Nat.max (sev_rank a) (sev_rank b).
Proof. unfold sev_max, sev_le. case_decide; lia. Qed.

Lemma sev_max_list_rank (ss : list severity) :
  sev_rank (sev_max_list ss) = foldr Nat.max 0 (map sev_rank ss).
Proof. induction ss; simpl; [done|]. by rewrite sev_max_rank, IHss. Qed.

(** The maximum is an upper bound that is reached (or INFO for none). *)
Lemma sev_max_list_spec (ss : list severity) :
  (forall s, s ∈ ss -> sev_le s (sev_max_list ss)) /\
  (ss = [] /\ sev_max_list ss = INFO \/ sev_max_list ss ∈ ss).
Proof.
  induction ss as [|s ss [IHle IHin]]; simpl.
  - split; [set_solver|]. by left.
  - split.
    + intros s' Hs'. unfold sev_le in *. rewrite sev_max_rank.
      apply elem_of_cons in Hs' as [->|Hs']; [lia|]. specialize (IHle _ Hs'). lia.
    + right. unfold sev_max. case_decide; [|set_solver].
      destruct IHin as [[-> ->]|Hin]; [|set_solver].
      unfold sev_le in *. simpl in *. destruct s; simpl in *; try lia. set_solver.
Qed.
