(* ===== verification/IRTriage.v ===== *)
(** * [IRTriageAnalyzer] of [src/incident-response/triage_script.py]

    The analyzer's state is [self.findings], a [defaultdict(list)] from a
    level name to the list of finding dicts of that level, in insertion
    order ([findings_t]; [dd_append] and [dd_extend] are [d[k].append(x)]
    and [d[k].extend(xs)] on it).  Each method is a function of the state
    and its input, returning its result and the new state:
    - [analyze_auth_log]: the per-line scan [auth_line] (three [re.search]
      extractions and the failed-login counter of [Counter]), then the
      CRITICAL brute-force and WARNING failed-login findings;
    - [analyze_syslog]: the per-line scan [syslog_line], then the HIGH and
      MEDIUM threshold findings;
    - [check_indicators_of_compromise]: the IOC scan over [str()] of the
      ["details"] of every finding ([check_iocs]); [finding['type']] is
      read only on a hit and raises [KeyError] when the key is absent,
      so the scan is in the [pyres] monad;
    - [calculate_severity], [generate_recommendations],
      [generate_triage_report] and the [main] pipeline [run_triage];
    - [print_report]: what it prints, as values ([printed_report]): one
      block per non-empty level with [finding.get('type', 'Unknown')],
      the count and the source of each finding, and the numbered
      recommendations; a finding that is not a dict raises.
    A log file is [option (list string)]: [None] when [os.path.exists]
    fails, otherwise the lines as Python's file iteration yields them
    (each with its newline).  [datetime.now()] is an input ([now]).
    The recommendation texts of the source are Russian; they are the
    constructors of [recommendation], one per text, in the source's order.
    The theorems: the severity of a run is the maximum of its levels; the
    invariant [triage_inv] (well-formed findings, details of the right
    shape, IOC entries only at CRITICAL) holds in every reachable state;
    the brute-force and syslog thresholds; [check_iocs] computes exactly
    [all_iocs] and appends it to CRITICAL; the substring test flags an
    address that merely contains an IOC; [Invalid user] failures are not
    counted; [print_report] shows every finding. *)

From S2P Require Import Prelude PyVal Regex Counter Severity.
Local Open Scope string_scope.

Module IRTriage.

(** ** State *)

(** [defaultdict(list)] in insertion order. *)
Definition findings_t := list (string * list pyval).

(** [self.findings[k].append(x)]. *)
Fixpoint dd_append (k : string) (x : pyval) (fs : findings_t) : findings_t :=
  match fs with
  | [] => [(k, [x])]
  | (k', xs) :: rest => if String.eqb k k' then (k', (xs ++ [x])%list) :: rest else (k', xs) :: dd_append k x rest
  end.

(** [self.findings[k].extend(xs)] (the key is created even for no [xs]). *)
Fixpoint dd_extend (k : string) (ys : list pyval) (fs : findings_t) : findings_t :=
  match fs with
  | [] => [(k, ys)]
  | (k', xs) :: rest => if String.eqb k k' then (k', (xs ++ ys)%list) :: rest else (k', xs) :: dd_extend k ys rest
  end.

(** [self.findings.get(k) or []]. *)
Fixpoint group (fs : findings_t) (k : string) : list pyval :=
  match fs with
  | [] => []
  | (k', xs) :: rest => if String.eqb k k' then xs else group rest k
  end.

Record analyzer := mk_analyzer { log_dir : string; findings : findings_t }.

(** [IRTriageAnalyzer(log_dir)]. *)
Definition init (log_dir : string) : analyzer := mk_analyzer log_dir [].

Definition set_findings (st : analyzer) (fs : findings_t) : analyzer := mk_analyzer (log_dir st) fs.

(** ** [analyze_auth_log] *)

(** The locals of the scan loop. *)
Record auth_acc := mk_auth_acc {
  failed_logins : @counter string;
  successful_logins : list pyval;
  sudo_activities : list pyval;
  ssh_connections : list pyval
}.

Definition auth_acc0 : auth_acc := mk_auth_acc [] [] [] [].

(** A [defaultdict(int)] as a Python dict of ints. *)
Definition counts_dict (c : @counter string) : pyval := PDict (map (fun kv => (kv.1, PInt kv.2)) c).

(** One line of auth.log (lines 36-70 of the source). *)
Definition auth_line (acc : auth_acc) (line : string) : auth_acc :=
  let ts := PStr (str_take 15 line) in
  let acc1 :=
    if contains "Failed password" line then
      match re_search pat_login line with
      | Some [user; ip] =>
          mk_auth_acc (incr (user ++ "@" ++ ip) (failed_logins acc))
            (successful_logins acc) (sudo_activities acc) (ssh_connections acc)
      | _ => acc
      end
    else acc in
  let acc2 :=
    if contains "Accepted password" line || contains "Accepted publickey" line then
      match re_search pat_login line with
      | Some [user; ip] =>
          mk_auth_acc (failed_logins acc1)
            (app (successful_logins acc1)
               [PDict [("timestamp", ts); ("user", PStr user); ("ip", PStr ip);
                       ("method", PStr (if contains "password" line then "password" else "publickey"))]])
            (sudo_activities acc1) (ssh_connections acc1)
      | _ => acc1
      end
    else acc1 in
  let acc3 :=
    if contains "sudo:" line && contains "COMMAND=" line then
      match re_search pat_sudo line with
      | Some [user; cmd] =>
          mk_auth_acc (failed_logins acc2) (successful_logins acc2)
            (app (sudo_activities acc2)
               [PDict [("timestamp", ts); ("user", PStr user); ("command", PStr (strip cmd))]])
            (ssh_connections acc2)
      | _ => acc2
      end
    else acc2 in
  if contains "sshd" line && contains "Connection from" line then
    match re_search pat_from line with
    | Some [ip] =>
        mk_auth_acc (failed_logins acc3) (successful_logins acc3) (sudo_activities acc3)
          (app (ssh_connections acc3) [PDict [("timestamp", ts); ("ip", PStr ip)]])
    | _ => acc3
    end
  else acc3.

Definition auth_scan (lines : list string) : auth_acc := foldl auth_line auth_acc0 lines.

Definition brute_force_finding (bf : @counter string) : pyval :=
  PDict [("type", PStr "Brute Force Attack Detected"); ("details", counts_dict bf);
         ("source", PStr "auth.log")].

Definition failed_logins_finding (c : @counter string) : pyval :=
  PDict [("type", PStr "Failed Login Attempts"); ("count", PInt (Z.of_nat (length c)));
         ("details", counts_dict (first_n 10 c)); ("source", PStr "auth.log")].

(** [analyze_auth_log(filepath)] (lines 20-96): the returned dict and the
    new state. *)
Definition analyze_auth_log (file : option (list string)) (st : analyzer) : pyval * analyzer :=
  match file with
  | None => (PDict [], st)
  | Some lines =>
      let acc := auth_scan lines in
      let bf := over 5 (failed_logins acc) in
      let fs1 := if bool_decide (bf = []) then findings st
                 else dd_append "CRITICAL" (brute_force_finding bf) (findings st) in
      let fs2 := if bool_decide (failed_logins acc = []) then fs1
                 else dd_append "WARNING" (failed_logins_finding (failed_logins acc)) fs1 in
      (PDict [("failed_logins", counts_dict (failed_logins acc));
              ("successful_logins", PList (last_n 10 (successful_logins acc)));
              ("sudo_activities", PList (last_n 10 (sudo_activities acc)));
              ("ssh_connections", PList (last_n 10 (ssh_connections acc)));
              ("brute_force_detected", PBool (negb (bool_decide (bf = []))))],
       set_findings st fs2)
  end.

(** ** [analyze_syslog] *)

Record syslog_acc := mk_syslog_acc {
  errors : list pyval;
  warnings : list pyval;
  kernel_messages : list pyval;
  network_events : list pyval
}.

Definition syslog_acc0 : syslog_acc := mk_syslog_acc [] [] [] [].

Definition network_words : list string := ["network"; "dhcp"; "firewall"; "iptables"].

(** The tests of lines 114, 121, 128 and 135 of the source. *)
Definition error_line (line : string) : bool :=
  contains "error" (lower line) || contains "critical" (lower line).
Definition warning_line (line : string) : bool := contains "warning" (lower line).
Definition kernel_line (line : string) : bool := contains "kernel:" line.
Definition network_line (line : string) : bool := contains_any (lower line) network_words.

(** The dict a matching line contributes. *)
Definition syslog_entry (line : string) : pyval :=
  PDict [("timestamp", PStr (str_take 15 line)); ("message", PStr (strip line))].

(** One syslog line (lines 113-139 of the source). *)
Definition syslog_line (acc : syslog_acc) (line : string) : syslog_acc :=
  let entry := syslog_entry line in
  mk_syslog_acc
    (if error_line line then app (errors acc) [entry] else errors acc)
    (if warning_line line then app (warnings acc) [entry] else warnings acc)
    (if kernel_line line then app (kernel_messages acc) [entry] else kernel_messages acc)
    (if network_line line then app (network_events acc) [entry] else network_events acc).

Definition syslog_scan (lines : list string) : syslog_acc := foldl syslog_line syslog_acc0 lines.

Definition system_errors_finding (errs : list pyval) : pyval :=
  PDict [("type", PStr "Multiple System Errors"); ("count", PInt (Z.of_nat (length errs)));
         ("sample", PList (first_n 5 errs)); ("source", PStr "syslog")].

Definition kernel_spike_finding (kms : list pyval) : pyval :=
  PDict [("type", PStr "Kernel Activity Spike"); ("count", PInt (Z.of_nat (length kms)));
         ("source", PStr "syslog")].

(** [analyze_syslog(filepath)] (lines 98-162). *)
Definition analyze_syslog (file : option (list string)) (st : analyzer) : pyval * analyzer :=
  match file with
  | None => (PDict [], st)
  | Some lines =>
      let acc := syslog_scan lines in
      let fs1 := if bool_decide (10 < length (errors acc)) then
                   dd_append "HIGH" (system_errors_finding (errors acc)) (findings st)
                 else findings st in
      let fs2 := if bool_decide (20 < length (kernel_messages acc)) then
                   dd_append "MEDIUM" (kernel_spike_finding (kernel_messages acc)) fs1
                 else fs1 in
      (PDict [("total_errors", PInt (Z.of_nat (length (errors acc))));
              ("total_warnings", PInt (Z.of_nat (length (warnings acc))));
              ("kernel_messages", PInt (Z.of_nat (length (kernel_messages acc))));
              ("network_events", PList (last_n 10 (network_events acc)));
              ("recent_errors", PList (last_n 10 (errors acc)))],
       set_findings st fs2)
  end.

(** ** [check_indicators_of_compromise] *)

Definition malicious_ips : list string := ["45.142.212.61"; "185.220.101."; "192.168.100."].

(** [finding[k]] on a finding dict ([None] when the key is absent). *)
Definition field (f : pyval) (k : string) : option pyval :=
  match f with PDict kvs => dict_lookup kvs k | _ => None end.

(** [finding['type']] (line 180): [KeyError] when the key is absent. *)
Definition finding_type (f : pyval) : pyres pyval :=
  match field f "type" with Some t => Ok t | None => Raise KeyError end.

(** The dict of one IOC hit (lines 177-181). *)
Definition ioc_entry (ip : string) (ctx : pyval) : pyval :=
  PDict [("type", PStr "Known Malicious IP"); ("ip", PStr ip); ("context", ctx)].

(** The IOC entries of one finding (lines 173-181): [finding['type']] is
    read once per listed IP found in [str(finding['details'])]. *)
Definition iocs_of_finding (f : pyval) : pyres (list pyval) :=
  match field f "details" with
  | None => Ok []
  | Some details =>
      let details_str := py_str details in
      hits ← res_map (fun ip => if contains ip details_str
                                then ctx ← finding_type f; Ok [ioc_entry ip ctx]
                                else Ok []) malicious_ips;
      Ok (List.concat hits)
  end.

(** [check_indicators_of_compromise()] (lines 164-186): the loop over
    [self.findings.items()] and their findings, then the [extend] of
    CRITICAL when [iocs] is non-empty; an exception of the loop leaves
    [self.findings] as it was. *)
Definition check_iocs (st : analyzer) : pyres (list pyval * analyzer) :=
  per_level ← res_map (fun kv => per_finding ← res_map iocs_of_finding kv.2;
                                 Ok (List.concat per_finding)) (findings st);
  let iocs := List.concat per_level in
  Ok (iocs, if bool_decide (iocs = []) then st
            else set_findings st (dd_extend "CRITICAL" iocs (findings st))).

(** ** Report *)

(** [_calculate_severity()] (lines 199-210). *)
Definition calculate_severity (fs : findings_t) : severity :=
  if bool_decide (group fs "CRITICAL" <> []) then CRITICAL
  else if bool_decide (group fs "HIGH" <> []) then HIGH
  else if bool_decide (group fs "MEDIUM" <> []) then MEDIUM
  else if bool_decide (group fs "WARNING" <> []) then LOW
  else INFO.

(** The ten recommendation texts of [_generate_recommendations], in the
    source's order (lines 217-232). *)
Inductive recommendation :=
| IsolateSystems | ActivateIRTeam | CollectForensics
| BlockBruteForceIPs | StrengthenPasswordPolicy | RateLimitSSH
| InvestigateHighFindings | UpdateSiemRules
| ContinueMonitoring | DocumentResults.

#[export] Instance recommendation_eq_dec : EqDecision recommendation.
Proof. solve_decision. Defined.

(** [any('Brute Force' in str(f) for f in self.findings.get('CRITICAL', []))]. *)
Definition brute_force_in_critical (fs : findings_t) : bool :=
  existsb (fun f => contains "Brute Force" (py_str f)) (group fs "CRITICAL").

(** [_generate_recommendations()] (lines 212-234). *)
Definition generate_recommendations (fs : findings_t) : list recommendation :=
  let r1 := if bool_decide (group fs "CRITICAL" <> []) then [IsolateSystems; ActivateIRTeam; CollectForensics] else [] in
  let r2 := if brute_force_in_critical fs then [BlockBruteForceIPs; StrengthenPasswordPolicy; RateLimitSSH] else [] in
  let r3 := if bool_decide (group fs "HIGH" <> []) then [InvestigateHighFindings; UpdateSiemRules] else [] in
  let r := (r1 ++ r2 ++ r3)%list in
  if bool_decide (r = []) then [ContinueMonitoring; DocumentResults] else r.

Record report := mk_report {
  report_timestamp : string;
  incident_severity : severity;
  report_findings : findings_t;
  recommendations : list recommendation
}.

(** [generate_triage_report()] (lines 188-197). *)
Definition generate_triage_report (now : string) (st : analyzer) : report :=
  mk_report now (calculate_severity (findings st)) (findings st) (generate_recommendations (findings st)).

(** [main()] (lines 273-285) without its printing: a fresh analyzer,
    the two log analyses, the IOC check and the report; an exception of
    the IOC check propagates out of [main]. *)
Definition run_triage (log_dir now : string) (auth syslog : option (list string)) : pyres report :=
  let st0 := init log_dir in
  let st1 := (analyze_auth_log auth st0).2 in
  let st2 := (analyze_syslog syslog st1).2 in
  r ← check_iocs st2;
  Ok (generate_triage_report now r.2).

(** ** [print_report(report)] (lines 236-261) *)

(** [k in finding] then [finding[k]] (lines 251-254). *)
Definition opt_field (f : pyval) (k : string) : pyres (option pyval) :=
  present ← py_in k f;
  match present with true => v ← py_get f k PNone; Ok (Some v) | false => Ok None end.

(** One finding as printed: [finding.get('type', 'Unknown')], then its
    count and its source when the keys are present. *)
Definition finding_view (f : pyval) : pyres (pyval * option pyval * option pyval) :=
  t ← py_get f "type" (PStr "Unknown"); c ← opt_field f "count"; src ← opt_field f "source"; Ok (t, c, src).

Definition print_levels : list string := ["CRITICAL"; "HIGH"; "MEDIUM"; "WARNING"; "INFO"].

(** What [print_report] prints, as values: the timestamp, the severity,
    one block per level that has findings, in [print_levels] order, and
    the numbered recommendations ([enumerate(..., 1)]). *)
Record printed_report := mk_printed {
  p_timestamp : string;
  p_severity : severity;
  p_blocks : list (string * list (pyval * option pyval * option pyval));
  p_recommendations : list (nat * recommendation)
}.

(** The block of one level (lines 247-254):
    [if level in report['findings'] and report['findings'][level]]. *)
Definition level_block (fs : findings_t) (level : string) :
    pyres (list (string * list (pyval * option pyval * option pyval))) :=
  let xs := group fs level in
  if bool_decide (xs = []) then Ok [] else vs ← res_map finding_view xs; Ok [(level, vs)].

Definition print_report (r : report) : pyres printed_report :=
  blocks ← res_map (level_block (report_findings r)) print_levels;
  Ok (mk_printed (report_timestamp r) (incident_severity r) (List.concat blocks)
        (zip (seq 1 (length (recommendations r))) (recommendations r))).

(** ** The analyzer as a state machine *)

(** One method call on the analyzer. *)
Inductive step : analyzer -> analyzer -> Prop :=
| step_auth (file : option (list string)) (st : analyzer) : step st (analyze_auth_log file st).2
| step_syslog (file : option (list string)) (st : analyzer) : step st (analyze_syslog file st).2
| step_iocs (st st' : analyzer) (iocs : list pyval) : check_iocs st = Ok (iocs, st') -> step st st'.

(** The states a run started by [IRTriageAnalyzer(log_dir)] can reach. *)
Inductive reachable (d : string) : analyzer -> Prop :=
| reach_init : reachable d (init d)
| reach_step (st st' : analyzer) : reachable d st -> step st st' -> reachable d st'.

(** The level names that key [self.findings]. *)
Definition levels : list string := ["CRITICAL"; "HIGH"; "MEDIUM"; "WARNING"].

(** The level of a key, as [_calculate_severity] ranks it. *)
Definition level_sev (k : string) : severity :=
  if String.eqb k "CRITICAL" then CRITICAL
  else if String.eqb k "HIGH" then HIGH
  else if String.eqb k "MEDIUM" then MEDIUM
  else if String.eqb k "WARNING" then LOW
  else INFO.

(** Every finding dict has a ["type"] string (so [finding['type']] in the
    IOC scan never raises [KeyError]). *)
Definition has_type (f : pyval) : Prop := exists t, field f "type" = Some (PStr t).

(** The invariant of [self.findings]: keys are distinct level names and
    each key holds a non-empty list of typed findings. *)
Definition findings_wf (fs : findings_t) : Prop :=
  NoDup fs.*1 /\
  forall k xs, (k, xs) ∈ fs -> k ∈ levels /\ xs <> [] /\ Forall has_type xs.

(** The level of every finding, in the order of the report. *)
Definition finding_levels (fs : findings_t) : list severity :=
  List.concat (map (fun kv => map (fun _ => level_sev kv.1) kv.2) fs).

(** ** Lemmas on [defaultdict(list)] *)

Lemma dd_append_extend (k : string) (x : pyval) (fs : findings_t) :
  dd_append k x fs = dd_extend k [x] fs.
Proof. induction fs as [|[k' xs] fs IH]; simpl; [done|]. by rewrite IH. Qed.

Lemma dd_extend_keys (k : string) (ys : list pyval) (fs : findings_t) :
  (dd_extend k ys fs).*1 = if decide (k ∈ fs.*1) then fs.*1 else (fs.*1 ++ [k])%list.
Proof.
  induction fs as [|[k' xs] fs IH]; cbn [dd_extend]; [done|].
  destruct (String.eqb_spec k k') as [->|Hne]; rewrite !fmap_cons; cbn [fst].
  - rewrite decide_True; [done|]. set_solver.
  - rewrite IH. destruct (decide (k ∈ fs.*1)), (decide (k ∈ k' :: fs.*1)); set_solver.
Qed.

Lemma group_dd_extend (k k' : string) (ys : list pyval) (fs : findings_t) :
  group (dd_extend k ys fs) k' = if String.eqb k' k then (group fs k ++ ys)%list else group fs k'.
Proof.
  induction fs as [|[k1 xs] fs IH]; cbn [dd_extend group].
  - by destruct (String.eqb_spec k' k).
  - destruct (String.eqb_spec k k1) as [->|Hne]; cbn [group].
    + by destruct (String.eqb_spec k' k1).
    + rewrite IH. destruct (String.eqb_spec k' k1) as [->|]; [|done].
      by rewrite (proj2 (String.eqb_neq _ _) (not_eq_sym Hne)).
Qed.

Lemma group_dd_append (k k' : string) (x : pyval) (fs : findings_t) :
  group (dd_append k x fs) k' = if String.eqb k' k then (group fs k ++ [x])%list else group fs k'.
Proof. by rewrite dd_append_extend, group_dd_extend. Qed.

Lemma findings_wf_nil : findings_wf [].
Proof. split; [constructor | set_solver]. Qed.

Lemma dd_extend_wf (k : string) (ys : list pyval) (fs : findings_t) :
  k ∈ levels -> ys <> [] -> Forall has_type ys -> findings_wf fs -> findings_wf (dd_extend k ys fs).
Proof.
  intros Hk Hys Hty. induction fs as [|[k' xs] fs IH]; simpl.
  - intros _. split; [apply NoDup_singleton|]. intros k0 xs0 Hin.
    apply list_elem_of_singleton in Hin. by simplify_eq.
  - intros [Hnd Hall]. apply NoDup_cons in Hnd as [Hnin Hnd].
    assert (findings_wf fs) as Hwf by (split; [done|]; intros; apply Hall; set_solver).
    destruct (String.eqb_spec k k') as [->|Hne].
    + split; [by apply NoDup_cons|]. intros k0 xs0 Hin.
      apply elem_of_cons in Hin as [Heq|Hin]; [|by apply Hall; set_solver].
      simplify_eq. destruct (Hall k' xs ltac:(set_solver)) as (Hl & Hne & Hf).
      split_and!; [done| |by apply Forall_app].
      intros Happ. apply app_eq_nil in Happ. naive_solver.
    + destruct (IH Hwf) as [Hnd' Hall']. split.
      * rewrite fmap_cons. apply NoDup_cons. split; [|done]. rewrite dd_extend_keys.
        case_decide; set_solver.
      * intros k0 xs0 Hin. apply elem_of_cons in Hin as [Heq|Hin]; [|by apply Hall'].
        simplify_eq. apply Hall. set_solver.
Qed.

Lemma dd_append_wf (k : string) (x : pyval) (fs : findings_t) :
  k ∈ levels -> has_type x -> findings_wf fs -> findings_wf (dd_append k x fs).
Proof. intros. rewrite dd_append_extend. apply dd_extend_wf; [done|done|by constructor|done]. Qed.

#[export] Hint Resolve findings_wf_nil dd_append_wf dd_extend_wf : triage.

(** ** What the IOC scan finds *)

(** The listed IPs that occur in [str(finding['details'])], in list order. *)
Definition ioc_hits (f : pyval) : list string :=
  match field f "details" with
  | Some d => List.filter (fun ip => contains ip (py_str d)) malicious_ips
  | None => []
  end.

(** One IOC entry per listed IP a finding carries. *)
Definition finding_iocs (f : pyval) : list pyval :=
  map (fun ip => ioc_entry ip (default PNone (field f "type"))) (ioc_hits f).

(** The entries of all findings, in the order of the levels and the
    findings. *)
Definition all_iocs (fs : findings_t) : list pyval := List.concat (map finding_iocs (List.concat (map snd fs))).

Lemma concat_map_if {A B} (P : A -> bool) (g : A -> B) (l : list A) :
  List.concat (map (fun x => if P x then [g x] else []) l) = map g (List.filter P l).
Proof. induction l as [|x l IH]; [done|]. cbn. destruct (P x); cbn; by rewrite IH. Qed.

Lemma concat_map_concat {A B} (h : A -> list B) (xss : list (list A)) :
  List.concat (map (fun xs => List.concat (map h xs)) xss) = List.concat (map h (List.concat xss)).
Proof. induction xss as [|xs xss IH]; [done|]. cbn. by rewrite IH, map_app, concat_app. Qed.

Lemma iocs_of_finding_ok (f : pyval) : has_type f -> iocs_of_finding f = Ok (finding_iocs f).
Proof.
  intros [t Ht]. unfold iocs_of_finding, finding_iocs, ioc_hits. destruct (field f "details") as [d|]; [|done].
  rewrite (res_map_ok _ (fun ip => if contains ip (py_str d) then [ioc_entry ip (PStr t)] else [])), bind_ok.
  - rewrite (concat_map_if (fun ip => contains ip (py_str d)) (fun ip => ioc_entry ip (PStr t))), Ht. done.
  - apply Forall_forall. intros ip _. unfold finding_type. rewrite Ht. by destruct (contains ip (py_str d)).
Qed.

Lemma check_iocs_ok (st : analyzer) :
  findings_wf (findings st) ->
  check_iocs st = Ok (all_iocs (findings st),
    if bool_decide (all_iocs (findings st) = []) then st
    else set_findings st (dd_extend "CRITICAL" (all_iocs (findings st)) (findings st))).
Proof.
  intros [_ Hwf]. unfold check_iocs.
  rewrite (res_map_ok _ (fun kv => List.concat (map finding_iocs kv.2))), bind_ok.
  - unfold all_iocs. rewrite <- concat_map_concat, map_map. done.
  - apply Forall_forall. intros [k xs] Hin. cbn [snd].
    rewrite (res_map_ok _ finding_iocs), bind_ok; [done|].
    destruct (Hwf k xs Hin) as (_ & _ & Hty). eapply Forall_impl; [exact Hty|]. apply iocs_of_finding_ok.
Qed.

Lemma in_finding_iocs (f y : pyval) :
  y ∈ finding_iocs f <->
  exists d ip, field f "details" = Some d /\ ip ∈ malicious_ips /\ ip ∈ₛ py_str d /\
    y = ioc_entry ip (default PNone (field f "type")).
Proof.
  unfold finding_iocs, ioc_hits. rewrite list_elem_of_In, in_map_iff.
  destruct (field f "details") as [d|]; [|naive_solver].
  setoid_rewrite filter_In. setoid_rewrite <- list_elem_of_In. naive_solver.
Qed.

Lemma in_all_iocs (fs : findings_t) (y : pyval) :
  y ∈ all_iocs fs <-> exists k xs f, (k, xs) ∈ fs /\ f ∈ xs /\ y ∈ finding_iocs f.
Proof.
  unfold all_iocs. rewrite list_elem_of_In, in_concat. split.
  - intros (l & Hl & Hy). apply in_map_iff in Hl as (f & <- & Hf).
    apply in_concat in Hf as (xs & Hxs & Hf). apply in_map_iff in Hxs as ([k xs'] & <- & Hkx).
    exists k, xs', f. split_and!; by apply list_elem_of_In.
  - intros (k & xs & f & Hkx%list_elem_of_In & Hf%list_elem_of_In & Hy%list_elem_of_In).
    exists (finding_iocs f). split; [|done]. apply in_map_iff. exists f. split; [done|].
    apply in_concat. exists xs. split; [|done]. apply in_map_iff. by exists (k, xs).
Qed.

Lemma all_iocs_typed (fs : findings_t) : Forall has_type (all_iocs fs).
Proof.
  apply Forall_forall. intros y Hy. apply in_all_iocs in Hy as (k & xs & f & _ & _ & Hy).
  apply in_finding_iocs in Hy as (d & ip & _ & _ & _ & ->). by eexists.
Qed.

Lemma analyze_auth_log_wf (file : option (list string)) (st : analyzer) :
  findings_wf (findings st) -> findings_wf (findings (analyze_auth_log file st).2).
Proof.
  intros Hwf. destruct file as [lines|]; [|done]. cbn [analyze_auth_log snd findings set_findings].
  repeat case_bool_decide; repeat apply dd_append_wf; try done;
    solve [set_solver | by eexists].
Qed.

Lemma analyze_syslog_wf (file : option (list string)) (st : analyzer) :
  findings_wf (findings st) -> findings_wf (findings (analyze_syslog file st).2).
Proof.
  intros Hwf. destruct file as [lines|]; [|done]. cbn [analyze_syslog snd findings set_findings].
  repeat case_bool_decide; repeat apply dd_append_wf; try done;
    solve [set_solver | by eexists].
Qed.

Lemma check_iocs_wf (st st' : analyzer) (iocs : list pyval) :
  findings_wf (findings st) -> check_iocs st = Ok (iocs, st') -> findings_wf (findings st').
Proof.
  intros Hwf Hc. rewrite (check_iocs_ok st Hwf) in Hc. injection Hc as <- <-.
  case_bool_decide as Hnil; [done|]. apply dd_extend_wf; [set_solver|done|apply all_iocs_typed|done].
Qed.

Lemma step_wf (st st' : analyzer) :
  step st st' -> findings_wf (findings st) -> findings_wf (findings st').
Proof.
  destruct 1; [apply analyze_auth_log_wf | apply analyze_syslog_wf | intros; by eapply check_iocs_wf].
Qed.

(** ** Severity is the maximum level *)

Lemma group_in (fs : findings_t) (k : string) : k ∈ fs.*1 -> (k, group fs k) ∈ fs.
Proof.
  induction fs as [|[k1 xs] fs IH]; cbn [group]; rewrite ?fmap_cons; [set_solver|].
  cbn [fst]. destruct (String.eqb_spec k k1) as [->|Hne]; [set_solver|].
  intros Hin. apply elem_of_cons. right. apply IH. set_solver.
Qed.

Lemma group_not_in (fs : findings_t) (k : string) : k ∉ fs.*1 -> group fs k = [].
Proof.
  induction fs as [|[k1 xs] fs IH]; cbn [group]; rewrite ?fmap_cons; [done|].
  cbn [fst]. destruct (String.eqb_spec k k1) as [->|Hne]; set_solver.
Qed.

Lemma wf_group_nonempty (fs : findings_t) (k : string) :
  findings_wf fs -> group fs k <> [] <-> k ∈ fs.*1.
Proof.
  intros [_ Hall]. split.
  - intros Hne. destruct (decide (k ∈ fs.*1)) as [|Hn]; [done|]. by rewrite group_not_in in Hne.
  - intros Hin. apply group_in in Hin. apply (Hall _ _ Hin).
Qed.

Lemma finding_levels_spec (fs : findings_t) (s : severity) :
  findings_wf fs -> s ∈ finding_levels fs <-> exists k, k ∈ fs.*1 /\ s = level_sev k.
Proof.
  intros [_ Hall]. unfold finding_levels. rewrite list_elem_of_In, in_concat. split.
  - intros [l [Hl Hs]]. apply in_map_iff in Hl as [[k xs] [<- Hkx]].
    apply in_map_iff in Hs as [x [<- _]]. exists k. split; [|done].
    apply list_elem_of_fmap. exists (k, xs). split; [done|]. by apply list_elem_of_In.
  - intros [k [Hk ->]]. apply list_elem_of_fmap in Hk as [[k' xs] [-> Hkx]].
    destruct (Hall k' xs Hkx) as (_ & Hne & _). destruct xs as [|x xs]; [done|].
    exists (map (fun _ => level_sev k') (x :: xs)). split; [|by left].
    apply in_map_iff. exists (k', x :: xs). split; [done|]. by apply list_elem_of_In.
Qed.

Lemma sev_max_list_unique (ss : list severity) (m : severity) :
  (forall s, s ∈ ss -> sev_le s m) -> (m ∈ ss \/ ss = [] /\ m = INFO) -> sev_max_list ss = m.
Proof.
  intros Hub Hatt. destruct (sev_max_list_spec ss) as [Hub' Hatt'].
  destruct Hatt as [Hm|[-> ->]]; [|done].
  apply sev_rank_inj. pose proof (Hub' m Hm) as H1. unfold sev_le in *.
  destruct Hatt' as [[-> _]|HM]; [set_solver|]. pose proof (Hub _ HM). lia.
Qed.

Lemma wf_key_level (fs : findings_t) (k : string) :
  findings_wf fs -> k ∈ fs.*1 -> k ∈ levels.
Proof.
  intros [_ Hall] Hk. apply list_elem_of_fmap in Hk as [[k' xs] [-> Hkx]]. apply (Hall _ _ Hkx).
Qed.

(** Turn the tests of [calculate_severity] into key membership. *)
Local Ltac groups_to_keys Hwf :=
  repeat match goal with
  | H : ¬ (group ?fs ?k <> []) |- _ => rewrite (wf_group_nonempty fs k Hwf) in H
  | H : group ?fs ?k <> [] |- _ => rewrite (wf_group_nonempty fs k Hwf) in H
  | H : group ?fs ?k = [] |- _ =>
      let Hn := fresh in
      assert (k ∉ fs.*1) as Hn by (rewrite <- (wf_group_nonempty fs k Hwf); tauto); clear H
  end.

Local Ltac level_cases H :=
  unfold levels in H; repeat (apply elem_of_cons in H as [->|H]); [..|set_solver].

Lemma calculate_severity_upper (fs : findings_t) (k : string) :
  findings_wf fs -> k ∈ fs.*1 -> sev_le (level_sev k) (calculate_severity fs).
Proof.
  intros Hwf Hk. pose proof (wf_key_level _ _ Hwf Hk) as Hl. unfold calculate_severity.
  repeat case_bool_decide; groups_to_keys Hwf; level_cases Hl;
    solve [unfold sev_le; simpl; lia | tauto].
Qed.

Lemma calculate_severity_attained (fs : findings_t) :
  findings_wf fs ->
  (exists k, k ∈ fs.*1 /\ calculate_severity fs = level_sev k) \/
  (fs.*1 = [] /\ calculate_severity fs = INFO).
Proof.
  intros Hwf. unfold calculate_severity.
  repeat case_bool_decide; groups_to_keys Hwf;
    try (left; eexists; split; [eassumption|reflexivity]).
  right. split; [|done]. destruct (fs.*1) as [|k ks] eqn:Hks; [done|].
  assert (k ∈ levels) as Hl by (apply (wf_key_level fs); [done|rewrite Hks; set_solver]).
  exfalso. level_cases Hl; set_solver.
Qed.

Lemma calculate_severity_is_max (fs : findings_t) :
  findings_wf fs -> calculate_severity fs = sev_max_list (finding_levels fs).
Proof.
  intros Hwf. symmetry. apply sev_max_list_unique.
  - intros s Hs. apply finding_levels_spec in Hs as [k [Hk ->]]; [|done].
    by apply calculate_severity_upper.
  - destruct (calculate_severity_attained fs Hwf) as [[k [Hk ->]]|[Hnil ->]].
    + left. apply finding_levels_spec; [done|]. eauto.
    + right. split; [|done]. destruct fs; [done|discriminate].
Qed.

Lemma reachable_wf (d : string) (st : analyzer) : reachable d st -> findings_wf (findings st).
Proof. induction 1; [apply findings_wf_nil | by eapply step_wf]. Qed.

Lemma run_triage_reachable (d now : string) (auth syslog : option (list string)) :
  exists st, reachable d st /\ run_triage d now auth syslog = Ok (generate_triage_report now st).
Proof.
  assert (reachable d (analyze_syslog syslog (analyze_auth_log auth (init d)).2).2) as Hr2
    by (eapply reach_step; [eapply reach_step; [apply reach_init|]|]; constructor).
  pose proof (check_iocs_ok _ (reachable_wf d _ Hr2)) as Hc.
  eexists. split; [eapply reach_step; [exact Hr2|by eapply step_iocs]|].
  unfold run_triage. cbv zeta. by rewrite Hc.
Qed.

(** ** Syslog thresholds *)

Lemma syslog_scan_spec (lines : list string) :
  errors (syslog_scan lines) = map syslog_entry (List.filter error_line lines) /\
  kernel_messages (syslog_scan lines) = map syslog_entry (List.filter kernel_line lines).
Proof.
  induction lines as [|l lines [IHe IHk]] using rev_ind; [done|].
  unfold syslog_scan in *. rewrite foldl_app, !List.filter_app, !map_app.
  cbn [foldl syslog_line errors kernel_messages List.filter]. rewrite IHe, IHk.
  split; [destruct (error_line l) | destruct (kernel_line l)]; simpl; by rewrite ?app_nil_r.
Qed.

(** ** Brute-force detection *)

(** The ["user@ip"] key a line adds to [failed_logins], if any. *)
Definition failed_key (line : string) : option string :=
  if contains "Failed password" line then
    match re_search pat_login line with
    | Some [user; ip] => Some (user ++ "@" ++ ip)
    | _ => None
    end
  else None.

Lemma auth_line_failed (acc : auth_acc) (line : string) :
  failed_logins (auth_line acc line) =
  match failed_key line with Some k => incr k (failed_logins acc) | None => failed_logins acc end.
Proof.
  unfold auth_line, failed_key.
  destruct (contains "Failed password" line); [|repeat case_match; reflexivity].
  destruct (re_search pat_login line) as [[|u [|ip [|]]]|]; repeat case_match; reflexivity.
Qed.

Lemma auth_scan_failed (lines : list string) :
  failed_logins (auth_scan lines) = count_all (omap failed_key lines).
Proof.
  induction lines as [|l lines IH] using rev_ind; [done|].
  unfold auth_scan in *. rewrite foldl_app, omap_app. cbn [foldl].
  rewrite auth_line_failed, IH.
  replace (omap failed_key [l]) with (match failed_key l with Some k => [k] | None => [] end)
    by reflexivity.
  destruct (failed_key l).
  - by rewrite count_all_snoc.
  - by rewrite app_nil_r.
Qed.

Lemma over_nil_iff (ks : list string) :
  over 5 (count_all ks) = [] <-> ~ exists k, k ∈ ks /\ (5 < occurrences k ks)%Z.
Proof.
  split.
  - intros Hnil [k [Hk Hlt]].
    assert ((k, occurrences k ks) ∈ over 5 (count_all ks)) as Hin by (by apply over_count_all_iff).
    rewrite Hnil in Hin. set_solver.
  - intros Hno. destruct (over 5 (count_all ks)) as [|[k n] rest] eqn:E; [done|].
    exfalso. apply Hno. exists k.
    assert ((k, n) ∈ over 5 (count_all ks)) as Hin by (rewrite E; set_solver).
    apply over_count_all_iff in Hin as (Hk & -> & Hlt). done.
Qed.

Lemma analyze_auth_log_group (lines : list string) (st : analyzer) (k : string) :
  let c := count_all (omap failed_key lines) in
  group (findings (analyze_auth_log (Some lines) st).2) k =
    (group (findings st) k
     ++ (if String.eqb k "CRITICAL" && negb (bool_decide (over 5 c = []))
         then [brute_force_finding (over 5 c)] else [])
     ++ (if String.eqb k "WARNING" && negb (bool_decide (c = []))
         then [failed_logins_finding c] else []))%list.
Proof.
  cbn zeta. cbn [analyze_auth_log snd findings set_findings]. rewrite auth_scan_failed.
  set (c := count_all (omap failed_key lines)).
  destruct (bool_decide (over 5 c = [])), (bool_decide (c = [])); cbn [negb andb];
    rewrite ?group_dd_append;
    destruct (String.eqb_spec k "CRITICAL") as [Hc|Hc]; destruct (String.eqb_spec k "WARNING") as [Hw|Hw];
    try (subst; discriminate); subst; simpl; rewrite ?app_nil_r, ?app_assoc; try reflexivity.
Qed.

(** C3: brute-force detection.  After [analyze_auth_log] on the lines of
    auth.log, the CRITICAL group has gained one brute-force finding exactly
    when some ["user@ip"] key has more than 5 matching "Failed password"
    lines; its details are [over 5] of the counts. *)
Theorem brute_force_detection (lines : list string) (st : analyzer) :
  let ks := omap failed_key lines in
  group (findings (analyze_auth_log (Some lines) st).2) "CRITICAL" =
    (group (findings st) "CRITICAL" ++
     (if bool_decide (Exists (fun k => (5 < occurrences k ks)%Z) ks)
      then [brute_force_finding (over 5 (count_all ks))] else []))%list.
Proof.
  cbn zeta. rewrite analyze_auth_log_group. simpl. rewrite app_nil_r. f_equal.
  pose proof (over_nil_iff (omap failed_key lines)) as Hiff. rewrite <- Exists_exists in Hiff.
  destruct (bool_decide_reflect (over 5 (count_all (omap failed_key lines)) = [])) as [H|H];
    case_bool_decide; simpl; tauto.
Qed.

Lemma analyze_syslog_group (lines : list string) (st : analyzer) (k : string) :
  let errs := map syslog_entry (List.filter error_line lines) in
  let kms := map syslog_entry (List.filter kernel_line lines) in
  group (findings (analyze_syslog (Some lines) st).2) k =
    (group (findings st) k
     ++ (if String.eqb k "HIGH" && bool_decide (10 < length errs)
         then [system_errors_finding errs] else [])
     ++ (if String.eqb k "MEDIUM" && bool_decide (20 < length kms)
         then [kernel_spike_finding kms] else []))%list.
Proof.
  cbn zeta. cbn [analyze_syslog snd findings set_findings].
  destruct (syslog_scan_spec lines) as [-> ->].
  destruct (bool_decide (10 < _)), (bool_decide (20 < _)); cbn [andb];
    rewrite ?group_dd_append;
    destruct (String.eqb_spec k "HIGH") as [Hh|Hh]; destruct (String.eqb_spec k "MEDIUM") as [Hm|Hm];
    try (subst; discriminate); subst; simpl; rewrite ?app_nil_r, ?app_assoc; try reflexivity.
Qed.

(** C9: Syslog thresholds.  [analyze_syslog] adds one HIGH finding exactly
    when more than 10 lines mention "error" or "critical" (in any case),
    one MEDIUM finding exactly when more than 20 lines contain "kernel:",
    and leaves every other level untouched. *)
Theorem syslog_thresholds (lines : list string) (st : analyzer) :
  let errs := List.filter error_line lines in
  let kms := List.filter kernel_line lines in
  let fs' := findings (analyze_syslog (Some lines) st).2 in
  group fs' "HIGH" = (group (findings st) "HIGH" ++
      (if bool_decide (10 < length errs) then [system_errors_finding (map syslog_entry errs)] else []))%list /\
  group fs' "MEDIUM" = (group (findings st) "MEDIUM" ++
      (if bool_decide (20 < length kms) then [kernel_spike_finding (map syslog_entry kms)] else []))%list /\
  (forall k, k <> "HIGH" -> k <> "MEDIUM" -> group fs' k = group (findings st) k).
Proof.
  cbn zeta. split_and!; [| |intros k Hh Hm]; rewrite analyze_syslog_group; rewrite ?length_map.
  - simpl. by rewrite app_nil_r.
  - simpl. done.
  - rewrite (proj2 (String.eqb_neq _ _) Hh), (proj2 (String.eqb_neq _ _) Hm). simpl. by rewrite !app_nil_r.
Qed.

(** ** What the CRITICAL group holds *)

Definition is_bf_finding (f : pyval) : Prop := exists bf, f = brute_force_finding bf.

(** A finding with ["details"] is a brute-force finding (kept under
    CRITICAL) or a failed-login finding. *)
Definition details_ok (k : string) (f : pyval) : Prop :=
  forall d, field f "details" = Some d ->
  (is_bf_finding f /\ k = "CRITICAL") \/ exists c, f = failed_logins_finding c.

(** A CRITICAL finding is a brute-force finding or an IOC hit on a listed
    IP whose context is one of the two finding types with details; a
    brute-force context comes with a brute-force finding in the group. *)
Definition crit_ok (fs : findings_t) (f : pyval) : Prop :=
  is_bf_finding f \/
  exists ip ctx, f = ioc_entry ip (PStr ctx) /\ ip ∈ malicious_ips /\
    (ctx = "Failed Login Attempts" \/
     ctx = "Brute Force Attack Detected" /\ exists g, g ∈ group fs "CRITICAL" /\ is_bf_finding g).

(** An IOC entry is kept under CRITICAL and nowhere else. *)
Definition ioc_ok (k : string) (f : pyval) : Prop :=
  forall ip ctx, f = ioc_entry ip ctx -> k = "CRITICAL".

Definition all_ok (P : string -> pyval -> Prop) (fs : findings_t) : Prop :=
  forall k xs f, (k, xs) ∈ fs -> f ∈ xs -> P k f.

Definition triage_inv (fs : findings_t) : Prop :=
  findings_wf fs /\ all_ok details_ok fs /\ all_ok ioc_ok fs /\
  forall f, f ∈ group fs "CRITICAL" -> crit_ok fs f.

Lemma in_dd_extend (k k' : string) (ys xs : list pyval) (fs : findings_t) :
  (k', xs) ∈ dd_extend k ys fs -> (k', xs) ∈ fs \/ (k' = k /\ xs = (group fs k ++ ys)%list).
Proof.
  induction fs as [|[k1 zs] fs IH]; cbn [dd_extend group].
  - rewrite list_elem_of_singleton. intros [= -> ->]. by right.
  - destruct (String.eqb_spec k k1) as [->|Hne].
    + rewrite elem_of_cons. intros [Heq|Hin]; [|left; set_solver].
      injection Heq as -> ->. right. split; [done|]. by destruct (String.eqb_spec k1 k1).
    + rewrite elem_of_cons. intros [[= -> ->]|Hin]; [left; set_solver|].
      destruct (IH Hin) as [Hin'|[-> ->]]; [left; set_solver|by right].
Qed.

Lemma all_ok_dd_extend (P : string -> pyval -> Prop) (k : string) (ys : list pyval) (fs : findings_t) :
  all_ok P fs -> (forall y, y ∈ ys -> P k y) -> all_ok P (dd_extend k ys fs).
Proof.
  intros Hok Hys k' xs f Hin Hf. apply in_dd_extend in Hin as [Hin|[-> ->]]; [by eapply Hok|].
  apply elem_of_app in Hf as [Hf|Hf]; [|by apply Hys].
  destruct (decide (k ∈ fs.*1)) as [Hk|Hk]; [|rewrite group_not_in in Hf; set_solver].
  eapply Hok; [by apply group_in|done].
Qed.

Lemma group_dd_extend_mono (k k' : string) (ys : list pyval) (fs : findings_t) (g : pyval) :
  g ∈ group fs k' -> g ∈ group (dd_extend k ys fs) k'.
Proof.
  rewrite group_dd_extend. destruct (String.eqb_spec k' k) as [->|]; [set_solver|done].
Qed.

Lemma crit_ok_mono (fs fs' : findings_t) (f : pyval) :
  (forall g, g ∈ group fs "CRITICAL" -> g ∈ group fs' "CRITICAL") -> crit_ok fs f -> crit_ok fs' f.
Proof. intros Hsub [Hbf|(ip & ctx & -> & Hip & Hctx)]; [by left|right]. naive_solver. Qed.

Lemma triage_inv_extend (k : string) (ys : list pyval) (fs : findings_t) :
  triage_inv fs -> k ∈ levels -> ys <> [] -> Forall has_type ys ->
  (forall y, y ∈ ys -> details_ok k y) -> (forall y, y ∈ ys -> ioc_ok k y) ->
  (k = "CRITICAL" -> forall y, y ∈ ys -> crit_ok (dd_extend k ys fs) y) ->
  triage_inv (dd_extend k ys fs).
Proof.
  intros (Hwf & Hdet & Hioc & Hcrit) Hk Hys Hty Hdy Hiy Hcy. split_and!.
  - by apply dd_extend_wf.
  - by apply all_ok_dd_extend.
  - by apply all_ok_dd_extend.
  - intros f. rewrite group_dd_extend. destruct (String.eqb_spec "CRITICAL" k) as [<-|Hne].
    + rewrite elem_of_app. intros [Hf|Hf]; [|by apply Hcy].
      eapply crit_ok_mono; [|by apply Hcrit]. intros g. apply group_dd_extend_mono.
    + intros Hf. eapply crit_ok_mono; [|by apply Hcrit]. intros g. apply group_dd_extend_mono.
Qed.

Lemma triage_inv_append (k : string) (x : pyval) (fs : findings_t) :
  triage_inv fs -> k ∈ levels -> has_type x -> details_ok k x -> ioc_ok k x ->
  (k = "CRITICAL" -> crit_ok (dd_append k x fs) x) ->
  triage_inv (dd_append k x fs).
Proof.
  intros Hinv Hk Hty Hd Hi Hc. rewrite dd_append_extend in *.
  apply triage_inv_extend; [done|done|done|by constructor| | |]; intros; set_solver.
Qed.

Lemma triage_inv_nil : triage_inv [].
Proof. split_and!; [apply findings_wf_nil | intros ???; set_solver | intros ???; set_solver | intros f; cbn; set_solver]. Qed.

Lemma no_details_ok (k : string) (f : pyval) : field f "details" = None -> details_ok k f.
Proof. intros H d Hd. congruence. Qed.

(** The findings of the log analyses are not IOC entries. *)
Local Ltac not_ioc := intros ?? Heq; discriminate Heq.

Lemma analyze_auth_log_inv (file : option (list string)) (st : analyzer) :
  triage_inv (findings st) -> triage_inv (findings (analyze_auth_log file st).2).
Proof.
  intros Hinv. destruct file as [lines|]; [|done]. cbn [analyze_auth_log snd findings set_findings].
  repeat case_bool_decide; repeat apply triage_inv_append; try done;
    try solve [set_solver | by eexists | discriminate | not_ioc].
  - intros d _. left. split; [by eexists|done].
  - intros _. left. by eexists.
  - intros d _. right. by eexists.
  - intros d _. left. split; [by eexists|done].
  - intros _. left. by eexists.
  - intros d _. right. by eexists.
Qed.

Lemma analyze_syslog_inv (file : option (list string)) (st : analyzer) :
  triage_inv (findings st) -> triage_inv (findings (analyze_syslog file st).2).
Proof.
  intros Hinv. destruct file as [lines|]; [|done]. cbn [analyze_syslog snd findings set_findings].
  repeat case_bool_decide; repeat apply triage_inv_append; try done;
    solve [set_solver | by eexists | discriminate | by apply no_details_ok | not_ioc].
Qed.

Lemma wf_group_eq (fs : findings_t) (k : string) (xs : list pyval) :
  findings_wf fs -> (k, xs) ∈ fs -> group fs k = xs.
Proof.
  intros [Hnd _]. induction fs as [|[k1 zs] fs IH]; [set_solver|].
  rewrite fmap_cons in Hnd. apply NoDup_cons in Hnd as [Hnin Hnd]. cbn [group].
  rewrite elem_of_cons. intros [[= -> ->]|Hin]; [by rewrite String.eqb_refl|].
  destruct (String.eqb_spec k k1) as [->|]; [|by apply IH].
  exfalso. apply Hnin. apply list_elem_of_fmap. by exists (k1, xs).
Qed.

(** Each IOC entry of a state of the invariant names a listed IP and the
    type of a finding with details. *)
Lemma all_iocs_ok (fs : findings_t) (y : pyval) :
  triage_inv fs -> y ∈ all_iocs fs ->
  exists ip ctx, y = ioc_entry ip (PStr ctx) /\ ip ∈ malicious_ips /\
    (ctx = "Failed Login Attempts" \/
     ctx = "Brute Force Attack Detected" /\ exists g, g ∈ group fs "CRITICAL" /\ is_bf_finding g).
Proof.
  intros (Hwf & Hdet & _) Hy. apply in_all_iocs in Hy as (k & xs & f & Hkx & Hf & Hy).
  apply in_finding_iocs in Hy as (d & ip & Hd & Hip & _ & ->).
  destruct (Hdet k xs f Hkx Hf d Hd) as [[[bf ->] ->]|[c ->]].
  - exists ip, "Brute Force Attack Detected". split_and!; [done|done|]. right. split; [done|].
    exists (brute_force_finding bf). split; [|by eexists]. by rewrite (wf_group_eq _ _ _ Hwf Hkx).
  - exists ip, "Failed Login Attempts". split_and!; [done|done|by left].
Qed.

Lemma check_iocs_inv (st st' : analyzer) (iocs : list pyval) :
  triage_inv (findings st) -> check_iocs st = Ok (iocs, st') -> triage_inv (findings st').
Proof.
  intros Hinv Hc. rewrite (check_iocs_ok st (proj1 Hinv)) in Hc. injection Hc as <- <-.
  pose proof (fun y => all_iocs_ok _ y Hinv) as Hy.
  case_bool_decide as Hnil; [done|]. cbn [findings set_findings].
  apply triage_inv_extend; [done|set_solver|done|apply all_iocs_typed| | |].
  - intros y Hy'. destruct (Hy y Hy') as (ip & ctx & -> & _). by apply no_details_ok.
  - intros y _ ip ctx _. done.
  - intros _ y Hy'. destruct (Hy y Hy') as (ip & ctx & -> & Hip & Hctx). right.
    exists ip, ctx. split_and!; [done|done|]. destruct Hctx as [|[? (g & Hg & Hbf)]]; [by left|right].
    split; [done|]. exists g. split; [|done]. by apply group_dd_extend_mono.
Qed.

Lemma step_inv (st st' : analyzer) :
  step st st' -> triage_inv (findings st) -> triage_inv (findings st').
Proof. destruct 1; [apply analyze_auth_log_inv | apply analyze_syslog_inv | intros; by eapply check_iocs_inv]. Qed.

Lemma reachable_inv (d : string) (st : analyzer) : reachable d st -> triage_inv (findings st).
Proof. induction 1; [apply triage_inv_nil | by eapply step_inv]. Qed.

(** ** The brute-force recommendations follow the brute-force finding *)

(** [f['type'] == 'Brute Force Attack Detected']. *)
Definition is_bf_type (f : pyval) : bool :=
  py_eq_str (default PNone (field f "type")) "Brute Force Attack Detected".

Lemma str_bf_finding (bf : @counter string) :
  contains "Brute Force" (py_str (brute_force_finding bf)) = true.
Proof.
  unfold brute_force_finding. cbn [py_str py_repr map fst snd join].
  apply contains_app_r, contains_app_l, contains_app_l, contains_app_r, contains_app_r.
  reflexivity.
Qed.

Lemma str_ioc_entry (ip ctx : string) :
  ip ∈ malicious_ips -> ctx ∈ ["Failed Login Attempts"; "Brute Force Attack Detected"] ->
  contains "Brute Force" (py_str (ioc_entry ip (PStr ctx))) = bool_decide (ctx = "Brute Force Attack Detected").
Proof.
  unfold malicious_ips. intros Hip Hctx.
  repeat (apply elem_of_cons in Hip as [->|Hip]); [..|set_solver];
    repeat (apply elem_of_cons in Hctx as [->|Hctx]); try set_solver; vm_compute; reflexivity.
Qed.

Lemma is_bf_type_bf (bf : @counter string) : is_bf_type (brute_force_finding bf) = true.
Proof. reflexivity. Qed.

Lemma is_bf_type_ioc (ip : string) (ctx : pyval) : is_bf_type (ioc_entry ip ctx) = false.
Proof. reflexivity. Qed.

Lemma brute_force_in_critical_spec (fs : findings_t) :
  triage_inv fs -> brute_force_in_critical fs = existsb is_bf_type (group fs "CRITICAL").
Proof.
  intros (_ & _ & _ & Hcrit). unfold brute_force_in_critical. apply eq_bool_prop_intro.
  rewrite !Is_true_true, !existsb_exists. split.
  - intros [f [Hf Hc]]. rewrite <- list_elem_of_In in Hf.
    destruct (Hcrit f Hf) as [[bf ->]|(ip & ctx & -> & Hip & [->|[-> (g & Hg & [bf ->])]])].
    + exists (brute_force_finding bf). rewrite <- list_elem_of_In. done.
    + rewrite str_ioc_entry in Hc by set_solver. done.
    + exists (brute_force_finding bf). rewrite <- list_elem_of_In. done.
  - intros [g [Hg Hb]]. rewrite <- list_elem_of_In in Hg.
    destruct (Hcrit g Hg) as [[bf ->]|(ip & ctx & -> & _)].
    + exists (brute_force_finding bf). rewrite <- list_elem_of_In. split; [done|apply str_bf_finding].
    + by rewrite is_bf_type_ioc in Hb.
Qed.

Lemma brute_force_in_critical_nil (fs : findings_t) :
  group fs "CRITICAL" = [] -> brute_force_in_critical fs = false.
Proof. unfold brute_force_in_critical. by intros ->. Qed.

(** Test lines in the formats of OpenSSH and sudo. *)
Definition sshd_failed_line (user ip : string) : string :=
  "Oct  8 10:00:01 srv sshd[811]: Failed password for " ++ user ++ " from " ++ ip ++ " port 52144 ssh2" ++ ch 10.
Definition sshd_invalid_user_line (user ip : string) : string :=
  "Oct  8 10:00:01 srv sshd[811]: Failed password for invalid user " ++ user ++ " from " ++ ip ++ " port 52144 ssh2" ++ ch 10.
Definition sudo_line : string :=
  "Oct  8 10:05:00 srv sudo:    alice : TTY=pts/0 ; PWD=/home/alice ; USER=root ; COMMAND=/bin/cat /etc/shadow" ++ ch 10.

(** ** OpenSSH failed-password lines *)

Lemma failed_key_sshd (user ip : string) :
  cap_ok is_word_char user -> cap_ok is_ip_char ip ->
  failed_key (sshd_failed_line user ip) = Some (user ++ "@" ++ ip).
Proof.
  intros Hu Hi. unfold failed_key.
  assert (contains "Failed password" (sshd_failed_line user ip) = true) as -> by reflexivity.
  change (sshd_failed_line user ip) with ("Oct  8 10:00:01 srv sshd[811]: Failed password "
    ++ ("for " ++ user ++ " from " ++ ip ++ (" port 52144 ssh2" ++ ch 10))).
  rewrite re_search_skip, (re_search_here _ _ [user; ip]); [done|by apply match_login|].
  intros k Hk. cbn in Hk. repeat (destruct k as [|k]; [reflexivity|]). lia.
Qed.

(** "Failed password for invalid user USER from IP" yields no key. *)
Lemma failed_key_invalid_user (user ip : string) :
  all_chars is_word_char user = true -> cap_ok is_ip_char ip ->
  failed_key (sshd_invalid_user_line user ip) = None.
Proof.
  intros Hu Hi. unfold failed_key.
  assert (contains "Failed password" (sshd_invalid_user_line user ip) = true) as -> by reflexivity.
  change (sshd_invalid_user_line user ip) with ("Oct  8 10:00:01 srv sshd[811]: Failed password for invalid user "
    ++ (user ++ " from " ++ ip ++ (" port 52144 ssh2" ++ ch 10))).
  rewrite re_search_skip, re_search_login_tail; [done|done|done|reflexivity|].
  intros k Hk. cbn in Hk. repeat (destruct k as [|k]; [reflexivity|]). lia.
Qed.

Lemma omap_repeat {A B} (f : A -> option B) (x : A) (y : B) (n : nat) :
  f x = Some y -> omap f (repeat x n) = repeat y n.
Proof. intros Hx. induction n as [|n IH]; [done|]. cbn. by rewrite Hx, IH. Qed.

Lemma omap_repeat_none {A B} (f : A -> option B) (x : A) (n : nat) :
  f x = None -> omap f (repeat x n) = [].
Proof. intros Hx. induction n as [|n IH]; [done|]. cbn. by rewrite Hx, IH. Qed.

(** ** [str()] of a failed-login count *)

Lemma repr_char_ip (q : string) (c : ascii) :
  q = sq \/ q = dq -> is_ip_char c = true -> repr_char q c = String c "".
Proof.
  intros Hq Hc. apply ip_char_cases in Hc.
  destruct Hq as [-> | ->]; repeat (apply elem_of_cons in Hc as [->|Hc]); solve [reflexivity | set_solver].
Qed.

Lemma repr_body_app (q a b : string) : repr_body q (a ++ b) = repr_body q a ++ repr_body q b.
Proof.
  induction a as [|c a IH]; [done|]. change (String c a ++ b) with (String c (a ++ b)).
  cbn [repr_body]. rewrite IH. apply str_app_assoc.
Qed.

Lemma repr_body_ip (q ip : string) :
  q = sq \/ q = dq -> all_chars is_ip_char ip = true -> repr_body q ip = ip.
Proof.
  intros Hq. induction ip as [|c ip IH]; [done|]. intros [Hc Hi]%andb_true_iff.
  cbn [repr_body]. rewrite repr_char_ip, IH by done. done.
Qed.

(** The IP of a ["user@ip"] key shows in [str()] of the counts. *)
Lemma ip_in_counts_dict (user ip : string) (z : Z) :
  all_chars is_ip_char ip = true -> ip ∈ₛ py_str (counts_dict [(user ++ "@" ++ ip, z)]).
Proof.
  intros Hi. cbn [counts_dict map fst snd py_str py_repr join]. unfold py_repr_str.
  match goal with |- context [if ?b then dq else sq] =>
    assert ((if b then dq else sq) = sq \/ (if b then dq else sq) = dq) as Hq by (destruct b; auto);
    revert Hq; generalize (if b then dq else sq) end.
  intros q Hq. rewrite !repr_body_app, (repr_body_ip q ip) by done.
  apply contains_app_r, contains_app_l, contains_app_l, contains_app_r, contains_app_l.
  apply contains_app_r, contains_app_r, contains_refl.
Qed.

(** ** The analyzer after an IOC check that returns *)

Definition after_iocs (st : analyzer) : analyzer :=
  match check_iocs st with Ok r => r.2 | Raise _ => st end.

Lemma step_after_iocs (st : analyzer) : is_ok (check_iocs st) = true -> step st (after_iocs st).
Proof.
  unfold after_iocs. destruct (check_iocs st) as [[iocs st']|] eqn:E; [|done]. intros _. by eapply step_iocs.
Qed.

(** ** Properties of the analyzer *)

(** ** [print_report] on the analyzer's findings *)

(** A finding as the report shows it, read from the dict. *)
Definition finding_row (f : pyval) : pyval * option pyval * option pyval :=
  (default PNone (field f "type"), field f "count", field f "source").

Lemma group_notin (fs : findings_t) (k : string) : k ∉ fs.*1 -> group fs k = [].
Proof.
  induction fs as [|[k' xs] fs IH]; cbn; [done|]. rewrite not_elem_of_cons. intros [Hne Hk].
  destruct (String.eqb_spec k k'); [congruence|]. by apply IH.
Qed.

Lemma group_elem (fs : findings_t) (k : string) : group fs k <> [] -> (k, group fs k) ∈ fs.
Proof.
  induction fs as [|[k' xs] fs IH]; cbn; [done|].
  destruct (String.eqb_spec k k') as [->|]; intros H; [left|right; by apply IH].
Qed.

Lemma group_typed (fs : findings_t) (k : string) : findings_wf fs -> Forall has_type (group fs k).
Proof.
  intros [_ Hwf]. destruct (decide (group fs k = [])) as [->|Hne]; [constructor|].
  apply (Hwf k _ (group_elem fs k Hne)).
Qed.

(** Reading the groups of distinct keys in another order of the keys
    gives the same findings, up to order. *)
Lemma concat_group_perm (fs : findings_t) (L : list string) :
  NoDup fs.*1 -> NoDup L -> fs.*1 ⊆ L -> List.concat (map (group fs) L) ≡ₚ List.concat (map snd fs).
Proof.
  revert L; induction fs as [|[k xs] fs IH]; intros L Hnd HL Hsub.
  - clear. induction L as [|k L IHL]; [done|exact IHL].
  - cbn [fmap list_fmap fst] in Hnd, Hsub. apply NoDup_cons in Hnd as [Hk Hnd].
    destruct (list_elem_of_split L k) as (L1 & L2 & ->); [apply Hsub; left|].
    apply NoDup_app in HL as (HL1 & Hdisj & HL2). apply NoDup_cons in HL2 as [HkL2 HL2].
    assert (k ∉ L1) as HkL1 by (intros Hin; by apply (Hdisj k); [|left]).
    assert (forall L', k ∉ L' -> map (group ((k, xs) :: fs)) L' = map (group fs) L') as Hout.
    { intros L' HL'. apply map_ext_in. intros k' Hk'. cbn. destruct (String.eqb_spec k' k) as [->|]; [|done].
      by apply list_elem_of_In in Hk'. }
    rewrite map_app, concat_app. cbn [map List.concat snd]. rewrite Hout, Hout by done.
    cbn. rewrite String.eqb_refl.
    transitivity (xs ++ List.concat (map (group fs) (L1 ++ k :: L2)))%list.
    + rewrite map_app, concat_app. cbn [map List.concat]. rewrite group_notin by done. cbn [app].
      rewrite !app_assoc. apply Permutation_app_tail. apply Permutation_app_comm.
    + apply Permutation_app_head, IH; [done| |].
      * apply NoDup_app. split_and!; [done| |by apply NoDup_cons]. intros x Hx1 Hx2. by apply (Hdisj x).
      * intros x Hx. apply Hsub. by right.
Qed.

Lemma finding_view_typed (f : pyval) : has_type f -> finding_view f = Ok (finding_row f).
Proof.
  intros [t Ht]. destruct f as [| | | | |kvs]; try discriminate. unfold finding_view, opt_field, finding_row, field in *.
  cbn [py_get py_in]. rewrite Ht. unfold dict_has.
  destruct (dict_lookup kvs "count"), (dict_lookup kvs "source"); reflexivity.
Qed.

Lemma level_block_ok (fs : findings_t) (k : string) :
  findings_wf fs ->
  level_block fs k = Ok (if bool_decide (group fs k = []) then [] else [(k, map finding_row (group fs k))]).
Proof.
  intros Hwf. unfold level_block. case_bool_decide; [done|].
  rewrite (res_map_ok _ finding_row); [done|]. eapply Forall_impl; [by apply group_typed|]. apply finding_view_typed.
Qed.

Lemma concat_blocks (fs : findings_t) (L : list string) :
  List.concat (map snd (List.concat (map (fun k => if bool_decide (group fs k = []) then []
                                                  else [(k, map finding_row (group fs k))]) L))) =
    map finding_row (List.concat (map (group fs) L)).
Proof.
  induction L as [|k L IH]; [done|]. cbn [map List.concat]. rewrite map_app, concat_app, IH, map_app.
  case_bool_decide as E; [by rewrite E|]. cbn. by rewrite app_nil_r.
Qed.

(** C1: the incident severity of every report [main] produces is the
    maximum level over all its findings (CRITICAL > HIGH > MEDIUM >
    WARNING-as-LOW), and INFO when there is no finding. *)
Theorem run_severity_is_max (d now : string) (auth syslog : option (list string)) :
  exists r, run_triage d now auth syslog = Ok r /\
    incident_severity r = sev_max_list (finding_levels (report_findings r)).
Proof.
  destruct (run_triage_reachable d now auth syslog) as [st [Hr ->]].
  eexists. split; [reflexivity|]. apply calculate_severity_is_max, (reachable_wf d), Hr.
Qed.

(** C2: in every state reachable from [IRTriageAnalyzer(d)] by the three
    analysis methods, [self.findings] has distinct level keys, non-empty
    typed groups, details only on brute-force and failed-login findings,
    IOC entries ("Known Malicious IP") under CRITICAL and under no other
    level, and a CRITICAL group of brute-force findings and IOC hits on
    listed IPs whose context is the type of a finding with details. *)
Theorem analyzer_invariant (d : string) (st : analyzer) :
  reachable d st -> triage_inv (findings st).
Proof. apply reachable_inv. Qed.

Lemma analyzer_invariant_witness :
  let st := after_iocs (analyze_auth_log (Some (repeat (sshd_failed_line "root" "45.142.212.61") 6)) (init "./logs")).2 in
  reachable "./logs" st /\ triage_inv (findings st).
Proof.
  cbn zeta. assert (reachable "./logs"
    (after_iocs (analyze_auth_log (Some (repeat (sshd_failed_line "root" "45.142.212.61") 6)) (init "./logs")).2))
    as Hr by (eapply reach_step; [eapply reach_step; [apply reach_init|apply step_auth]|
                                  apply step_after_iocs; vm_compute; reflexivity]).
  split; [exact Hr | apply (analyzer_invariant "./logs"); exact Hr].
Defined.

(** The spec's brute-force example: six failed logins for one
    ["user@ip"] and five for another give exactly one CRITICAL finding,
    for the six-count key only (the threshold is strictly more than 5). *)
Theorem brute_force_six_versus_five :
  let lines := (repeat (sshd_failed_line "jdoe" "203.0.113.5") 6
                ++ repeat (sshd_failed_line "asmith" "198.51.100.7") 5)%list in
  group (findings (analyze_auth_log (Some lines) (init "./logs")).2) "CRITICAL"
  = [brute_force_finding [("jdoe@203.0.113.5", 6%Z)]].
Proof. vm_compute. reflexivity. Qed.

(** C4: on a reachable state [check_indicators_of_compromise] returns
    (its [finding['type']] never raises [KeyError]) exactly one IOC entry
    per finding with ["details"] and per listed IP that occurs as a
    substring of [str(details)], in the order of the levels, the findings
    and the IP list, appends exactly these entries to CRITICAL and leaves
    every other level as it was. *)
Theorem check_iocs_spec (d : string) (st : analyzer) :
  reachable d st ->
  exists st', check_iocs st = Ok (all_iocs (findings st), st') /\
    group (findings st') "CRITICAL" = (group (findings st) "CRITICAL" ++ all_iocs (findings st))%list /\
    (forall k, k <> "CRITICAL" -> group (findings st') k = group (findings st) k).
Proof.
  intros Hr. rewrite (check_iocs_ok st (reachable_wf d st Hr)). eexists. split; [reflexivity|].
  case_bool_decide as Hnil; cbn [findings set_findings].
  - rewrite Hnil, app_nil_r. done.
  - split; [by rewrite group_dd_extend, String.eqb_refl|].
    intros k Hk. by rewrite group_dd_extend, (proj2 (String.eqb_neq _ _) Hk).
Qed.

Lemma check_iocs_spec_witness :
  let st := (analyze_auth_log (Some (repeat (sshd_failed_line "root" "185.220.101.9") 7)) (init "./logs")).2 in
  reachable "./logs" st /\
  exists st', check_iocs st = Ok (all_iocs (findings st), st') /\
    group (findings st') "CRITICAL" = (group (findings st) "CRITICAL" ++ all_iocs (findings st))%list /\
    (forall k, k <> "CRITICAL" -> group (findings st') k = group (findings st) k).
Proof.
  cbn zeta. assert (reachable "./logs"
    (analyze_auth_log (Some (repeat (sshd_failed_line "root" "185.220.101.9") 7)) (init "./logs")).2)
    as Hr by (eapply reach_step; [apply reach_init|apply step_auth]).
  split; [exact Hr | exact (check_iocs_spec "./logs" _ Hr)].
Defined.

(** In a reachable state the three brute-force recommendations (block
    the IPs, password policy, SSH rate limiting) are issued exactly when
    the CRITICAL group holds a finding of type "Brute Force Attack
    Detected": the source's test [any('Brute Force' in str(f) ...)] on the
    printed dicts agrees with the finding types. *)
Theorem brute_force_recommendation (d : string) (st : analyzer) :
  reachable d st ->
  BlockBruteForceIPs ∈ generate_recommendations (findings st) <->
  existsb is_bf_type (group (findings st) "CRITICAL") = true.
Proof.
  intros Hr. rewrite <- brute_force_in_critical_spec by (by eapply reachable_inv).
  unfold generate_recommendations.
  destruct (brute_force_in_critical (findings st)); repeat case_bool_decide; set_solver.
Qed.

Lemma brute_force_recommendation_witness :
  let st := (analyze_auth_log (Some (repeat (sshd_failed_line "root" "10.9.8.7") 7)) (init "./logs")).2 in
  reachable "./logs" st /\
  (BlockBruteForceIPs ∈ generate_recommendations (findings st) <->
   existsb is_bf_type (group (findings st) "CRITICAL") = true).
Proof.
  cbn zeta. assert (reachable "./logs"
    (analyze_auth_log (Some (repeat (sshd_failed_line "root" "10.9.8.7") 7)) (init "./logs")).2)
    as Hr by (eapply reach_step; [apply reach_init|apply step_auth]).
  split; [exact Hr | apply (brute_force_recommendation "./logs"); exact Hr].
Defined.

(** The default advice "continue monitoring, document the results" is
    given exactly when there is no CRITICAL and no HIGH finding, so also
    when MEDIUM or WARNING findings exist. *)
Theorem recommendations_default (fs : findings_t) :
  generate_recommendations fs = [ContinueMonitoring; DocumentResults] <->
  group fs "CRITICAL" = [] /\ group fs "HIGH" = [].
Proof.
  unfold generate_recommendations.
  destruct (decide (group fs "CRITICAL" = [])) as [Hc|Hc].
  - rewrite (brute_force_in_critical_nil fs Hc), Hc.
    destruct (decide (group fs "HIGH" = [])) as [Hh|Hh]; [rewrite Hh|];
      repeat case_bool_decide; simpl in *; try done; naive_solver.
  - destruct (brute_force_in_critical fs); repeat case_bool_decide; simpl in *; try done; naive_solver.
Qed.

(** C5: the IOC check matches the listed addresses as substrings of
    [str(details)], not as addresses: whatever the user name and the
    address, when the address text merely contains a listed entry (as
    145.142.212.61 contains 45.142.212.61, or 10.185.220.101.7 contains
    185.220.101.), one or more failed logins from it make
    [check_indicators_of_compromise] report that entry as a Known
    Malicious IP in the context "Failed Login Attempts". *)
Theorem ioc_substring_false_positive (d : string) (st : analyzer) (user ip m : string) (n : nat) :
  reachable d st -> cap_ok is_word_char user -> cap_ok is_ip_char ip ->
  m ∈ malicious_ips -> m ∈ₛ ip -> 0 < n ->
  exists iocs st', check_iocs (analyze_auth_log (Some (repeat (sshd_failed_line user ip) n)) st).2 = Ok (iocs, st') /\
    ioc_entry m (PStr "Failed Login Attempts") ∈ iocs.
Proof.
  intros Hr Hu Hi Hm Hmip Hn. destruct n as [|n]; [lia|].
  assert (reachable d (analyze_auth_log (Some (repeat (sshd_failed_line user ip) (S n))) st).2) as Hr1
    by (eapply reach_step; [exact Hr|constructor]).
  rewrite (check_iocs_ok _ (reachable_wf d _ Hr1)). do 2 eexists. split; [reflexivity|].
  pose proof (analyze_auth_log_group (repeat (sshd_failed_line user ip) (S n)) st "WARNING") as Hw.
  cbn zeta in Hw. rewrite (omap_repeat _ _ _ _ (failed_key_sshd user ip Hu Hi)), count_all_repeat in Hw.
  rewrite String.eqb_refl, (proj2 (String.eqb_neq "WARNING" "CRITICAL")) in Hw by discriminate.
  rewrite (bool_decide_false ([(user ++ "@" ++ ip, Z.of_nat (S n))] = [])) in Hw by done.
  cbn [andb negb app] in Hw.
  set (f := failed_logins_finding [(user ++ "@" ++ ip, Z.of_nat (S n))]) in Hw.
  apply in_all_iocs. exists "WARNING", (group (findings (analyze_auth_log (Some (repeat (sshd_failed_line user ip) (S n))) st).2) "WARNING"), f.
  split_and!; [apply group_elem; rewrite Hw; intros [_ ?]%app_eq_nil; discriminate | rewrite Hw; set_solver |].
  apply in_finding_iocs. exists (counts_dict [(user ++ "@" ++ ip, Z.of_nat (S n))]), m.
  split_and!; [reflexivity|done| |reflexivity].
  eapply contains_trans; [exact Hmip|]. apply ip_in_counts_dict. apply Hi.
Qed.

Lemma ioc_substring_false_positive_witness :
  cap_ok is_word_char "root" /\ cap_ok is_ip_char "145.142.212.61" /\
  exists iocs st', check_iocs (analyze_auth_log (Some (repeat (sshd_failed_line "root" "145.142.212.61") 3)) (init "./logs")).2
    = Ok (iocs, st') /\ ioc_entry "45.142.212.61" (PStr "Failed Login Attempts") ∈ iocs.
Proof.
  assert (cap_ok is_word_char "root") as Hu by (split; [reflexivity|discriminate]).
  assert (cap_ok is_ip_char "145.142.212.61") as Hi by (split; [reflexivity|discriminate]).
  split_and!; [exact Hu|exact Hi|].
  apply (ioc_substring_false_positive "./logs" (init "./logs") "root" "145.142.212.61" "45.142.212.61" 3);
    [apply reach_init|exact Hu|exact Hi|left|reflexivity|lia].
Defined.

(** [check_indicators_of_compromise] is not idempotent: a second call
    on the same analyzer appends the same IOC entries to CRITICAL again. *)
Theorem check_iocs_not_idempotent :
  let st1 := after_iocs (analyze_auth_log (Some (repeat (sshd_failed_line "root" "45.142.212.61") 6)) (init "./logs")).2 in
  length (group (findings st1) "CRITICAL") = 3 /\
  length (group (findings (after_iocs st1)) "CRITICAL") = 5.
Proof. vm_compute. split; reflexivity. Qed.

(** C6: OpenSSH logs a failed password for a user that does not exist as
    "Failed password for invalid user NAME from IP", which
    [for (\w+) from] does not match: whatever the name, the address and
    the number of such lines, none is counted, so [analyze_auth_log]
    reports no failed login and adds no finding, also with far more than
    five attempts from one address. *)
Theorem invalid_user_failures_not_counted (user ip : string) (n : nat) (st : analyzer) :
  all_chars is_word_char user = true -> cap_ok is_ip_char ip ->
  failed_logins (auth_scan (repeat (sshd_invalid_user_line user ip) n)) = [] /\
  findings (analyze_auth_log (Some (repeat (sshd_invalid_user_line user ip) n)) st).2 = findings st.
Proof.
  intros Hu Hi. pose proof (auth_scan_failed (repeat (sshd_invalid_user_line user ip) n)) as Hf.
  rewrite (omap_repeat_none _ _ _ (failed_key_invalid_user user ip Hu Hi)) in Hf.
  split; [exact Hf|]. cbn [analyze_auth_log snd findings set_findings]. rewrite Hf. reflexivity.
Qed.

Lemma invalid_user_failures_not_counted_witness :
  all_chars is_word_char "admin" = true /\ cap_ok is_ip_char "203.0.113.5" /\
  failed_logins (auth_scan (repeat (sshd_invalid_user_line "admin" "203.0.113.5") 50)) = [] /\
  findings (analyze_auth_log (Some (repeat (sshd_invalid_user_line "admin" "203.0.113.5") 50)) (init "./logs")).2
    = findings (init "./logs").
Proof.
  assert (cap_ok is_ip_char "203.0.113.5") as Hi by (split; [reflexivity|discriminate]).
  split_and!; [reflexivity|exact Hi|..];
    apply (invalid_user_failures_not_counted "admin" "203.0.113.5" 50 (init "./logs")); solve [reflexivity|exact Hi].
Defined.

(** Sudo logs "USER : TTY=... ; PWD=... ; USER=... ; COMMAND=...",
    which [(\w+) : COMMAND=(.+)] does not match: the standard sudo line
    leaves [sudo_activities] empty. *)
Theorem sudo_standard_line_missed :
  re_search pat_sudo sudo_line = None /\ sudo_activities (auth_scan [sudo_line]) = [].
Proof. vm_compute. split; reflexivity. Qed.

(** The HIGH recommendations are issued whenever a HIGH finding
    exists, also when CRITICAL findings already led to escalation. *)
Theorem high_recommendations_always (fs : findings_t) :
  group fs "HIGH" <> [] ->
  InvestigateHighFindings ∈ generate_recommendations fs /\ UpdateSiemRules ∈ generate_recommendations fs.
Proof.
  intros Hh. unfold generate_recommendations.
  destruct (brute_force_in_critical fs); repeat case_bool_decide; simpl in *; try done; set_solver.
Qed.

Lemma high_recommendations_always_witness :
  let fs := [("CRITICAL", [brute_force_finding [("root@1.2.3.4", 9%Z)]]);
             ("HIGH", [system_errors_finding []])] in
  group fs "HIGH" <> [] /\
  InvestigateHighFindings ∈ generate_recommendations fs /\ UpdateSiemRules ∈ generate_recommendations fs.
Proof.
  cbn zeta. split; [vm_compute; discriminate|].
  apply high_recommendations_always. vm_compute. discriminate.
Defined.

(** C8: [print_report] never raises on a report [main] can produce, and
    shows every finding once: the rows of its level blocks are the
    findings of [self.findings] with their own ["type"] (the ['Unknown']
    default is never used), ["count"] and ["source"], up to the order of
    the levels. *)
Theorem print_report_all_findings (d now : string) (st : analyzer) :
  reachable d st ->
  exists p, print_report (generate_triage_report now st) = Ok p /\
    List.concat (map snd (p_blocks p)) ≡ₚ map finding_row (List.concat (map snd (findings st))) /\
    Forall (fun row => exists t, row.1.1 = PStr t) (List.concat (map snd (p_blocks p))).
Proof.
  intros Hr. pose proof (reachable_wf d st Hr) as Hwf. unfold print_report, generate_triage_report.
  cbn [report_findings report_timestamp incident_severity recommendations].
  rewrite (res_map_ok _ _ _ (proj2 (Forall_forall _ _) (fun k _ => level_block_ok (findings st) k Hwf))), bind_ok.
  eexists; split; [reflexivity|]. cbn [p_blocks]. rewrite concat_blocks. split.
  - apply Permutation_map, concat_group_perm; [apply Hwf|apply (bool_decide_unpack (NoDup print_levels)); vm_compute; exact I|].
    intros k Hk. apply list_elem_of_fmap in Hk as ([k' xs] & -> & Hin).
    destruct (proj2 Hwf k' xs Hin) as (Hl & _). unfold levels, print_levels in *. cbn. set_solver.
  - apply Forall_map, Forall_concat, Forall_map, Forall_forall. intros k _.
    eapply Forall_impl; [by apply group_typed|]. intros f [t Ht]. exists t. cbn. by rewrite Ht.
Qed.

Lemma print_report_all_findings_witness :
  let st := after_iocs (analyze_auth_log (Some (repeat (sshd_failed_line "root" "45.142.212.61") 6)) (init "./logs")).2 in
  reachable "./logs" st /\
  exists p, print_report (generate_triage_report "2025-12-14T09:00:00" st) = Ok p /\
    List.concat (map snd (p_blocks p)) ≡ₚ map finding_row (List.concat (map snd (findings st))) /\
    Forall (fun row => exists t, row.1.1 = PStr t) (List.concat (map snd (p_blocks p))).
Proof.
  cbn zeta. assert (reachable "./logs"
    (after_iocs (analyze_auth_log (Some (repeat (sshd_failed_line "root" "45.142.212.61") 6)) (init "./logs")).2))
    as Hr by (eapply reach_step; [eapply reach_step; [apply reach_init|apply step_auth]|
                                  apply step_after_iocs; vm_compute; reflexivity]).
  split; [exact Hr | exact (print_report_all_findings "./logs" "2025-12-14T09:00:00" _ Hr)].
Defined.

End IRTriage.
