(* ===== verification/EdrTriage.v ===== *)
(** * Keyword triage of EDR events: [src/cases_soc-operations/edr_triage.py]

    (The file [src/soc-operations/edr_triage.py] is the same program with
    Russian messages.)  [load_edr_logs] takes the ["events"] of the parsed
    JSON document, [analyze_event] flags an event when one of twelve
    keywords occurs in [json.dumps(event).lower()], [triage_logs] splits
    the events into suspicious and clean ones in order, and
    [print_summary] bands the risk by the number of suspicious events.
    The file reading and the printing are not modelled: the input is the
    parsed document, the output the summary the script prints. *)

From S2P Require Import Prelude PyVal.
Local Open Scope string_scope.

Module Edr.

(** [SUSPICIOUS_KEYWORDS] (lines 16-20). *)
Definition suspicious_keywords : list string :=
  ["suspicious"; "alert"; "malware"; "ransomware"; "trojan"; "exploit"; "backdoor";
   "rootkit"; "mimikatz"; "powershell"; "cmd.exe"; "wscript"].

(** [data.get('events', [])] (line 27). *)
Definition load_edr_logs (data : pyval) : pyres pyval := py_get data "events" (PList []).

(** [analyze_event(event)] (lines 35-42). *)
Definition analyze_event (event : pyval) : bool :=
  let event_str := lower (json_dumps event) in
  existsb (fun kw => contains kw event_str) suspicious_keywords.

(** The loop of [triage_logs] (lines 49-53). *)
Fixpoint triage_loop (events : list pyval) : list pyval * list pyval :=
  match events with
  | [] => ([], [])
  | e :: rest =>
      let '(s, c) := triage_loop rest in
      if analyze_event e then (e :: s, c) else (s, e :: c)
  end.

(** [triage_logs(events)] (lines 44-55). *)
Definition triage_logs (events : pyval) : pyres (list pyval * list pyval) :=
  xs ← py_iter events; mret (triage_loop xs).

Inductive risk := RiskLow | RiskMedium | RiskHigh.

(** The risk level of [print_summary] (line 67). *)
Definition risk_level (n_suspicious : nat) : risk :=
  if bool_decide (5 < n_suspicious) then RiskHigh
  else if bool_decide (0 < n_suspicious) then RiskMedium
  else RiskLow.

Record summary := mk_summary {
  total : nat; n_clean : nat; n_suspicious : nat; risk_of : risk
}.

(** The figures [print_summary] prints (lines 57-68). *)
Definition print_summary (suspicious clean : list pyval) : summary :=
  mk_summary (length suspicious + length clean) (length clean) (length suspicious)
    (risk_level (length suspicious)).

(** The six fields [print_suspicious_events] prints for one event (lines
    79-84): [event.get(k, 'N/A')], which raises on an event that is not a
    dict. *)
Definition event_fields (e : pyval) : pyres (list pyval) :=
  let na := PStr "N/A" in
  a ← py_get e "event_id" na; b ← py_get e "timestamp" na; c ← py_get e "event_type" na;
  d ← py_get e "process_name" na; f ← py_get e "details" na; g ← py_get e "severity" na;
  mret [a; b; c; d; f; g].

(** [print_suspicious_events(events)] (lines 70-85): the fields printed,
    event by event. *)
Fixpoint print_suspicious_events (events : list pyval) : pyres (list (list pyval)) :=
  match events with
  | [] => Ok []
  | e :: rest => fs ← event_fields e; gs ← print_suspicious_events rest; Ok (fs :: gs)
  end.

(** [main()] (lines 87-113) on the parsed document.  An exception of
    [load_edr_logs] or [triage_logs] ends the run before anything is
    printed; otherwise [print_summary] prints its figures, then
    [print_suspicious_events] prints the events, which may raise in turn,
    and the suspicious events are saved (a file is written when there is
    one).  The result is the summary printed and the outcome of the rest
    of the run: the events saved, or the exception. *)
Definition run_edr (data : pyval) : pyres (summary * pyres (list pyval)) :=
  events ← load_edr_logs data;
  '(s, c) ← triage_logs events;
  let printed := print_summary s c in
  mret (printed, (_ ← print_suspicious_events s; mret s)).

(** ** Properties *)

Lemma keywords_plain : Forall (fun kw => all_chars json_plain kw = true) suspicious_keywords.
Proof. repeat constructor. Qed.

Lemma triage_loop_spec (xs : list pyval) :
  triage_loop xs = (List.filter analyze_event xs, List.filter (fun e => negb (analyze_event e)) xs).
Proof. induction xs as [|e xs IH]; simpl; [done|]. rewrite IH. by destruct (analyze_event e). Qed.

(** C25: a suspicious keyword that occurs in the lowercased text of any
    key or string value of an event, nested ones included, makes
    [analyze_event] flag it: the JSON encoding never hides a keyword. *)
Theorem keyword_detected (e : pyval) (s kw : string) :
  kw ∈ suspicious_keywords -> In s (strings_of e) -> kw ∈ₛ lower s -> analyze_event e = true.
Proof.
  intros Hkw Hs Hin. unfold analyze_event. apply existsb_exists. exists kw.
  rewrite <- list_elem_of_In. split; [done|].
  apply keyword_in_dumps with s; [|done|done].
  pose proof keywords_plain as Hall. rewrite Forall_forall in Hall. by apply Hall.
Qed.

Lemma keyword_detected_witness :
  let e := PDict [("process_name", PStr "C:\Tools\Mimikatz.exe"); ("pid", PInt 4242)] in
  "mimikatz" ∈ suspicious_keywords /\ In "C:\Tools\Mimikatz.exe" (strings_of e) /\
  "mimikatz" ∈ₛ lower "C:\Tools\Mimikatz.exe" /\ analyze_event e = true.
Proof.
  cbn zeta.
  assert ("mimikatz" ∈ suspicious_keywords) as H1 by (unfold suspicious_keywords; set_solver).
  assert (In "C:\Tools\Mimikatz.exe" (strings_of (PDict [("process_name", PStr "C:\Tools\Mimikatz.exe"); ("pid", PInt 4242)])))
    as H2 by (simpl; tauto).
  assert ("mimikatz" ∈ₛ lower "C:\Tools\Mimikatz.exe") as H3 by (vm_compute; reflexivity).
  split_and!; [exact H1|exact H2|exact H3|exact (keyword_detected _ _ _ H1 H2 H3)].
Defined.

(** The control characters whose JSON escape ends with the first letters
    of a keyword ([\t], [\b], [\r] and [\u001a], [\u001b], [\u001c],
    [\u000e]), each with the rest of that keyword. *)
Definition escape_spoofs : list (nat * string) :=
  [(9, "rojan"); (8, "ackdoor"); (13, "ansomware"); (13, "ootkit");
   (26, "lert"); (27, "ackdoor"); (28, "md.exe"); (14, "xploit")].

Local Ltac spell kw := exists kw; split; [unfold suspicious_keywords; set_solver | vm_compute; reflexivity].

Lemma escape_spoofs_spell :
  Forall (fun cr => exists kw, kw ∈ suspicious_keywords /\ kw ∈ₛ lower (json_escape (ch cr.1 ++ cr.2)))
    escape_spoofs.
Proof.
  repeat constructor; cbn [fst snd];
    first [spell "trojan" | spell "backdoor" | spell "ransomware" | spell "rootkit"
          | spell "alert" | spell "cmd.exe" | spell "exploit"].
Qed.

(** C26: the keywords are searched in the JSON text, not in the strings:
    every event with a key or string holding one of the control
    characters of [escape_spoofs] followed by the rest of a keyword is
    flagged, although none of its strings need contain a keyword (a tab
    followed by "rojan horse" reads "\trojan horse" once encoded). *)
Theorem escape_false_positive (e : pyval) (s x y : string) (c : nat) (r : string) :
  In s (strings_of e) -> (c, r) ∈ escape_spoofs -> s = x ++ ch c ++ r ++ y -> analyze_event e = true.
Proof.
  intros Hs Hcr ->. pose proof escape_spoofs_spell as Hall. rewrite Forall_forall in Hall.
  destruct (Hall _ Hcr) as (kw & Hkw & Hin). cbn [fst snd] in Hin.
  unfold analyze_event. apply existsb_exists. exists kw. rewrite <- list_elem_of_In. split; [done|].
  eapply contains_trans; [|apply contains_lower, json_str_in_dumps, Hs].
  rewrite !json_escape_app, !lower_app. apply contains_app_r.
  rewrite json_escape_app, lower_app in Hin. rewrite str_app_assoc. by apply contains_app_l.
Qed.

Lemma escape_false_positive_witness :
  In (ch 9 ++ "rojan horse") (strings_of (PDict [("note", PStr (ch 9 ++ "rojan horse"))])) /\
  (9, "rojan") ∈ escape_spoofs /\
  analyze_event (PDict [("note", PStr (ch 9 ++ "rojan horse"))]) = true.
Proof.
  assert (In (ch 9 ++ "rojan horse") (strings_of (PDict [("note", PStr (ch 9 ++ "rojan horse"))]))) as H1
    by (cbn; tauto).
  assert ((9, "rojan") ∈ escape_spoofs) as H2 by (unfold escape_spoofs; set_solver).
  split_and!; [exact H1|exact H2|].
  exact (escape_false_positive _ _ "" " horse" 9 "rojan" H1 H2 eq_refl).
Defined.

(** Field names are searched too: an event whose only field is named
    "alert_id" is suspicious whatever its value. *)
Theorem field_name_matched : analyze_event (PDict [("alert_id", PInt 7)]) = true.
Proof. reflexivity. Qed.

(** C28: [triage_logs] on a list of events returns the suspicious ones and
    the clean ones, each in input order; every event lands in exactly one
    of them. *)
Theorem triage_logs_partition (xs : list pyval) :
  triage_logs (PList xs) =
    Ok (List.filter analyze_event xs, List.filter (fun e => negb (analyze_event e)) xs) /\
  length (List.filter analyze_event xs) + length (List.filter (fun e => negb (analyze_event e)) xs) = length xs.
Proof.
  split; [unfold triage_logs; simpl; by rewrite triage_loop_spec|].
  induction xs as [|e xs IH]; simpl; [done|]. destruct (analyze_event e); simpl; lia.
Qed.

(** The risk banding of [print_summary]: HIGH above 5 suspicious
    events, MEDIUM for 1 to 5, LOW for none. *)
Theorem risk_level_bands (n : nat) :
  (risk_level n = RiskHigh <-> 5 < n) /\
  (risk_level n = RiskMedium <-> 1 <= n <= 5) /\
  (risk_level n = RiskLow <-> n = 0).
Proof. unfold risk_level. repeat case_bool_decide; split_and!; split; intros; try done; lia. Qed.

(** C27: the script does not survive a malformed document: a top-level
    JSON value other than an object raises [AttributeError] at
    [data.get] before anything is printed; an ["events"] value that
    cannot be iterated (a number, a boolean, [null]) raises [TypeError]
    in the loop of [triage_logs], also before anything is printed; and
    when the first suspicious event is not an object, the summary is
    printed, then [event.get] raises [AttributeError] and nothing is
    saved. *)
Theorem malformed_document_raises (data : pyval) (xs : list pyval) :
  ((forall kvs, data <> PDict kvs) -> run_edr data = Raise AttributeError) /\
  (forall ev, load_edr_logs data = Ok ev -> (exists z, ev = PInt z) \/ (exists b, ev = PBool b) \/ ev = PNone ->
     run_edr data = Raise TypeError) /\
  (load_edr_logs data = Ok (PList xs) ->
   (exists e rest, List.filter analyze_event xs = e :: rest /\ forall kvs, e <> PDict kvs) ->
   run_edr data = Ok (print_summary (List.filter analyze_event xs)
                                    (List.filter (fun e => negb (analyze_event e)) xs), Raise AttributeError)).
Proof.
  split_and!.
  - intros Hnd. unfold run_edr, load_edr_logs. by destruct data; try (exfalso; eapply Hnd; reflexivity).
  - intros ev Hl Hev. unfold run_edr. rewrite Hl, bind_ok.
    by destruct Hev as [[z ->]|[[b ->]| ->]].
  - intros Hl (e & rest & Hf & He). unfold run_edr. rewrite Hl, bind_ok.
    unfold triage_logs. cbn [py_iter]. rewrite bind_ok, triage_loop_spec, Hf. cbn.
    unfold event_fields. by destruct e; try (exfalso; eapply He; reflexivity).
Qed.

Lemma malformed_document_raises_witness :
  run_edr (PList []) = Raise AttributeError /\
  run_edr (PDict [("events", PInt 5)]) = Raise TypeError /\
  run_edr (PDict [("events", PList [PStr "malware found"])]) =
    Ok (print_summary [PStr "malware found"] [], Raise AttributeError).
Proof.
  destruct (malformed_document_raises (PList []) []) as [H1 _].
  destruct (malformed_document_raises (PDict [("events", PInt 5)]) []) as [_ [H2 _]].
  destruct (malformed_document_raises (PDict [("events", PList [PStr "malware found"])]) [PStr "malware found"])
    as [_ [_ H3]].
  split_and!.
  - apply H1. discriminate.
  - apply (H2 (PInt 5)); [reflexivity|left; by eexists].
  - apply H3; [reflexivity|]. exists (PStr "malware found"), []. split; [reflexivity|discriminate].
Defined.

End Edr.
