(* ===== verification/TriageV2.v ===== *)
(** * Per-event detectors: [triage_parser_v2.py] and [triage_parser.py]

    [src/cases_soc-operations/case002_triage_basics/triage_parser_v2.py]
    (the same program as [src/soc-operations/case002_triage_basics/
    triage_parser_v2.py] with English messages) runs four detectors on
    every event of a JSON array and collects the dicts they return.  Each
    detector reads fields with [log.get] and calls [str] methods on them,
    so a field of an unexpected type raises: the detectors here return a
    [pyres (option pyval)] ([None] for Python's [None]).  [main] stops at
    the first exception, as the script does.  f-strings format a value
    with [str()] ([py_str]).  [main_file] is [main] from the text of
    [logs_sample.json], read through the JSON reader of [Json.v]; a
    missing file and invalid JSON are caught by [load_logs]
    ([load_logs_file]).

    [src/triage_parser.py], the first version, prints an alert per
    matching event and check; [v1_alerts] is the list of alerts it prints,
    in order. *)

From S2P Require Import Prelude PyVal Json Severity.
Local Open Scope string_scope.

Module V2.

(** The dict a detector returns. *)
Definition mk_finding (sev typ details : string) (ts : pyval) : pyval :=
  PDict [("severity", PStr sev); ("type", PStr typ); ("details", PStr details); ("timestamp", ts)].

(** [log.get(k)]. *)
Definition get (log : pyval) (k : string) : pyres pyval := py_get log k PNone.

(** [analyze_failed_logins(log)] (lines 25-34). *)
Definition analyze_failed_logins (log : pyval) : pyres (option pyval) :=
  status ← get log "status";
  if py_eq_str status "FAILED" then
    user ← get log "user"; ip ← get log "source_ip"; ts ← get log "timestamp";
    mret (Some (mk_finding "HIGH" "Failed Login" ("User '" ++ py_str user ++ "' from " ++ py_str ip) ts))
  else mret None.

(** [analyze_powershell(log)] (lines 36-46). *)
Definition analyze_powershell (log : pyval) : pyres (option pyval) :=
  p ← py_get log "process" (PStr "");
  process ← py_lower p;
  if contains "powershell" process || contains "pwsh" process then
    user ← get log "user"; proc ← get log "process"; ts ← get log "timestamp";
    mret (Some (mk_finding "CRITICAL" "PowerShell Execution"
                  ("User '" ++ py_str user ++ "' executed " ++ py_str proc) ts))
  else mret None.

Definition sensitive_files : list string := ["/etc/shadow"; "/etc/passwd"; "SAM"; "SYSTEM"; ".ssh/id_rsa"].

(** The [for sensitive in sensitive_files] loop: [true] at the first hit. *)
Fixpoint any_in (needles : list string) (v : pyval) : pyres bool :=
  match needles with
  | [] => Ok false
  | n :: rest => match py_in n v with
                 | Ok true => Ok true
                 | Ok false => any_in rest v
                 | Raise e => Raise e
                 end
  end.

(** [analyze_sensitive_files(log)] (lines 48-61). *)
Definition analyze_sensitive_files (log : pyval) : pyres (option pyval) :=
  file_path ← py_get log "file" (PStr "");
  hit ← any_in sensitive_files file_path;
  if (hit : bool) then
    user ← get log "user"; ts ← get log "timestamp";
    mret (Some (mk_finding "CRITICAL" "Sensitive File Access"
                  ("User '" ++ py_str user ++ "' accessed " ++ py_str file_path) ts))
  else mret None.

Definition local_prefixes : list string := ["10."; "192.168."; "172.16."].

(** [analyze_external_connections(log)] (lines 63-75). *)
Definition analyze_external_connections (log : pyval) : pyres (option pyval) :=
  source_ip ← py_get log "source_ip" (PStr "");
  if truthy source_ip then
    local ← py_startswith_any source_ip local_prefixes;
    if (local : bool) then mret None
    else ts ← get log "timestamp";
         mret (Some (mk_finding "MEDIUM" "External Connection"
                       ("Connection from external IP: " ++ py_str source_ip) ts))
  else mret None.

(** The checks of one event, all evaluated before any is collected
    (lines 97-107): the dicts returned, in detector order. *)
Definition checks (log : pyval) : pyres (list pyval) :=
  a ← analyze_failed_logins log;
  b ← analyze_powershell log;
  c ← analyze_sensitive_files log;
  d ← analyze_external_connections log;
  mret (List.concat (map (fun o => match o with Some f => [f] | None => [] end) [a; b; c; d])).

Fixpoint collect (logs : list pyval) : pyres (list pyval) :=
  match logs with
  | [] => Ok []
  | l :: rest => fs ← checks l; gs ← collect rest; Ok (fs ++ gs)%list
  end.

(** [[f for f in findings if f['severity'] == sev]]. *)
Definition with_severity (sev : string) (fs : list pyval) : list pyval :=
  List.filter (fun f => match f with
                        | PDict kvs => match dict_lookup kvs "severity" with
                                       | Some v => py_eq_str v sev | None => false end
                        | _ => false end) fs.

(** The five printed recommendations (lines 140-146). *)
Inductive v2_rec := IsolateHosts | BlockIPs | Forensics | ResetPasswords | CheckOtherHosts.

Record v2_report := mk_v2_report {
  critical : list pyval; high : list pyval; medium : list pyval; v2_recs : list v2_rec
}.

(** [len(v)]. *)
Definition py_len (v : pyval) : pyres nat :=
  match v with
  | PStr s => Ok (String.length s)
  | PList xs => Ok (length xs)
  | PDict kvs => Ok (length kvs)
  | _ => Raise TypeError
  end.

(** [load_logs(filepath)] (lines 11-23) after [json.load]: the message of
    line 16 takes [len(logs)], which raises on a number, a boolean or
    [null]. *)
Definition load_logs (doc : pyval) : pyres pyval := _ ← py_len doc; mret doc.

(** [load_logs(filepath)] (lines 11-23) on the file: [None] when [open]
    raises [FileNotFoundError], otherwise its text, read in text mode
    (universal newlines) and parsed by [json.load]; both caught
    exceptions give [[]].  A [json.JSONDecodeError] is the [ValueError]
    of the reader of [Json.v]; its [Unmodelled] (a float, [NaN] or a
    character above U+00FF, which Python reads) is not caught. *)
Definition load_logs_file (file : option string) : pyres pyval :=
  match file with
  | None => Ok (PList [])
  | Some text =>
      match Json.loads (Json.translate_newlines text) with
      | Ok doc => load_logs doc
      | Raise ValueError => Ok (PList [])
      | Raise e => Raise e
      end
  end.

(** [main()] (lines 87-154) after [load_logs]: [None] when it returns
    early on an empty (falsy) list, otherwise the groups and the
    recommendations it prints. *)
Definition main_logs (logs : pyval) : pyres (option v2_report) :=
  if negb (truthy logs) then mret None
  else
    xs ← py_iter logs;
    fs ← collect xs;
    let crit := with_severity "CRITICAL" fs in
    let hi := with_severity "HIGH" fs in
    let med := with_severity "MEDIUM" fs in
    mret (Some (mk_v2_report crit hi med
      ((if bool_decide (crit = []) then [] else [IsolateHosts; BlockIPs; Forensics])
       ++ (if bool_decide (hi = []) then [] else [ResetPasswords; CheckOtherHosts]))%list)).

(** [main()] (lines 77-154) on the parsed log file. *)
Definition run_v2 (doc : pyval) : pyres (option v2_report) := logs ← load_logs doc; main_logs logs.

(** [main()] (lines 77-154) on [logs_sample.json]: [None] when the file is
    missing or its text is not a document the reader accepts. *)
Definition main_file (file : option string) : pyres (option v2_report) :=
  logs ← load_logs_file file; main_logs logs.

(** ** [src/triage_parser.py] *)

Inductive v1_alert := V1FailedLogin | V1PowerShell | V1SensitiveFile.

(** The three checks of one log (lines 10-29 of triage_parser.py): the
    alerts printed for it, and the exception that stops the script after
    them, if any. *)
Definition v1_checks (log : pyval) : list v1_alert * option py_exc :=
  match get log "status" with
  | Raise e => ([], Some e)
  | Ok status =>
      let a1 := if py_eq_str status "FAILED" then [V1FailedLogin] else [] in
      match py_get log "process" (PStr "") ≫= py_lower with
      | Raise e => (a1, Some e)
      | Ok process =>
          let a2 := (a1 ++ if contains "powershell" process then [V1PowerShell] else [])%list in
          match py_get log "file" (PStr "") ≫= py_in "/etc/shadow" with
          | Raise e => (a2, Some e)
          | Ok shadow => ((a2 ++ if (shadow : bool) then [V1SensitiveFile] else [])%list, None)
          end
      end
  end.

(** The loop [for log in logs] (lines 9-29): the alerts printed, in order,
    and the exception that ends it early. *)
Fixpoint v1_alerts (logs : list pyval) : list v1_alert * option py_exc :=
  match logs with
  | [] => ([], None)
  | l :: rest =>
      match v1_checks l with
      | (a, Some e) => (a, Some e)
      | (a, None) => let '(b, r) := v1_alerts rest in ((a ++ b)%list, r)
      end
  end.

(** The script on the parsed file (lines 4-31). *)
Definition run_v1 (logs : pyval) : list v1_alert * option py_exc :=
  match py_iter logs with
  | Ok xs => v1_alerts xs
  | Raise e => ([], Some e)
  end.

(** ** Observations on findings and events *)

(** [f[k]] of a finding when it is a [str], [""] otherwise. *)
Definition field_s (f : pyval) (k : string) : string :=
  match f with PDict kvs => match dict_lookup kvs k with Some (PStr s) => s | _ => "" end | _ => "" end.

(** The ["type"] a v2 detector gives to the event a v1 alert is about. *)
Definition alert_type (a : v1_alert) : string :=
  match a with
  | V1FailedLogin => "Failed Login"
  | V1PowerShell => "PowerShell Execution"
  | V1SensitiveFile => "Sensitive File Access"
  end.

Definition opt_types (o : option pyval) : list string :=
  match o with Some f => [field_s f "type"] | None => [] end.

(** [d.get(k, default)] on a dict. *)
Definition dget (kvs : list (string * pyval)) (k : string) (d : pyval) : pyval :=
  match dict_lookup kvs k with Some x => x | None => d end.

(** A field the detectors call [str] methods on is absent or a [str]. *)
Definition str_or_absent (kvs : list (string * pyval)) (k : string) : bool :=
  match dict_lookup kvs k with None | Some (PStr _) => true | _ => false end.

Definition readable_event (log : pyval) : bool :=
  match log with
  | PDict kvs => forallb (str_or_absent kvs) ["process"; "file"; "source_ip"]
  | _ => false
  end.


(** ** Detector lemmas *)

Lemma py_get_dict kvs k d : py_get (PDict kvs) k d = Ok (dget kvs k d).
Proof. done. Qed.

Lemma failed_types kvs o : analyze_failed_logins (PDict kvs) = Ok o ->
  opt_types o = if py_eq_str (dget kvs "status" PNone) "FAILED" then ["Failed Login"] else [].
Proof.
  unfold analyze_failed_logins, get. rewrite !py_get_dict, bind_ok.
  destruct (py_eq_str _ _); rewrite ?py_get_dict, ?bind_ok; intros [= <-]; reflexivity.
Qed.

Lemma powershell_types kvs o : analyze_powershell (PDict kvs) = Ok o ->
  exists p, py_lower (dget kvs "process" (PStr "")) = Ok p /\
    opt_types o = if contains "powershell" p || contains "pwsh" p then ["PowerShell Execution"] else [].
Proof.
  unfold analyze_powershell, get. rewrite !py_get_dict, bind_ok.
  intros H. apply bind_Ok_inv in H as (p & Hp & H). exists p. split; [done|].
  revert H. destruct (_ || _); rewrite ?py_get_dict, ?bind_ok; intros [= <-]; reflexivity.
Qed.

Lemma sensitive_types kvs o : analyze_sensitive_files (PDict kvs) = Ok o ->
  exists b, py_in "/etc/shadow" (dget kvs "file" (PStr "")) = Ok b /\
    (b = true -> opt_types o = ["Sensitive File Access"]) /\ opt_types o `sublist_of` ["Sensitive File Access"].
Proof.
  unfold analyze_sensitive_files, get. rewrite !py_get_dict, bind_ok.
  intros H. apply bind_Ok_inv in H as (hit & Hhit & H). cbn [any_in sensitive_files] in Hhit.
  assert (opt_types o = if hit then ["Sensitive File Access"] else []) as Ho.
  { revert H. destruct hit; rewrite ?py_get_dict, ?bind_ok; intros [= <-]; reflexivity. }
  assert (opt_types o `sublist_of` ["Sensitive File Access"]) as Hs.
  { rewrite Ho. destruct hit; repeat constructor. }
  destruct (py_in "/etc/shadow" _) as [[]|e] eqn:Hb; simplify_eq; eexists; split_and!; done.
Qed.

Lemma external_types kvs o : analyze_external_connections (PDict kvs) = Ok o ->
  opt_types o `sublist_of` ["External Connection"].
Proof.
  unfold analyze_external_connections, get. rewrite !py_get_dict, bind_ok.
  destruct (truthy _); [|intros [= <-]; apply sublist_nil_l].
  intros H. apply bind_Ok_inv in H as (local & _ & H). revert H.
  destruct local; rewrite ?py_get_dict, ?bind_ok; intros [= <-]; first [apply sublist_nil_l | by repeat constructor].
Qed.

Lemma checks_types kvs fs : checks (PDict kvs) = Ok fs ->
  exists o1 o2 o3 o4, analyze_failed_logins (PDict kvs) = Ok o1 /\ analyze_powershell (PDict kvs) = Ok o2 /\
    analyze_sensitive_files (PDict kvs) = Ok o3 /\ analyze_external_connections (PDict kvs) = Ok o4 /\
    map (fun f => field_s f "type") fs = (opt_types o1 ++ opt_types o2 ++ opt_types o3 ++ opt_types o4)%list.
Proof.
  unfold checks. intros H. ok_inv. injection H as <-. do 4 eexists; split_and!; try eassumption.
  by destruct x, x0, x1, x2.
Qed.

Lemma checks_v1 (log : pyval) (fs : list pyval) :
  checks log = Ok fs -> exists a, v1_checks log = (a, None) /\ map alert_type a `sublist_of` map (fun f => field_s f "type") fs.
Proof.
  destruct log as [| | | | |kvs]; try discriminate.
  intros (o1 & o2 & o3 & o4 & H1 & H2 & H3 & H4 & ->)%checks_types.
  apply failed_types in H1 as ->. apply powershell_types in H2 as (p & Hp & ->).
  apply sensitive_types in H3 as (b & Hb & Hbt & Hs). apply external_types in H4.
  unfold v1_checks, get. rewrite !py_get_dict, !bind_ok, Hp, Hb. eexists; split; [reflexivity|].
  rewrite <-app_assoc, !map_app. apply sublist_app; [by destruct (py_eq_str _ _)|]. apply sublist_app.
  - destruct (contains "powershell" p); [constructor; constructor|apply sublist_nil_l].
  - rewrite <-(app_nil_r (map _ (if b then _ else _))). apply sublist_app; [|apply sublist_nil_l].
    destruct b; [by rewrite Hbt|apply sublist_nil_l].
Qed.









Local Ltac detector_ok H :=
  unfold get; rewrite !py_get_dict; unfold dget; unfold str_or_absent in H;
  destruct (dict_lookup _ _) as [[]|]; try discriminate;
  unfold mbind, pyres_bind, mret, pyres_ret; simpl; repeat case_match; simplify_eq; eauto.

Lemma failed_ok kvs : exists o, analyze_failed_logins (PDict kvs) = Ok o.
Proof. unfold analyze_failed_logins, get. rewrite !py_get_dict, bind_ok. case_match; eauto. Qed.

Lemma powershell_ok kvs : str_or_absent kvs "process" = true -> exists o, analyze_powershell (PDict kvs) = Ok o.
Proof. unfold analyze_powershell. intros H. detector_ok H. Qed.

Lemma sensitive_ok kvs : str_or_absent kvs "file" = true -> exists o, analyze_sensitive_files (PDict kvs) = Ok o.
Proof. unfold analyze_sensitive_files, any_in, sensitive_files. intros H. detector_ok H. Qed.

Lemma external_ok kvs : str_or_absent kvs "source_ip" = true -> exists o, analyze_external_connections (PDict kvs) = Ok o.
Proof. unfold analyze_external_connections. intros H. detector_ok H. Qed.

Lemma checks_readable log : readable_event log = true -> exists fs, checks log = Ok fs.
Proof.
  destruct log as [| | | | |kvs]; try discriminate. unfold readable_event. cbn [forallb].
  rewrite !andb_true_iff. intros (Hp & Hf & Hs & _).
  destruct (failed_ok kvs) as [o1 H1], (powershell_ok kvs Hp) as [o2 H2],
    (sensitive_ok kvs Hf) as [o3 H3], (external_ok kvs Hs) as [o4 H4].
  unfold checks. rewrite H1, H2, H3, H4. eauto.
Qed.

Lemma collect_readable xs : Forall (fun l => readable_event l = true) xs -> exists fs, collect xs = Ok fs.
Proof.
  induction 1 as [|l xs Hl _ [gs IH]]; [by exists []|].
  destruct (checks_readable l Hl) as [fs Hfs]. exists (fs ++ gs)%list. simpl. by rewrite Hfs, IH.
Qed.

Lemma run_v2_list xs :
  run_v2 (PList xs) =
    if bool_decide (xs = []) then Ok None
    else fs ← collect xs;
         let crit := with_severity "CRITICAL" fs in
         let hi := with_severity "HIGH" fs in
         mret (Some (mk_v2_report crit hi (with_severity "MEDIUM" fs)
           ((if bool_decide (crit = []) then [] else [IsolateHosts; BlockIPs; Forensics])
            ++ (if bool_decide (hi = []) then [] else [ResetPasswords; CheckOtherHosts]))%list)).
Proof. unfold run_v2, main_logs. destruct xs; simpl; done. Qed.


(** C29: the second version refines the first: on events on which the
    four v2 detectors return, the v1 loop runs to the end without an
    exception, and the types of its alerts, in order, form a subsequence
    of the types of the v2 findings (v2 adds [pwsh], four more sensitive
    files and external connections, and drops nothing). *)
Theorem v2_refines_v1 (xs fs : list pyval) :
  collect xs = Ok fs ->
  exists alerts, v1_alerts xs = (alerts, None) /\
    map alert_type alerts `sublist_of` map (fun f => field_s f "type") fs.
Proof.
  revert fs; induction xs as [|l xs IH]; intros fs H; simpl in H.
  - injection H as <-. by exists [].
  - ok_inv. injection H as <-. destruct (checks_v1 l _ H0) as (a & Ha & Hsub).
    destruct (IH _ H1) as (b & Hb & Hsub'). exists (a ++ b)%list. simpl. rewrite Ha, Hb.
    split; [done|]. rewrite !map_app. by apply sublist_app.
Qed.

Lemma v2_refines_v1_witness :
  let xs := [PDict [("status", PStr "FAILED"); ("user", PStr "root"); ("source_ip", PStr "198.51.100.4")];
             PDict [("process", PStr "pwsh"); ("file", PStr "/etc/shadow")]] in
  exists fs, collect xs = Ok fs /\
  exists alerts, v1_alerts xs = (alerts, None) /\
    map alert_type alerts `sublist_of` map (fun f => field_s f "type") fs.
Proof.
  cbn zeta.
  destruct (collect_readable [PDict [("status", PStr "FAILED"); ("user", PStr "root"); ("source_ip", PStr "198.51.100.4")];
             PDict [("process", PStr "pwsh"); ("file", PStr "/etc/shadow")]]) as [fs Hfs]; [repeat constructor|].
  exists fs. split; [exact Hfs | exact (v2_refines_v1 _ _ Hfs)].
Defined.

(** C30: the v2 script does not raise on a JSON array (empty or not)
    of objects whose ["process"], ["file"] and ["source_ip"] are absent or
    strings. *)
Theorem run_v2_no_exception (xs : list pyval) :
  Forall (fun l => readable_event l = true) xs -> exists r, run_v2 (PList xs) = Ok r.
Proof.
  intros Hxs. rewrite run_v2_list. case_bool_decide; [eauto|].
  destruct (collect_readable xs Hxs) as [fs ->]. simpl. eauto.
Qed.

Lemma run_v2_no_exception_witness :
  Forall (fun l => readable_event l = true)
    [PDict [("status", PStr "FAILED"); ("user", PStr "admin"); ("source_ip", PStr "203.0.113.7")];
     PDict [("process", PStr "powershell.exe"); ("file", PStr "C:\Windows\System32\config\SAM")]] /\
  exists r, run_v2 (PList
    [PDict [("status", PStr "FAILED"); ("user", PStr "admin"); ("source_ip", PStr "203.0.113.7")];
     PDict [("process", PStr "powershell.exe"); ("file", PStr "C:\Windows\System32\config\SAM")]]) = Ok r.
Proof.
  assert (Forall (fun l => readable_event l = true)
    [PDict [("status", PStr "FAILED"); ("user", PStr "admin"); ("source_ip", PStr "203.0.113.7")];
     PDict [("process", PStr "powershell.exe"); ("file", PStr "C:\Windows\System32\config\SAM")]]) as H
    by (repeat constructor).
  split; [exact H | exact (run_v2_no_exception _ H)].
Defined.

(** A field of another type crashes the v2 script: ["process": null]
    raises [AttributeError] at [.lower()] (so does v1), and a number as
    ["source_ip"] raises [AttributeError] at [.startswith] in v2 while v1
    runs through. *)
Theorem malformed_fields_raise :
  run_v2 (PList [PDict [("process", PNone)]]) = Raise AttributeError /\
  run_v1 (PList [PDict [("process", PNone)]]) = ([], Some AttributeError) /\
  run_v2 (PList [PDict [("source_ip", PInt 3232235777)]]) = Raise AttributeError /\
  run_v1 (PList [PDict [("source_ip", PInt 3232235777)]]) = ([], None).
Proof. split_and!; reflexivity. Qed.

(** C32: the private range 172.16.0.0/12 is recognised by the prefix
    "172.16." only: a source address 172.n.x.y with n from 17 to 31,
    private as well, is reported as a MEDIUM external connection. *)
Theorem private_172_flagged_external (n : Z) (rest : string) :
  (17 <= n <= 31)%Z ->
  exists f, analyze_external_connections (PDict [("source_ip", PStr ("172." ++ pretty n ++ "." ++ rest))])
              = Ok (Some f) /\ field_s f "severity" = "MEDIUM" /\ field_s f "type" = "External Connection".
Proof.
  intros Hn.
  assert (n = 17 \/ n = 18 \/ n = 19 \/ n = 20 \/ n = 21 \/ n = 22 \/ n = 23 \/ n = 24 \/ n = 25 \/
          n = 26 \/ n = 27 \/ n = 28 \/ n = 29 \/ n = 30 \/ n = 31)%Z as Hc by lia.
  repeat destruct Hc as [->|Hc]; subst; vm_compute; eauto.
Qed.

Lemma private_172_flagged_external_witness :
  (17 <= 20 <= 31)%Z /\
  exists f, analyze_external_connections (PDict [("source_ip", PStr ("172." ++ pretty 20%Z ++ "." ++ "0.5"))])
              = Ok (Some f) /\ field_s f "severity" = "MEDIUM" /\ field_s f "type" = "External Connection".
Proof.
  assert (17 <= 20 <= 31)%Z as H by lia. split; [exact H | exact (private_172_flagged_external 20 "0.5" H)].
Defined.


(** C31: when [logs_sample.json] is missing or [json.load] raises
    [json.JSONDecodeError] on its text, [load_logs] catches the exception
    and returns [[]], and [main()] stops after the banner without
    analysing anything. *)
Theorem main_file_unreadable (file : option string) :
  match file with None => True | Some text => Json.loads (Json.translate_newlines text) = Raise ValueError end ->
  main_file file = Ok None.
Proof.
  destruct file as [text|]; [|done]. unfold main_file, load_logs_file. by intros ->.
Qed.

Lemma main_file_unreadable_witness :
  Json.loads (Json.translate_newlines ("[{" ++ dq ++ "status" ++ dq ++ ": " ++ dq ++ "FAILED")) = Raise ValueError /\
  main_file (Some ("[{" ++ dq ++ "status" ++ dq ++ ": " ++ dq ++ "FAILED")) = Ok None.
Proof.
  assert (Json.loads (Json.translate_newlines ("[{" ++ dq ++ "status" ++ dq ++ ": " ++ dq ++ "FAILED")) = Raise ValueError)
    as H by (vm_compute; reflexivity).
  split; [exact H|exact (main_file_unreadable (Some _) H)].
Defined.

End V2.
