(* ===== verification/DirBuster.v ===== *)
(** * Directory brute forcing: [src/redteam-operations/recon_tools/dirbuster_sim.py]

    [DirBusterSim] requests [urljoin(target_url, path)] for every path of
    a wordlist from [threads] worker threads, keeps the results whose
    status code is in the "found" list, and [generate_report] sorts the
    found paths into four buckets by substrings of the lowercased path.

    - [scanner] is the object's state ([__init__], lines 17-26) and
      [check_path] the method of lines 63-102, with the HTTP response as
      a function [server] of the URL (a [Section] variable): the network
      is not modelled, its answers are the input.
    - [scan_step] is the concurrent [scan] (lines 104-150): a state holds
      the queue, the paths the workers are checking and the scanner;
      a step is a worker taking the head of the queue or a worker
      finishing [check_path] on its path, in any interleaving.
    - [generate_report] and [print_report] (lines 152-202) are functions
      of the state; the timestamp is left out of the report.
    - [save_report] (lines 204-214) gives the name of the file written
      and the report it holds (the [indent=2] JSON text is not
      modelled), and [main_run] is [main()] (lines 217-245) after
      argparse: the scan to a completed state, the printed report and
      the saved file.
    - [url_join] is [urllib.parse.urljoin] on the references the scanner
      builds (an http(s) or relative base and a relative path without
      dot segments, query or fragment); it is [None] outside them. *)

From S2P Require Import Prelude Severity.
Local Open Scope string_scope.

Module DirBuster.

(** [s.rstrip('/')]. *)
Fixpoint rstrip_slash (s : string) : string :=
  match s with
  | EmptyString => EmptyString
  | String c t =>
      let t' := rstrip_slash t in
      if String.eqb t' "" && (char_code c =? 47)%nat then EmptyString else String c t'
  end.

(** One result of [check_path] (lines 75-81). *)
Record path_result := mk_result {
  url : string; path : string; status_code : Z; size : nat; found : bool
}.

Record scanner := mk_scanner {
  target_url : string; wordlist : option string; threads : Z; found_paths : list path_result
}.

(** [DirBusterSim.__init__] (lines 17-26); the HTTP session is not state
    the model needs. *)
Definition init (target : string) (wl : option string) (n : Z) : scanner :=
  mk_scanner (rstrip_slash target) wl n [].

(** [_default_wordlist] (lines 40-61). *)
Definition default_wordlist : list string :=
  ["admin"; "administrator"; "login"; "dashboard"; "panel";
   "wp-admin"; "phpmyadmin"; "cpanel"; "webmail";
   "backup"; "backups"; ".git"; ".env"; "config";
   "api"; "api/v1"; "api/v2"; "api/docs";
   "uploads"; "upload"; "files"; "images"; "assets";
   "test"; "dev"; "staging"; "beta";
   "admin.php"; "login.php"; "config.php"; "db.php";
   "robots.txt"; "sitemap.xml"; ".htaccess"; "web.config";
   "swagger"; "graphql"; "wp-content"; "wp-includes";
   "vendor"; "node_modules"; ".git/config"; ".svn";
   "server-status"; "server-info"; "phpinfo.php";
   "shell.php"; "cmd.php"; "backdoor.php";
   "database"; "db"; "sql"; "mysql";
   "adminer.php"; "setup.php"; "install.php";
   "logs"; "log"; "error_log"; "access_log";
   "tmp"; "temp"; "cache"; ".cache";
   "private"; "internal"; "secret"; "hidden";
   "user"; "users"; "account"; "profile"].

(** [load_wordlist] (lines 28-38); [read name] is the list of lines of
    the file, [None] when it does not exist. *)
Definition load_wordlist (wl : option string) (read : string -> option (list string)) : list string :=
  match wl with
  | Some name =>
      if String.eqb name "" then default_wordlist
      else match read name with
           | Some lines => map strip (List.filter (fun l => negb (String.eqb (strip l) "")) lines)
           | None => default_wordlist
           end
  | None => default_wordlist
  end.

(** The status codes of line 80. *)
Definition found_statuses : list Z := [200; 201; 202; 203; 301; 302; 401; 403]%Z.

Definition is_found (code : Z) : bool := existsb (Z.eqb code) found_statuses.

(** [status_symbol] (lines 85-91). *)
Definition status_symbol (code : Z) : string :=
  if Z.eqb code 200 then "[+]"
  else if Z.eqb code 301 || Z.eqb code 302 then "[>]"
  else if Z.eqb code 401 || Z.eqb code 403 then "[!]"
  else "[?]".

(** What [self.session.get(url, ...)] does: a response, or one of the
    exceptions [check_path] catches. *)
Inductive response :=
| Response (code : Z) (content_length : nat)
| Timeout
| ConnectionError
| OtherError (msg : string).

(** The dict [check_path] returns: a result, or [{'url', 'error'}]. *)
Inductive check_result :=
| Checked (r : path_result)
| CheckError (u : string) (err : string).

Definition add_found (st : scanner) (r : path_result) : scanner :=
  mk_scanner (target_url st) (wordlist st) (threads st) (found_paths st ++ [r])%list.

Section CheckPath.
Variable urljoin : string -> string -> string.
Variable server : string -> response.

(** [check_path(path)] (lines 63-102): the result and the new state. *)
Definition check_path (st : scanner) (p : string) : check_result * scanner :=
  let u := urljoin (target_url st) p in
  match server u with
  | Response code sz =>
      let r := mk_result u p code sz (is_found code) in
      (Checked r, if is_found code then add_found st r else st)
  | Timeout => (CheckError u "timeout", st)
  | ConnectionError => (CheckError u "connection_error", st)
  | OtherError msg => (CheckError u msg, st)
  end.

(** The state of [scan] while the workers run: the queue, the paths
    taken by a worker and not finished, and the scanner. *)
Record scan_state := mk_scan { queue : list string; in_flight : list string; sc : scanner }.

(** One event of the concurrent scan (lines 104-145).  A worker that
    holds no path takes the head of the queue ([queue.get], FIFO); a
    worker finishes [check_path] on its path, in any order, appending to
    [found_paths] under the interpreter lock.  [Z.to_nat (threads st)]
    workers run: [range(threads)] is empty for [threads <= 0]. *)
Inductive scan_step : scan_state -> scan_state -> Prop :=
| step_get p rest fl st :
    length fl < Z.to_nat (threads st) ->
    scan_step (mk_scan (p :: rest) fl st) (mk_scan rest (p :: fl) st)
| step_check q fl1 p fl2 st :
    scan_step (mk_scan q (fl1 ++ p :: fl2) st) (mk_scan q (fl1 ++ fl2) (check_path st p).2).

(** [scan] puts the paths in the queue; [queue.join()] returns when every
    path is done. *)
Definition scan_init (st : scanner) (paths : list string) : scan_state := mk_scan paths [] st.
Definition scan_done (s : scan_state) : Prop := queue s = [] /\ in_flight s = [].

(** The single-threaded reference: the paths checked in wordlist order. *)
Definition scan_seq (st : scanner) (paths : list string) : scanner :=
  fold_left (fun st p => (check_path st p).2) paths st.

(** The result [check_path] records for [p], if any. *)
Definition found_of (target : string) (p : string) : list path_result :=
  let u := urljoin target p in
  match server u with
  | Response code sz => if is_found code then [mk_result u p code sz true] else []
  | _ => []
  end.

End CheckPath.

(** ** [generate_report] and [print_report] *)

Definition critical_words : list string := [".git"; ".env"; "config.php"; "db.php"; "backup"; "shell"; "cmd"].
Definition high_words : list string := ["admin"; "phpmyadmin"; "cpanel"; "api"; "graphql"].
Definition medium_words : list string := ["upload"; "files"; "logs"].

(** The bucket of a found path (lines 168-182). *)
Definition classify (r : path_result) : severity :=
  let p := lower (path r) in
  if contains_any p critical_words then CRITICAL
  else if contains_any p high_words then HIGH
  else if Z.eqb (status_code r) 403 || contains_any p medium_words then MEDIUM
  else INFO.

Record buckets := mk_buckets {
  b_critical : list path_result; b_high : list path_result;
  b_medium : list path_result; b_info : list path_result
}.

Definition bucket_add (b : buckets) (r : path_result) : buckets :=
  match classify r with
  | CRITICAL => mk_buckets (b_critical b ++ [r]) (b_high b) (b_medium b) (b_info b)
  | HIGH => mk_buckets (b_critical b) (b_high b ++ [r]) (b_medium b) (b_info b)
  | MEDIUM => mk_buckets (b_critical b) (b_high b) (b_medium b ++ [r]) (b_info b)
  | _ => mk_buckets (b_critical b) (b_high b) (b_medium b) (b_info b ++ [r])
  end%list.

Record dir_report := mk_report { target : string; total_found : nat; findings : buckets }.

(** [generate_report()] (lines 152-184), without the timestamp. *)
Definition generate_report (st : scanner) : dir_report :=
  mk_report (target_url st) (length (found_paths st))
    (fold_left bucket_add (found_paths st) (mk_buckets [] [] [] [])).

Definition bucket (b : buckets) (s : severity) : list path_result :=
  match s with
  | CRITICAL => b_critical b | HIGH => b_high b | MEDIUM => b_medium b | _ => b_info b
  end.

(** The per-bucket blocks [print_report] prints (lines 195-200): the name,
    the number of findings and the status and URL of the first ten. *)
Definition print_report (r : dir_report) : list (string * nat * list (Z * string)) :=
  List.concat (map (fun s =>
    let fs := bucket (findings r) s in
    match fs with
    | [] => []
    | _ => [(sev_name s, length fs, map (fun f => (status_code f, url f)) (first_n 10 fs))]
    end) [CRITICAL; HIGH; MEDIUM; INFO]).

(** [save_report(report, filename)] (lines 204-214): the name of the
    file [json.dump] writes and the report it holds; [ts] is
    [datetime.now().strftime('%Y%m%d_%H%M%S')]; [if not filename] takes
    [None] and [""] alike. *)
Definition save_report (ts : string) (r : dir_report) (filename : option string) : string * dir_report :=
  let default_name := "dirbuster_report_" ++ ts ++ ".json" in
  (match filename with
   | Some f => if String.eqb f "" then default_name else f
   | None => default_name
   end, r).

(** What [main()] shows and writes: the blocks of [print_report] and the
    saved file. *)
Record main_out := mk_main_out { printed : list (string * nat * list (Z * string)); saved : string * dir_report }.

(** [main()] (lines 217-245) after the scan: the report, printed, then
    saved to [args.output] when it is given and non-empty, and with the
    default name otherwise. *)
Definition main_report (st : scanner) (ts : string) (output : option string) : main_out :=
  let report := generate_report st in
  mk_main_out (print_report report)
    (match output with
     | Some o => if String.eqb o "" then save_report ts report None else save_report ts report (Some o)
     | None => save_report ts report None
     end).

(** A run of [main()] with the arguments [url], [--wordlist], [--threads]
    and [--output]: the scanner of [__init__], [scan] over the loaded
    wordlist to a completed state (any interleaving), then
    [main_report]. *)
Inductive main_run (urljoin : string -> string -> string) (server : string -> response)
    (read : string -> option (list string)) (url : string) (wl : option string) (n : Z)
    (output : option string) (ts : string) : main_out -> Prop :=
| main_run_done s :
    rtc (scan_step urljoin server) (scan_init (init url wl n) (load_wordlist wl read)) s -> scan_done s ->
    main_run urljoin server read url wl n output ts (main_report (sc s) ts output).

(** ** [urllib.parse.urljoin] on the scanner's references (line 65) *)

(** Characters outside the modelled fragment: controls and space (which
    [urlsplit] strips or removes), [#], [;], [?], [[] and []]. *)
Definition url_special (c : ascii) : bool :=
  let n := char_code c in
  ((n <=? 32) || (n =? 35) || (n =? 59) || (n =? 63) || (n =? 91) || (n =? 93))%nat.

Definition is_slash (c : ascii) : bool := (char_code c =? 47)%nat.

(** [s.split('/')]. *)
Fixpoint split_slash (s : string) : list string :=
  match s with
  | EmptyString => [""]
  | String c t =>
      let segs := split_slash t in
      if is_slash c then "" :: segs
      else match segs with
           | s1 :: rest => String c s1 :: rest
           | [] => [String c ""]
           end
  end.

(** The prefix of [s] up to and including its last [/] ([""] if none). *)
Fixpoint dir_of (s : string) : string :=
  match s with
  | EmptyString => ""
  | String c t =>
      let d := dir_of t in
      if negb (String.eqb d "") then String c d else if is_slash c then "/" else ""
  end.

Definition no_dot_segments (s : string) : bool :=
  forallb (fun seg => negb (String.eqb seg ".") && negb (String.eqb seg "..")) (split_slash s).

(** A relative reference made of path segments only. *)
Definition simple_ref (rel : string) : bool :=
  negb (String.eqb rel "") && all_chars (fun c => negb (url_special c) && negb (char_code c =? 58)%nat) rel
  && negb (String.prefix "/" rel) && negb (contains "//" rel) && no_dot_segments rel.

(** [netloc] and [path] of what follows [scheme://]. *)
Fixpoint split_netloc (s : string) : string * string :=
  match s with
  | EmptyString => ("", "")
  | String c t => if is_slash c then ("", s) else let '(n, p) := split_netloc t in (String c n, p)
  end.

(** The merge of RFC 3986 5.2.3 as [urljoin] does it: the last segment of
    the base path is replaced, and an empty path under an authority
    becomes [/]. *)
Definition merge_path (has_netloc : bool) (bpath rel : string) : string :=
  if has_netloc && String.eqb bpath "" then "/" ++ rel else dir_of bpath ++ rel.

Definition url_join (base rel : string) : option string :=
  if negb (simple_ref rel) then None
  else if String.eqb base "" then Some rel
  else if negb (all_chars (fun c => negb (url_special c)) base) then None
  else
    let with_netloc (pre rest : string) :=
      let '(netloc, bpath) := split_netloc rest in
      if contains "//" bpath || negb (no_dot_segments bpath) then None
      else Some (pre ++ netloc ++ merge_path true bpath rel) in
    if String.prefix "http://" base then with_netloc "http://" (str_drop 7 base)
    else if String.prefix "https://" base then with_netloc "https://" (str_drop 8 base)
    else if contains ":" base || String.prefix "//" base || contains "//" base || negb (no_dot_segments base)
    then None
    else Some (merge_path false base rel).

(** ** Test fixtures: a server answering 200 for admin pages and 403 for [.env] *)

Definition w_urljoin (b r : string) : string := match url_join b r with Some u => u | None => b end.

Definition w_server (u : string) : response :=
  if contains "admin" u then Response 200 512
  else if contains ".env" u then Response 403 0
  else Response 404 0.

(** ** The report *)

Definition of_class (sev : severity) (r : path_result) : bool := bool_decide (classify r = sev).

Lemma classify_not_low r : classify r <> LOW.
Proof. unfold classify. repeat case_match; discriminate. Qed.

Lemma bucket_fold fs b sev : sev <> LOW ->
  bucket (fold_left bucket_add fs b) sev = (bucket b sev ++ List.filter (of_class sev) fs)%list.
Proof.
  intros Hs. revert b; induction fs as [|r fs IH]; intros b; simpl; [by rewrite app_nil_r|].
  rewrite IH. unfold bucket_add, of_class. pose proof (classify_not_low r) as Hl.
  destruct (classify r), sev; try done; simpl; rewrite ?bool_decide_true, ?bool_decide_false by done;
    by rewrite <-?app_assoc.
Qed.

Lemma of_class_at sev r : of_class sev r = bool_decide (classify r = sev).
Proof. done. Qed.

Lemma classes_partition (xs : list path_result) :
  (List.filter (of_class CRITICAL) xs ++ List.filter (of_class HIGH) xs ++
   List.filter (of_class MEDIUM) xs ++ List.filter (of_class INFO) xs)%list ≡ₚ xs.
Proof.
  induction xs as [|r xs IH]; [done|]. cbn [List.filter]. rewrite !(of_class_at _ r).
  pose proof (classify_not_low r) as Hl.
  destruct (classify r); try done; rewrite ?bool_decide_true, ?bool_decide_false by done;
    (etransitivity; [|apply perm_skip, IH]); solve_Permutation.
Qed.

Lemma report_bucket st sev : sev <> LOW ->
  bucket (findings (generate_report st)) sev = List.filter (of_class sev) (found_paths st).
Proof. intros Hs. unfold generate_report. simpl. rewrite bucket_fold by done. by destruct sev. Qed.

Lemma filter_perm {A} (p : A -> bool) (xs ys : list A) : xs ≡ₚ ys -> List.filter p xs ≡ₚ List.filter p ys.
Proof.
  induction 1; simpl; try (destruct (p _)); try (destruct (p _)); try constructor; try done; by etransitivity.
Qed.

(** ** The scan *)

Section ScanTheorems.
Variable urljoin : string -> string -> string.
Variable server : string -> response.

Local Abbreviation step := (scan_step urljoin server).
Local Abbreviation check := (check_path urljoin server).
Local Abbreviation fnd := (found_of urljoin server).

Lemma check_path_state st p :
  (check st p).2 = mk_scanner (target_url st) (wordlist st) (threads st)
                     (found_paths st ++ fnd (target_url st) p)%list.
Proof.
  unfold check_path, found_of. destruct st as [t w n fp]; simpl.
  destruct (server (urljoin t p)) as [code sz| | |]; simpl; rewrite ?app_nil_r; try done.
  destruct (is_found code); simpl; by rewrite ?app_nil_r.
Qed.

Lemma scan_seq_found st paths :
  found_paths (scan_seq urljoin server st paths) = (found_paths st ++ List.concat (map (fnd (target_url st)) paths))%list
  /\ target_url (scan_seq urljoin server st paths) = target_url st.
Proof.
  revert st; induction paths as [|p ps IH]; intros st; simpl; [by rewrite app_nil_r|].
  destruct (IH (check st p).2) as [H1 H2]. rewrite H1, H2, check_path_state; simpl.
  by rewrite app_assoc.
Qed.

Lemma step_keeps s s' : step s s' -> target_url (sc s') = target_url (sc s) /\ threads (sc s') = threads (sc s).
Proof. destruct 1; simpl; [done|]. by rewrite check_path_state. Qed.

Lemma rtc_step_keeps s s' : rtc step s s' -> target_url (sc s') = target_url (sc s) /\ threads (sc s') = threads (sc s).
Proof. induction 1 as [|? ? ? Hs _ IH]; [done|]. destruct (step_keeps _ _ Hs), IH; split; congruence. Qed.

(** What is found so far plus what the pending paths will find is what
    the whole wordlist finds, up to order. *)
Definition scan_inv (st0 : scanner) (paths : list string) (s : scan_state) : Prop :=
  (found_paths (sc s) ++ List.concat (map (fnd (target_url st0)) (in_flight s ++ queue s)))%list
    ≡ₚ (found_paths st0 ++ List.concat (map (fnd (target_url st0)) paths))%list.

Lemma scan_inv_step st0 paths s s' :
  target_url (sc s) = target_url st0 -> step s s' -> scan_inv st0 paths s -> scan_inv st0 paths s'.
Proof.
  unfold scan_inv. intros Ht Hs. destruct Hs as [p rest fl st _|q fl1 p fl2 st]; simpl in *.
  - intros <-. rewrite !map_app, !List.concat_app. cbn [map List.concat app].
    rewrite <-?app_assoc. apply Permutation_app_head. apply Permutation_app_swap_app.
  - rewrite check_path_state, Ht; simpl. intros <-.
    rewrite !map_app, !List.concat_app, <-!app_assoc. apply Permutation_app_head.
    cbn [map List.concat]. rewrite <-!app_assoc. apply Permutation_app_swap_app.
Qed.

Lemma scan_inv_reachable st paths s : rtc step (scan_init st paths) s -> scan_inv st paths s.
Proof.
  revert s. apply (rtc_ind_r (scan_inv st paths)); [unfold scan_inv; simpl; reflexivity|].
  intros y z Hxy Hyz IH. apply (scan_inv_step st paths y z); [|done|done].
  by destruct (rtc_step_keeps _ _ Hxy) as [-> _].
Qed.

Lemma scan_found_perm st paths s :
  rtc step (scan_init st paths) s -> scan_done s ->
  found_paths (sc s) ≡ₚ found_paths (scan_seq urljoin server st paths).
Proof.
  intros Hr [Hq Hf]. pose proof (scan_inv_reachable st paths s Hr) as Hinv. unfold scan_inv in Hinv.
  rewrite Hq, Hf in Hinv. simpl in Hinv. rewrite app_nil_r in Hinv.
  by rewrite (proj1 (scan_seq_found st paths)).
Qed.

(** With one worker at most one path is in flight, so the paths are
    checked in queue order. *)
Definition scan_inv1 (st0 : scanner) (paths : list string) (s : scan_state) : Prop :=
  (found_paths (sc s) ++ List.concat (map (fnd (target_url st0)) (in_flight s ++ queue s)))%list
    = (found_paths st0 ++ List.concat (map (fnd (target_url st0)) paths))%list
  /\ length (in_flight s) <= 1.

Lemma scan_inv1_reachable st paths s :
  threads st = 1%Z -> rtc step (scan_init st paths) s -> scan_inv1 st paths s.
Proof.
  intros Hn. revert s. apply (rtc_ind_r (scan_inv1 st paths)); [unfold scan_inv1; simpl; split; [done|lia]|].
  intros y z Hxy Hyz [IH Hlen]. destruct (rtc_step_keeps _ _ Hxy) as [Ht Hth]; simpl in *.
  unfold scan_inv1. destruct Hyz as [p rest fl st' Hl|q fl1 p fl2 st']; simpl in *.
  - rewrite Hth, Hn in Hl. simpl in Hl. destruct fl; [|simpl in Hl; lia]. simpl in *. split; [done|lia].
  - rewrite length_app in Hlen; simpl in Hlen. destruct fl1; [|simpl in Hlen; lia].
    destruct fl2; [|simpl in Hlen; lia]. simpl in *. rewrite check_path_state, Ht; simpl.
    split; [|lia]. by rewrite <-app_assoc.
Qed.

Definition scan_measure (s : scan_state) : nat := 2 * length (queue s) + length (in_flight s).

Lemma step_measure s s' : step s s' -> scan_measure s' < scan_measure s.
Proof. unfold scan_measure. destruct 1; simpl; rewrite ?length_app; simpl; lia. Qed.

(** A state that is not done can step as long as a worker runs. *)
Lemma step_progress s : (1 <= threads (sc s))%Z -> ~ scan_done s -> exists s', step s s'.
Proof.
  destruct s as [q fl st]; unfold scan_done; simpl. intros Hn Hnd.
  destruct fl as [|p fl].
  - destruct q as [|p rest]; [by destruct Hnd|]. eexists. apply step_get. simpl. lia.
  - eexists. apply (step_check urljoin server q [] p fl st).
Qed.

Lemma scan_completes s : (1 <= threads (sc s))%Z -> exists s', rtc step s s' /\ scan_done s'.
Proof.
  induction s as [s IH] using (induction_ltof1 _ scan_measure). intros Hn.
  destruct (decide (queue s = [] /\ in_flight s = [])) as [Hd|Hd]; [exists s; by split|].
  destruct (step_progress s Hn Hd) as [s' Hs].
  destruct (IH s') as (s'' & Hr & Hd'); [by apply step_measure|by rewrite (proj2 (step_keeps _ _ Hs))|].
  exists s''. split; [by eapply rtc_l|done].
Qed.

Lemma scan_stuck st paths s :
  (threads st <= 0)%Z -> rtc step (scan_init st paths) s -> s = scan_init st paths.
Proof.
  intros Hn. revert s. apply (rtc_ind_r (fun s => s = scan_init st paths)); [done|].
  intros y z _ Hyz ->. unfold scan_init in Hyz.
  inversion Hyz as [p rest fl st' Hl| q fl1 p fl2 st' Heq]; subst.
  - simpl in Hl. rewrite Z2Nat.nonpos in Hl by done. lia.
  - match goal with H : (_ ++ _ :: _)%list = [] |- _ => destruct fl1; discriminate H end.
Qed.

(** The sequential schedule is one of the interleavings. *)
Lemma scan_seq_run st paths :
  (1 <= threads st)%Z -> rtc step (scan_init st paths) (mk_scan [] [] (scan_seq urljoin server st paths)).
Proof.
  revert st; induction paths as [|p ps IH]; intros st Hn; [apply rtc_refl|].
  eapply rtc_l; [apply step_get; simpl; lia|].
  eapply rtc_l; [apply (step_check urljoin server ps [] p [] st)|]. simpl.
  apply IH. rewrite check_path_state. done.
Qed.

(** C34: the concurrent scan refines the sequential one: however the
    workers interleave, a scan that completes has found exactly the
    results the wordlist checked in order finds, up to order. *)
Theorem scan_order_independent st paths s :
  rtc step (scan_init st paths) s -> scan_done s ->
  found_paths (sc s) ≡ₚ found_paths (scan_seq urljoin server st paths).
Proof. apply scan_found_perm. Qed.

(** With one worker thread the results are recorded in wordlist
    order, as by the sequential loop. *)
Theorem scan_single_thread st paths s :
  threads st = 1%Z -> rtc step (scan_init st paths) s -> scan_done s ->
  found_paths (sc s) = found_paths (scan_seq urljoin server st paths).
Proof.
  intros Hn Hr [Hq Hf]. destruct (scan_inv1_reachable st paths s Hn Hr) as [Hinv _].
  rewrite Hq, Hf, app_nil_r in Hinv. simpl in Hinv. by rewrite (proj1 (scan_seq_found st paths)).
Qed.

(** C35: the scan terminates: every event shrinks the work left, and with
    at least one worker every reachable state can still complete. *)
Theorem scan_terminates st paths :
  (1 <= threads st)%Z ->
  well_founded (fun s' s => step s s') /\
  forall s, rtc step (scan_init st paths) s -> exists s', rtc step s s' /\ scan_done s'.
Proof.
  intros Hn. split.
  - intros s. induction s as [s IH] using (induction_ltof1 _ scan_measure).
    constructor. intros s' Hs. apply IH. by apply step_measure.
  - intros s Hr. apply scan_completes. by rewrite (proj2 (rtc_step_keeps _ _ Hr)).
Qed.

(** C37: with [--threads 0] (or a negative count) no worker starts and
    [queue.join()] waits forever: a non-empty wordlist never completes. *)
Theorem scan_zero_threads_hangs st paths s :
  (threads st <= 0)%Z -> paths <> [] -> rtc step (scan_init st paths) s -> ~ scan_done s.
Proof. intros Hn Hp Hr. rewrite (scan_stuck st paths s Hn Hr). by intros [? _]. Qed.

(** C40: The report does not depend on the interleaving: two completed
    scans of the same wordlist report the same number of paths and the
    same bucket contents, up to order. *)
Theorem scan_report_deterministic st paths s1 s2 :
  rtc step (scan_init st paths) s1 -> scan_done s1 ->
  rtc step (scan_init st paths) s2 -> scan_done s2 ->
  total_found (generate_report (sc s1)) = total_found (generate_report (sc s2)) /\
  forall sev, sev <> LOW ->
    bucket (findings (generate_report (sc s1))) sev ≡ₚ bucket (findings (generate_report (sc s2))) sev.
Proof.
  intros H1 D1 H2 D2. pose proof (scan_found_perm _ _ _ H1 D1) as P1. pose proof (scan_found_perm _ _ _ H2 D2) as P2.
  split; [simpl; by rewrite P1, P2|].
  intros sev Hs. rewrite !report_bucket by done. apply filter_perm. by rewrite P1, P2.
Qed.

(** C36: with at least one thread [main()] completes, and every run
    writes a report file: to [--output] when it is given and non-empty,
    else to [dirbuster_report_<ts>.json]; the file holds the report it
    printed, with as many findings as the sequential scan of the
    wordlist finds. *)
Theorem main_saves_report (read : string -> option (list string)) (url : string) (wl : option string) (n : Z)
    (output : option string) (ts : string) :
  (1 <= n)%Z ->
  (exists out, main_run urljoin server read url wl n output ts out) /\
  forall out, main_run urljoin server read url wl n output ts out ->
    (saved out).1 = (if String.eqb (default "" output) "" then "dirbuster_report_" ++ ts ++ ".json" else default "" output) /\
    printed out = print_report (saved out).2 /\
    total_found (saved out).2 = length (found_paths (scan_seq urljoin server (init url wl n) (load_wordlist wl read))).
Proof.
  intros Hn. split.
  - destruct (scan_completes (scan_init (init url wl n) (load_wordlist wl read))) as (s & Hr & Hd); [done|].
    eexists. by econstructor.
  - intros out Hrun. inversion Hrun as [s Hr Hd]; subst. split; [|split].
    + destruct output as [o|]; [|reflexivity]. cbn [main_report saved default id]. unfold save_report.
      destruct (String.eqb o "") eqn:E; cbn; by rewrite ?E.
    + destruct output as [o|]; [|reflexivity]. cbn [main_report printed saved]. by destruct (String.eqb o "").
    + transitivity (length (found_paths (sc s))).
      * destruct output as [o|]; [|reflexivity]. cbn [main_report saved]. by destruct (String.eqb o "").
      * apply Permutation_length, scan_found_perm; done.
Qed.

End ScanTheorems.


(** C39: [generate_report] files every found path in exactly one bucket,
    the bucket of its class: the four buckets together are a permutation
    of [found_paths], and [total_found] is their number. *)
Theorem report_partition st :
  let b := findings (generate_report st) in
  total_found (generate_report st) = length (found_paths st) /\
  (b_critical b ++ b_high b ++ b_medium b ++ b_info b)%list ≡ₚ found_paths st /\
  forall r, r ∈ found_paths st -> r ∈ bucket b (classify r).
Proof.
  cbn zeta. split; [done|]. split.
  - set (b := findings (generate_report st)).
    change (bucket b CRITICAL ++ bucket b HIGH ++ bucket b MEDIUM ++ bucket b INFO ≡ₚ found_paths st)%list.
    subst b. rewrite !report_bucket by done. apply classes_partition.
  - intros r Hr. rewrite report_bucket by apply classify_not_low.
    apply list_elem_of_In, filter_In. split; [by apply list_elem_of_In|]. unfold of_class. by apply bool_decide_true.
Qed.

(** The classification table: a critical word wins over everything
    (also over a 403), then a high one, then a 403 or a medium word; the
    match ignores case. *)
Theorem classify_table :
  classify (mk_result "" ".env" 200 0 true) = CRITICAL /\
  classify (mk_result "" ".git/config" 403 0 true) = CRITICAL /\
  classify (mk_result "" "backups" 301 0 true) = CRITICAL /\
  classify (mk_result "" "admin" 401 0 true) = HIGH /\
  classify (mk_result "" "Admin" 403 0 true) = HIGH /\
  classify (mk_result "" "api/v1" 200 0 true) = HIGH /\
  classify (mk_result "" "uploads" 200 0 true) = MEDIUM /\
  classify (mk_result "" "images" 403 0 true) = MEDIUM /\
  classify (mk_result "" "robots.txt" 200 0 true) = INFO.
Proof. split_and!; reflexivity. Qed.

(** Secret and shell-like names outside the word lists are reported
    as INFO: "secret", "private", "backdoor.php", ".htaccess" and
    "phpinfo.php" from the default wordlist. *)
Theorem secret_names_info :
  Forall (fun p => classify (mk_result "" p 200 0 true) = INFO)
    ["secret"; "private"; "backdoor.php"; ".htaccess"; "phpinfo.php"] /\
  Forall (fun p => p ∈ default_wordlist) ["secret"; "private"; "backdoor.php"; ".htaccess"; "phpinfo.php"].
Proof. split; repeat constructor; unfold default_wordlist; set_solver. Qed.

Lemma split_netloc_host host :
  all_chars (fun c => negb (is_slash c)) host = true -> split_netloc host = (host, "").
Proof.
  induction host as [|c host IH]; simpl; [done|]. rewrite andb_true_iff. intros [Hc Hh].
  apply negb_true_iff in Hc. rewrite Hc, IH by done. done.
Qed.

(** On a bare host, [urljoin] appends the path after a slash: the
    URL of a wordlist entry [rel] under "http://host" is
    "http://host/rel". *)
Theorem url_join_host host rel :
  all_chars (fun c => negb (url_special c) && negb (is_slash c)) host = true -> simple_ref rel = true ->
  url_join ("http://" ++ host) rel = Some ("http://" ++ host ++ "/" ++ rel).
Proof.
  intros Hh Hr. unfold url_join. rewrite Hr.
  assert (String.eqb ("http://" ++ host) "" = false) as -> by reflexivity.
  rewrite all_chars_app.
  assert (all_chars (fun c => negb (url_special c)) host = true) as ->.
  { eapply all_chars_impl; [|exact Hh]. intros c. rewrite andb_true_iff. tauto. }
  rewrite prefix_app. cbn -[String.append str_drop split_netloc].
  change 7 with (String.length "http://"). rewrite str_drop_app.
  rewrite split_netloc_host; [done|]. eapply all_chars_impl; [|exact Hh].
  intros c. rewrite andb_true_iff. tauto.
Qed.

(** ** A target with a directory *)

Definition no_slash (s : string) : bool := all_chars (fun c => negb (is_slash c)) s.

Lemma rstrip_slash_plain (p w : string) :
  no_slash w = true -> w <> "" -> rstrip_slash (p ++ w) = p ++ w.
Proof.
  intros Hw Hne. induction p as [|c p IH].
  - change ("" ++ w) with w. clear Hne. induction w as [|c w IHw]; [done|]. cbn in Hw |- *. apply andb_true_iff in Hw as [Hc Hw].
    rewrite IHw by done. unfold is_slash in Hc. apply negb_true_iff in Hc. rewrite Hc, andb_false_r. done.
  - rewrite str_app_cons. cbn [rstrip_slash]. rewrite IH.
    destruct p, w; try done; reflexivity.
Qed.

Lemma rstrip_slash_snoc (a : string) : rstrip_slash (a ++ "/") = rstrip_slash a.
Proof. induction a as [|c a IH]; [done|]. rewrite str_app_cons. cbn [rstrip_slash]. by rewrite IH. Qed.

Lemma split_slash_plain (w : string) : no_slash w = true -> split_slash w = [w].
Proof.
  induction w as [|c w IH]; [done|]. cbn. intros [Hc Hw]%andb_true_iff. apply negb_true_iff in Hc.
  rewrite IH, Hc by done. done.
Qed.

Lemma dir_of_plain (w : string) : no_slash w = true -> dir_of w = "".
Proof.
  induction w as [|c w IH]; [done|]. cbn. intros [Hc Hw]%andb_true_iff. apply negb_true_iff in Hc.
  rewrite IH, Hc by done. done.
Qed.

Lemma no_double_slash (w : string) : no_slash w = true -> contains "//" w = false.
Proof.
  induction w as [|c w IH]; [done|]. cbn [no_slash all_chars]. intros [Hc Hw]%andb_true_iff.
  apply negb_true_iff in Hc. cbn [contains]. rewrite IH by done. rewrite orb_false_r.
  destruct (String.prefix "//" (String c w)) eqn:E; [|done].
  apply prefix_spec in E as [t E]. injection E as -> _. discriminate Hc.
Qed.

Lemma split_netloc_app_slash (host x : string) :
  no_slash host = true -> split_netloc (host ++ "/" ++ x) = (host, "/" ++ x).
Proof.
  induction host as [|c host IH]; [done|]. cbn [no_slash all_chars]. intros [Hc Hh]%andb_true_iff.
  apply negb_true_iff in Hc. rewrite str_app_cons. cbn [split_netloc]. rewrite Hc, IH by done. done.
Qed.

(** C38: a target with a directory is not scanned inside it: [__init__]
    strips the trailing slash, so that [urljoin] replaces the last path
    segment: for every host, directory and wordlist entry of the modelled
    form, the target "http://host/dir/" probes "http://host/entry", not
    "http://host/dir/entry". *)
Theorem target_directory_dropped (host dir rel : string) (wl : option string) (n : Z) :
  all_chars (fun c => negb (url_special c) && negb (is_slash c)) (host ++ dir) = true ->
  dir <> "" -> dir <> "." -> dir <> ".." -> simple_ref rel = true ->
  target_url (init ("http://" ++ host ++ "/" ++ dir ++ "/") wl n) = "http://" ++ host ++ "/" ++ dir /\
  url_join (target_url (init ("http://" ++ host ++ "/" ++ dir ++ "/") wl n) ) rel
    = Some ("http://" ++ host ++ "/" ++ rel).
Proof.
  intros Hhd Hne Hd1 Hd2 Hr. rewrite all_chars_app in Hhd. apply andb_true_iff in Hhd as [Hh Hd].
  assert (no_slash host = true /\ no_slash dir = true) as [Hh' Hd'].
  { split; (eapply all_chars_impl; [|eassumption]); intros c; rewrite andb_true_iff; tauto. }
  assert (target_url (init ("http://" ++ host ++ "/" ++ dir ++ "/") wl n) = "http://" ++ host ++ "/" ++ dir) as Ht.
  { cbn [target_url init]. rewrite !str_app_assoc, rstrip_slash_snoc, rstrip_slash_plain by done.
    by rewrite <- !str_app_assoc. }
  split; [exact Ht|]. rewrite Ht. unfold url_join. rewrite Hr.
  assert (String.eqb ("http://" ++ host ++ "/" ++ dir) "" = false) as -> by reflexivity.
  rewrite !all_chars_app.
  assert (forall w, all_chars (fun c => negb (url_special c) && negb (is_slash c)) w = true ->
            all_chars (fun c => negb (url_special c)) w = true) as Hsp.
  { intros w. apply all_chars_impl. intros c. rewrite andb_true_iff. tauto. }
  rewrite (Hsp host), (Hsp dir) by done. rewrite prefix_app. cbn -[String.append str_drop split_netloc].
  change 7 with (String.length "http://"). rewrite str_drop_app.
  rewrite split_netloc_app_slash by done. cbn [fst snd].
  change ("/" ++ dir) with (String "/" dir). cbn [contains]. rewrite no_double_slash by done.
  unfold no_dot_segments. cbn [split_slash]. rewrite split_slash_plain by done.
  replace (String.prefix "//" (String "/" dir)) with false.
  2: { symmetry. destruct (String.prefix "//" (String "/" dir)) eqn:E; [|done].
       apply prefix_spec in E as [t E]. injection E as E. rewrite E in Hd'. discriminate Hd'. }
  change (is_slash "/") with true. cbn [forallb].
  rewrite (proj2 (String.eqb_neq dir ".") Hd1), (proj2 (String.eqb_neq dir "..") Hd2).
  unfold merge_path. cbn [andb String.eqb]. change (String "/" dir) with ("/" ++ dir).
  replace (dir_of ("/" ++ dir)) with "/"
    by (change ("/" ++ dir) with (String "/" dir); cbn [dir_of]; rewrite dir_of_plain by done; reflexivity).
  reflexivity.
Qed.

Lemma target_directory_dropped_witness :
  all_chars (fun c => negb (url_special c) && negb (is_slash c)) ("example.com" ++ "app") = true /\
  target_url (init ("http://" ++ "example.com" ++ "/" ++ "app" ++ "/") None 10) = "http://" ++ "example.com" ++ "/" ++ "app" /\
  url_join (target_url (init ("http://" ++ "example.com" ++ "/" ++ "app" ++ "/") None 10)) "admin"
    = Some ("http://" ++ "example.com" ++ "/" ++ "admin").
Proof.
  assert (all_chars (fun c => negb (url_special c) && negb (is_slash c)) ("example.com" ++ "app") = true) as H
    by reflexivity.
  split; [exact H|]. apply (target_directory_dropped "example.com" "app" "admin" None 10 H);
    solve [discriminate | reflexivity].
Defined.

Lemma url_join_host_witness :
  all_chars (fun c => negb (url_special c) && negb (is_slash c)) "example.com" = true /\
  simple_ref "api/v1" = true /\
  url_join ("http://" ++ "example.com") "api/v1" = Some ("http://" ++ "example.com" ++ "/" ++ "api/v1").
Proof.
  assert (all_chars (fun c => negb (url_special c) && negb (is_slash c)) "example.com" = true) as H1 by reflexivity.
  assert (simple_ref "api/v1" = true) as H2 by reflexivity.
  split_and!; [exact H1 | exact H2 | exact (url_join_host _ _ H1 H2)].
Defined.

Lemma scan_order_independent_witness :
  let st := init "http://example.com" None 4 in
  let paths := ["admin"; ".env"; "x"] in
  let s := mk_scan [] [] (scan_seq w_urljoin w_server st paths) in
  rtc (scan_step w_urljoin w_server) (scan_init st paths) s /\ scan_done s /\
  found_paths (sc s) ≡ₚ found_paths (scan_seq w_urljoin w_server st paths).
Proof.
  cbn zeta.
  assert (rtc (scan_step w_urljoin w_server) (scan_init (init "http://example.com" None 4) ["admin"; ".env"; "x"])
            (mk_scan [] [] (scan_seq w_urljoin w_server (init "http://example.com" None 4) ["admin"; ".env"; "x"])))
    as H1 by (apply scan_seq_run; simpl; lia).
  assert (scan_done (mk_scan [] [] (scan_seq w_urljoin w_server (init "http://example.com" None 4) ["admin"; ".env"; "x"])))
    as H2 by (split; reflexivity).
  split_and!; [exact H1 | exact H2 | exact (scan_order_independent _ _ _ _ _ H1 H2)].
Defined.

Lemma scan_single_thread_witness :
  let st := init "http://example.com" None 1 in
  let paths := ["admin"; ".env"; "x"] in
  let s := mk_scan [] [] (scan_seq w_urljoin w_server st paths) in
  threads st = 1%Z /\ rtc (scan_step w_urljoin w_server) (scan_init st paths) s /\ scan_done s /\
  found_paths (sc s) = found_paths (scan_seq w_urljoin w_server st paths).
Proof.
  cbn zeta.
  assert (threads (init "http://example.com" None 1) = 1%Z) as H0 by reflexivity.
  assert (rtc (scan_step w_urljoin w_server) (scan_init (init "http://example.com" None 1) ["admin"; ".env"; "x"])
            (mk_scan [] [] (scan_seq w_urljoin w_server (init "http://example.com" None 1) ["admin"; ".env"; "x"])))
    as H1 by (apply scan_seq_run; simpl; lia).
  assert (scan_done (mk_scan [] [] (scan_seq w_urljoin w_server (init "http://example.com" None 1) ["admin"; ".env"; "x"])))
    as H2 by (split; reflexivity).
  split_and!; [exact H0 | exact H1 | exact H2 | exact (scan_single_thread _ _ _ _ _ H0 H1 H2)].
Defined.

Lemma scan_terminates_witness :
  (1 <= threads (init "http://example.com" None 10))%Z /\
  well_founded (fun s' s => scan_step w_urljoin w_server s s') /\
  forall s, rtc (scan_step w_urljoin w_server) (scan_init (init "http://example.com" None 10) default_wordlist) s ->
    exists s', rtc (scan_step w_urljoin w_server) s s' /\ scan_done s'.
Proof.
  assert (1 <= threads (init "http://example.com" None 10))%Z as H by (simpl; lia).
  split; [exact H | exact (scan_terminates _ _ _ default_wordlist H)].
Defined.

Lemma scan_zero_threads_hangs_witness :
  let st := init "http://example.com" None 0 in
  (threads st <= 0)%Z /\ default_wordlist <> [] /\
  rtc (scan_step w_urljoin w_server) (scan_init st default_wordlist) (scan_init st default_wordlist) /\
  ~ scan_done (scan_init st default_wordlist).
Proof.
  cbn zeta.
  assert (threads (init "http://example.com" None 0) <= 0)%Z as H0 by (simpl; lia).
  assert (default_wordlist <> []) as H1 by discriminate.
  assert (rtc (scan_step w_urljoin w_server) (scan_init (init "http://example.com" None 0) default_wordlist)
            (scan_init (init "http://example.com" None 0) default_wordlist)) as H2 by apply rtc_refl.
  split_and!; [exact H0 | exact H1 | exact H2 | exact (scan_zero_threads_hangs _ _ _ _ _ H0 H1 H2)].
Defined.

(** Two workers, two paths, the two completion orders. *)
Lemma scan_report_deterministic_witness :
  let st := init "http://example.com" None 2 in
  let chk := check_path w_urljoin w_server in
  let sA := mk_scan [] [] (chk (chk st "admin").2 ".env").2 in
  let sB := mk_scan [] [] (chk (chk st ".env").2 "admin").2 in
  rtc (scan_step w_urljoin w_server) (scan_init st ["admin"; ".env"]) sA /\ scan_done sA /\
  rtc (scan_step w_urljoin w_server) (scan_init st ["admin"; ".env"]) sB /\ scan_done sB /\
  found_paths (sc sA) <> found_paths (sc sB) /\
  total_found (generate_report (sc sA)) = total_found (generate_report (sc sB)) /\
  forall sev, sev <> LOW ->
    bucket (findings (generate_report (sc sA))) sev ≡ₚ bucket (findings (generate_report (sc sB))) sev.
Proof.
  cbn zeta.
  set (st := init "http://example.com" None 2).
  assert (rtc (scan_step w_urljoin w_server) (scan_init st ["admin"; ".env"]) (mk_scan [] [".env"; "admin"] st)) as Hgets.
  { eapply rtc_l; [apply step_get; simpl; lia|]. eapply rtc_l; [apply step_get; simpl; lia|]. apply rtc_refl. }
  assert (rtc (scan_step w_urljoin w_server) (scan_init st ["admin"; ".env"])
    (mk_scan [] [] (check_path w_urljoin w_server (check_path w_urljoin w_server st "admin").2 ".env").2)) as HA.
  { etransitivity; [exact Hgets|].
    eapply rtc_l; [apply (step_check w_urljoin w_server [] [".env"] "admin" [] st)|].
    eapply rtc_l; [apply (step_check w_urljoin w_server [] [] ".env" [])|]. apply rtc_refl. }
  assert (rtc (scan_step w_urljoin w_server) (scan_init st ["admin"; ".env"])
    (mk_scan [] [] (check_path w_urljoin w_server (check_path w_urljoin w_server st ".env").2 "admin").2)) as HB.
  { etransitivity; [exact Hgets|].
    eapply rtc_l; [apply (step_check w_urljoin w_server [] [] ".env" ["admin"] st)|].
    eapply rtc_l; [apply (step_check w_urljoin w_server [] [] "admin" [])|]. apply rtc_refl. }
  assert (scan_done (mk_scan [] [] (check_path w_urljoin w_server (check_path w_urljoin w_server st "admin").2 ".env").2))
    as DA by (split; reflexivity).
  assert (scan_done (mk_scan [] [] (check_path w_urljoin w_server (check_path w_urljoin w_server st ".env").2 "admin").2))
    as DB by (split; reflexivity).
  pose proof (scan_report_deterministic _ _ _ _ _ _ HA DA HB DB) as [Ht Hb].
  split_and!; [exact HA | exact DA | exact HB | exact DB | vm_compute; discriminate | exact Ht | exact Hb].
Defined.

Lemma main_saves_report_witness :
  (1 <= 10)%Z /\
  exists out, main_run w_urljoin w_server (fun _ => None) "http://example.com/" None 10 None "20251214_090000" out /\
    (saved out).1 = "dirbuster_report_20251214_090000.json".
Proof.
  split; [lia|].
  destruct (main_saves_report w_urljoin w_server (fun _ => None) "http://example.com/" None 10 None "20251214_090000"
              ltac:(lia)) as [[out Hout] Hall].
  exists out. split; [exact Hout|]. destruct (Hall out Hout) as [Hname _]. exact Hname.
Defined.

End DirBuster.
