(* ===== verification/Nmap.v ===== *)
(** * Nmap reconnaissance: [src/redteam-operations/recon_tools/nmap_recon.py]

    [NmapRecon] runs the nmap binary through [subprocess.run] for five
    kinds of scan, parses its text output and stores one dict per scan
    in [self.results]; when nmap is missing (and, for four of the five
    scans, on any other exception) it returns canned demo data instead.

    - The outcome of [subprocess.run] is the input [run_outcome], given by
      an environment [nmap_env] from the command line (its argv) to the
      outcome: the process itself is not modelled.
    - [parse_nmap_output], [parse_service_info], [parse_os_info] and
      [parse_vuln_output] are the four [_parse_*] methods on the text.
    - [host_discovery] ... [vuln_scan_aggressive] are the methods, each a
      function of the state returning its result and the new state; the
      timestamp [datetime.now().isoformat()] is an input [now].
    - [run_main] is [main()] after argument parsing, and [save_results]
      the file name and the dict it writes. *)

From S2P Require Import Prelude PyStr PyVal.
Local Open Scope string_scope.

Module Nmap.

(** What [subprocess.run(...)] does: the captured [stdout], or one of the
    two exceptions the methods catch. *)
Inductive run_outcome :=
| Completed (stdout : string)
| NotInstalled          (* FileNotFoundError *)
| RunFailed (msg : string). (* any other Exception, e.g. TimeoutExpired *)

Record recon := mk_recon { target : string; results : list (string * pyval) }.

(** [NmapRecon(target)] (lines 15-17). *)
Definition init (t : string) : recon := mk_recon t [].

(** [self.results[k] = v]. *)
Definition set_result (st : recon) (k : string) (v : pyval) : recon :=
  mk_recon (target st) (dict_set (results st) k v).

(** [output.split('\n')]. *)
Definition nl : string := ch 10.
Definition lines (out : string) : list string := str_split nl out.

(** ** The parsers *)

(** The line test of [_parse_nmap_output] and [_parse_service_info]. *)
Definition is_port_line (line : string) : bool := contains "/tcp" line && contains "open" line.

(** One line of [_parse_nmap_output] (lines 181-184). *)
Definition port_of_line (line : string) : pyres (list Z) :=
  if is_port_line line then
    let port := strip (hd "" (str_split "/" line)) in
    if py_isdigit port then z ← py_int port; mret [z] else mret []
  else mret [].

Fixpoint ports_of_lines (ls : list string) : pyres (list Z) :=
  match ls with
  | [] => Ok []
  | l :: rest => a ← port_of_line l; b ← ports_of_lines rest; Ok (a ++ b)%list
  end.

(** [_parse_nmap_output(output)] (lines 177-185). *)
Definition parse_nmap_output (out : string) : pyres (list Z) := ports_of_lines (lines out).

(** One line of [_parse_service_info] (lines 191-199). *)
Definition service_of_line (line : string) : list pyval :=
  if is_port_line line then
    let parts := split_ws line in
    if (3 <=? length parts)%nat then
      [PDict [("port", PStr (nth 0 parts "")); ("state", PStr (nth 1 parts ""));
              ("service", PStr (nth 2 parts ""));
              ("version", PStr (if (3 <? length parts)%nat then join " " (drop 3 parts) else ""))]]
    else []
  else [].

(** [_parse_service_info(output)] (lines 187-200). *)
Definition parse_service_info (out : string) : list pyval := flat_map service_of_line (lines out).

(** One line of [_parse_os_info] (lines 208-211). *)
Definition os_line (info : list (string * pyval)) (line : string) : list (string * pyval) :=
  let info1 := if contains "OS details:" line
               then dict_set info "detected" (PStr (strip (py_last (str_split "OS details:" line))))
               else info in
  if contains "OS CPE:" line
  then dict_set info1 "cpe" (PStr (strip (py_last (str_split "OS CPE:" line))))
  else info1.

(** [_parse_os_info(output)] (lines 202-213). *)
Definition parse_os_info (out : string) : list (string * pyval) :=
  fold_left os_line (lines out) [("matches", PList [])].

(** The locals of [_parse_vuln_output]: the dicts found and
    [current_vuln] ([[]] is the empty dict). *)
Record vuln_acc := mk_vuln_acc { vulns : list (list (string * pyval)); current : list (string * pyval) }.

(** [if current_vuln: vulns.append(current_vuln)]. *)
Definition flush (acc : vuln_acc) : list (list (string * pyval)) :=
  match current acc with [] => vulns acc | c => (vulns acc ++ [c])%list end.

(** One line of [_parse_vuln_output] (lines 221-226). *)
Definition vuln_line (acc : vuln_acc) (line : string) : vuln_acc :=
  if contains "VULNERABLE:" line then mk_vuln_acc (flush acc) [("description", PStr (strip line))]
  else if negb (bool_decide (current acc = [])) && (contains "CVE" line || contains "Risk" line)
  then mk_vuln_acc (vulns acc) (dict_set (current acc) "details" (PStr (strip line)))
  else acc.

(** [_parse_vuln_output(output)] (lines 215-231). *)
Definition parse_vuln_output (out : string) : list pyval :=
  map PDict (flush (fold_left vuln_line (lines out) (mk_vuln_acc [] []))).

(** ** Demo data (lines 234-292) *)

Definition demo_host_discovery (now network : string) : pyval :=
  PDict [("timestamp", PStr now); ("target_network", PStr network);
         ("active_hosts", PList [PStr "192.168.1.1"; PStr "192.168.1.10"; PStr "192.168.1.50"]);
         ("total_hosts", PInt 3); ("demo_mode", PBool true)].

Definition demo_ports : list Z := [21; 22; 80; 443; 3306; 8080]%Z.

Definition demo_stealth_scan (now : string) (st : recon) : pyval :=
  PDict [("timestamp", PStr now); ("target", PStr (target st)); ("scan_type", PStr "SYN");
         ("open_ports", PList (map PInt demo_ports)); ("demo_mode", PBool true)].

Definition demo_service (port service version : string) : pyval :=
  PDict [("port", PStr port); ("state", PStr "open"); ("service", PStr service); ("version", PStr version)].

Definition demo_service_enum (now : string) (st : recon) : pyval :=
  PDict [("timestamp", PStr now); ("target", PStr (target st));
         ("services", PList [demo_service "22/tcp" "ssh" "OpenSSH 7.9";
                             demo_service "80/tcp" "http" "Apache httpd 2.4.41";
                             demo_service "443/tcp" "ssl/http" "Apache httpd 2.4.41";
                             demo_service "3306/tcp" "mysql" "MySQL 5.7.30"]);
         ("demo_mode", PBool true)].

Definition demo_os_detection (now : string) (st : recon) : pyval :=
  PDict [("timestamp", PStr now); ("target", PStr (target st));
         ("os_info", PDict [("detected", PStr "Linux 4.15 - 5.8"); ("cpe", PStr "cpe:/o:linux:linux_kernel:5.4");
                            ("matches", PList [PStr "Ubuntu 20.04"; PStr "Debian 10"])]);
         ("demo_mode", PBool true)].

Definition demo_vuln_scan (now : string) (st : recon) : pyval :=
  PDict [("timestamp", PStr now); ("target", PStr (target st));
         ("vulnerabilities",
            PList [PDict [("description", PStr "VULNERABLE: SSL/TLS POODLE vulnerability");
                          ("details", PStr "CVE-2014-3566 - Risk: Medium")];
                   PDict [("description", PStr "VULNERABLE: MySQL weak password");
                          ("details", PStr "Risk: High - Default credentials detected")]]);
         ("demo_mode", PBool true)].

(** ** The methods *)

Section Methods.
(** The outcome of running a command line. *)
Variable nmap_env : list string -> run_outcome.
Variable now : string.

(** The hosts of a [-sn] output (lines 33-37). *)
Definition active_hosts (out : string) : list string :=
  flat_map (fun line => if contains "Nmap scan report for" line
                        then [strip (py_last (str_split "for " line))] else []) (lines out).

(** [host_discovery(network)] (lines 19-54). *)
Definition host_discovery (network : option string) (st : recon) : pyval * recon :=
  let t := match network with Some n => if String.eqb n "" then target st else n | None => target st end in
  match nmap_env ["nmap"; "-sn"; "-T4"; t] with
  | Completed out =>
      let hosts := active_hosts out in
      let r := PDict [("timestamp", PStr now); ("target_network", PStr t);
                      ("active_hosts", PList (map PStr hosts)); ("total_hosts", PInt (Z.of_nat (length hosts)))] in
      (r, set_result st "host_discovery" r)
  | NotInstalled => (demo_host_discovery now t, st)
  | RunFailed _ => (PDict [], st)
  end.

(** [port_scan_stealth()] (lines 56-85): an exception of the parser is
    caught by the same [except Exception] as the process's. *)
Definition port_scan_stealth (st : recon) : pyval * recon :=
  match nmap_env ["sudo"; "nmap"; "-sS"; "-T2"; "-p-"; target st] with
  | Completed out =>
      match parse_nmap_output out with
      | Ok ports =>
          let r := PDict [("timestamp", PStr now); ("target", PStr (target st)); ("scan_type", PStr "SYN");
                          ("open_ports", PList (map PInt ports))] in
          (r, set_result st "stealth_scan" r)
      | Raise _ => (demo_stealth_scan now st, st)
      end
  | _ => (demo_stealth_scan now st, st)
  end.

(** [service_enum()] (lines 87-115). *)
Definition service_enum (st : recon) : pyval * recon :=
  match nmap_env ["nmap"; "-sV"; "-sC"; "--version-all"; "-T3"; target st] with
  | Completed out =>
      let r := PDict [("timestamp", PStr now); ("target", PStr (target st));
                      ("services", PList (parse_service_info out))] in
      (r, set_result st "service_enum" r)
  | _ => (demo_service_enum now st, st)
  end.

(** [os_detection()] (lines 117-145). *)
Definition os_detection (st : recon) : pyval * recon :=
  match nmap_env ["sudo"; "nmap"; "-O"; "--osscan-guess"; target st] with
  | Completed out =>
      let r := PDict [("timestamp", PStr now); ("target", PStr (target st));
                      ("os_info", PDict (parse_os_info out))] in
      (r, set_result st "os_detection" r)
  | _ => (demo_os_detection now st, st)
  end.

(** [vuln_scan_aggressive()] (lines 147-175). *)
Definition vuln_scan_aggressive (st : recon) : pyval * recon :=
  match nmap_env ["nmap"; "--script"; "vuln,exploit"; "-T4"; target st] with
  | Completed out =>
      let r := PDict [("timestamp", PStr now); ("target", PStr (target st));
                      ("vulnerabilities", PList (parse_vuln_output out))] in
      (r, set_result st "vuln_scan" r)
  | _ => (demo_vuln_scan now st, st)
  end.

End Methods.

(** [s.replace(a, b)] for single characters. *)
Fixpoint replace_char (a b : ascii) (s : string) : string :=
  match s with
  | EmptyString => EmptyString
  | String c t => String (if Ascii.eqb c a then b else c) (replace_char a b t)
  end.

(** [save_results(filename)] (lines 294-302): the file name and the dict
    written to it; [stamp] is [datetime.now().strftime(...)]. *)
Definition save_results (filename : option string) (stamp : string) (st : recon) : string * pyval :=
  let name := match filename with
              | Some f => if String.eqb f "" then None else Some f
              | None => None
              end in
  (default ("recon_" ++ replace_char "." "_" (target st) ++ "_" ++ stamp ++ ".json") name,
   PDict (results st)).

(** The flags of [main]'s argument parser (lines 306-314). *)
Record flags := mk_flags {
  f_discover : bool; f_stealth : bool; f_services : bool; f_os : bool; f_vuln : bool; f_full : bool;
  f_output : option string
}.

(** [main()] (lines 305-353) after [parse_args]: the final state and the
    file it saves, if any. *)
Definition run_main (nmap_env : list string -> run_outcome) (now stamp tgt : string) (f : flags)
  : recon * option (string * pyval) :=
  let st0 := init tgt in
  let st1 := if f_full f || f_discover f
             then (host_discovery nmap_env now (if contains "/" tgt then Some tgt else None) st0).2 else st0 in
  let st2 := if f_full f || f_stealth f then (port_scan_stealth nmap_env now st1).2 else st1 in
  let st3 := if f_full f || f_services f then (service_enum nmap_env now st2).2 else st2 in
  let st4 := if f_full f || f_os f then (os_detection nmap_env now st3).2 else st3 in
  let st5 := if f_full f || f_vuln f then (vuln_scan_aggressive nmap_env now st4).2 else st4 in
  if negb (f_discover f || f_stealth f || f_services f || f_os f || f_vuln f || f_full f)
  then (st5, None)
  else (st5, Some (save_results (f_output f) stamp st5)).


(** ** Rendered outputs *)

(** A port line of nmap's table: ["22/tcp open ssh"]. *)
Definition port_line (p : N) (svc : string) : string := str_of_N p ++ "/tcp open " ++ svc.

(** A host line of a [-sn] scan. *)
Definition host_line (h : string) : string := "Nmap scan report for " ++ h.

(** ** Lemmas *)

Definition newline_free (s : string) : bool := all_chars (not_char (ascii_of_nat 10)) s.

Lemma lines_join (l : string) (ls : list string) :
  Forall (fun l => newline_free l = true) (l :: ls) -> lines (join nl (l :: ls)) = l :: ls.
Proof. apply split_join. Qed.

Lemma lines_nil : lines "" = [""].
Proof. reflexivity. Qed.

Lemma str_of_N_plain (n : N) (d : ascii) :
  (char_code d < 48 \/ 57 < char_code d)%nat -> all_chars (not_char d) (str_of_N n) = true.
Proof.
  intros Hd. eapply all_chars_impl; [|apply str_of_N_digits]. intros c Hc. by apply digit_char_not.
Qed.

Lemma strip_str_of_N (n : N) : strip (str_of_N n) = str_of_N n.
Proof.
  apply strip_id. eapply all_chars_impl; [|apply str_of_N_digits]. intros c Hc. by apply digit_char_not.
Qed.

Lemma port_line_newline_free (p : N) (svc : string) :
  newline_free svc = true -> newline_free (port_line p svc) = true.
Proof.
  unfold newline_free, port_line. intros Hs. rewrite !all_chars_app, Hs, str_of_N_plain by (left; compute; lia).
  reflexivity.
Qed.

(** The port column of [line.split('/')[0].strip()]. *)
Lemma port_column (d rest : string) :
  all_chars (not_char "/") d = true -> all_chars non_space d = true ->
  strip (hd "" (str_split "/" (d ++ "/" ++ rest))) = d.
Proof.
  intros Hs Hn. unfold str_split. rewrite split_go_plain by done.
  change ("/" ++ rest) with (String "/" rest). rewrite split_go_sep, str_app_nil_l. cbn [hd].
  by apply strip_id.
Qed.

(** A line "<d>/tcp..." that mentions "open" after the protocol gives
    [int(d)] when [d] passes [isdigit()]. *)
Lemma port_of_tcp_line (d rest : string) :
  py_isdigit d = true -> "open" ∈ₛ rest ->
  port_of_line (d ++ "/tcp" ++ rest) = (z ← py_int d; Ok [z]).
Proof.
  intros Hd Hopen. unfold port_of_line, is_port_line.
  rewrite (contains_app_r "/tcp"), (contains_app_r "open") by auto with triage. cbn [andb].
  assert (all_chars py_isdigit_char d = true) as Hc by (apply andb_true_iff in Hd; apply Hd).
  change ("/tcp" ++ rest) with ("/" ++ ("tcp" ++ rest)). rewrite port_column, Hd.
  - by destruct (py_int d).
  - eapply all_chars_impl; [|exact Hc]. intros c Hc'. apply (isdigit_char_plain c Hc').
  - eapply all_chars_impl; [|exact Hc]. intros c Hc'. apply (isdigit_char_plain c Hc').
Qed.

Lemma port_of_port_line (p : N) (svc : string) : port_of_line (port_line p svc) = Ok [Z.of_N p].
Proof.
  unfold port_line. change ("/tcp open " ++ svc) with ("/tcp" ++ (" open " ++ svc)).
  rewrite port_of_tcp_line, py_int_str_of_N; [reflexivity|apply str_of_N_isdigit|auto with triage].
Qed.

Lemma ports_of_port_lines (ps : list (N * string)) :
  ports_of_lines (map (fun '(p, s) => port_line p s) ps) = Ok (map (fun '(p, _) => Z.of_N p) ps).
Proof.
  induction ps as [|[p s] ps IH]; [done|]. cbn [map ports_of_lines].
  by rewrite port_of_port_line, bind_ok, IH, bind_ok.
Qed.

Lemma split_host_line (h : string) :
  str_split "for " (host_line h) = "Nmap scan report " :: split_go "for " h 0 "".
Proof. by destruct h. Qed.

Lemma active_host_line (h : string) :
  contains "for " h = false -> strip h = h ->
  (if contains "Nmap scan report for" (host_line h)
   then [strip (py_last (str_split "for " (host_line h)))] else []) = [h].
Proof.
  intros Hf Hs. unfold host_line at 1.
  rewrite (contains_app_l "Nmap scan report for") by reflexivity.
  rewrite split_host_line, split_go_nocontain, str_app_nil_l by done. cbn [py_last last default id]. by rewrite Hs.
Qed.

Lemma host_line_newline_free (h : string) : newline_free h = true -> newline_free (host_line h) = true.
Proof. unfold newline_free, host_line. intros Hh. by rewrite all_chars_app, Hh. Qed.

Lemma active_hosts_join (hosts : list string) :
  Forall (fun h => newline_free h = true /\ contains "for " h = false /\ strip h = h) hosts ->
  active_hosts (join nl (map host_line hosts)) = hosts.
Proof.
  intros Hall. destruct hosts as [|h hs]; [reflexivity|].
  unfold active_hosts. rewrite (map_cons host_line), lines_join, <-(map_cons host_line).
  - generalize (h :: hs) Hall. clear. intros l Hl.
    induction Hl as [|h' hs' [_ [Hf Hs]] _ IH]; [done|].
    cbn [map flat_map]. by rewrite active_host_line, IH.
  - rewrite <-(map_cons host_line). apply Forall_map. eapply Forall_impl; [exact Hall|].
    intros x [Hx _]. by apply host_line_newline_free.
Qed.

(** Every step of the vulnerability scan keeps the dicts found plus the
    open one in step with the "VULNERABLE:" lines read. *)
Lemma flush_nonempty (vs : list (list (string * pyval))) (c : list (string * pyval)) :
  c <> [] -> flush (mk_vuln_acc vs c) = (vs ++ [c])%list.
Proof. by destruct c. Qed.

Lemma length_flush_set (acc : vuln_acc) (k : string) (v : pyval) :
  current acc <> [] -> length (flush (mk_vuln_acc (vulns acc) (dict_set (current acc) k v))) = length (flush acc).
Proof.
  destruct acc as [vs [|[k' v'] c]]; intros Hc; [done|]. simpl.
  rewrite flush_nonempty by (destruct (String.eqb k k'); discriminate). rewrite flush_nonempty, !length_app by done. simpl. lia.
Qed.

Lemma vuln_line_count (acc : vuln_acc) (line : string) :
  length (flush (vuln_line acc line)) = (length (flush acc) + if contains "VULNERABLE:" line then 1 else 0)%nat.
Proof.
  unfold vuln_line. destruct (contains "VULNERABLE:" line).
  - rewrite flush_nonempty, length_app by done. done.
  - case_bool_decide; simpl; [lia|].
    destruct (contains "CVE" line || contains "Risk" line); simpl; [rewrite length_flush_set|]; by try lia.
Qed.

Lemma vuln_fold_count (ls : list string) (acc : vuln_acc) :
  length (flush (fold_left vuln_line ls acc)) =
    (length (flush acc) + length (List.filter (contains "VULNERABLE:") ls))%nat.
Proof.
  revert acc; induction ls as [|l ls IH]; intros acc; simpl; [lia|].
  rewrite IH, vuln_line_count. destruct (contains "VULNERABLE:" l); simpl; lia.
Qed.

Lemma os_line_matches (info : list (string * pyval)) (line : string) :
  dict_lookup (os_line info line) "matches" = dict_lookup info "matches".
Proof.
  unfold os_line. destruct (contains "OS details:" line), (contains "OS CPE:" line);
    rewrite ?dict_lookup_set_ne by discriminate; done.
Qed.

(** C10: [_parse_nmap_output] inverts nmap's port table: the output made of
    the lines "<port>/tcp open <service>" for any services without a
    newline parses to the list of the ports, in order. *)
Theorem parse_nmap_output_roundtrip (ps : list (N * string)) :
  Forall (fun ps => newline_free ps.2 = true) ps ->
  parse_nmap_output (join nl (map (fun '(p, s) => port_line p s) ps)) = Ok (map (fun '(p, _) => Z.of_N p) ps).
Proof.
  intros Hall. destruct ps as [|[p s] ps]; [reflexivity|]. unfold parse_nmap_output. cbn [map].
  rewrite lines_join; [apply (ports_of_port_lines ((p, s) :: ps))|].
  apply (Forall_map (fun '(p, s) => port_line p s) (fun l => newline_free l = true) ((p, s) :: ps)).
  eapply Forall_impl; [exact Hall|]. intros [q t] Ht. by apply port_line_newline_free.
Qed.

Lemma parse_nmap_output_roundtrip_witness :
  Forall (fun ps => newline_free ps.2 = true) [(22%N, "ssh"); (443%N, "https")] /\
  parse_nmap_output (join nl (map (fun '(p, s) => port_line p s) [(22%N, "ssh"); (443%N, "https")]))
    = Ok (map (fun '(p, _) => Z.of_N p) [(22%N, "ssh"); (443%N, "https")]).
Proof.
  assert (Forall (fun ps => newline_free ps.2 = true) [(22%N, "ssh"); (443%N, "https")]) as H
    by (repeat constructor).
  split; [exact H | exact (parse_nmap_output_roundtrip _ H)].
Defined.

(** C24: Host discovery inverts nmap's [-sn] report: for host names
    without newline, blank ends or "for ", the stored result lists
    exactly the hosts of the "Nmap scan report for <host>" lines, with
    their number. *)
Theorem host_discovery_roundtrip (env : list string -> run_outcome) (now : string) (st : recon)
    (hosts : list string) :
  Forall (fun h => newline_free h = true /\ contains "for " h = false /\ strip h = h) hosts ->
  env ["nmap"; "-sn"; "-T4"; target st] = Completed (join nl (map host_line hosts)) ->
  host_discovery env now None st =
    let r := PDict [("timestamp", PStr now); ("target_network", PStr (target st));
                    ("active_hosts", PList (map PStr hosts)); ("total_hosts", PInt (Z.of_nat (length hosts)))] in
    (r, set_result st "host_discovery" r).
Proof. intros Hall Henv. unfold host_discovery. rewrite Henv, active_hosts_join by done. reflexivity. Qed.

Lemma host_discovery_roundtrip_witness :
  Forall (fun h => newline_free h = true /\ contains "for " h = false /\ strip h = h) ["10.0.0.1"; "10.0.0.7"] /\
  (fun _ : list string => Completed (join nl (map host_line ["10.0.0.1"; "10.0.0.7"])))
    ["nmap"; "-sn"; "-T4"; target (init "10.0.0.0/24")] = Completed (join nl (map host_line ["10.0.0.1"; "10.0.0.7"])) /\
  host_discovery (fun _ => Completed (join nl (map host_line ["10.0.0.1"; "10.0.0.7"]))) "2025-01-01T00:00:00" None
    (init "10.0.0.0/24") =
    let r := PDict [("timestamp", PStr "2025-01-01T00:00:00"); ("target_network", PStr (target (init "10.0.0.0/24")));
                    ("active_hosts", PList (map PStr ["10.0.0.1"; "10.0.0.7"]));
                    ("total_hosts", PInt (Z.of_nat (length ["10.0.0.1"; "10.0.0.7"])))] in
    (r, set_result (init "10.0.0.0/24") "host_discovery" r).
Proof.
  assert (Forall (fun h => newline_free h = true /\ contains "for " h = false /\ strip h = h)
            ["10.0.0.1"; "10.0.0.7"]) as H by (repeat constructor; vm_compute; reflexivity).
  split; [exact H|]. split; [reflexivity|].
  exact (host_discovery_roundtrip (fun _ => Completed (join nl (map host_line ["10.0.0.1"; "10.0.0.7"])))
           "2025-01-01T00:00:00" (init "10.0.0.0/24") _ H eq_refl).
Defined.

Lemma non_space_newline_free (w : string) : all_chars non_space w = true -> newline_free w = true.
Proof.
  unfold newline_free. apply all_chars_impl.
  intros c. destruct c as [[] [] [] [] [] [] [] []]; vm_compute; intros H; solve [done | discriminate H].
Qed.

Lemma lines_single (l : string) : newline_free l = true -> lines l = [l].
Proof. intros H. apply (lines_join l []). by constructor. Qed.

(** C23: the port parsers test "open" as a substring of the whole line:
    for every port and every state, a line "<port>/tcp <state>
    <service>" of nmap's table whose service name merely contains "open"
    (openvpn, openflow) is taken for an open port by [_parse_nmap_output]
    and by [_parse_service_info], also when the state is "closed" or
    "filtered". *)
Theorem closed_port_counted_open (p : N) (state svc : string) :
  Forall (fun w => w <> "" /\ all_chars non_space w = true) [state; svc] -> "open" ∈ₛ svc ->
  let line := join " " [str_of_N p ++ "/tcp"; state; svc] in
  parse_nmap_output line = Ok [Z.of_N p] /\
  parse_service_info line =
    [PDict [("port", PStr (str_of_N p ++ "/tcp")); ("state", PStr state); ("service", PStr svc);
            ("version", PStr "")]].
Proof.
  intros Hw Hopen. cbn zeta.
  assert (all_chars non_space (str_of_N p ++ "/tcp") = true) as Hp.
  { rewrite all_chars_app. apply andb_true_iff. split; [|reflexivity].
    eapply all_chars_impl; [|apply str_of_N_digits]. intros c Hc. apply (digit_char_not c Hc). }
  assert (Forall (fun w => w <> "" /\ all_chars non_space w = true) [str_of_N p ++ "/tcp"; state; svc]) as Hall.
  { constructor; [|exact Hw]. split; [|exact Hp]. by destruct (str_of_N p). }
  inversion Hw as [|? ? [_ Hs] Hw']; inversion Hw' as [|? ? [_ Hv] _]; subst.
  assert (newline_free (join " " [str_of_N p ++ "/tcp"; state; svc]) = true) as Hnl.
  { cbn [join]. apply non_space_newline_free in Hp, Hs, Hv. unfold newline_free in *.
    rewrite !all_chars_app, !andb_true_iff in *. repeat split; solve [reflexivity | tauto]. }
  unfold parse_nmap_output, parse_service_info. rewrite lines_single by done. split.
  - cbn [ports_of_lines join]. rewrite <- str_app_assoc.
    rewrite port_of_tcp_line, py_int_str_of_N; [reflexivity|apply str_of_N_isdigit|].
    do 3 apply contains_app_r. exact Hopen.
  - cbn [flat_map]. rewrite app_nil_r. unfold service_of_line. rewrite split_ws_join by done.
    unfold is_port_line. cbn [join].
    replace (contains "/tcp" _) with true by (symmetry; auto with triage).
    replace (contains "open" _) with true by (symmetry; do 3 apply contains_app_r; exact Hopen). done.
Qed.

Lemma closed_port_counted_open_witness :
  Forall (fun w => w <> "" /\ all_chars non_space w = true) ["closed"; "openvpn"] /\ "open" ∈ₛ "openvpn" /\
  parse_nmap_output (join " " [str_of_N 1194 ++ "/tcp"; "closed"; "openvpn"]) = Ok [1194%Z] /\
  parse_service_info (join " " [str_of_N 1194 ++ "/tcp"; "closed"; "openvpn"]) =
    [PDict [("port", PStr (str_of_N 1194 ++ "/tcp")); ("state", PStr "closed"); ("service", PStr "openvpn");
            ("version", PStr "")]].
Proof.
  assert (Forall (fun w => w <> "" /\ all_chars non_space w = true) ["closed"; "openvpn"]) as Hw
    by (repeat constructor; solve [discriminate | reflexivity]).
  assert ("open" ∈ₛ "openvpn") as Ho by reflexivity.
  split_and!; [exact Hw|exact Ho|..]; apply (closed_port_counted_open 1194 "closed" "openvpn" Hw Ho).
Defined.

(** C22: [_parse_nmap_output] tests the port column with [str.isdigit()],
    which accepts the superscript digits ², ³ and ¹, then converts it
    with [int], which rejects them: for every port column of [isdigit]
    characters one of which is not an ASCII digit, the parser raises
    [ValueError] on the line "<column>/tcp open <service>", and the
    stealth scan, which catches it, returns the demo ports instead of the
    ports of the scan. *)
Theorem superscript_port_gives_demo (env : list string -> run_outcome) (now : string) (st : recon)
    (d svc : string) :
  py_isdigit d = true -> all_chars is_ascii_digit d = false -> newline_free svc = true ->
  parse_nmap_output (d ++ "/tcp open " ++ svc) = Raise ValueError /\
  (env ["sudo"; "nmap"; "-sS"; "-T2"; "-p-"; target st] = Completed (d ++ "/tcp open " ++ svc) ->
   port_scan_stealth env now st = (demo_stealth_scan now st, st)).
Proof.
  intros Hd Hnd Hsvc.
  assert (newline_free (d ++ "/tcp open " ++ svc) = true) as Hnl.
  { unfold newline_free. rewrite !all_chars_app. apply andb_true_iff in Hd as [_ Hd].
    apply andb_true_iff. split; [|by apply andb_true_iff; split].
    eapply all_chars_impl; [|exact Hd]. intros c.
    destruct c as [[] [] [] [] [] [] [] []]; vm_compute; intros H; solve [done | discriminate H]. }
  assert (parse_nmap_output (d ++ "/tcp open " ++ svc) = Raise ValueError) as Hp.
  { unfold parse_nmap_output. rewrite lines_single by done. cbn [ports_of_lines].
    change ("/tcp open " ++ svc) with ("/tcp" ++ (" open " ++ svc)).
    rewrite port_of_tcp_line, py_int_non_decimal by auto with triage. reflexivity. }
  split; [exact Hp|]. intros Henv. unfold port_scan_stealth. by rewrite Henv, Hp.
Qed.

Lemma superscript_port_gives_demo_witness :
  py_isdigit (ch 178) = true /\ all_chars is_ascii_digit (ch 178) = false /\ newline_free "ssh" = true /\
  parse_nmap_output (ch 178 ++ "/tcp open " ++ "ssh") = Raise ValueError /\
  port_scan_stealth (fun _ => Completed (ch 178 ++ "/tcp open " ++ "ssh")) "2025-01-01T00:00:00" (init "10.0.0.5")
    = (demo_stealth_scan "2025-01-01T00:00:00" (init "10.0.0.5"), init "10.0.0.5").
Proof.
  destruct (superscript_port_gives_demo (fun _ => Completed (ch 178 ++ "/tcp open " ++ "ssh")) "2025-01-01T00:00:00"
              (init "10.0.0.5") (ch 178) "ssh" eq_refl eq_refl eq_refl) as [Hp Hs].
  split_and!; [reflexivity|reflexivity|reflexivity|exact Hp|exact (Hs eq_refl)].
Defined.

(** [_parse_vuln_output] returns one dict per line containing
    "VULNERABLE:", whatever the other lines. *)
Theorem vuln_count (out : string) :
  length (parse_vuln_output out) = length (List.filter (contains "VULNERABLE:") (lines out)).
Proof. unfold parse_vuln_output. rewrite length_map, vuln_fold_count. reflexivity. Qed.

(** [_parse_os_info] never fills its ["matches"] list. *)
Theorem os_matches_always_empty (out : string) :
  dict_lookup (parse_os_info out) "matches" = Some (PList []).
Proof.
  unfold parse_os_info. generalize (lines out). intros ls.
  enough (forall info, dict_lookup info "matches" = Some (PList []) ->
            dict_lookup (fold_left os_line ls info) "matches" = Some (PList [])) by (apply H; reflexivity).
  induction ls as [|l ls IH]; intros info Hi; simpl; [done|]. apply IH. by rewrite os_line_matches.
Qed.

(** C21: when no command can be started ([FileNotFoundError] for every
    argv, nmap and sudo missing), every requested scan returns demo data
    and none is stored, so the saved file holds the empty dict. *)
Theorem nmap_missing_saves_empty (now stamp tgt : string) (f : flags) :
  (f_discover f || f_stealth f || f_services f || f_os f || f_vuln f || f_full f) = true ->
  exists name, run_main (fun _ => NotInstalled) now stamp tgt f = (init tgt, Some (name, PDict [])).
Proof.
  intros Hf. unfold run_main. rewrite Hf. simpl.
  destruct (f_full f), (f_discover f), (f_stealth f), (f_services f), (f_os f), (f_vuln f); simpl; eauto.
Qed.

Lemma nmap_missing_saves_empty_witness :
  let f := mk_flags false false false false false true None in
  (f_discover f || f_stealth f || f_services f || f_os f || f_vuln f || f_full f) = true /\
  exists name, run_main (fun _ => NotInstalled) "2025-01-01T00:00:00" "20250101_000000" "10.0.0.5" f
               = (init "10.0.0.5", Some (name, PDict [])).
Proof.
  cbn zeta. assert ((false || false || false || false || false || true) = true) as H by reflexivity.
  split; [exact H | exact (nmap_missing_saves_empty _ _ _ (mk_flags false false false false false true None) H)].
Defined.
End Nmap.
