(* ===== verification/LogGenerator.v ===== *)
(** * [log_generator.py]: the synthetic Windows and WAF dataset

    The generator draws every choice from one [random.Random] object, so it
    is modelled in a state monad [rnd G] over the generator's state [G].
    The random source is an interface ([Class PyRandom]) with the two
    primitives CPython's [random.Random] reduces the methods used here to:
    [_randbelow(n)] and [random()].  [choice], [randint], [choices] with
    weights and [shuffle] are written out from CPython's [random.py] on
    top of them, the weights as the primitive binary64 floats of the
    Standard Library, so the cumulative weights are the float sums Python
    computes.  The theorems hold for every generator: they need no law of
    the random source, because an index drawn out of range falls back, as
    [nth] does, on the first element of the literal list it indexes.  The
    bounds on the addresses need the law [PyRandomOk] ([_randbelow(n) <
    n]), which a linear congruential instance at the end satisfies.
    [_iso] (strftime on a UTC datetime) is a parameter [iso] of the
    generator and of [main], whose theorems hold for every [iso];
    [main_cli], the script run from its command line, instantiates it
    with [PyDateTime.strftime_iso] and starts from [parse_args_cli]
    ([strptime] of [--start], the defaults), seeds the source with a
    function [new_rng] standing for [random.Random] (CPython's is
    [MT.seed] of [MersenneTwister.v]), and raises [OverflowError] when a
    datetime the generators compute leaves the range.  [print_summary]
    raises [TypeError] on values its [Counter]s and sets cannot hash or
    [sorted] cannot compare; on the generated events it returns.

    The events are the dicts the code builds, as [list (string * pyval)]
    in insertion order. *)

From S2P Require Import Prelude PyStr PyVal Counter Json PyDateTime.
From Stdlib Require Import Floats.
Local Open Scope string_scope.
#[local] Set Warnings "-inexact-float".

Module LogGen.

(** ** The random source *)

(** The primitives of [random.Random] the generator's calls reduce to. *)
Class PyRandom (G : Type) := {
  randbelow : nat -> G -> nat * G;
  random : G -> float * G
}.

(** The law CPython's primitives satisfy and the theorems on ranges
    need: [_randbelow(n)] returns a number below [n] for [n > 0]. *)
Class PyRandomOk (G : Type) `{PyRandom G} : Prop :=
  randbelow_lt : forall n g, (0 < n)%nat -> ((randbelow n g).1 < n)%nat.

(** A computation that threads the generator's state. *)
Definition rnd (G A : Type) : Type := G -> A * G.

#[export] Instance rnd_ret {G} : MRet (rnd G) := fun A a g => (a, g).
#[export] Instance rnd_bind {G} : MBind (rnd G) := fun A B f m g => let '(a, g') := m g in f a g'.

Section Methods.
Context {G : Type} `{PyRandom G}.

Definition rbelow (n : nat) : rnd G nat := randbelow n.
Definition rrandom : rnd G float := random.

(** [for x in xs: ys.append(f(x))]. *)
Fixpoint rmapM {A B} (f : A -> rnd G B) (xs : list A) : rnd G (list B) :=
  match xs with
  | [] => mret []
  | x :: xs' => y ← f x; ys ← rmapM f xs'; mret (y :: ys)
  end.

(** [range(n)] for [n >= 0]. *)
Definition range (n : nat) : list nat := seq 0 n.

(** [rng.choice(seq)] on the non-empty [x :: xs]:
    [seq[self._randbelow(len(seq))]]. *)
Definition choice {A} (x : A) (xs : list A) : rnd G A :=
  i ← rbelow (S (length xs)); mret (nth i (x :: xs) x).

(** [rng.randint(a, b)] for [a <= b]: [a + self._randbelow(b + 1 - a)]. *)
Definition randint (a b : Z) : rnd G Z :=
  i ← rbelow (Z.to_nat (b + 1 - a)); mret (a + Z.of_nat i)%Z.

(** [itertools.accumulate] of float weights: the running sums, the first
    weight as it is. *)
Fixpoint accumulate_from (acc : float) (ws : list float) : list float :=
  match ws with [] => [] | w :: ws' => let s := (acc + w)%float in s :: accumulate_from s ws' end.

Definition accumulate (ws : list float) : list float :=
  match ws with [] => [] | w :: ws' => w :: accumulate_from w ws' end.

(** [bisect.bisect_right(a, x, 0, hi)] on a sorted [a]: the number of
    the first [hi] elements that are [<= x]. *)
Fixpoint bisect_right (a : list float) (x : float) (hi : nat) : nat :=
  match hi, a with
  | O, _ | _, [] => O
  | S h, c :: a' => if (x <? c)%float then O else S (bisect_right a' x h)
  end.

(** [rng.choices(population, weights=ws, k=1)[0]]: [cum_weights] from
    [0], [total = cum_weights[-1] + 0.0], the index [bisect(cum_weights,
    random() * total, 0, n - 1)]. *)
Definition choices {A} (x : A) (xs : list A) (ws : list float) : rnd G A :=
  let cum := accumulate ws in
  let total := (List.last cum 0 + 0)%float in
  r ← rrandom; mret (nth (bisect_right cum (r * total)%float (length xs)) (x :: xs) x).

(** [x[i], x[j] = x[j], x[i]]: [x[i]] is assigned first. *)
Definition swap {A} (i j : nat) (xs : list A) : list A :=
  match xs !! i, xs !! j with
  | Some xi, Some xj => <[j := xi]> (<[i := xj]> xs)
  | _, _ => xs
  end.

(** [for i in reversed(range(1, i + 1)): j = randbelow(i + 1); swap]. *)
Fixpoint shuffle_go {A} (i : nat) (xs : list A) : rnd G (list A) :=
  match i with
  | O => mret xs
  | S k => j ← rbelow (S (S k)); shuffle_go k (swap (S k) j xs)
  end.

(** [rng.shuffle(x)]. *)
Definition shuffle {A} (xs : list A) : rnd G (list A) := shuffle_go (length xs - 1) xs.

End Methods.

(** ** The generator (lines 25-255) *)

(** [GenConfig]: the start time is a datetime, as the seconds since
    0001-01-01T00:00:00 of [PyDateTime.v]; [_iso] turns a time into the
    ["%Y-%m-%dT%H:%M:%SZ"] string. *)
Record GenConfig := mk_cfg { out : string; seed : Z; windows_events : Z; waf_events : Z; start : Z }.

(** An event: the dict in insertion order. *)
Abbreviation event := (list (string * pyval)).

Section Generator.
Context {G : Type} `{PyRandom G}.
Variable iso : Z -> string.

(** [_rand_ip(rng, public)] (lines 38-52); the f-string calls [randint]
    from left to right. *)
Definition rand_ip (public : bool) : rnd G string :=
  if negb public then
    a ← randint 0 255; b ← randint 0 255; c ← randint 1 254;
    mret ("10." ++ py_str_int a ++ "." ++ py_str_int b ++ "." ++ py_str_int c)
  else
    '(a, bmin, bmax) ← choice (45, 0, 255)%Z [(62, 0, 255); (80, 0, 255); (103, 0, 255); (146, 0, 255); (185, 0, 255)]%Z;
    b ← randint bmin bmax; c ← randint 0 255; d ← randint 1 254;
    mret (py_str_int a ++ "." ++ py_str_int b ++ "." ++ py_str_int c ++ "." ++ py_str_int d).

Definition win_host : string := "WIN-DC01".
Definition fail_reason : string := "Unknown user name or bad password".

(** The first seven keys of every Windows event. *)
Definition win_event (time code : Z) (user ip : string) : event :=
  [("_time", PStr (iso time)); ("index", PStr "win"); ("sourcetype", PStr "WinEventLog:Security");
   ("EventCode", PInt code); ("user", PStr user); ("src_ip", PStr ip); ("host", PStr win_host)].

(** One password-spray failure (lines 86-100). *)
Definition spray_event (t : Z) (ip : string) (i : nat) : rnd G event :=
  user ← choice "j.doe" ["a.smith"; "finance"; "support"; "admin"];
  mret (win_event (t + 30 * Z.of_nat i) 4625 user ip ++ [("FailureReason", PStr fail_reason)])%list.

(** One brute-force failure on ["j.doe"] (lines 106-118). *)
Definition brute_event (base : Z) (ip : string) (i : nat) : event :=
  (win_event (base + 20 * Z.of_nat i) 4625 "j.doe" ip ++ [("FailureReason", PStr fail_reason)])%list.

(** One benign logon (lines 152-167): [random()] is drawn only for a
    failure. *)
Definition benign_win_event (benign_base : Z) (b0 b1 : string) (i : nat) : rnd G event :=
  code ← choices 4624%Z [4625%Z] [0.75; 0.25]%float;
  user ← choice "svc_backup" ["it.admin"; "helpdesk"; "a.smith"];
  ip ← choice b0 [b1];
  let ev := win_event (benign_base + 45 * Z.of_nat i) code user ip in
  if (code =? 4625)%Z then
    r ← rrandom;
    mret (ev ++ [("FailureReason", PStr (if (r <? 0.1)%float then "Account locked out" else fail_reason))])%list
  else mret ev.

(** [generate_windows_events(cfg, rng)] (lines 55-169). *)
Definition generate_windows_events (cfg : GenConfig) : rnd G (list event) :=
  a0 ← rand_ip true; a1 ← rand_ip true; b0 ← rand_ip false; b1 ← rand_ip false;
  let t := start cfg in
  spray ← rmapM (spray_event t a0) (range (Z.to_nat (Z.max 10 (windows_events cfg / 3))));
  let base := (t + 600)%Z in
  let brute := map (brute_event base a1) (range (Z.to_nat (Z.max 12 (windows_events cfg / 3)))) in
  let success := (win_event (base + 360) 4624 "j.doe" a1 ++ [("LogonType", PInt 3)])%list in
  let group := (win_event (base + 720) 4728 "j.doe" a1 ++
                 [("Group", PStr "Domain Admins"); ("Action", PStr "AddedMember")])%list in
  let evs := (spray ++ brute ++ [success; group])%list in
  let remaining := Z.max 0 (windows_events cfg - Z.of_nat (length evs)) in
  benign ← rmapM (benign_win_event (t + 1800) b0 b1) (range (Z.to_nat remaining));
  mret (evs ++ benign)%list.

Definition ua_attack : string * list string :=
  ("python-requests/2.31", ["curl/8.4.0"; "Go-http-client/1.1"; "Mozilla/5.0 (compatible; credential-stuffer/1.0)"]).

Definition ua_benign : string * list string :=
  ("Mozilla/5.0 (Macintosh; Intel Mac OS X 14_6) AppleWebKit/537.36 Chrome/120.0",
   ["Mozilla/5.0 (Windows NT 10.0; Win64; x64) AppleWebKit/537.36 Chrome/121.0";
    "Mozilla/5.0 (iPhone; CPU iPhone OS 17_2 like Mac OS X) AppleWebKit/605.1.15 Mobile"]).

Definition endpoints : string * list string :=
  ("/", ["/login"; "/signin"; "/auth"; "/api/v1/login"; "/admin"; "/robots.txt"; "/.env"]).

(** A WAF event; the dict literal's values are evaluated in key order,
    so [http_method] is drawn before [user_agent]. *)
Definition waf_event (time : Z) (ip meth uri : string) (status : Z) (ua : string) : event :=
  [("_time", PStr (iso time)); ("index", PStr "waf"); ("sourcetype", PStr "waf:access");
   ("src_ip", PStr ip); ("http_method", PStr meth); ("uri_path", PStr uri);
   ("status", PInt status); ("user_agent", PStr ua)].

(** One credential-stuffing request (lines 200-213). *)
Definition login_attack_event (t : Z) (ip : string) (i : nat) : rnd G event :=
  status ← choices 401%Z [403; 429]%Z [0.6; 0.35; 0.05]%float;
  ua ← choice ua_attack.1 ua_attack.2;
  mret (waf_event (t + 10 * Z.of_nat i) ip "POST" "/login" status ua).

(** One scanning request (lines 219-233). *)
Definition scan_event (base : Z) (ip : string) (i : nat) : rnd G event :=
  uri ← choice endpoints.1 endpoints.2;
  status ← choices 404%Z [403; 401; 500]%Z [0.55; 0.25; 0.15; 0.05]%float;
  meth ← choice "GET" ["POST"];
  ua ← choice ua_attack.1 ua_attack.2;
  mret (waf_event (base + 12 * Z.of_nat i) ip meth uri status ua).

(** One benign request from a fresh private address (lines 238-253). *)
Definition benign_waf_event (benign_base : Z) (i : nat) : rnd G event :=
  ip ← rand_ip false;
  uri ← choice "/" ["/login"; "/pricing"; "/docs"; "/account"];
  status ← choices 200%Z [302; 401]%Z [0.88; 0.08; 0.04]%float;
  meth ← choice "GET" ["POST"];
  ua ← choice ua_benign.1 ua_benign.2;
  mret (waf_event (benign_base + 18 * Z.of_nat i) ip meth uri status ua).

(** [generate_waf_events(cfg, rng, attacker_ips)] (lines 172-255) for
    the two-element [attacker_ips] the caller passes. *)
Definition generate_waf_events (cfg : GenConfig) (attacker_ips : string * string) : rnd G (list event) :=
  let t := start cfg in
  attack ← rmapM (login_attack_event t attacker_ips.1) (range (Z.to_nat (Z.max 30 (waf_events cfg / 2))));
  scan ← rmapM (scan_event (t + 480) attacker_ips.2) (range (Z.to_nat (Z.max 25 (waf_events cfg / 3))));
  let evs := (attack ++ scan)%list in
  let remaining := Z.max 0 (waf_events cfg - Z.of_nat (length evs)) in
  benign ← rmapM (benign_waf_event (t + 1500)) (range (Z.to_nat remaining));
  mret (evs ++ benign)%list.

End Generator.

(** ** [main()] up to the written events (lines 326-356) *)

(** The clamping of [parse_args] (lines 326-333); the start time is the
    parsed [--start]. *)
Definition parse_args (out_path : string) (seed_arg win_arg waf_arg start_arg : Z) : GenConfig :=
  mk_cfg out_path seed_arg (Z.max 10 win_arg) (Z.max 10 waf_arg) start_arg.

Definition public_prefixes : list string := ["45."; "62."; "80."; "103."; "146."; "185."].

(** [ev.get(k)]. *)
Definition ev_get (ev : event) (k : string) : pyval := default PNone (dict_lookup ev k).

(** The guard of line 348: [ev.get("index") == "win" and ev.get("src_ip")
    and ev.get("src_ip").startswith((...))]; [startswith] on a truthy
    non-[str] raises [AttributeError]. *)
Definition public_win_src (ev : event) : pyres bool :=
  if py_eq_str (ev_get ev "index") "win" && truthy (ev_get ev "src_ip")
  then py_startswith_any (ev_get ev "src_ip") public_prefixes
  else Ok false.

Section Main.
Context {G : Type} `{PyRandom G}.
Variable iso : Z -> string.

(** The loop of lines 347-350: every public-looking Windows source
    address is replaced by [rng.choice(attacker_ips)], in place. *)
Fixpoint overwrite_ips (atk : string * string) (evs : list event) : rnd G (pyres (list event)) :=
  match evs with
  | [] => mret (Ok [])
  | ev :: evs' =>
      match public_win_src ev with
      | Raise e => mret (Raise e)
      | Ok b =>
          ev' ← (if b then ip ← choice atk.1 [atk.2]; mret (dict_set ev "src_ip" (PStr ip)) else mret ev);
          rest ← overwrite_ips atk evs';
          mret (match rest with Ok l => Ok (ev' :: l) | Raise e => Raise e end)
      end
  end.

(** [main()] from the seeded generator to the shuffled stream written by
    [write_jsonl] (lines 338-356), with the chosen attacker addresses. *)
Definition main_events (cfg : GenConfig) : rnd G (pyres (string * string * list event)) :=
  a0 ← rand_ip true; a1 ← rand_ip true;
  windows ← generate_windows_events iso cfg;
  r ← overwrite_ips (a0, a1) windows;
  match r with
  | Raise e => mret (Raise e)
  | Ok windows' =>
      waf ← generate_waf_events iso cfg (a0, a1);
      events ← shuffle (windows' ++ waf)%list;
      mret (Ok (a0, a1, events))
  end.

End Main.

(** ** [print_summary(events)] (lines 275-309) *)

(** [ev.get(k, d)]. *)
Definition ev_get_or (ev : event) (k : string) (d : pyval) : pyval := default d (dict_lookup ev k).

(** [Counter.most_common(n)]: the items by decreasing count, ties in
    insertion order ([heapq.nlargest] is [sorted(..., reverse=True)[:n]],
    which is stable). *)
Fixpoint insert_desc {K} (x : K * Z) (l : list (K * Z)) : list (K * Z) :=
  match l with
  | [] => [x]
  | y :: l' => if (y.2 <? x.2)%Z then x :: l else y :: insert_desc x l'
  end.

Definition sort_desc {K} (c : list (K * Z)) : list (K * Z) := fold_left (fun acc x => insert_desc x acc) c [].

Definition most_common {K} (n : nat) (c : @counter K) : list (K * Z) := take n (sort_desc c).

(** [{ev.get("src_ip") for ev in events if ev.get("index") == idx and
    ev.get("src_ip")}]. *)
Definition ips_of (idx : string) (evs : list event) : list pyval :=
  remove_dups (map (fun ev => ev_get ev "src_ip")
    (List.filter (fun ev => py_eq_str (ev_get ev "index") idx && truthy (ev_get ev "src_ip")) evs)).

(** [Counter] and [set] hash their elements: a [list] or [dict] raises
    [TypeError]. *)
Definition hashable (v : pyval) : bool :=
  match v with PList _ | PDict _ => false | _ => true end.

Definition is_str (v : pyval) : bool := match v with PStr _ => true | _ => false end.
Definition is_num (v : pyval) : bool := match v with PInt _ | PBool _ => true | _ => false end.

(** The value of a number, [True] being 1. *)
Definition num_of (v : pyval) : Z :=
  match v with PInt z => z | PBool b => if b then 1%Z else 0%Z | _ => 0%Z end.

(** [a <= b] on two strings (code points) or two numbers ([bool] is an
    [int]). *)
Definition py_le (a b : pyval) : bool :=
  match a, b with
  | PStr s, PStr t => match String.compare s t with Gt => false | _ => true end
  | _, _ => (num_of a <=? num_of b)%Z
  end.

Fixpoint insert_by (x : pyval) (l : list pyval) : list pyval :=
  match l with
  | [] => [x]
  | y :: l' => if py_le x y then x :: l else y :: insert_by x l'
  end.

Fixpoint isort (l : list pyval) : list pyval :=
  match l with [] => [] | x :: l' => insert_by x (isort l') end.

(** [sorted(xs)] on the distinct hashable values of a set: no comparison
    for fewer than two values; strings among themselves and numbers among
    themselves compare; any other mix (a [None], a string with a number)
    makes some comparison of every comparison sort raise [TypeError]. *)
Definition py_sorted (xs : list pyval) : pyres (list pyval) :=
  match xs with
  | [] | [_] => Ok xs
  | _ => if forallb is_str xs || forallb is_num xs then Ok (isort xs) else Raise TypeError
  end.

(** The values [print_summary] hashes: the keys of [by_sourcetype],
    [by_index], [win_codes], [waf_status] and [top_ips] (which include
    the elements of [win_ips] and [waf_ips]). *)
Definition summary_keys (evs : list event) : list pyval :=
  map (fun ev => ev_get_or ev "sourcetype" (PStr "unknown")) evs ++
  map (fun ev => ev_get_or ev "index" (PStr "unknown")) evs ++
  map (fun ev => ev_get ev "EventCode") (List.filter (fun ev => py_eq_str (ev_get ev "index") "win") evs) ++
  map (fun ev => ev_get ev "status") (List.filter (fun ev => py_eq_str (ev_get ev "index") "waf") evs) ++
  map (fun ev => ev_get ev "src_ip") (List.filter (fun ev => truthy (ev_get ev "src_ip")) evs).

(** [win_ips.intersection(waf_ips)] before sorting. *)
Definition overlap_of (evs : list event) : list pyval :=
  List.filter (fun ip => bool_decide (ip ∈ ips_of "waf" evs)) (ips_of "win" evs).

(** What [print_summary] prints, as values: the total, the four
    counters, the five most common source addresses and the sorted
    addresses seen in both sources. *)
Record summary := mk_summary {
  total : nat;
  by_index : @counter pyval;
  by_sourcetype : @counter pyval;
  win_codes : @counter pyval;
  waf_status : @counter pyval;
  top_ips : list (pyval * Z);
  overlap : list pyval
}.

Definition summary_of (evs : list event) (ov : list pyval) : summary :=
  mk_summary (length evs)
    (count_all (map (fun ev => ev_get_or ev "index" (PStr "unknown")) evs))
    (count_all (map (fun ev => ev_get_or ev "sourcetype" (PStr "unknown")) evs))
    (count_all (map (fun ev => ev_get ev "EventCode")
                  (List.filter (fun ev => py_eq_str (ev_get ev "index") "win") evs)))
    (count_all (map (fun ev => ev_get ev "status")
                  (List.filter (fun ev => py_eq_str (ev_get ev "index") "waf") evs)))
    (most_common 5 (count_all (map (fun ev => ev_get ev "src_ip")
                                 (List.filter (fun ev => truthy (ev_get ev "src_ip")) evs))))
    ov.

(** [print_summary(events)]: [TypeError] from a [Counter] or a set on an
    unhashable value, or from [sorted] on values it cannot compare. *)
Definition print_summary (evs : list event) : pyres summary :=
  if forallb hashable (summary_keys evs) then
    ov ← py_sorted (overlap_of evs); Ok (summary_of evs ov)
  else Raise TypeError.

(** ** [main()] to the end (lines 336-361) *)

(** The [ev.get] calls of [print_summary] on the loaded values: a value
    that is not a dict raises [AttributeError] at the first of them. *)
Fixpoint dicts_of (vs : list pyval) : pyres (list event) :=
  match vs with
  | [] => Ok []
  | PDict kvs :: vs' => evs ← dicts_of vs'; Ok (kvs :: evs)
  | _ :: _ => Raise AttributeError
  end.

Section MainRun.
Context {G : Type} `{PyRandom G}.
Variable iso : Z -> string.

(** [main()]: the events are written to [cfg.out] with [write_jsonl] and
    read back with [load_jsonl]; the file is its text.  The result is
    [len(loaded)], which the code prints, and the summary of the loaded
    events. *)
Definition main (cfg : GenConfig) : rnd G (pyres (nat * summary)) :=
  r ← main_events iso cfg;
  mret (match r with
        | Raise e => Raise e
        | Ok (_, _, events) =>
            loaded ← Json.load_jsonl (Json.write_jsonl events);
            evs ← dicts_of loaded;
            s ← print_summary evs;
            Ok (length loaded, s)
        end).

End MainRun.

(** ** The command line and the datetimes (lines 312-337) *)

(** The options of [parse_args]: [None] when absent.  [type=int] has
    already turned the numbers into integers. *)
Record cli_args := mk_args {
  arg_out : option string; arg_seed : option Z; arg_windows_events : option Z;
  arg_waf_events : option Z; arg_start : option string }.


(** [parse_args()] (lines 312-333): argparse's defaults, [strptime] of
    [--start] (its [ValueError] escapes), then the clamping. *)
Definition parse_args_cli (a : cli_args) : pyres GenConfig :=
  start ← PyDateTime.strptime_iso (default "2025-12-14T09:00:00Z" (arg_start a));
  Ok (parse_args (default "sample_events.jsonl" (arg_out a)) (default 1337%Z (arg_seed a))
        (default 80%Z (arg_windows_events a)) (default 120%Z (arg_waf_events a)) start).

(** The datetimes [generate_windows_events] computes, in order: the
    spray times, [base], the brute-force times, [base + 6 min],
    [base + 12 min], [benign_base] and the benign times. *)
Definition windows_times (cfg : GenConfig) : list Z :=
  let t := start cfg in
  let spray := Z.to_nat (Z.max 10 (windows_events cfg / 3)) in
  let brute := Z.to_nat (Z.max 12 (windows_events cfg / 3)) in
  let remaining := Z.to_nat (Z.max 0 (windows_events cfg - Z.of_nat (spray + brute + 2))) in
  ((map (fun i => t + 30 * Z.of_nat i) (range spray) ++ [t + 600] ++
   map (fun i => t + 600 + 20 * Z.of_nat i) (range brute) ++ [t + 600 + 360; t + 600 + 720; t + 1800] ++
   map (fun i => t + 1800 + 45 * Z.of_nat i) (range remaining))%list)%Z.

(** The datetimes [generate_waf_events] computes, in order. *)
Definition waf_times (cfg : GenConfig) : list Z :=
  let t := start cfg in
  let attack := Z.to_nat (Z.max 30 (waf_events cfg / 2)) in
  let scan := Z.to_nat (Z.max 25 (waf_events cfg / 3)) in
  let remaining := Z.to_nat (Z.max 0 (waf_events cfg - Z.of_nat (attack + scan))) in
  ((map (fun i => t + 10 * Z.of_nat i) (range attack) ++ [t + 480] ++
   map (fun i => t + 480 + 12 * Z.of_nat i) (range scan) ++ [t + 1500] ++
   map (fun i => t + 1500 + 18 * Z.of_nat i) (range remaining))%list)%Z.

Section Cli.
Context {G : Type} `{PyRandom G}.

(** [main()] from the command line (lines 336-361): [new_rng seed] is
    the generator [random.Random(seed)].  A sum [t + timedelta(...)]
    past 9999-12-31T23:59:59 raises [OverflowError] where it is
    computed; nothing has been written then, and no other exception can
    come first (the run without it never raises), so the run raises
    [OverflowError] exactly when one of the datetimes is out of range.
    Otherwise it is [main] with [_iso] the real [strftime]. *)
Definition main_cli (new_rng : Z -> G) (a : cli_args) : pyres (nat * summary) :=
  match parse_args_cli a with
  | Raise e => Raise e
  | Ok cfg =>
      if forallb PyDateTime.in_range (windows_times cfg ++ waf_times cfg)
      then (main PyDateTime.strftime_iso cfg (new_rng (seed cfg))).1
      else Raise OverflowError
  end.

End Cli.

(** ** Lemmas on the monad and the methods *)

Ltac rnd_unfold := unfold mbind, mret, rnd_bind, rnd_ret in *.

(** Run a computation one draw at a time: name each intermediate result
    and state, with the equation that produced it. *)
Ltac rnd_destruct :=
  repeat match goal with
  | |- context [match ?m with (_, _) => _ end] => let Hm := fresh "Hm" in destruct m eqn:Hm
  end.

Section RndLemmas.
Context {G : Type} `{PyRandom G}.

Lemma rmapM_length {A B} (f : A -> rnd G B) (xs : list A) (g : G) :
  length (rmapM f xs g).1 = length xs.
Proof.
  revert g; induction xs as [|x xs IH]; intros g; [done|]. simpl. rnd_unfold.
  destruct (f x g) as [y g1]. specialize (IH g1). destruct (rmapM f xs g1). simpl in *. by rewrite IH.
Qed.

(** Every element [rmapM] builds is what [f] returns from some state. *)
Lemma rmapM_length_eq {A B} (f : A -> rnd G B) (xs : list A) (g g' : G) (ys : list B) :
  rmapM f xs g = (ys, g') -> length ys = length xs.
Proof. intros Hm. by rewrite <-(rmapM_length f xs g), Hm. Qed.

Lemma rmapM_Forall {A B} (P : B -> Prop) (f : A -> rnd G B) (xs : list A) (g : G) :
  (forall x g', x ∈ xs -> P (f x g').1) -> Forall P (rmapM f xs g).1.
Proof.
  revert g; induction xs as [|x xs IH]; intros g Hf; [constructor|]. simpl. rnd_unfold.
  pose proof (Hf x g ltac:(left)) as Hx. destruct (f x g) as [y g1].
  specialize (IH g1 (fun x' g' Hx' => Hf x' g' ltac:(by right))). destruct (rmapM f xs g1). by constructor.
Qed.

Lemma rmapM_Forall_eq {A B} (P : B -> Prop) (f : A -> rnd G B) (xs : list A) (g : G) (ys : list B) (g' : G) :
  rmapM f xs g = (ys, g') -> (forall x g'', x ∈ xs -> P (f x g'').1) -> Forall P ys.
Proof. intros Hm Hf. pose proof (rmapM_Forall P f xs g Hf) as HF. by rewrite Hm in HF. Qed.

Lemma rmapM_exists {A B} (P : B -> Prop) (f : A -> rnd G B) (xs : list A) (g : G) :
  xs <> [] -> (forall x g', x ∈ xs -> P (f x g').1) -> exists y, y ∈ (rmapM f xs g).1 /\ P y.
Proof.
  intros Hne Hf. pose proof (rmapM_Forall P f xs g Hf) as HF. pose proof (rmapM_length f xs g) as Hl.
  destruct (rmapM f xs g).1 as [|y ys]; [destruct xs; simpl in Hl; congruence|].
  exists y. split; [left|by apply Forall_inv in HF].
Qed.

Lemma range_nonempty (n : nat) : (0 < n)%nat -> range n <> [].
Proof. by destruct n; [lia|]. Qed.

Lemma nth_elem_cons {A} (i : nat) (x : A) (xs : list A) : nth i (x :: xs) x ∈ x :: xs.
Proof.
  destruct (nth_lookup_or_length (x :: xs) i x) as [Hi|Hi].
  - by apply list_elem_of_lookup_2 with i.
  - rewrite nth_overflow by done. left.
Qed.

Lemma choice_elem {A} (x : A) (xs : list A) (g : G) : (choice x xs g).1 ∈ x :: xs.
Proof. unfold choice, rbelow. rnd_unfold. destruct (randbelow _ g). apply nth_elem_cons. Qed.

Lemma choices_elem {A} (x : A) (xs : list A) (ws : list float) (g : G) : (choices x xs ws g).1 ∈ x :: xs.
Proof. unfold choices, rrandom. rnd_unfold. destruct (random g). apply nth_elem_cons. Qed.

Lemma swap_perm {A} (i j : nat) (xs : list A) : swap i j xs ≡ₚ xs.
Proof.
  unfold swap. destruct (xs !! i) eqn:Hi, (xs !! j) eqn:Hj; try done.
  by apply Permutation_insert_swap.
Qed.

Lemma shuffle_go_perm {A} (i : nat) (xs : list A) (g : G) : (shuffle_go i xs g).1 ≡ₚ xs.
Proof.
  revert xs g; induction i as [|i IH]; intros xs g; [done|]. simpl. unfold rbelow. rnd_unfold.
  destruct (randbelow _ g) as [j g']. rewrite IH. apply swap_perm.
Qed.

End RndLemmas.


(** ** The shape of the generated events *)

Section Shapes.
Context {G : Type} `{PyRandom G}.
Variable iso : Z -> string.

Definition win_shaped (ev : event) : Prop :=
  exists t c u ip x, ev = (win_event iso t c u ip ++ x)%list.

Definition waf_shaped (ev : event) : Prop :=
  exists t ip m u s ua, ev = waf_event iso t ip m u s ua.

Lemma win_shaped_app t c u ip x : win_shaped (win_event iso t c u ip ++ x)%list.
Proof. by exists t, c, u, ip, x. Qed.

Lemma win_event_index t c u ip x : ev_get (win_event iso t c u ip ++ x) "index" = PStr "win".
Proof. reflexivity. Qed.

Lemma win_event_src t c u ip x : ev_get (win_event iso t c u ip ++ x) "src_ip" = PStr ip.
Proof. reflexivity. Qed.

Lemma win_event_code t c u ip x : ev_get (win_event iso t c u ip ++ x) "EventCode" = PInt c.
Proof. reflexivity. Qed.

Lemma public_win_src_win t c u ip x :
  public_win_src (win_event iso t c u ip ++ x) = Ok (startswith_any ip public_prefixes).
Proof. by destruct ip. Qed.

Lemma startswith_any_app (p s : string) (ps : list string) : In p ps -> startswith_any (p ++ s) ps = true.
Proof. intros Hp. apply startswith_any_spec. exists p. split; [done|apply prefix_app]. Qed.

Lemma rand_ip_public (g : G) : startswith_any (rand_ip true g).1 public_prefixes = true.
Proof.
  unfold rand_ip. cbn [negb]. rnd_unfold.
  pose proof (choice_elem (45, 0, 255)%Z [(62, 0, 255); (80, 0, 255); (103, 0, 255); (146, 0, 255); (185, 0, 255)]%Z g) as Hc.
  rnd_destruct. simpl in Hc. cbn [fst].
  rewrite !elem_of_cons, elem_of_nil in Hc. destruct_or! Hc; simplify_eq;
    match goal with |- startswith_any (py_str_int ?a ++ "." ++ ?r) _ = true =>
      apply (startswith_any_app (py_str_int a ++ ".") r); vm_compute; repeat first [left; reflexivity | right] end.
Qed.

Lemma public_nonempty (ip : string) : startswith_any ip public_prefixes = true -> ip <> "".
Proof. by intros Hp ->. Qed.

Lemma generate_windows_shaped (cfg : GenConfig) (g : G) :
  Forall win_shaped (generate_windows_events iso cfg g).1.
Proof.
  unfold generate_windows_events. rnd_unfold. rnd_destruct. simpl.
  repeat match goal with Hm : rmapM ?f ?xs ?g0 = _ |- _ =>
    let HF := fresh "HF" in
    pose proof (rmapM_Forall win_shaped f xs g0) as HF; rewrite Hm in HF; simpl in HF; clear Hm end.
  rewrite !Forall_app, Forall_map. repeat split.
  - apply HF0. intros i g' _. unfold spray_event. rnd_unfold. repeat case_match. apply win_shaped_app.
  - apply Forall_forall. intros i _. apply win_shaped_app.
  - repeat constructor; apply win_shaped_app.
  - apply HF. intros i g' _. unfold benign_win_event. rnd_unfold. repeat case_match; cbn [fst];
      first [apply win_shaped_app|rewrite <-(app_nil_r (win_event _ _ _ _ _)); apply win_shaped_app].
Qed.

(** The spray burst gives the Windows events a public source address. *)
Lemma generate_windows_public (cfg : GenConfig) (g : G) :
  exists ev, ev ∈ (generate_windows_events iso cfg g).1 /\ public_win_src ev = Ok true.
Proof.
  unfold generate_windows_events. rnd_unfold.
  pose proof (rand_ip_public g) as Hp. destruct (rand_ip true g) as [a0 g1]. cbn [fst] in Hp. rnd_destruct.
  match goal with Hm : rmapM (spray_event _ _ _) ?xs ?g0 = (?l, _) |- _ =>
    pose proof (rmapM_Forall (fun ev => public_win_src ev = Ok true) (spray_event iso (start cfg) a0) xs g0) as HF;
    pose proof (rmapM_length_eq _ _ _ _ _ Hm) as Hl; rewrite Hm in HF; simpl in HF end.
  destruct l as [|ev l]; [unfold range in Hl; rewrite length_seq in Hl; simpl in Hl; lia|].
  exists ev. split; [simpl; left|].
  apply Forall_inv in HF; [done|]. intros i g' _. unfold spray_event. rnd_unfold. repeat case_match. cbn [fst].
  by rewrite public_win_src_win, Hp.
Qed.

Lemma generate_waf_shaped (cfg : GenConfig) (atk : string * string) (g : G) :
  Forall waf_shaped (generate_waf_events iso cfg atk g).1.
Proof.
  unfold generate_waf_events. rnd_unfold. rnd_destruct. simpl.
  repeat match goal with Hm : rmapM ?f ?xs ?g0 = _ |- _ =>
    let HF := fresh "HF" in
    pose proof (rmapM_Forall waf_shaped f xs g0) as HF; rewrite Hm in HF; simpl in HF; clear Hm end.
  rewrite !Forall_app. repeat split; [apply HF1|apply HF0|apply HF]; intros i g' _;
    unfold login_attack_event, scan_event, benign_waf_event; rnd_unfold; rnd_destruct; simpl; by do 6 eexists.
Qed.

Lemma waf_shaped_index (ev : event) : waf_shaped ev -> ev_get ev "index" = PStr "waf".
Proof. by intros (t & ip & m & u & s & ua & ->). Qed.

(** The login attack and the scan carry the two attacker addresses. *)
Lemma generate_waf_attackers (cfg : GenConfig) (atk : string * string) (g : G) :
  (exists ev, ev ∈ (generate_waf_events iso cfg atk g).1 /\ ev_get ev "src_ip" = PStr atk.1) /\
  (exists ev, ev ∈ (generate_waf_events iso cfg atk g).1 /\ ev_get ev "src_ip" = PStr atk.2).
Proof.
  unfold generate_waf_events. rnd_unfold.
  destruct (rmapM_exists (fun ev => ev_get ev "src_ip" = PStr atk.1) (login_attack_event iso (start cfg) atk.1)
              (range (Z.to_nat (Z.max 30 (waf_events cfg / 2)))) g) as [e1 [He1 Hs1]];
    [apply range_nonempty; lia|intros i g' _; unfold login_attack_event; rnd_unfold; by repeat case_match|].
  destruct (rmapM _ _ g) as [attack g1]. simpl in He1.
  destruct (rmapM_exists (fun ev => ev_get ev "src_ip" = PStr atk.2) (scan_event iso (start cfg + 480) atk.2)
              (range (Z.to_nat (Z.max 25 (waf_events cfg / 3)))) g1) as [e2 [He2 Hs2]];
    [apply range_nonempty; lia|intros i g' _; unfold scan_event; rnd_unfold; by repeat case_match|].
  destruct (rmapM _ _ g1) as [scan g2]. simpl in He2. rnd_destruct. cbn [fst].
  split; [exists e1|exists e2]; rewrite !elem_of_app; tauto.
Qed.


(** Every generated event is a dict with distinct keys and scalar
    values, which [json.dumps] writes and [json.loads] reads back. *)
Lemma generate_windows_wf (cfg : GenConfig) (g : G) :
  Forall (fun ev => Json.json_wf (PDict ev) = true) (generate_windows_events iso cfg g).1.
Proof.
  unfold generate_windows_events. rnd_unfold. rnd_destruct. cbn [fst].
  repeat match goal with Hm : rmapM ?f ?xs ?g0 = _ |- _ =>
    let HF := fresh "HF" in
    pose proof (rmapM_Forall (fun ev => Json.json_wf (PDict ev) = true) f xs g0) as HF;
    rewrite Hm in HF; cbn [fst] in HF; clear Hm end.
  rewrite !Forall_app, Forall_map. repeat split.
  - apply HF0. intros i g' _. unfold spray_event. rnd_unfold. repeat case_match. reflexivity.
  - apply Forall_forall. intros i _. reflexivity.
  - repeat constructor.
  - apply HF. intros i g' _. unfold benign_win_event. rnd_unfold. repeat case_match; reflexivity.
Qed.

Lemma generate_waf_wf (cfg : GenConfig) (atk : string * string) (g : G) :
  Forall (fun ev => Json.json_wf (PDict ev) = true) (generate_waf_events iso cfg atk g).1.
Proof.
  eapply Forall_impl; [apply generate_waf_shaped|]. by intros ev (t & ip & m & u & s & ua & ->).
Qed.

End Shapes.

(** ** [main()]: the overwrite, the shuffle and the summary *)

Section MainLemmas.
Context {G : Type} `{PyRandom G}.
Variable iso : Z -> string.

(** What the loop of lines 347-350 does to one event. *)
Definition ow_rel (atk : string * string) (ev ev' : event) : Prop :=
  (public_win_src ev = Ok false /\ ev' = ev) \/
  (public_win_src ev = Ok true /\ exists ip, ip ∈ [atk.1; atk.2] /\ ev' = dict_set ev "src_ip" (PStr ip)).

Lemma overwrite_ips_ok (atk : string * string) (evs : list event) (g : G) :
  Forall (fun ev => is_ok (public_win_src ev) = true) evs ->
  exists evs', (overwrite_ips atk evs g).1 = Ok evs' /\ Forall2 (ow_rel atk) evs evs'.
Proof.
  revert g; induction evs as [|ev evs IH]; intros g Hall; [by exists []|].
  apply Forall_cons in Hall as [Hev Hevs]. simpl. rnd_unfold.
  destruct (public_win_src ev) as [[|]|e] eqn:Hp; [| |done].
  - pose proof (choice_elem atk.1 [atk.2] g) as Hc. destruct (choice atk.1 [atk.2] g) as [ip g1].
    destruct (IH g1 Hevs) as [evs' [Hr Hf]]. destruct (overwrite_ips atk evs g1) as [r g2].
    simpl in *. subst r. exists (dict_set ev "src_ip" (PStr ip) :: evs'). split; [done|].
    constructor; [right; eauto|done].
  - destruct (IH g Hevs) as [evs' [Hr Hf]]. destruct (overwrite_ips atk evs g) as [r g2].
    simpl in *. subst r. exists (ev :: evs'). split; [done|]. constructor; [left; eauto|done].
Qed.

(** The loop changes no key but ["src_ip"]. *)
Lemma ow_rel_get (atk : string * string) (ev ev' : event) (k : string) :
  k <> "src_ip" -> ow_rel atk ev ev' -> ev_get ev' k = ev_get ev k.
Proof. intros Hk [[_ ->]|[_ (ip & _ & ->)]]; [done|]. unfold ev_get. by rewrite dict_lookup_set_ne. Qed.

Lemma ow_rel_index (atk : string * string) (ev ev' : event) :
  ow_rel atk ev ev' -> ev_get ev' "index" = ev_get ev "index".
Proof. by apply ow_rel_get. Qed.

Lemma ow_rel_map_get (atk : string * string) (ws wins : list event) (k : string) :
  k <> "src_ip" -> Forall2 (ow_rel atk) ws wins -> map (fun ev => ev_get ev k) wins = map (fun ev => ev_get ev k) ws.
Proof. intros Hk. induction 1 as [|ev ev' ws wins Hr _ IH]; [done|]. simpl. by rewrite IH, (ow_rel_get atk ev ev'). Qed.

Lemma ow_rel_public (atk : string * string) (ev ev' : event) :
  ow_rel atk ev ev' -> public_win_src ev = Ok true ->
  exists ip, ip ∈ [atk.1; atk.2] /\ ev_get ev' "src_ip" = PStr ip.
Proof.
  intros [[Hp _]|[_ (ip & Hip & ->)]] Hp'; [congruence|]. exists ip. split; [done|].
  unfold ev_get. by rewrite dict_lookup_set_eq.
Qed.

(** After the loop a Windows event is public-looking only with one of
    the attacker addresses. *)
Lemma ow_rel_after (atk : string * string) (ev ev' : event) :
  ow_rel atk ev ev' -> public_win_src ev' = Ok true ->
  exists ip, ip ∈ [atk.1; atk.2] /\ ev_get ev' "src_ip" = PStr ip.
Proof.
  intros Hr Hp'. pose proof Hr as [[Hp ->]|[Hp _]]; [congruence|]. by apply (ow_rel_public atk ev).
Qed.

Lemma windows_count (cfg : GenConfig) (g : G) :
  Z.of_nat (length (generate_windows_events iso cfg g).1) =
    Z.max (windows_events cfg) (Z.max 10 (windows_events cfg / 3) + Z.max 12 (windows_events cfg / 3) + 2).
Proof.
  unfold generate_windows_events. rnd_unfold. rnd_destruct. simpl.
  repeat match goal with Hm : rmapM _ _ _ = _ |- _ => apply rmapM_length_eq in Hm end.
  unfold range in *. rewrite !length_app, length_map in *. rewrite !length_seq in *. simpl in *. lia.
Qed.

Lemma waf_count (cfg : GenConfig) (atk : string * string) (g : G) :
  Z.of_nat (length (generate_waf_events iso cfg atk g).1) =
    Z.max (waf_events cfg) (Z.max 30 (waf_events cfg / 2) + Z.max 25 (waf_events cfg / 3)).
Proof.
  unfold generate_waf_events. rnd_unfold. rnd_destruct. simpl.
  repeat match goal with Hm : rmapM _ _ _ = _ |- _ => apply rmapM_length_eq in Hm end.
  unfold range in *. rewrite !length_app, ?length_seq in *. lia.
Qed.

Lemma win_shaped_ok (ev : event) : win_shaped iso ev -> is_ok (public_win_src ev) = true.
Proof. intros (t & c & u & ip & x & ->). by rewrite public_win_src_win. Qed.

Lemma win_shaped_index (ev : event) : win_shaped iso ev -> ev_get ev "index" = PStr "win".
Proof. intros (t & c & u & ip & x & ->). apply win_event_index. Qed.

(** One run of [main()] up to [write_jsonl], as the composition of its
    steps: two public attacker addresses, the Windows events of some
    state, the overwrite loop, the WAF events of some later state, and the
    shuffle of the two lists. *)
Lemma main_events_run (cfg : GenConfig) (g : G) :
  exists a0 a1 g2 wins g4 evs,
    (main_events iso cfg g).1 = Ok (a0, a1, evs) /\
    startswith_any a0 public_prefixes = true /\ startswith_any a1 public_prefixes = true /\
    Forall2 (ow_rel (a0, a1)) (generate_windows_events iso cfg g2).1 wins /\
    evs ≡ₚ (wins ++ (generate_waf_events iso cfg (a0, a1) g4).1)%list.
Proof.
  unfold main_events. rnd_unfold.
  pose proof (rand_ip_public g) as Hp0. destruct (rand_ip true g) as [a0 g1]. cbn [fst] in Hp0.
  pose proof (rand_ip_public g1) as Hp1. destruct (rand_ip true g1) as [a1 g2]. cbn [fst] in Hp1.
  pose proof (generate_windows_shaped iso cfg g2) as Hws.
  destruct (overwrite_ips_ok (a0, a1) (generate_windows_events iso cfg g2).1 (generate_windows_events iso cfg g2).2)
    as [wins [Hr Hrel]]; [eapply Forall_impl; [exact Hws|apply win_shaped_ok]|].
  destruct (generate_windows_events iso cfg g2) as [ws g3] eqn:Hgw. cbn [fst snd] in *.
  destruct (overwrite_ips (a0, a1) ws g3) as [r g4]. cbn [fst] in Hr. subst r. cbv beta iota.
  exists a0, a1, g2, wins, g4.
  destruct (generate_waf_events iso cfg (a0, a1) g4) as [wafs g5] eqn:Hwaf.
  pose proof (shuffle_go_perm (length (wins ++ wafs) - 1) (wins ++ wafs) g5) as Hperm.
  unfold shuffle. destruct (shuffle_go _ (wins ++ wafs) g5) as [evs g6]. cbn [fst] in *.
  exists evs. rewrite Hgw. by repeat split.
Qed.

Lemma ow_rel_wf (atk : string * string) (ev ev' : event) :
  ow_rel atk ev ev' -> Json.json_wf (PDict ev) = true -> Json.json_wf (PDict ev') = true.
Proof. intros [[_ ->]|[_ (ip & _ & ->)]] Hwf; [done|]. by apply Json.json_wf_dict_set. Qed.

Lemma dicts_of_map (evs : list event) : dicts_of (map PDict evs) = Ok evs.
Proof. induction evs as [|ev evs IH]; [done|]. cbn [map dicts_of]. by rewrite IH, bind_ok. Qed.

(** ** The summary of well-typed events *)

Lemma insert_by_perm (x : pyval) (l : list pyval) : insert_by x l ≡ₚ x :: l.
Proof.
  induction l as [|y l IH]; [done|]. cbn. case_match; [done|].
  rewrite IH. apply perm_swap.
Qed.

Lemma isort_perm (l : list pyval) : isort l ≡ₚ l.
Proof. induction l as [|x l IH]; [done|]. cbn. by rewrite insert_by_perm, IH. Qed.

(** [sorted] of strings returns them reordered. *)
Lemma py_sorted_strs (xs : list pyval) :
  Forall (fun v => is_str v = true) xs -> exists ys, py_sorted xs = Ok ys /\ ys ≡ₚ xs.
Proof.
  intros Hs. destruct xs as [|x [|y xs]]; [by eexists|by eexists|].
  exists (isort (x :: y :: xs)). split; [|apply isort_perm].
  assert (forallb is_str (x :: y :: xs) = true) as Hb.
  { rewrite Forall_forall in Hs. apply forallb_forall. intros v Hv. apply Hs. by apply list_elem_of_In. }
  unfold py_sorted. change ((if forallb is_str (x :: y :: xs) || forallb is_num (x :: y :: xs)
    then Ok (isort (x :: y :: xs)) else Raise TypeError) = Ok (isort (x :: y :: xs))). by rewrite Hb.
Qed.

(** The keys [print_summary] reads from one event are strings, except the
    event code and the status, which are hashable where they are read. *)
Definition ev_typed (ev : event) : Prop :=
  is_str (ev_get ev "sourcetype") = true /\ is_str (ev_get ev "index") = true /\
  hashable (ev_get ev "EventCode") = true /\
  (py_eq_str (ev_get ev "index") "waf" = true -> hashable (ev_get ev "status") = true) /\
  is_str (ev_get ev "src_ip") = true.

Lemma is_str_hashable (v : pyval) : is_str v = true -> hashable v = true.
Proof. by destruct v. Qed.

Lemma is_str_get_or (ev : event) (k : string) (d : pyval) :
  is_str (ev_get ev k) = true -> ev_get_or ev k d = ev_get ev k.
Proof. unfold ev_get, ev_get_or. by destruct (dict_lookup ev k). Qed.

Lemma forallb_hashable_map (f : event -> pyval) (evs : list event) :
  (forall ev, ev ∈ evs -> hashable (f ev) = true) -> forallb hashable (map f evs) = true.
Proof.
  intros Hf. apply forallb_forall. intros v (ev & <- & Hev)%in_map_iff. apply Hf. by apply list_elem_of_In.
Qed.

Lemma summary_keys_hashable (evs : list event) :
  Forall ev_typed evs -> forallb hashable (summary_keys evs) = true.
Proof.
  intros Ht. rewrite Forall_forall in Ht. unfold summary_keys. rewrite !forallb_app.
  repeat (apply andb_true_intro; split); apply forallb_hashable_map; intros ev Hev;
    repeat match goal with H : _ ∈ List.filter _ _ |- _ =>
      apply list_elem_of_In, filter_In in H as [H ?]; apply list_elem_of_In in H end;
    destruct (Ht ev Hev) as (Hst & Hix & Hcode & Hstat & Hsrc); rewrite ?is_str_get_or; auto using is_str_hashable.
Qed.

Lemma ips_of_strs (idx : string) (evs : list event) :
  Forall ev_typed evs -> Forall (fun v => is_str v = true) (ips_of idx evs).
Proof.
  intros Ht. apply Forall_forall. intros v Hv. unfold ips_of in Hv.
  apply elem_of_remove_dups, list_elem_of_In, in_map_iff in Hv as (ev & <- & Hev).
  apply filter_In in Hev as [Hev _]. apply list_elem_of_In in Hev. by destruct (proj1 (Forall_forall _ _) Ht ev Hev) as (_ & _ & _ & _ & ?).
Qed.

(** On well-typed events [print_summary] returns, with the overlap sorted. *)
Lemma print_summary_typed (evs : list event) :
  Forall ev_typed evs -> exists ov, print_summary evs = Ok (summary_of evs ov) /\ ov ≡ₚ overlap_of evs.
Proof.
  intros Ht. unfold print_summary. rewrite summary_keys_hashable by done.
  destruct (py_sorted_strs (overlap_of evs)) as (ov & -> & Hov).
  - pose proof (ips_of_strs "win" evs Ht) as Hw. rewrite Forall_forall in Hw |- *. intros v Hv.
    apply list_elem_of_In, filter_In in Hv as [Hv _]. apply Hw. by apply list_elem_of_In.
  - by exists ov.
Qed.

Lemma win_shaped_typed (ev : event) : win_shaped iso ev -> ev_typed ev.
Proof. intros (t & c & u & ip & x & ->). repeat split; done. Qed.

Lemma waf_shaped_typed (ev : event) : waf_shaped iso ev -> ev_typed ev.
Proof. intros (t & ip & m & u & st & ua & ->). repeat split; done. Qed.

Lemma ow_rel_typed (atk : string * string) (ev ev' : event) : ow_rel atk ev ev' -> ev_typed ev -> ev_typed ev'.
Proof.
  intros Hr (Hst & Hix & Hcode & Hstat & Hsrc).
  unfold ev_typed. rewrite (ow_rel_get atk ev ev' "sourcetype"), (ow_rel_get atk ev ev' "index"),
    (ow_rel_get atk ev ev' "EventCode"), (ow_rel_get atk ev ev' "status") by done.
  repeat split; try done.
  destruct Hr as [[_ ->]|[_ (ip & _ & ->)]]; [done|]. unfold ev_get. by rewrite dict_lookup_set_eq.
Qed.

(** The written events are read back whole: [main()] prints their number
    and the summary of the events it generated. *)
Lemma main_of_events (cfg : GenConfig) (g : G) (a0 a1 : string) (evs : list event) :
  (main_events iso cfg g).1 = Ok (a0, a1, evs) -> Forall (fun ev => Json.json_wf (PDict ev) = true) evs ->
  (main iso cfg g).1 = (s ← print_summary evs; Ok (length evs, s)).
Proof.
  intros Hr Hwf. unfold main. rnd_unfold. destruct (main_events iso cfg g) as [r g']. cbn [fst] in *. subst r.
  unfold Json.load_jsonl. by rewrite Json.split_write_jsonl, Json.load_lines_dumps, bind_ok, dicts_of_map, bind_ok, length_map.
Qed.

(** One run of [main()] to the end: [main_events_run] and the summary of
    the loaded events. *)
Lemma main_run (cfg : GenConfig) (g : G) :
  exists a0 a1 g2 wins g4 evs ov,
    (main_events iso cfg g).1 = Ok (a0, a1, evs) /\ (main iso cfg g).1 = Ok (length evs, summary_of evs ov) /\
    ov ≡ₚ overlap_of evs /\
    startswith_any a0 public_prefixes = true /\ startswith_any a1 public_prefixes = true /\
    Forall2 (ow_rel (a0, a1)) (generate_windows_events iso cfg g2).1 wins /\
    evs ≡ₚ (wins ++ (generate_waf_events iso cfg (a0, a1) g4).1)%list.
Proof.
  destruct (main_events_run cfg g) as (a0 & a1 & g2 & wins & g4 & evs & Hrun & Hp0 & Hp1 & Hrel & Hperm).
  assert (Forall ev_typed evs) as Ht.
  { rewrite Hperm, Forall_app. split.
    - apply Forall_forall. intros ev' Hev'. destruct (Forall2_elem_r _ _ _ _ Hrel Hev') as (ev & Hev & Hr).
      apply (ow_rel_typed _ _ _ Hr), win_shaped_typed.
      by apply (proj1 (Forall_forall _ _) (generate_windows_shaped iso cfg g2)).
    - eapply Forall_impl; [apply generate_waf_shaped|apply waf_shaped_typed]. }
  destruct (print_summary_typed evs Ht) as (ov & Hps & Hov).
  exists a0, a1, g2, wins, g4, evs, ov. repeat split; try done.
  rewrite (main_of_events cfg g a0 a1 evs Hrun), Hps; [done|].
  rewrite Hperm, Forall_app. split; [|apply generate_waf_wf].
  apply Forall_forall. intros ev' Hev'. destruct (Forall2_elem_r _ _ _ _ Hrel Hev') as (ev & Hev & Hr).
  apply (ow_rel_wf _ _ _ Hr). by apply (proj1 (Forall_forall _ _) (generate_windows_wf iso cfg g2)).
Qed.


Lemma overwritten_index (atk : string * string) (ws wins : list event) :
  Forall (win_shaped iso) ws -> Forall2 (ow_rel atk) ws wins ->
  Forall (fun ev => ev_get ev "index" = PStr "win") wins.
Proof.
  intros Hws Hrel. apply Forall_forall. intros ev' Hev'.
  destruct (Forall2_elem_r _ _ _ _ Hrel Hev') as (ev & Hev & Hr).
  rewrite (ow_rel_index _ _ _ Hr). apply win_shaped_index. by eapply Forall_forall.
Qed.

Lemma waf_index (cfg : GenConfig) (atk : string * string) (g : G) :
  Forall (fun ev => ev_get ev "index" = PStr "waf") (generate_waf_events iso cfg atk g).1.
Proof. eapply Forall_impl; [apply generate_waf_shaped|apply waf_shaped_index]. Qed.

Lemma ev_get_or_str (ev : event) (k s : string) (d : pyval) :
  ev_get ev k = PStr s -> ev_get_or ev k d = PStr s.
Proof. unfold ev_get, ev_get_or. by destruct (dict_lookup ev k). Qed.

Lemma ips_of_elem (idx s : string) (evs : list event) (ev : event) :
  ev ∈ evs -> ev_get ev "index" = PStr idx -> ev_get ev "src_ip" = PStr s -> s <> "" ->
  PStr s ∈ ips_of idx evs.
Proof.
  intros Hev Hi Hs Hne. unfold ips_of. rewrite elem_of_remove_dups, list_elem_of_In, in_map_iff.
  exists ev. rewrite filter_In, Hi, Hs, <-list_elem_of_In. simpl. rewrite String.eqb_refl.
  destruct (String.eqb_spec s ""); done.
Qed.


Lemma spray_event_code (t : Z) (ip : string) (i : nat) (g : G) :
  ev_get (spray_event iso t ip i g).1 "EventCode" = PInt 4625.
Proof. unfold spray_event. rnd_unfold. by repeat case_match. Qed.

Lemma benign_win_event_code (b : Z) (b0 b1 : string) (i : nat) (g : G) :
  ev_get (benign_win_event iso b b0 b1 i g).1 "EventCode" ∈ [PInt 4624; PInt 4625].
Proof.
  unfold benign_win_event. rnd_unfold. pose proof (choices_elem 4624%Z [4625%Z] [0.75; 0.25]%float g) as Hc.
  destruct (choices _ _ _ g) as [code g1]. cbn [fst] in Hc. rewrite elem_of_cons, list_elem_of_singleton in Hc.
  repeat case_match; cbn [fst]; destruct Hc; subst; first [left | right; left].
Qed.

(** [EventCode] 4728 is written once, by the group change; 4732, which
    the docstring announces, never. *)
Lemma generate_windows_codes (cfg : GenConfig) (g : G) (c : Z) :
  c <> 4624%Z -> c <> 4625%Z ->
  occurrences (PInt c) (map (fun ev => ev_get ev "EventCode") (generate_windows_events iso cfg g).1) =
    if (c =? 4728)%Z then 1%Z else 0%Z.
Proof.
  intros H4 H5. unfold generate_windows_events. rnd_unfold. rnd_destruct. cbn [fst].
  repeat match goal with Hm : rmapM ?f ?xs ?g0 = (?l, _) |- _ =>
    let HF := fresh "HF" in
    assert (HF : Forall (fun ev => ev_get ev "EventCode" <> PInt c) l)
      by (apply (rmapM_Forall_eq _ f xs g0 l _ Hm); intros i g' _;
          first [rewrite spray_event_code; congruence
                |match goal with |- context [benign_win_event iso ?b ?b0 ?b1 ?i' ?g''] =>
                   pose proof (benign_win_event_code b b0 b1 i' g'') as Hb end;
                 rewrite elem_of_cons, list_elem_of_singleton in Hb; destruct Hb as [->| ->]; congruence]);
    clear Hm end.
  rewrite !map_app, !occurrences_app, (occurrences_map_none _ _ _ HF0), (occurrences_map_none _ _ _ HF),
    occurrences_map_none.
  - cbn [map]. rewrite !win_event_code. unfold occurrences. rewrite !filter_cons, filter_nil.
    destruct (Z.eqb_spec c 4728); subst; repeat case_decide; simplify_eq; simpl; lia.
  - apply Forall_forall. intros ev Hev. apply list_elem_of_In, in_map_iff in Hev as (i & <- & _). cbn. congruence.
Qed.
End MainLemmas.

(** ** The addresses the generator writes *)

(** An octet of a dotted quad. *)
Definition octet (z : Z) : Prop := (0 <= z <= 255)%Z.

(** [f"{a}.{b}.{c}.{d}"] for four octets. *)
Definition ipv4 (s : string) : Prop :=
  exists a b c d, octet a /\ octet b /\ octet c /\ octet d /\
    s = py_str_int a ++ "." ++ py_str_int b ++ "." ++ py_str_int c ++ "." ++ py_str_int d.

(** The event has a [src_ip] and it is a dotted quad. *)
Definition src_ipv4 (ev : event) : Prop := exists ip, ev_get ev "src_ip" = PStr ip /\ ipv4 ip.

Section Addresses.
Context {G : Type} `{PyRandom G} `{!PyRandomOk G}.
Variable iso : Z -> string.

(** [randint(a, b)] is in [[a, b]]. *)
Lemma randint_range (a b : Z) (g : G) : (a <= b)%Z -> (a <= (randint a b g).1 <= b)%Z.
Proof.
  intros Hab. unfold randint, rbelow. rnd_unfold.
  pose proof (randbelow_lt (Z.to_nat (b + 1 - a)) g ltac:(lia)) as Hi.
  destruct (randbelow _ g) as [i g']. cbn [fst] in *. lia.
Qed.

(** Name the result of every [randint] draw with its range. *)
Ltac randint_ranges :=
  repeat match goal with Hm : randint ?lo ?hi ?g0 = (?x, _) |- _ =>
    let Hr := fresh "Hr" in
    pose proof (randint_range lo hi g0 ltac:(lia)) as Hr; rewrite Hm in Hr; cbn [fst] in Hr; clear Hm end.

(** [_rand_ip] returns a dotted quad. *)
Lemma rand_ip_ipv4 (public : bool) (g : G) : ipv4 (rand_ip public g).1.
Proof.
  unfold rand_ip. destruct public; cbn [negb]; rnd_unfold.
  - pose proof (choice_elem (45, 0, 255)%Z [(62, 0, 255); (80, 0, 255); (103, 0, 255); (146, 0, 255); (185, 0, 255)]%Z g) as Hc.
    destruct (choice _ _ g) as [[[a lo] hi] g1]. cbn [fst] in Hc.
    rewrite !elem_of_cons, elem_of_nil in Hc. destruct_or! Hc; simplify_eq; rnd_destruct; randint_ranges;
      cbn [fst]; eexists _, _, _, _; unfold octet; (split; [|split; [|split; [|split]]]); try reflexivity; lia.
  - rnd_destruct. randint_ranges. cbn [fst]. exists 10%Z; eexists _, _, _. unfold octet.
    (split; [|split; [|split; [|split]]]); try reflexivity; lia.
Qed.

(** Name the result of every [_rand_ip] draw with the fact [quad] gives
    of it. *)
Ltac rand_ip_quads quad :=
  repeat match goal with Hm : rand_ip ?p ?g0 = (?x, _) |- _ =>
    let Hv := fresh "Hv" in
    pose proof (quad p g0) as Hv; rewrite Hm in Hv; cbn [fst] in Hv; clear Hm end.

Lemma elem2_ipv4 (ip b0 b1 : string) : ipv4 b0 -> ipv4 b1 -> ip ∈ [b0; b1] -> ipv4 ip.
Proof. intros H0 H1. rewrite elem_of_cons, list_elem_of_singleton. by intros [->| ->]. Qed.

Lemma generate_windows_ipv4 (cfg : GenConfig) (g : G) : Forall src_ipv4 (generate_windows_events iso cfg g).1.
Proof.
  unfold generate_windows_events. rnd_unfold. rnd_destruct. rand_ip_quads rand_ip_ipv4. cbn [fst].
  repeat match goal with Hm : rmapM ?f ?xs ?g0 = _ |- _ =>
    let HF := fresh "HF" in
    pose proof (rmapM_Forall src_ipv4 f xs g0) as HF; rewrite Hm in HF; cbn [fst] in HF; clear Hm end.
  rewrite !Forall_app, Forall_map. repeat split.
  - apply HF0. intros i g' _. unfold spray_event. rnd_unfold. repeat case_match. eexists; split; [reflexivity|done].
  - apply Forall_forall. intros i _. eexists; split; [reflexivity|done].
  - repeat (apply List.Forall_cons; [eexists; split; [reflexivity|done]|]). apply List.Forall_nil.
  - apply HF. intros i g' _. unfold benign_win_event. rnd_unfold. rnd_destruct.
    match goal with Hm : choice ?b0 [?b1] ?g0 = (?ip, _) |- _ =>
      pose proof (choice_elem b0 [b1] g0) as Hc; rewrite Hm in Hc; cbn [fst] in Hc end.
    case_match; rnd_destruct; cbn [fst]; (eexists; split; [reflexivity|]); (eapply elem2_ipv4; [| |exact Hc]; done).
Qed.

Lemma generate_waf_ipv4 (cfg : GenConfig) (atk : string * string) (g : G) :
  ipv4 atk.1 -> ipv4 atk.2 -> Forall src_ipv4 (generate_waf_events iso cfg atk g).1.
Proof.
  intros H1 H2. unfold generate_waf_events. rnd_unfold. rnd_destruct. cbn [fst].
  repeat match goal with Hm : rmapM ?f ?xs ?g0 = _ |- _ =>
    let HF := fresh "HF" in
    pose proof (rmapM_Forall src_ipv4 f xs g0) as HF; rewrite Hm in HF; cbn [fst] in HF; clear Hm end.
  rewrite !Forall_app. repeat split; first [apply HF1|apply HF0|apply HF]; intros i g' _.
  all: unfold login_attack_event, scan_event, benign_waf_event; rnd_unfold; rnd_destruct; rand_ip_quads rand_ip_ipv4; cbn [fst].
  all: eexists; split; [reflexivity|done].
Qed.

(** The overwrite loop writes only the attacker addresses. *)
Lemma ow_rel_ipv4 (atk : string * string) (ev ev' : event) :
  ipv4 atk.1 -> ipv4 atk.2 -> ow_rel atk ev ev' -> src_ipv4 ev -> src_ipv4 ev'.
Proof.
  intros H1 H2 [[_ ->]|[_ (ip & Hip & ->)]] Hev; [done|]. exists ip. split; [|exact (elem2_ipv4 ip _ _ H1 H2 Hip)].
  unfold ev_get. by rewrite dict_lookup_set_eq.
Qed.

(** The two attacker addresses of [main()] are the first two draws of
    [_rand_ip(rng, public=True)]. *)
Lemma main_events_attackers (cfg : GenConfig) (g : G) (a0 a1 : string) (evs : list event) :
  (main_events iso cfg g).1 = Ok (a0, a1, evs) -> exists g1, a0 = (rand_ip true g).1 /\ a1 = (rand_ip true g1).1.
Proof.
  unfold main_events. rnd_unfold. destruct (rand_ip true g) as [b0 g1] eqn:E0. destruct (rand_ip true g1) as [b1 g2] eqn:E1.
  intros Hr. exists g1. rewrite E1. cbn [fst]. revert Hr. rnd_destruct. case_match; rnd_destruct; cbn [fst]; [|done].
  by intros [= -> -> _].
Qed.

(** C14: for every random source whose [_randbelow(n)] stays below [n],
    every address in the stream [main()] writes is a dotted quad of
    octets in [0, 255]: the two attacker addresses, and the [src_ip] of
    every Windows and WAF event after the overwrite loop. *)
Theorem main_src_ipv4 (cfg : GenConfig) (g : G) :
  exists a0 a1 evs, (main_events iso cfg g).1 = Ok (a0, a1, evs) /\
    ipv4 a0 /\ ipv4 a1 /\ Forall src_ipv4 evs.
Proof.
  destruct (main_events_run iso cfg g) as (a0 & a1 & g2 & wins & g4 & evs & Hrun & _ & _ & Hrel & Hperm).
  destruct (main_events_attackers cfg g a0 a1 evs Hrun) as (g1 & Ha0 & Ha1).
  pose proof (rand_ip_ipv4 true g) as H0. pose proof (rand_ip_ipv4 true g1) as H1. rewrite <-Ha0 in H0. rewrite <-Ha1 in H1.
  exists a0, a1, evs. split; [done|]. split; [done|]. split; [done|].
  rewrite Hperm, Forall_app. split; [|by apply generate_waf_ipv4].
  apply Forall_forall. intros ev' Hev'. destruct (Forall2_elem_r _ _ _ _ Hrel Hev') as (ev & Hev & Hr).
  apply (ow_rel_ipv4 (a0, a1) ev ev' H0 H1 Hr). by apply (proj1 (Forall_forall _ _) (generate_windows_ipv4 cfg g2)).
Qed.

End Addresses.

(** ** Theorems on [main()] *)

Section MainTheorems.
Context {G : Type} `{PyRandom G}.
Variable iso : Z -> string.

(** C11: one run of [main()] never raises, reads back [W + F] events
    from the file it wrote, and [print_summary] counts [W] of them under
    index ["win"] and [F] under ["waf"], with [W = max(n, max(10, n // 3)
    + max(12, n // 3) + 2)] and [F = max(m, max(30, m // 2) + max(25,
    m // 3))] for the configured [n] Windows and [m] WAF events. *)
Theorem main_summary_counts (cfg : GenConfig) (g : G) :
  exists n s, (main iso cfg g).1 = Ok (n, s) /\
    let W := Z.max (windows_events cfg) (Z.max 10 (windows_events cfg / 3) + Z.max 12 (windows_events cfg / 3) + 2) in
    let F := Z.max (waf_events cfg) (Z.max 30 (waf_events cfg / 2) + Z.max 25 (waf_events cfg / 3)) in
    Z.of_nat n = (W + F)%Z /\ Z.of_nat (total s) = (W + F)%Z /\
    get (by_index s) (PStr "win") = W /\ get (by_index s) (PStr "waf") = F.
Proof.
  destruct (main_run iso cfg g) as (a0 & a1 & g2 & wins & g4 & evs & ov & _ & Hmain & _ & _ & _ & Hrel & Hperm).
  pose proof (windows_count iso cfg g2) as Hw. rewrite (Forall2_length _ _ _ Hrel) in Hw.
  pose proof (waf_count iso cfg (a0, a1) g4) as Hf.
  pose proof (overwritten_index iso _ _ _ (generate_windows_shaped iso cfg g2) Hrel) as Hwi.
  pose proof (waf_index iso cfg (a0, a1) g4) as Hfi.
  exists (length evs), (summary_of evs ov). split; [done|]. cbn [total by_index summary_of].
  rewrite !get_count_all, !(occurrences_perm_map _ _ _ _ Hperm), map_app, !occurrences_app,
    (Permutation_length Hperm), length_app.
  set (idx := fun ev => ev_get_or ev "index" (PStr "unknown")).
  assert (Forall (fun ev => idx ev = PStr "win") wins) as Hw'
    by (eapply Forall_impl; [exact Hwi|intros; by apply ev_get_or_str]).
  assert (Forall (fun ev => idx ev = PStr "waf") (generate_waf_events iso cfg (a0, a1) g4).1) as Hf'
    by (eapply Forall_impl; [exact Hfi|intros; by apply ev_get_or_str]).
  rewrite !(occurrences_map_const idx _ (PStr "win") _ Hw'), !(occurrences_map_const idx _ (PStr "waf") _ Hf').
  repeat case_decide; simplify_eq; lia.
Qed.

(** C19: After the overwrite loop every public-looking Windows source
    address of the written stream is one of the two attacker addresses
    [main()] chose (the intent of lines 345-350); WAF events are left
    alone. *)
Theorem main_public_win_ips (cfg : GenConfig) (g : G) :
  exists a0 a1 evs, (main_events iso cfg g).1 = Ok (a0, a1, evs) /\
    forall ev, ev ∈ evs -> public_win_src ev = Ok true ->
      exists ip, ip ∈ [a0; a1] /\ ev_get ev "src_ip" = PStr ip.
Proof.
  destruct (main_events_run iso cfg g) as (a0 & a1 & g2 & wins & g4 & evs & Hrun & _ & _ & Hrel & Hperm).
  exists a0, a1, evs. split; [done|]. intros ev Hev Hp. rewrite Hperm, elem_of_app in Hev.
  destruct Hev as [Hw|Hf].
  - destruct (Forall2_elem_r _ _ _ _ Hrel Hw) as (ev0 & _ & Hr). by apply (ow_rel_after (a0, a1) ev0).
  - pose proof (proj1 (Forall_forall _ _) (waf_index iso cfg (a0, a1) g4) ev Hf) as Hi.
    unfold public_win_src in Hp. by rewrite Hi in Hp.
Qed.

(** C12: the correlation check of [print_summary] always succeeds: some
    source address is seen in both the Windows and the WAF events that
    [main()] reads back from the file it wrote. *)
Theorem main_overlap_nonempty (cfg : GenConfig) (g : G) :
  exists n s, (main iso cfg g).1 = Ok (n, s) /\ overlap s <> [].
Proof.
  destruct (main_run iso cfg g) as (a0 & a1 & g2 & wins & g4 & evs & ov & _ & Hmain & Hov & Hp0 & Hp1 & Hrel & Hperm).
  destruct (generate_windows_public iso cfg g2) as (ev & Hev & Hpub).
  destruct (Forall2_elem_l _ _ _ _ Hrel Hev) as (ev' & Hev' & Hr).
  destruct (ow_rel_public _ _ _ Hr Hpub) as (ip & Hip & Hsrc).
  destruct (generate_waf_attackers iso cfg (a0, a1) g4) as [(e0 & He0 & Hs0) (e1 & He1 & Hs1)].
  pose proof (overwritten_index iso _ _ _ (generate_windows_shaped iso cfg g2) Hrel) as Hwi.
  pose proof (waf_index iso cfg (a0, a1) g4) as Hfi.
  assert (ip <> "") as Hne by (rewrite elem_of_cons, list_elem_of_singleton in Hip;
                               destruct Hip as [->| ->]; by apply public_nonempty).
  assert (PStr ip ∈ ips_of "win" evs) as Hw.
  { apply (ips_of_elem _ _ _ ev'); [by rewrite Hperm, elem_of_app; left|by apply (proj1 (Forall_forall _ _) Hwi)|done|done]. }
  assert (PStr ip ∈ ips_of "waf" evs) as Hf.
  { rewrite elem_of_cons, list_elem_of_singleton in Hip.
    destruct Hip as [->| ->]; [apply (ips_of_elem _ _ _ e0)|apply (ips_of_elem _ _ _ e1)];
      try (by rewrite Hperm, elem_of_app; right); try (by apply (proj1 (Forall_forall _ _) Hfi)); done. }
  exists (length evs), (summary_of evs ov). split; [done|]. cbn [overlap summary_of]. intros ->.
  assert (In (PStr ip) (overlap_of evs)) as Hin
    by (apply filter_In; rewrite <-list_elem_of_In, bool_decide_eq_true; done).
  apply Permutation_nil in Hov. by rewrite Hov in Hin.
Qed.

(** C13: the docstring's "optional 4728/4732" does not hold: the group
    change 4728 is in every dataset [main()] writes and reads back,
    exactly once, and 4732 never. *)
Theorem main_group_change_once (cfg : GenConfig) (g : G) :
  exists n s, (main iso cfg g).1 = Ok (n, s) /\
    get (win_codes s) (PInt 4728) = 1%Z /\ get (win_codes s) (PInt 4732) = 0%Z.
Proof.
  destruct (main_run iso cfg g) as (a0 & a1 & g2 & wins & g4 & evs & ov & _ & Hmain & _ & _ & _ & Hrel & Hperm).
  pose proof (overwritten_index iso _ _ _ (generate_windows_shaped iso cfg g2) Hrel) as Hwi.
  pose proof (waf_index iso cfg (a0, a1) g4) as Hfi.
  assert (List.filter (fun ev => py_eq_str (ev_get ev "index") "win") evs ≡ₚ wins) as Hwins.
  { rewrite (Permutation_filterb _ _ _ Hperm), List.filter_app, filterb_all, filterb_none, app_nil_r; [done| |].
    - eapply Forall_impl; [exact Hfi|]. intros ev ->. done.
    - eapply Forall_impl; [exact Hwi|]. intros ev ->. done. }
  exists (length evs), (summary_of evs ov). split; [done|]. cbn [win_codes summary_of].
  rewrite !get_count_all, !(occurrences_perm_map _ _ _ _ Hwins), (ow_rel_map_get _ _ _ "EventCode" ltac:(done) Hrel).
  by rewrite !generate_windows_codes.
Qed.

End MainTheorems.

(** ** The timestamps of the written events *)

Section Times.
Context {G : Type} `{PyRandom G}.
Variable iso : Z -> string.

(** An event whose [_time] is [_iso(t)] for one of the datetimes [ts]. *)
Definition timed_in (ts : list Z) (ev : event) : Prop :=
  exists t, In t ts /\ ev_get ev "_time" = PStr (iso t).

Lemma timed_in_range (ts : list Z) (f : nat -> Z) (n : nat) (i : nat) (ev : event) :
  (i < n)%nat -> (forall j, In (f j) (map f (range n)) -> In (f j) ts) ->
  ev_get ev "_time" = PStr (iso (f i)) -> timed_in ts ev.
Proof.
  intros Hi Hts Ht. exists (f i). split; [|done]. apply Hts, in_map_iff. exists i.
  split; [done|]. unfold range. apply in_seq. lia.
Qed.

Lemma generate_windows_timed (cfg : GenConfig) (g : G) :
  Forall (timed_in (windows_times cfg)) (generate_windows_events iso cfg g).1.
Proof.
  unfold generate_windows_events. rnd_unfold. rnd_destruct. simpl.
  repeat match goal with Hm : rmapM ?f ?xs ?g0 = _ |- _ =>
    let HF := fresh "HF" in let HL := fresh "HL" in
    pose proof (rmapM_Forall (timed_in (windows_times cfg)) f xs g0) as HF;
    pose proof (rmapM_length_eq f xs g0 _ _ Hm) as HL; rewrite Hm in HF; simpl in HF; clear Hm end.
  unfold range in HL0. rewrite length_seq in HL0.
  rewrite !Forall_app, Forall_map. unfold windows_times. cbv zeta. repeat split.
  - apply HF0. intros i g' Hi. apply list_elem_of_In, in_seq in Hi.
    unfold spray_event. rnd_unfold. destruct (choice _ _ g'). cbn [fst].
    apply (timed_in_range _ (fun i => start cfg + 30 * Z.of_nat i)%Z (Z.to_nat (Z.max 10 (windows_events cfg / 3))) i); [lia| |done].
    intros j Hj. apply in_app_iff. by left.
  - apply Forall_forall. intros i Hi. apply list_elem_of_In, in_seq in Hi.
    apply (timed_in_range _ (fun i => start cfg + 600 + 20 * Z.of_nat i)%Z (Z.to_nat (Z.max 12 (windows_events cfg / 3))) i); [lia| |done].
    intros j Hj. rewrite !in_app_iff. right; right; left. done.
  - repeat constructor; eexists; (split; [|reflexivity]); rewrite !in_app_iff; right; right; right; left; cbn; tauto.
  - apply HF. intros i g' Hi. apply list_elem_of_In, in_seq in Hi.
    rewrite !length_app, length_map, HL0 in Hi. unfold range in Hi. rewrite length_seq in Hi. cbn in Hi.
    unfold benign_win_event. rnd_unfold. rnd_destruct. cbn [fst].
    apply (timed_in_range _ (fun i => start cfg + 1800 + 45 * Z.of_nat i)%Z
      (Z.to_nat (Z.max 0 (windows_events cfg - Z.of_nat (Z.to_nat (Z.max 10 (windows_events cfg / 3)) +
         Z.to_nat (Z.max 12 (windows_events cfg / 3)) + 2)))) i); [lia| |by repeat case_match].
    intros j Hj. unfold windows_times. cbv zeta. rewrite !in_app_iff. right; right; right; right. done.
Qed.

Lemma generate_waf_timed (cfg : GenConfig) (atk : string * string) (g : G) :
  Forall (timed_in (waf_times cfg)) (generate_waf_events iso cfg atk g).1.
Proof.
  unfold generate_waf_events. rnd_unfold. rnd_destruct. simpl.
  repeat match goal with Hm : rmapM ?f ?xs ?g0 = _ |- _ =>
    let HF := fresh "HF" in let HL := fresh "HL" in
    pose proof (rmapM_Forall (timed_in (waf_times cfg)) f xs g0) as HF;
    pose proof (rmapM_length_eq f xs g0 _ _ Hm) as HL; rewrite Hm in HF; simpl in HF; clear Hm end.
  unfold range in HL0, HL1. rewrite length_seq in HL0, HL1.
  rewrite !Forall_app. repeat split.
  - apply HF1. intros i g' Hi. apply list_elem_of_In, in_seq in Hi.
    unfold login_attack_event. rnd_unfold. rnd_destruct. cbn [fst].
    apply (timed_in_range _ (fun i => start cfg + 10 * Z.of_nat i)%Z (Z.to_nat (Z.max 30 (waf_events cfg / 2))) i);
      [lia| |done].
    intros j Hj. unfold waf_times. cbv zeta. rewrite !in_app_iff. by left.
  - apply HF0. intros i g' Hi. apply list_elem_of_In, in_seq in Hi.
    unfold scan_event. rnd_unfold. rnd_destruct. cbn [fst].
    apply (timed_in_range _ (fun i => start cfg + 480 + 12 * Z.of_nat i)%Z (Z.to_nat (Z.max 25 (waf_events cfg / 3))) i);
      [lia| |done].
    intros j Hj. unfold waf_times. cbv zeta. rewrite !in_app_iff. right; right; left. done.
  - apply HF. intros i g' Hi. apply list_elem_of_In, in_seq in Hi.
    rewrite !length_app, HL0, HL1 in Hi. cbn in Hi.
    unfold benign_waf_event. rnd_unfold. rnd_destruct. cbn [fst].
    apply (timed_in_range _ (fun i => start cfg + 1500 + 18 * Z.of_nat i)%Z
      (Z.to_nat (Z.max 0 (waf_events cfg - Z.of_nat (Z.to_nat (Z.max 30 (waf_events cfg / 2)) +
         Z.to_nat (Z.max 25 (waf_events cfg / 3)))))) i); [lia| |done].
    intros j Hj. unfold waf_times. cbv zeta. rewrite !in_app_iff. right; right; right; right. done.
Qed.

Lemma timed_in_app_l (ts us : list Z) (ev : event) : timed_in ts ev -> timed_in (ts ++ us) ev.
Proof. intros (t & Ht & Hev). exists t. split; [apply in_app_iff; by left|done]. Qed.

Lemma timed_in_app_r (ts us : list Z) (ev : event) : timed_in us ev -> timed_in (ts ++ us) ev.
Proof. intros (t & Ht & Hev). exists t. split; [apply in_app_iff; by right|done]. Qed.

(** Every event [main()] writes carries [_iso(t)] for one of the
    datetimes the generators compute: the overwrite loop keeps [_time]
    and the shuffle only reorders. *)
Lemma main_events_timed (cfg : GenConfig) (g : G) :
  exists a0 a1 evs, (main_events iso cfg g).1 = Ok (a0, a1, evs) /\
    Forall (timed_in (windows_times cfg ++ waf_times cfg)) evs.
Proof.
  destruct (main_events_run iso cfg g) as (a0 & a1 & g2 & wins & g4 & evs & Hrun & _ & _ & Hrel & Hperm).
  exists a0, a1, evs. split; [done|]. rewrite Hperm, Forall_app. split.
  - apply Forall_forall. intros ev' Hev'. destruct (Forall2_elem_r _ _ _ _ Hrel Hev') as (ev & Hev & Hr).
    destruct (proj1 (Forall_forall _ _) (generate_windows_timed cfg g2) ev Hev) as (t & Ht & Htime).
    apply timed_in_app_l. exists t. split; [done|]. by rewrite (ow_rel_get _ _ _ "_time" ltac:(done) Hr).
  - eapply Forall_impl; [apply generate_waf_timed|]. intros ev. apply timed_in_app_r.
Qed.

End Times.

Lemma times_ge_start (cfg : GenConfig) (t : Z) : In t (windows_times cfg ++ waf_times cfg) -> (start cfg <= t)%Z.
Proof.
  unfold windows_times, waf_times. cbv zeta. rewrite !in_app_iff, !in_map_iff. cbn.
  intros Ht. repeat match goal with
  | H : _ \/ _ |- _ => destruct H as [H|H]
  | H : exists _, _ |- _ => destruct H as (? & <- & ?)
  end; subst; lia.
Qed.

(** ** Theorems on the command line *)

Section CliTheorems.
Context {G : Type} `{PyRandom G}.


(** C17: a [--start] within 30 minutes of the end of 9999 makes the run
    raise [OverflowError]: [benign_base = t + timedelta(minutes=30)] is
    computed whatever the counts, before anything is written. *)
Theorem main_cli_overflow (new_rng : Z -> G) (a : cli_args) (cfg : GenConfig) :
  parse_args_cli a = Ok cfg -> (PyDateTime.max_secs - 1800 <= start cfg)%Z ->
  main_cli new_rng a = Raise OverflowError.
Proof.
  intros Hp Hs. unfold main_cli. rewrite Hp.
  replace (forallb _ _) with false; [done|]. symmetry. apply not_true_iff_false. rewrite forallb_forall.
  intros Hall. specialize (Hall (start cfg + 1800)%Z).
  unfold PyDateTime.in_range in Hall. rewrite andb_true_iff, Z.ltb_lt in Hall.
  enough (In (start cfg + 1800)%Z (windows_times cfg ++ waf_times cfg)) by (destruct (Hall H0); lia).
  apply in_or_app. left. unfold windows_times. cbv zeta. rewrite !in_app_iff. right; right; right. cbn. tauto.
Qed.

(** C18: the timestamps [main()] writes are parseable instants: for a
    configuration starting in year 1000 or later whose computed
    datetimes are all in range (the runs [main_cli] does not stop with
    [OverflowError]), every event written has [_time = _iso(t)] for a
    datetime [t] from the start on, and [datetime.strptime] reads that
    string back as [t]. *)
Theorem main_times_parse (cfg : GenConfig) (g : G) :
  ((PyDateTime.ymd2ord 1000 1 1 - 1) * PyDateTime.day_secs <= start cfg)%Z ->
  forallb PyDateTime.in_range (windows_times cfg ++ waf_times cfg) = true ->
  exists a0 a1 evs, (main_events PyDateTime.strftime_iso cfg g).1 = Ok (a0, a1, evs) /\
    Forall (fun ev => exists t, (start cfg <= t)%Z /\ ev_get ev "_time" = PStr (PyDateTime.strftime_iso t) /\
                        PyDateTime.strptime_iso (PyDateTime.strftime_iso t) = Ok t) evs.
Proof.
  intros H1000 Hr. destruct (main_events_timed PyDateTime.strftime_iso cfg g) as (a0 & a1 & evs & Hrun & Ht).
  exists a0, a1, evs. split; [done|]. eapply Forall_impl; [exact Ht|]. intros ev (t & Hin & Htime).
  pose proof (times_ge_start cfg t Hin). rewrite forallb_forall in Hr. pose proof (Hr t Hin) as Hrt.
  unfold PyDateTime.in_range in Hrt. apply andb_prop in Hrt as [Ha Hb]. apply Z.leb_le in Ha. apply Z.ltb_lt in Hb.
  exists t. repeat split; [lia|done|]. apply PyDateTime.strftime_parses. lia.
Qed.

End CliTheorems.

(** ** A concrete random source *)

(** A linear congruential generator: [_randbelow(n)] is the state
    modulo [n]. *)
#[local] Instance lcg_random : PyRandom N := {
  randbelow n g := (N.to_nat (g mod N.of_nat n), (1103515245 * g + 12345) mod 2147483648)%N;
  random g := (0.5%float, g)
}.

#[local] Instance lcg_random_ok : PyRandomOk N.
Proof.
  intros n g Hn. simpl. rewrite N2Nat.inj_mod, Nat2N.id. apply Nat.mod_upper_bound. lia.
Qed.

Lemma main_src_ipv4_witness :
  exists a0 a1 evs, (main_events (fun _ => "2025-12-14T09:00:00Z") (parse_args "sample_events.jsonl" 1337 80 120 0) 1337%N).1
                      = Ok (a0, a1, evs) /\ ipv4 a0 /\ ipv4 a1 /\ Forall src_ipv4 evs.
Proof. exact (main_src_ipv4 (fun _ => "2025-12-14T09:00:00Z") (parse_args "sample_events.jsonl" 1337 80 120 0) 1337%N). Defined.

Lemma main_cli_overflow_witness :
  main_cli Z.to_N (mk_args None None None None (Some "9999-12-31T23:40:00Z")) = Raise OverflowError.
Proof.
  apply (main_cli_overflow _ _ (mk_cfg "sample_events.jsonl" 1337 80 120 315537896400)); [vm_compute; reflexivity|].
  apply Z.leb_le. vm_compute. reflexivity.
Defined.

Lemma main_times_parse_witness :
  exists a0 a1 evs, (main_events PyDateTime.strftime_iso (mk_cfg "sample_events.jsonl" 1337 80 120 63901299600) 1337%N).1
                      = Ok (a0, a1, evs) /\
    Forall (fun ev => exists t, (63901299600 <= t)%Z /\ ev_get ev "_time" = PStr (PyDateTime.strftime_iso t) /\
                        PyDateTime.strptime_iso (PyDateTime.strftime_iso t) = Ok t) evs.
Proof.
  apply (main_times_parse (mk_cfg "sample_events.jsonl" 1337 80 120 63901299600) 1337%N);
    [apply Z.leb_le; vm_compute; reflexivity | vm_compute; reflexivity].
Defined.

End LogGen.
