(* ===== verification/MersenneTwister.v ===== *)
(** * [random.Random]: CPython's Mersenne Twister

    [log_generator.py] draws everything from [random.Random(cfg.seed)]
    (line 338).  CPython's [_randommodule.c] implements it with MT19937:
    [random_seed] turns the absolute value of an [int] seed into 32-bit
    words for [init_by_array]; [genrand_uint32] regenerates the 624 words
    ("twist") every 624 outputs and tempers each; [getrandbits(k)] keeps
    the top [k] bits of a word (several words for [k > 32]); [random()]
    builds a double from two words; [random.py]'s [_randbelow(n)] draws
    [getrandbits(n.bit_length())] until the value is below [n].  The
    C code's [uint32_t] arithmetic is written out with [u32] (the
    product before the xor, the sum after it).  The state is the word
    array, the read position and a flag recording that the rejection
    loop of [_randbelow] ran out of its fuel of [randbelow_fuel] draws,
    in which case the model returns 0 (a real run would keep drawing).
    Module [MT] implements the [LogGen.PyRandom] interface with it and
    satisfies the law [LogGen.PyRandomOk], so that the theorems of
    [LogGenerator] hold of the runs of [main()] with the generator of
    CPython. *)

From S2P Require Import Prelude PyStr PyVal Counter Json PyDateTime LogGenerator.
From Stdlib Require Import Floats.
Local Open Scope Z_scope.
#[local] Set Warnings "-inexact-float".

Module MT.

(** ** The generator ([_randommodule.c]) *)

(** [N], [M] and the masks of the C code. *)
Definition MT_N : nat := 624.
Definition MT_M : nat := 397.
Definition MATRIX_A : Z := 2567483615.
Definition UPPER_MASK : Z := 2147483648.
Definition LOWER_MASK : Z := 2147483647.

(** An unsigned 32-bit result. *)
Definition u32 (x : Z) : Z := Z.land x 4294967295.

(** [RandomObject]: [state[N]], [index], and the fuel flag. *)
Record state := mk_state { mt : list Z; index : nat; starved : bool }.

(** [mt[i]]. *)
Definition get (a : list Z) (i : nat) : Z := nth i a 0.

(** [init_genrand(s)]. *)
Fixpoint init_genrand_go (k i : nat) (prev : Z) : list Z :=
  match k with
  | O => []
  | S k' => let v := u32 (1812433253 * Z.lxor prev (Z.shiftr prev 30) + Z.of_nat i) in
            v :: init_genrand_go k' (S i) v
  end.

Definition init_genrand (s : Z) : list Z := u32 s :: init_genrand_go (MT_N - 1)%nat 1%nat (u32 s).

(** The two loops of [init_by_array(init_key, key_length)]. *)
Fixpoint init_by_array_1 (k : nat) (a : list Z) (i j : nat) (key : list Z) : list Z * nat :=
  match k with
  | O => (a, i)
  | S k' =>
      let prev := get a (i - 1)%nat in
      let a := <[i := u32 (Z.lxor (get a i) (u32 (Z.lxor prev (Z.shiftr prev 30) * 1664525)) + nth j key 0 + Z.of_nat j)]> a in
      let i := S i in let j := S j in
      let '(a, i) := if (MT_N <=? i)%nat then (<[0%nat := get a (MT_N - 1)%nat]> a, 1%nat) else (a, i) in
      let j := if (length key <=? j)%nat then 0%nat else j in
      init_by_array_1 k' a i j key
  end.

Fixpoint init_by_array_2 (k : nat) (a : list Z) (i : nat) : list Z :=
  match k with
  | O => a
  | S k' =>
      let prev := get a (i - 1)%nat in
      let a := <[i := u32 (Z.lxor (get a i) (u32 (Z.lxor prev (Z.shiftr prev 30) * 1566083941)) - Z.of_nat i)]> a in
      let i := S i in
      let '(a, i) := if (MT_N <=? i)%nat then (<[0%nat := get a (MT_N - 1)%nat]> a, 1%nat) else (a, i) in
      init_by_array_2 k' a i
  end.

Definition init_by_array (key : list Z) : state :=
  let a := init_genrand 19650218 in
  let '(a, i) := init_by_array_1 (Nat.max MT_N (length key)) a 1%nat 0%nat key in
  let a := init_by_array_2 (MT_N - 1)%nat a i in
  mk_state (<[0%nat := 2147483648]> a) MT_N false.

(** [random_seed]: the 32-bit words of [abs(n)], least significant
    first, at least one. *)
Fixpoint key_words (fuel : nat) (n : Z) : list Z :=
  match fuel with
  | O => []
  | S f => if n =? 0 then [] else Z.land n 4294967295 :: key_words f (Z.shiftr n 32)
  end.

Definition seed_key (a : Z) : list Z :=
  let n := Z.abs a in
  match key_words (Z.to_nat (Z.log2 n + 1)) n with [] => [0] | ks => ks end.

(** [random.Random(a)] for an [int] [a]. *)
Definition seed (a : Z) : state := init_by_array (seed_key a).

(** [genrand_uint32]: the twist of the 624 words and the tempering. *)
Definition mag01 (y : Z) : Z := if Z.testbit y 0 then MATRIX_A else 0.

Definition twist_at (a : list Z) (kk next far : nat) : Z :=
  let y := Z.lor (Z.land (get a kk) UPPER_MASK) (Z.land (get a next) LOWER_MASK) in
  Z.lxor (Z.lxor (get a far) (Z.shiftr y 1)) (mag01 y).

Fixpoint twist_go (k kk : nat) (far : nat -> nat) (a : list Z) : list Z :=
  match k with
  | O => a
  | S k' => twist_go k' (S kk) far (<[kk := twist_at a kk (S kk) (far kk)]> a)
  end.

Definition twist (a : list Z) : list Z :=
  let a := twist_go (MT_N - MT_M)%nat 0%nat (fun kk => kk + MT_M)%nat a in
  let a := twist_go (MT_M - 1)%nat (MT_N - MT_M)%nat (fun kk => kk + MT_M - MT_N)%nat a in
  <[(MT_N - 1)%nat := twist_at a (MT_N - 1)%nat 0%nat (MT_M - 1)%nat]> a.

Definition temper (y : Z) : Z :=
  let y := Z.lxor y (Z.shiftr y 11) in
  let y := Z.lxor y (Z.land (Z.shiftl y 7) 2636928640) in
  let y := Z.lxor y (Z.land (Z.shiftl y 15) 4022730752) in
  Z.lxor y (Z.shiftr y 18).

Definition genrand_uint32 (st : state) : Z * state :=
  let st := if (MT_N <=? index st)%nat then mk_state (twist (mt st)) 0 (starved st) else st in
  (temper (get (mt st) (index st)), mk_state (mt st) (S (index st)) (starved st)).

(** [getrandbits(k)] ([k >= 0]). *)
Fixpoint getrandbits_words (i words : nat) (k : Z) (acc : Z) (st : state) : Z * state :=
  match words with
  | O => (acc, st)
  | S w =>
      let '(r, st) := genrand_uint32 st in
      let r := if k <? 32 then Z.shiftr r (32 - k) else r in
      getrandbits_words (S i) w (k - 32) (Z.lor acc (Z.shiftl r (32 * Z.of_nat i))) st
  end.

Definition getrandbits (k : Z) (st : state) : Z * state :=
  if k =? 0 then (0, st)
  else if k <=? 32 then let '(r, st) := genrand_uint32 st in (Z.shiftr r (32 - k), st)
  else getrandbits_words 0%nat (Z.to_nat ((k - 1) / 32 + 1)) k 0 st.

(** [_randbelow_with_getrandbits(n)]. *)
Fixpoint randbelow_loop (fuel : nat) (n k : Z) (st : state) : Z * state :=
  match fuel with
  | O => (0, mk_state (mt st) (index st) true)
  | S f => let '(r, st) := getrandbits k st in if n <=? r then randbelow_loop f n k st else (r, st)
  end.

Definition randbelow_fuel : nat := 64.

Definition randbelow (n : Z) (st : state) : Z * state :=
  randbelow_loop randbelow_fuel n (Z.of_N (N.size (Z.to_N n))) st.

(** [random()]: [(a * 2^26 + b) / 2^53] for [a = w >> 5], [b = w' >> 6]. *)
Definition random (st : state) : float * state :=
  let '(a, st) := genrand_uint32 st in
  let '(b, st) := genrand_uint32 st in
  let fa := PrimFloat.of_uint63 (Uint63.of_Z (Z.shiftr a 5)) in
  let fb := PrimFloat.of_uint63 (Uint63.of_Z (Z.shiftr b 6)) in
  (((fa * 67108864 + fb) * (1 / 9007199254740992))%float, st).

#[export] Instance mt_random : LogGen.PyRandom state := {
  LogGen.randbelow n g := let '(r, g') := randbelow (Z.of_nat n) g in (Z.to_nat r, g');
  LogGen.random := random
}.

(** ** The law of the interface *)

Lemma randbelow_loop_lt (f : nat) (n k : Z) (st : state) : 0 < n -> (randbelow_loop f n k st).1 < n.
Proof.
  intros Hn. revert st. induction f as [|f IH]; intros st; cbn; [lia|].
  destruct (getrandbits k st) as [r st']. destruct (n <=? r) eqn:Hr; [apply IH|].
  cbn. apply Z.leb_gt in Hr. lia.
Qed.

#[export] Instance mt_random_ok : LogGen.PyRandomOk state.
Proof.
  intros n g Hn. cbn [LogGen.randbelow mt_random].
  pose proof (randbelow_loop_lt randbelow_fuel (Z.of_nat n) (Z.of_N (N.size (Z.to_N (Z.of_nat n)))) g ltac:(lia)) as Hlt.
  unfold randbelow. destruct (randbelow_loop _ _ _ g) as [r g']. cbn in *. lia.
Qed.

End MT.
